(** * ELM327-emulator: command interpretation engine (src/elm/elm.py)

    A shallow embedding of the request normalizer, the multi-frame
    reassembly task, the catalog resolver, the adapter reset and the UDS
    encoder of [elm.py], with the properties of its specification; and of
    the constructor, the [Sequence] generator, one turn of the main loop,
    the task dispatcher, the forwarder and the response renderer, with the
    properties the code shows for them.

    Conventions of the embedding.
    - Python [str] is [string]; the characters a session can carry are the
      ASCII ones (the line reader decodes one byte at a time with
      [errors="ignore"]), so [upper] and [repr] are modelled on 8-bit
      characters with their ASCII behaviour.
    - Python [int] is [Z]; [None] is [option]'s [None].
    - A [dict] whose order matters (the message catalog) is an association
      list with unique keys in insertion order; the counters and the task
      table, which are only looked up by key, are [gmap]s.
    - Methods that mutate the emulator or raise are functions in a state and
      exception monad over the record [Elm]; a raised exception keeps the
      mutations made before it, as in Python. *)

From Stdlib Require Import String Ascii ZArith List Lia Bool HexString.
From Stdlib Require Import Sorted Permutation.
From stdpp Require Import gmap strings list fin_maps.

Local Open Scope string_scope.
Local Open Scope Z_scope.

(** ** Python values and primitives *)

Module Py.

(** The values held by [Elm.counters]: booleans, integers and strings. *)
Inductive value : Type :=
| VBool (b : bool)
| VInt (z : Z)
| VStr (s : string).

#[global] Instance value_eq_dec : EqDecision value.
Proof. solve_decision. Defined.

#[global] Instance value_countable : Countable value.
Proof.
  refine (inj_countable'
            (fun v => match v with
                      | VBool b => inl b
                      | VInt z => inr (inl z)
                      | VStr s => inr (inr s)
                      end)
            (fun x => match x with
                      | inl b => VBool b
                      | inr (inl z) => VInt z
                      | inr (inr s) => VStr s
                      end) _).
  intros []; reflexivity.
Defined.

(** [bool(v)] *)
Definition truthy (v : value) : bool :=
  match v with
  | VBool b => b
  | VInt z => negb (z =? 0)
  | VStr s => negb (String.eqb s "")
  end.

(** The number a value stands for in arithmetic and comparisons
    ([True] is [1], [False] is [0]); strings have none. *)
Definition num (v : value) : option Z :=
  match v with
  | VBool b => Some (if b then 1 else 0)
  | VInt z => Some z
  | VStr _ => None
  end.

(** [v == w] *)
Definition eqb (v w : value) : bool :=
  match num v, num w with
  | Some a, Some b => a =? b
  | None, None => match v, w with
                  | VStr s, VStr t => String.eqb s t
                  | _, _ => false
                  end
  | _, _ => false
  end.

(** Exceptions raised by the modelled code. [BrokenPipeError] and
    [SocketTimeout] (the class [socket.timeout]) are subclasses of
    [OSError]; [ReError] is [re.error]. *)
Inductive exn : Type :=
| TypeError
| ValueError
| KeyError
| AttributeError
| PluginError
| IndexError
| ReError
| OSError
| BrokenPipeError
| SocketTimeout.

(** [isinstance(x, OSError)] *)
Definition is_OSError (x : exn) : bool :=
  match x with
  | OSError | BrokenPipeError | SocketTimeout => true
  | _ => false
  end.

Inductive res (A : Type) : Type :=
| Ok (a : A)
| Raise (e : exn).
Arguments Ok {A} a.
Arguments Raise {A} e.

(** *** Strings *)

(** [s.replace(" ", "")] *)
Fixpoint remove_spaces (s : string) : string :=
  match s with
  | EmptyString => EmptyString
  | String c s' =>
      if Ascii.eqb c " " then remove_spaces s' else String c (remove_spaces s')
  end.

Definition upper_char (c : ascii) : ascii :=
  let n := N_of_ascii c in
  if ((97 <=? n) && (n <=? 122))%N then ascii_of_N (n - 32) else c.

(** [s.upper()] *)
Fixpoint upper (s : string) : string :=
  match s with
  | EmptyString => EmptyString
  | String c s' => String (upper_char c) (upper s')
  end.

(** [s[:n]] for [n >= 0] *)
Fixpoint slice_to (n : nat) (s : string) : string :=
  match n, s with
  | S n', String c s' => String c (slice_to n' s')
  | _, _ => EmptyString
  end.

(** [s[n:]] for [n >= 0] *)
Fixpoint slice_from (n : nat) (s : string) : string :=
  match n, s with
  | S n', String _ s' => slice_from n' s'
  | _, _ => s
  end.

(** [s[a:b]] for [0 <= a <= b] *)
Definition slice (a b : nat) (s : string) : string :=
  slice_to (b - a) (slice_from a s).

Definition len (s : string) : Z := Z.of_nat (String.length s).

(** [s[:z]] for any integer [z]: a negative bound counts from the end. *)
Definition slice_to_Z (z : Z) (s : string) : string :=
  if z <? 0 then slice_to (Z.to_nat (len s + z)) s
  else slice_to (Z.to_nat z) s.

(** [sep.join(l)] *)
Fixpoint join (sep : string) (l : list string) : string :=
  match l with
  | [] => ""
  | [x] => x
  | x :: l' => x ++ sep ++ join sep l'
  end.

(** The characters of [string.whitespace], which are also the ones
    [bytearray.fromhex] skips between bytes. *)
Definition is_space (c : ascii) : bool :=
  let n := N_of_ascii c in
  ((n =? 32) || ((9 <=? n) && (n <=? 13)))%N.

(** [s.translate(s.maketrans('', '', string.whitespace))] *)
Fixpoint remove_whitespace (s : string) : string :=
  match s with
  | EmptyString => EmptyString
  | String c s' =>
      if is_space c then remove_whitespace s'
      else String c (remove_whitespace s')
  end.

(** Value of a hexadecimal digit. *)
Definition hexval (c : ascii) : option Z :=
  let n := N_of_ascii c in
  if ((48 <=? n) && (n <=? 57))%N then Some (Z.of_N (n - 48))
  else if ((65 <=? n) && (n <=? 70))%N then Some (Z.of_N (n - 55))
  else if ((97 <=? n) && (n <=? 102))%N then Some (Z.of_N (n - 87))
  else None.

(** [bytearray.fromhex(s)]: pairs of hexadecimal digits, with whitespace
    allowed between the pairs; [None] stands for [ValueError]. *)
Fixpoint fromhex (s : string) : option (list Z) :=
  match s with
  | EmptyString => Some []
  | String c s' =>
      if is_space c then fromhex s'
      else
        match hexval c, s' with
        | Some hi, String d s'' =>
            match hexval d with
            | Some lo =>
                match fromhex s'' with
                | Some bs => Some ((16 * hi + lo) :: bs)
                | None => None
                end
            | None => None
            end
        | _, _ => None
        end
  end.

(** [hex(z)[2:].upper()] *)
Definition hex_upper (z : Z) : string :=
  upper (slice_from 2 (HexString.of_Z z)).

(** ["%02X" % z], which is also ['{:02x}'.format(z).upper()] *)
Definition fmt_02X (z : Z) : string :=
  let d := upper (slice_from 2 (HexString.of_Z (Z.abs z))) in
  if z <? 0 then "-" ++ d
  else if (String.length d <? 2)%nat then "0" ++ d else d.

(** Sum of a list of bytes. *)
Definition sum (l : list Z) : Z := fold_right Z.add 0 l.

(** *** [int(s, 16)] *)

(** Whitespace stripped by [int] around the number. *)
Definition is_int_space (c : ascii) : bool :=
  let n := N_of_ascii c in
  (is_space c || (n =? 133) || (n =? 160))%N.

Fixpoint lstrip (s : string) : string :=
  match s with
  | String c s' => if is_int_space c then lstrip s' else s
  | EmptyString => EmptyString
  end.

Fixpoint all_space (s : string) : bool :=
  match s with
  | EmptyString => true
  | String c s' => is_int_space c && all_space s'
  end.

(** Digits with single underscores between them, then trailing
    whitespace. [seen] tells whether a digit was read, [us] whether the
    previous character was an underscore. *)
Fixpoint int_digits (acc : Z) (seen us : bool) (s : string) : option Z :=
  match s with
  | EmptyString => if seen && negb us then Some acc else None
  | String c s' =>
      match hexval c with
      | Some d => int_digits (16 * acc + d) true false s'
      | None =>
          if Ascii.eqb c "_" then
            if seen && negb us then int_digits acc seen true s' else None
          else if seen && negb us && all_space s then Some acc else None
      end
  end.

Definition int_prefix (s : string) : string :=
  match s with
  | String "0" (String x s') =>
      if Ascii.eqb x "x" || Ascii.eqb x "X" then
        match s' with
        | String "_" s'' => s''
        | _ => s'
        end
      else s
  | _ => s
  end.

Definition int_unsigned (s : string) : option Z :=
  int_digits 0 false false (int_prefix s).

(** [int(s, 16)]; [None] stands for [ValueError]. *)
Definition int16 (s : string) : option Z :=
  match lstrip s with
  | String "+" s' => int_unsigned s'
  | String "-" s' => option_map Z.opp (int_unsigned s')
  | s' => int_unsigned s'
  end.

(** *** [repr(s)] of a string *)

Fixpoint contains (c : ascii) (s : string) : bool :=
  match s with
  | EmptyString => false
  | String d s' => Ascii.eqb c d || contains c s'
  end.

Definition hex_lower2 (n : N) : string :=
  let d := slice_from 2 (HexString.of_N n) in
  if (String.length d <? 2)%nat then "0" ++ d else d.

Definition repr_char (q c : ascii) : string :=
  let n := N_of_ascii c in
  if Ascii.eqb c q || Ascii.eqb c "\" then String "\" (String c "")
  else if (n =? 9)%N then "\t"
  else if (n =? 10)%N then "\n"
  else if (n =? 13)%N then "\r"
  else if ((n <? 32) || (n =? 127))%N then "\x" ++ hex_lower2 n
  else if (n <? 127)%N then String c ""
  else if ((n <=? 160) || (n =? 173))%N then "\x" ++ hex_lower2 n
  else String c "".

Fixpoint repr_body (q : ascii) (s : string) : string :=
  match s with
  | EmptyString => ""
  | String c s' => repr_char q c ++ repr_body q s'
  end.

Definition dquote : ascii := ascii_of_N 34.

Definition repr (s : string) : string :=
  let q : ascii := if contains "'"%char s && negb (contains dquote s) then dquote else "'"%char in
  String q (repr_body q s ++ String q "").

(** [repr(b)] of a [bytes] object, one character standing for a byte. *)
Definition repr_byte (q c : ascii) : string :=
  let n := N_of_ascii c in
  if Ascii.eqb c q || Ascii.eqb c "\" then String "\" (String c "")
  else if (n =? 9)%N then "\t"
  else if (n =? 10)%N then "\n"
  else if (n =? 13)%N then "\r"
  else if ((n <? 32) || (127 <=? n))%N then "\x" ++ hex_lower2 n
  else String c "".

Fixpoint repr_bytes_body (q : ascii) (s : string) : string :=
  match s with
  | EmptyString => ""
  | String c s' => repr_byte q c ++ repr_bytes_body q s'
  end.

Definition repr_bytes (s : string) : string :=
  let q : ascii := if contains "'"%char s && negb (contains dquote s) then dquote else "'"%char in
  String "b" (String q (repr_bytes_body q s ++ String q "")).

End Py.

Import Py.

(** ** Regular expressions: the patterns given to [re.match]

    A pattern is kept in parsed form. [re_match r s] tells whether
    [re.match] finds a match of [r] at the start of [s] (the result is only
    ever tested for [None]). *)

Module Re.

Inductive regex : Type :=
| Eps
| Bol                                   (* ^ *)
| Eol                                   (* $ *)
| Chr (c : ascii)
| Dot                                   (* . *)
| Cls (ranges : list (ascii * ascii))   (* [a-z...] *)
| Seq (r1 r2 : regex)
| Alt (r1 r2 : regex)
| Star (r : regex).

Definition in_class (ranges : list (ascii * ascii)) (c : ascii) : bool :=
  existsb (fun '(lo, hi) =>
             (N_of_ascii lo <=? N_of_ascii c)%N && (N_of_ascii c <=? N_of_ascii hi)%N)
          ranges.

Definition newline : ascii := ascii_of_N 10.

(** [$] matches at the end of the string and before a final newline. *)
Definition at_end (s : string) : bool :=
  match s with
  | EmptyString => true
  | String c EmptyString => Ascii.eqb c newline
  | _ => false
  end.

(** A matcher takes the continuation [k], whether the position is the start
    of the string, and the rest of the string. *)
Definition matcher : Type := (bool -> string -> bool) -> bool -> string -> bool.

Fixpoint star_loop (m : matcher) (fuel : nat) : matcher :=
  fun k b s =>
    match fuel with
    | O => k b s
    | S fuel' =>
        m (fun b' s' =>
             (String.length s' <? String.length s)%nat && star_loop m fuel' k b' s')
          b s
        || k b s
    end.

Fixpoint rmatch (r : regex) : matcher :=
  fun k b s =>
    match r with
    | Eps => k b s
    | Bol => b && k b s
    | Eol => at_end s && k b s
    | Chr c =>
        match s with
        | String d s' => Ascii.eqb c d && k false s'
        | EmptyString => false
        end
    | Dot =>
        match s with
        | String d s' => negb (Ascii.eqb d newline) && k false s'
        | EmptyString => false
        end
    | Cls ranges =>
        match s with
        | String d s' => in_class ranges d && k false s'
        | EmptyString => false
        end
    | Seq r1 r2 => rmatch r1 (rmatch r2 k) b s
    | Alt r1 r2 => rmatch r1 k b s || rmatch r2 k b s
    | Star r1 => star_loop (rmatch r1) (S (String.length s)) k b s
    end.

(** [re.match(r, s) is not None] *)
Definition re_match (r : regex) (s : string) : bool :=
  rmatch r (fun _ _ => true) true s.

(** The pattern of a literal text. *)
Fixpoint lit (s : string) : regex :=
  match s with
  | EmptyString => Eps
  | String c s' => Seq (Chr c) (lit s')
  end.

End Re.

(** ** Data model *)

(** The header a request is addressed to: [None] or the value of the
    ["cmd_set_header"] counter. *)
Definition header_t : Type := option value.

(** [val['Response']]: [None], a string, or a list to choose from. *)
Inductive response : Type :=
| RNone
| RStr (s : string)
| RList (l : list string).

(** A row of the message catalog (a value of [ObdMessage[scenario]]). A
    field that the row does not define is [None]. [Exec], [Info],
    [Warning] and [Log] hold Python text, [ResponseHeader] and
    [ResponseFooter] name a callable. *)
Record entry : Type := mkEntry {
  Request : option Re.regex;
  Header : option value;
  Priority : option Z;
  Response : option response;
  Action : option string;
  Descr : option string;
  Task : option string;
  Exec : option string;
  Info : option string;
  Warning : option string;
  Log : option string;
  ResponseHeader : option string;
  ResponseFooter : option string
}.

(** A [dict] in insertion order. *)
Definition dict (V : Type) : Type := list (string * V).

Section Dict.
Context {V : Type}.

Fixpoint dict_get (k : string) (d : dict V) : option V :=
  match d with
  | [] => None
  | (k', v) :: d' => if String.eqb k k' then Some v else dict_get k d'
  end.

(** [d[k] = v]: an existing key keeps its place. *)
Fixpoint dict_set (k : string) (v : V) (d : dict V) : dict V :=
  match d with
  | [] => [(k, v)]
  | (k', v') :: d' =>
      if String.eqb k k' then (k', v) :: d' else (k', v') :: dict_set k v d'
  end.

(** [{**a, **b}] *)
Definition dict_merge (a b : dict V) : dict V :=
  fold_left (fun acc kv => dict_set (fst kv) (snd kv) acc) b a.

(** [dict(l)]: a dict made from a list of items. *)
Definition dict_of (l : list (string * V)) : dict V := dict_merge [] l.
End Dict.

(** Task objects: [Tasks.__init__] and the attributes [Multiline.run]
    adds. [cls] tells the class of the object: [Multiline], or the [Task]
    class of a plugin module. *)
Module Tasks.

Inductive class : Type :=
| Multiline
| Plugin (name : string).

Record t : Type := mk {
  cls : class;
  header : header_t;
  request : string;
  attrib : option entry;
  do_write : bool;
  frame : option Z;
  length : option Z;
  flow_control : Z;
  flow_control_end : Z;
  req : option string
}.

(** [Tasks.__init__(emulator, header, request, attrib, do_write)] *)
Definition init (c : class) (h : header_t) (request : string)
    (attrib : option entry) (do_write : bool) : t :=
  mk c h request attrib do_write None None 0 32 None.

(** [__module__] of the object's class. *)
Definition module_name (x : t) : string :=
  match cls x with
  | Multiline => "elm.elm"
  | Plugin name => "elm.plugins." ++ name
  end.

Definition set_frame (v : option Z) (x : t) : t :=
  mk (cls x) (header x) (request x) (attrib x) (do_write x)
     v (length x) (flow_control x) (flow_control_end x) (req x).
Definition set_length (v : option Z) (x : t) : t :=
  mk (cls x) (header x) (request x) (attrib x) (do_write x)
     (frame x) v (flow_control x) (flow_control_end x) (req x).
Definition set_flow_control (v : Z) (x : t) : t :=
  mk (cls x) (header x) (request x) (attrib x) (do_write x)
     (frame x) (length x) v (flow_control_end x) (req x).
Definition set_req (v : option string) (x : t) : t :=
  mk (cls x) (header x) (request x) (attrib x) (do_write x)
     (frame x) (length x) (flow_control x) (flow_control_end x) v.

(** The three methods of a task. *)
Inductive method : Type := start | run | stop.

(** [Tasks.TASK]: the values a method returns,
    [(response, continue flag, passthrough command)]. *)
Definition ret_t : Type := option string * bool * option string.
Definition TERMINATE : bool := false.
Definition CONTINUE : bool := true.
Definition ERROR : ret_t := (None, TERMINATE, None).
Definition INCOMPLETE : ret_t := (None, CONTINUE, None).
Definition PASSTHROUGH (cmd : string) : ret_t := (None, TERMINATE, Some cmd).

End Tasks.

(** Log records of level INFO and above (debug records are left out): the
    level and the format string as written in the source. *)
Inductive level : Type := INFO | WARNING | ERROR | CRITICAL.
Definition log_record : Type := level * string.

(** What [send_receive_forward] returns: [False] (no connection), [None]
    (no data) or the data as a text. *)
Inductive fw_data_t : Type :=
| FwFalse
| FwNone
| FwData (s : string).

(** The forwarder of the emulator: the settings [forward_serial_port],
    [forward_net_host] and [forward_net_port] given to [__init__], the
    connections [fw_serial_fd] and [fw_sock_inet] (here [true] when the
    attribute holds an object and [false] when it is [None]), and
    [sock_inet], the listening socket of the emulator, which [net_client]
    configures. The serial port and the sockets are objects of the
    operating system: [os] lists what its next calls will do, in the order
    of the calls. *)
Module Forward.

(** What a call does: it returns (with the data read, for a read; for a
    read of the socket the data is the text its bytes decode to), it
    returns [n] addresses (for [socket.getaddrinfo]), or it raises. *)
Inductive outcome : Type :=
| Returns (data : string)
| Addresses (n : nat)
| Fails (x : exn).

(** The data of a read, and the number of addresses of a lookup; an
    outcome of another kind has none. *)
Definition data (o : outcome) : string :=
  match o with
  | Returns d => d
  | _ => ""
  end.

Definition addresses (o : outcome) : nat :=
  match o with
  | Addresses n => n
  | _ => O
  end.

Record t : Type := mk {
  forward_serial_port : option value;
  forward_net_host : option value;
  forward_net_port : option value;
  fw_serial_fd : bool;
  fw_sock_inet : bool;
  sock_inet : bool;
  os : list outcome
}.

Definition set_fw_serial_fd (b : bool) (f : t) : t :=
  mk (forward_serial_port f) (forward_net_host f) (forward_net_port f)
     b (fw_sock_inet f) (sock_inet f) (os f).
Definition set_fw_sock_inet (b : bool) (f : t) : t :=
  mk (forward_serial_port f) (forward_net_host f) (forward_net_port f)
     (fw_serial_fd f) b (sock_inet f) (os f).
Definition set_os (l : list outcome) (f : t) : t :=
  mk (forward_serial_port f) (forward_net_host f) (forward_net_port f)
     (fw_serial_fd f) (fw_sock_inet f) (sock_inet f) l.

(** No forwarder: the default arguments of [__init__] (lines 339-341,
    365-367). *)
Definition none : t := mk None None None false false false [].

End Forward.

(** [Elm.THREAD] (lines 268-276): the states of the read thread. *)
Module THREAD.
Definition STOPPED : Z := 0.
Definition STARTING : Z := 1.
Definition ACTIVE : Z := 2.
Definition PAUSED : Z := 3.
Definition TERMINATED : Z := 4.
End THREAD.

(** The emulator object. [forward] is the forwarder, [threadState] the
    state of the read thread ([None] until the thread is started),
    [entropy] the sequence of numbers [randint] will draw; [log] collects
    the log records. *)
Record Elm : Type := mkElm {
  counters : gmap string value;
  tasks : gmap header_t Tasks.t;
  presets : gmap string value;
  ObdMessage : dict (dict entry);
  sortedOBDMsg : list (string * entry);
  scenario : string;
  answer : gmap string string;
  plugins : gset string;
  forward : Forward.t;
  threadState : option Z;
  entropy : list nat;
  log : list log_record
}.

Definition set_counters (f : gmap string value -> gmap string value) (e : Elm) : Elm :=
  mkElm (f (counters e)) (tasks e) (presets e) (ObdMessage e) (sortedOBDMsg e)
        (scenario e) (answer e) (plugins e) (forward e) (threadState e) (entropy e) (log e).
Definition set_tasks (f : gmap header_t Tasks.t -> gmap header_t Tasks.t) (e : Elm) : Elm :=
  mkElm (counters e) (f (tasks e)) (presets e) (ObdMessage e) (sortedOBDMsg e)
        (scenario e) (answer e) (plugins e) (forward e) (threadState e) (entropy e) (log e).
Definition set_sortedOBDMsg (l : list (string * entry)) (e : Elm) : Elm :=
  mkElm (counters e) (tasks e) (presets e) (ObdMessage e) l
        (scenario e) (answer e) (plugins e) (forward e) (threadState e) (entropy e) (log e).
Definition set_scenario (s : string) (e : Elm) : Elm :=
  mkElm (counters e) (tasks e) (presets e) (ObdMessage e) (sortedOBDMsg e)
        s (answer e) (plugins e) (forward e) (threadState e) (entropy e) (log e).
Definition set_answer (a : gmap string string) (e : Elm) : Elm :=
  mkElm (counters e) (tasks e) (presets e) (ObdMessage e) (sortedOBDMsg e)
        (scenario e) a (plugins e) (forward e) (threadState e) (entropy e) (log e).
Definition set_forward (f : Forward.t -> Forward.t) (e : Elm) : Elm :=
  mkElm (counters e) (tasks e) (presets e) (ObdMessage e) (sortedOBDMsg e)
        (scenario e) (answer e) (plugins e) (f (forward e)) (threadState e)
        (entropy e) (log e).
Definition set_threadState (v : option Z) (e : Elm) : Elm :=
  mkElm (counters e) (tasks e) (presets e) (ObdMessage e) (sortedOBDMsg e)
        (scenario e) (answer e) (plugins e) (forward e) v (entropy e) (log e).
Definition set_entropy (l : list nat) (e : Elm) : Elm :=
  mkElm (counters e) (tasks e) (presets e) (ObdMessage e) (sortedOBDMsg e)
        (scenario e) (answer e) (plugins e) (forward e) (threadState e) l
        (log e).
Definition add_log (r : log_record) (e : Elm) : Elm :=
  mkElm (counters e) (tasks e) (presets e) (ObdMessage e) (sortedOBDMsg e)
        (scenario e) (answer e) (plugins e) (forward e) (threadState e) (entropy e) (log e ++ [r]).

(** ** The state and exception monad *)

Definition M (A : Type) : Type := Elm -> res A * Elm.

#[global] Instance M_ret : MRet M := fun A a e => (Ok a, e).
#[global] Instance M_bind : MBind M := fun A B k m e =>
  match m e with
  | (Ok a, e') => k a e'
  | (Raise x, e') => (Raise x, e')
  end.

Definition raise {A : Type} (x : exn) : M A := fun e => (Raise x, e).

(** [try: m  except Exception: h] *)
Definition try_except {A : Type} (m : M A) (h : M A) : M A := fun e =>
  match m e with
  | (Ok a, e') => (Ok a, e')
  | (Raise _, e') => h e'
  end.

Definition gets {A : Type} (f : Elm -> A) : M A := fun e => (Ok (f e), e).
Definition modify (f : Elm -> Elm) : M unit := fun e => (Ok tt, f e).
Definition logging (l : level) (fmt : string) : M unit :=
  modify (add_log (l, fmt)).

(** [self.counters[k]], raising [KeyError] *)
Definition counters_at (k : string) : M value :=
  c ← gets counters;
  match c !! k with
  | Some v => mret v
  | None => raise KeyError
  end.

(** [if k not in self.counters: self.counters[k] = 0]
    [self.counters[k] += 1] *)
Definition count (k : string) : M unit :=
  c ← gets counters;
  match c !! k with
  | None => modify (set_counters <[k := VInt 1]>)
  | Some v =>
      match num v with
      | Some z => modify (set_counters <[k := VInt (z + 1)]>)
      | None => raise TypeError
      end
  end.

(** [x is not None and bool(x)] for an optional integer *)
Definition truthy_opt (x : option Z) : bool :=
  match x with
  | Some z => negb (z =? 0)
  | None => false
  end.

(** A double quote inside a format string. *)
Definition dq : string := String dquote EmptyString.

Section Emulator.

(** Constants of [obd_message.py]. *)
Variable ECU_ADDR_E : value.
Variables ELM_R_OK ELM_R_UNKNOWN : string.
Variable ST : string -> string.

(** [Elm.handle_response(resp, do_write, request_header, request_data)],
    the response renderer: it parses the XML text of [resp], runs the
    Python text of its [<eval>] and [<exec>] nodes and writes to the
    transport. *)
Variable handle_response :
  string -> bool -> header_t -> option string -> M (option string).

(** [exec(code)] inside [handle_request], with [header], [cmd] and [pid]
    in scope. *)
Variable py_exec : string -> header_t -> string -> string -> M unit.

(** [val['ResponseHeader'](self, cmd, pid, val)] and the same for
    [ResponseFooter]: the callable named [f]. *)
Variable call : string -> string -> string -> entry -> M string.

(** The [Task] class of the plugin module [name]: what its constructor
    makes of the object [Tasks.__init__] builds, and its three methods,
    which act on the task stored at the given header. *)
Variable plugin_init : string -> Tasks.t -> M Tasks.t.
Variable plugin_method :
  string -> Tasks.method -> header_t -> string -> option Z -> option Z ->
  M Tasks.ret_t.

(** *** Task objects in the task table

    A task method runs on the object stored in [self.tasks[header]]; its
    assignments to [self] update that object in place. *)

Definition self (h : header_t) : M Tasks.t :=
  ts ← gets tasks;
  match ts !! h with
  | Some t => mret t
  | None => raise KeyError
  end.

Definition self_update (h : header_t) (f : Tasks.t -> Tasks.t) : M unit :=
  modify (set_tasks (alter f h)).

(** *** [Multiline.run] (lines 206-261) *)

(** The template of the Flow Control frame. *)
Definition flow_template (t : Tasks.t) : string :=
  "<flow>" ++ hex_upper (Tasks.flow_control_end t) ++ " 00</flow>".

(** Lines 219-240: [Some r] when the method returns [r] there. *)
Definition Multiline_collect (h : header_t) (cmd : string)
    (length frame : option Z) : M (option Tasks.ret_t) :=
  t ← self h;
  first ← match frame with
          | Some 0 =>
              match length with
              | Some l => mret (0 <? l)
              | None => raise TypeError
              end
          | _ => mret false
          end;
  if first : bool then
    if truthy_opt (Tasks.frame t) || truthy_opt (Tasks.length t) then
      logging ERROR "Invalid initial frame %s %s";;
      mret (Some Tasks.ERROR)
    else
      self_update h (Tasks.set_req (Some cmd));;
      self_update h (Tasks.set_frame (Some 1));;
      self_update h (Tasks.set_length length);;
      mret None
  else if match frame, length with
          | Some f, None => (0 <? f) && bool_decide (Tasks.frame t = Some f)
          | _, _ => false
          end then
    match Tasks.req t, Tasks.frame t with
    | Some r, Some f =>
        self_update h (Tasks.set_req (Some (r ++ cmd)));;
        self_update h (Tasks.set_frame (Some (f + 1)));;
        mret None
    | _, _ => raise AttributeError
    end
  else if match length with None => true | Some l => 0 <? l end
          && bool_decide (frame = None)
          && bool_decide (Tasks.frame t = None) then
    self_update h (Tasks.set_req (Some cmd));;
    self_update h (Tasks.set_length length);;
    if truthy_opt length then
      match length with
      | Some l => mret (Some (Tasks.PASSTHROUGH (slice_to_Z (l * 2) cmd)))
      | None => mret (Some (Tasks.PASSTHROUGH cmd))
      end
    else mret (Some (Tasks.PASSTHROUGH cmd))
  else
    logging ERROR "Invalid consecutive frame %s %s";;
    mret (Some Tasks.ERROR).

(** Lines 242-256: the Flow Control cadence. *)
Definition Multiline_flow (h : header_t) (cmd : string) : M unit :=
  t ← self h;
  if negb (Tasks.flow_control t =? 0) then
    self_update h (Tasks.set_flow_control (Tasks.flow_control t - 1))
  else
    c ← gets counters;
    (if match c !! "cmd_cfc" with
        | None => true
        | Some v => Py.eqb v (VInt 1)
        end
     then
       _ ← handle_response (flow_template t) (Tasks.do_write t)
             (Tasks.header t) (Some cmd);
       if negb (Tasks.do_write t) then logging WARNING "Output data: %s"
       else mret tt
     else mret tt);;
    t' ← self h;
    self_update h (Tasks.set_flow_control (Tasks.flow_control_end t' - 1)).

(** Lines 258-261. *)
Definition Multiline_complete (h : header_t) : M Tasks.ret_t :=
  t ← self h;
  match Tasks.length t with
  | None => raise TypeError
  | Some l =>
      match Tasks.req t with
      | None => raise AttributeError
      | Some r =>
          if l * 2 <=? len r then
            self_update h (Tasks.set_frame None);;
            mret (Tasks.PASSTHROUGH (slice_to_Z (l * 2) r))
          else mret Tasks.INCOMPLETE
      end
  end.

Definition Multiline_run (h : header_t) (cmd : string)
    (length frame : option Z) : M Tasks.ret_t :=
  r ← Multiline_collect h cmd length frame;
  match r with
  | Some x => mret x
  | None => Multiline_flow h cmd;; Multiline_complete h
  end.

(** *** Running a task: [task_action] (lines 1284-1340) and
    [account_task] (lines 1342-1351) *)

(** [self.tasks[header].start], [.run] or [.stop]. [Tasks.start] and
    [Tasks.stop] call [run], and [Multiline] overrides [run] only. *)
Definition task_method (m : Tasks.method) (h : header_t) (cmd : string)
    (length frame : option Z) : M Tasks.ret_t :=
  t ← self h;
  match Tasks.cls t with
  | Tasks.Multiline => Multiline_run h cmd length frame
  | Tasks.Plugin name => plugin_method name m h cmd length frame
  end.

Definition account_task (h : header_t) : M unit :=
  ts ← gets tasks;
  match ts !! h with
  | None => mret tt
  | Some t => count (slice_from 12 (Tasks.module_name t))
  end.

Definition task_action (h : header_t) (do_write : bool) (m : Tasks.method)
    (cmd : string) (length frame : option Z) : M Tasks.ret_t :=
  _ ← self h;
  r ← try_except
        (x ← task_method m h cmd length frame; mret (Some x))
        (_ ← self h;
         logging CRITICAL
           ("Error in task " ++ dq ++ "%s" ++ dq ++ ", header=" ++ dq ++ "%s"
            ++ dq ++ ", method=%s(): %s");;
         modify (set_tasks (delete h));;
         mret None);
  match r with
  | None => mret Tasks.ERROR
  | Some (r_cmd, r_task, r_cont) =>
      match r_cont, r_cmd with
      | Some _, Some rc =>
          t ← self h;
          _ ← handle_response rc do_write h (Some (Tasks.request t));
          if negb do_write
          then logging WARNING "Task with header %s returned %s"
          else mret tt
      | _, _ => mret tt
      end;;
      (if negb r_task then
         _ ← self h;
         account_task h;;
         modify (set_tasks (delete h))
       else mret tt);;
      mret (r_cmd, r_task, r_cont)
  end.

(** *** [uds_answer] (lines 1009-1054) *)

Definition uds_answer (data : string) (request_header : header_t)
    (use_headers : bool) (sp : string) (flow_control : option string)
    : M string :=
  c ← gets counters;
  let request_header :=
    match request_header with
    | None => c !! "cmd_set_header"
    | Some v => Some v
    end in
  match request_header with
  | Some (VStr h) =>
      let h := upper (remove_whitespace h) in
      if String.eqb h "" then
        logging ERROR "Invalid request header; request %s";; mret ""
      else
        match fromhex data with
        | None => logging ERROR "Invalid data in answer: %s";; mret ""
        | Some bytes =>
            let length := Z.of_nat (List.length bytes) in
            let data := upper (join sp (map fmt_02X bytes)) in
            let fc := match flow_control with
                      | Some f => negb (String.eqb f "")
                      | None => false
                      end in
            if (String.length h =? 3)%nat && fc then
              answer ← (if use_headers then
                          match int16 h with
                          | Some n => mret (hex_upper (n + 8) ++ sp)
                          | None => raise ValueError
                          end
                        else mret "");
              mret (answer ++ default "" flow_control ++ sp ++ data)
            else if (String.length h =? 3)%nat then
              if use_headers then
                match int16 h with
                | None => raise ValueError
                | Some n =>
                    mret (hex_upper (n + 8) ++ sp ++ fmt_02X length ++ sp
                          ++ data)
                end
              else mret data
            else if (String.length h =? 6)%nat && fc then
              logging ERROR "Unimplemented flow control.";; mret ""
            else if (String.length h =? 6)%nat then
              if negb use_headers then
                logging ERROR "Unimplemented case.";; mret ""
              else
                let answer :=
                  if length <? 10 then
                    hex_upper (128 + length) ++ sp ++ slice 4 6 h ++ sp
                    ++ slice 2 4 h ++ sp ++ data
                  else
                    "80 " ++ slice 4 6 h ++ sp ++ slice 2 4 h ++ sp
                    ++ hex_upper length ++ sp ++ data in
                match fromhex answer with
                | None => raise ValueError
                | Some bs => mret (answer ++ " " ++ fmt_02X (Py.sum bs mod 256))
                end
            else
              logging ERROR "Invalid request header: %s";; mret ""
        end
  | _ => raise AttributeError
  end.

(** *** Small helpers of [Elm] *)

Definition space : ascii := " ".
Definition tab : ascii := ascii_of_N 9.
Definition cr : ascii := ascii_of_N 13.

(** [ELM_VALID_CHARS = r"[a-zA-Z0-9 \n\r]*"] (line 268) *)
Definition ELM_VALID_CHARS : Re.regex :=
  Re.Star (Re.Cls [("a", "z"); ("A", "Z"); ("0", "9"); (space, space);
                   (Re.newline, Re.newline); (cr, cr)]%char).

(** [validate] (lines 1279-1282) *)
Definition validate (cmd : string) : bool :=
  if negb (Re.re_match ELM_VALID_CHARS cmd) then false else true.

(** The pattern [r"^[0-9a-fA-F \t\r\n]*$"] of [is_hex_sp]. *)
Definition HEX_SP : Re.regex :=
  Re.Seq Re.Bol
    (Re.Seq
       (Re.Star (Re.Cls [("0", "9"); ("a", "f"); ("A", "F"); (space, space);
                         (tab, tab); (cr, cr); (Re.newline, Re.newline)]%char))
       Re.Eol).

(** [is_hex_sp] (lines 1604-1605) *)
Definition is_hex_sp (s : string) : bool := Re.re_match HEX_SP s.

(** [len_hex] (lines 1607-1611): a length, or [False]. *)
Definition len_hex (s : string) : value :=
  match fromhex s with
  | Some bs => VInt (Z.of_nat (List.length bs))
  | None => VBool false
  end.

(** *** [reset] (lines 289-301), [set_defaults] (lines 303-312) and
    [setSortedOBDMsg] (lines 314-329) *)

Definition reset : M unit :=
  modify (set_counters
            (filter (fun kv => negb (String.prefix "cmd_" (fst kv)) = true)));;
  modify (set_counters <["ELM_PIDS_A" := VInt 0]>);;
  modify (set_counters <["ELM_MIDS_A" := VInt 0]>);;
  modify (set_counters <["cmd_set_header" := ECU_ADDR_E]>);;
  p ← gets presets;
  modify (set_counters (fun c => p ∪ c));;
  modify (set_tasks (fun _ => ∅)).

Definition set_defaults : M unit :=
  modify (set_scenario "default");;
  modify (set_answer ∅);;
  modify (set_counters (fun _ => ∅));;
  p ← gets presets;
  modify (set_counters (fun c => p ∪ c)).

(** The sort key of [setSortedOBDMsg]. *)
Definition priority (x : string * entry) : Z :=
  match Priority (snd x) with
  | Some p => p
  | None => 10
  end.

(** [sorted(l, key=key)]: the stable sort by ascending key. *)
Fixpoint insert_by {A : Type} (key : A -> Z) (x : A) (l : list A) : list A :=
  match l with
  | [] => [x]
  | y :: l' => if key x <=? key y then x :: l else y :: insert_by key x l'
  end.

Definition sorted {A : Type} (key : A -> Z) (l : list A) : list A :=
  fold_right (insert_by key) [] l.

(** [self.ObdMessage[name]] *)
Definition layer (name : string) : M (dict entry) :=
  o ← gets ObdMessage;
  match dict_get name o with
  | Some d => mret d
  | None => raise KeyError
  end.

Definition setSortedOBDMsg (scenario' : option string) : M unit :=
  match scenario' with
  | Some s => modify (set_scenario s)
  | None => mret tt
  end;;
  o ← gets ObdMessage;
  sc ← gets scenario;
  merged ← (if bool_decide (is_Some (dict_get "default" o))
               && bool_decide (is_Some (dict_get "AT" o)) then
              d ← layer "default";
              a ← layer "AT";
              s ← layer sc;
              mret (dict_merge (dict_merge (dict_merge [] d) a) s)
            else
              s ← layer sc;
              mret (dict_merge [] s));
  modify (set_sortedOBDMsg (sorted priority merged)).

(** *** [handle_request] (lines 1353-1602)

    The method is cut at its comments into blocks. A block that can
    return from [handle_request] gives [inl] of the returned triple, and
    [inr] of the local variables otherwise. *)

(** What [handle_request] returns: [(header, cmd, response)]. *)
Definition hr_result : Type := header_t * string * option string.

(** The local variables [cmd], [length] and [frame]. *)
Definition hr_locals : Type := string * option Z * option Z.

(** Lines 1391-1400: the experimental [cmd_fcsm] mode. *)
Definition hr_fcsm (header : header_t) (cmd : string)
    : M (header_t * string) :=
  c ← gets counters;
  if match c !! "cmd_fcsm" with Some v => truthy v | None => false end
     && negb (String.eqb (slice_to 2 cmd) "AT")
     && is_hex_sp (slice_to 3 cmd)
  then
    modify (set_counters <["cmd_set_header" := VStr (slice_to 3 cmd)]>);;
    modify (set_counters <["cmd_caf" := VBool false]>);;
    modify (set_counters <["cmd_use_header" := VBool true]>);;
    mret (Some (VStr (slice_to 3 cmd)), slice_from 3 cmd)
  else mret (header, cmd).

(** Lines 1402-1442: [cmd_caf], [length] and [frame]. *)
Definition hr_pci (header : header_t) (cmd : string)
    : M (hr_result + hr_locals) :=
  let size := slice_to 2 cmd in
  c ← gets counters;
  if match c !! "cmd_caf" with Some v => negb (truthy v) | None => false end
     && negb (String.eqb size "AT")
     && is_hex_sp size
  then
    match int16 size with
    | None =>
        logging ERROR "Improper size %s for request %s: %s";;
        mret (inl (header, cmd, Some ""))
    | Some int_size =>
        let payload := slice_from 2 cmd in
        if String.eqb payload "" then
          logging ERROR ("Missing data for request " ++ dq ++ "%s" ++ dq);;
          mret (inl (header, cmd, Some ""))
        else
          r ← (if int_size <? 16 then
                 if len payload <? int_size * 2 then
                   logging ERROR
                     "In request %s, data %s has an improper length of %s bytes";;
                   mret (inl (header, cmd, Some ""))
                 else
                   mret (inr (slice_to_Z (int_size * 2) payload,
                              Some int_size, None))
               else if int_size =? 16 then
                 match int16 (slice 2 4 cmd) with
                 | None =>
                     logging ERROR "Improper size %s for request %s: %s";;
                     mret (inl (header, cmd, Some ""))
                 | Some l => mret (inr (slice_from 4 cmd, Some l, Some 0))
                 end
               else mret (inr (slice_from 2 cmd, None, None)));
          match r : hr_result + hr_locals with
          | inl x => mret (inl x)
          | inr (cmd', length, frame) =>
              mret (inr (cmd', length,
                         if 32 <? int_size then Some (int_size - 32)
                         else frame))
          end
    end
  else mret (inr (cmd, None, None)).

(** Lines 1445-1447: a First Frame on a header with no task starts a
    [Multiline] task. *)
Definition hr_tasks_new (header : header_t) (cmd : string)
    (length frame : option Z) (do_write : bool) : M unit :=
  ts ← gets tasks;
  if bool_decide (ts !! header = None)
     && bool_decide (length <> None) && bool_decide (frame <> None)
  then modify (set_tasks
                 <[header := Tasks.init Tasks.Multiline header cmd None
                               do_write]>)
  else mret tt.

(** Lines 1448-1468: the task on the header, if any, is given the
    request. *)
Definition hr_tasks_active (header : header_t) (cmd : string)
    (length frame : option Z) (do_write : bool)
    : M (hr_result + hr_locals) :=
  ts ← gets tasks;
  if bool_decide (is_Some (ts !! header)) then
    if truthy (len_hex cmd) then
      r ← task_action header do_write Tasks.run cmd length frame;
      match r with
      | (r_cmd, _, None) => mret (inl (header, cmd, r_cmd))
      | (_, _, Some r_cont) => mret (inr (r_cont, None, None))
      end
    else
      _ ← self header;
      logging WARNING
        ("Interrupted task " ++ dq ++ "%s" ++ dq ++ " with header "
         ++ dq ++ "%s" ++ dq);;
      r ← task_action header do_write Tasks.stop cmd length frame;
      modify (set_tasks (delete header));;
      match r with
      | (r_cmd, _, None) => mret (inl (header, cmd, r_cmd))
      | (_, _, Some r_cont) => mret (inr (r_cont, length, frame))
      end
  else mret (inr (cmd, length, frame)).

(** Lines 1444-1468: the active tasks. *)
Definition hr_tasks (header : header_t) (cmd : string)
    (length frame : option Z) (do_write : bool)
    : M (hr_result + hr_locals) :=
  hr_tasks_new header cmd length frame do_write;;
  hr_tasks_active header cmd length frame do_write.

(** *** The forwarder: [terminate] (lines 386-423), [serial_client]
    (lines 668-680), [net_client] (lines 682-716) and
    [send_receive_forward] (lines 718-766) *)

(** A call to the operating system takes the next outcome of [os]; when
    none is left the call fails with [OSError]. *)
Definition os_call : M Forward.outcome :=
  f ← gets forward;
  match Forward.os f with
  | [] => mret (Forward.Fails OSError)
  | o :: l => modify (set_forward (Forward.set_os l));; mret o
  end.

(** A call inside [try: ... except OSError]: [true] when it returned,
    [false] when it raised an [OSError]; another exception propagates. *)
Definition os_try : M bool :=
  o ← os_call;
  match o with
  | Forward.Fails x => if is_OSError x then mret false else raise x
  | _ => mret true
  end.

(** [terminate]. Joining the thread and closing the descriptors (lines
    389-397 and 399-420) act on the operating system only, and what they
    raise is caught there; the forced exit of line 411 ends the program and
    has no counterpart. What is left is the state of the thread and
    [set_defaults]. *)
Definition terminate : M unit :=
  modify (set_threadState (Some THREAD.TERMINATED));;
  set_defaults.

(** [serial_client]: [serial.Serial(...)] is a call to the operating
    system. *)
Definition serial_client : M bool :=
  f ← gets forward;
  if Forward.fw_serial_fd f then mret true
  else
    o ← os_call;
    match o with
    | Forward.Fails _ =>
        logging ERROR "Cannot open forward port: %s";; mret false
    | _ => modify (set_forward (Forward.set_fw_serial_fd true));; mret true
    end.

(** Lines 691-708, the body of the loop of [net_client] for one address:
    [socket.socket], the two [setsockopt] on [self.sock_inet], then
    [connect] and [settimeout], with [s.close()] when one of these two
    raises an [OSError]. [true] when the loop is left with a connected
    socket. *)
Definition net_connect : M bool :=
  ok ← os_try;
  if negb ok then mret false
  else
    f ← gets forward;
    if negb (Forward.sock_inet f) then raise AttributeError
    else
      ok ← os_try;
      if negb ok then mret false
      else
        ok ← os_try;
        if negb ok then mret false
        else
          let close : M bool :=
            o ← os_call;
            match o with
            | Forward.Fails x => raise x
            | _ => mret false
            end in
          ok ← os_try;
          if negb ok then close
          else
            ok ← os_try;
            if negb ok then close else mret true.

(** The loop over the [n] addresses [socket.getaddrinfo] returned. *)
Fixpoint net_connect_any (n : nat) : M bool :=
  match n with
  | O => mret false
  | S n' =>
      ok ← net_connect;
      if ok : bool then mret true else net_connect_any n'
  end.

(** [net_client]; its caller does not use the value it returns. *)
Definition net_client : M unit :=
  f ← gets forward;
  if Forward.fw_sock_inet f
     || bool_decide (Forward.forward_net_host f = None)
     || bool_decide (Forward.forward_net_port f = None)
  then mret tt
  else
    o ← os_call;
    match o with
    | Forward.Fails x => raise x
    | _ =>
        ok ← net_connect_any (Forward.addresses o);
        if ok : bool then
          modify (set_forward (Forward.set_fw_sock_inet true))
        else
          logging CRITICAL "Cannot connect to host %s with port %s";;
          terminate
    end.

(** [bool(x)] for a setting that may be [None]. *)
Definition truthy_setting (x : option value) : bool :=
  match x with
  | Some v => truthy v
  | None => false
  end.

(** [send_receive_forward(i)] *)
Definition send_receive_forward (i : string) : M fw_data_t :=
  f ← gets forward;
  if truthy_setting (Forward.forward_serial_port f) then
    ok ← (if Forward.fw_serial_fd f then mret true else serial_client);
    if negb ok then mret FwFalse
    else
      f ← gets forward;
      if Forward.fw_serial_fd f then
        (if negb (String.eqb i "") then
           o ← os_call;
           match o with
           | Forward.Fails x => raise x
           | _ => logging INFO "Write forward data: %s"
           end
         else mret tt);;
        o ← os_call;
        match o with
        | Forward.Fails x => raise x
        | _ =>
            logging INFO "Read forward data: %s";;
            mret (FwData (repr_bytes (Forward.data o)))
        end
      else mret FwFalse
  else if negb (truthy_setting (Forward.forward_net_host f))
          || negb (truthy_setting (Forward.forward_net_port f)) then
    mret FwFalse
  else
    (if negb (Forward.fw_sock_inet f) then net_client else mret tt);;
    f ← gets forward;
    if Forward.fw_sock_inet f then
      (if negb (String.eqb i "") then
         o ← os_call;
         match o with
         | Forward.Fails BrokenPipeError =>
             logging ERROR "The network link of the OBDII interface dropped."
         | Forward.Fails x => raise x
         | _ => logging INFO "Write forward data: %s"
         end
       else mret tt);;
      o ← os_call;
      match o with
      | Forward.Fails SocketTimeout =>
          logging INFO "No forward data received.";; mret FwNone
      | Forward.Fails x => raise x
      | _ =>
          logging INFO "Read forward data: %s";;
          mret (FwData (Forward.data o))
      end
    else mret FwFalse.

(** [randint(0, n - 1)] *)
Definition randint_below (n : nat) : M nat :=
  if (n =? 0)%nat then raise ValueError
  else
    r ← gets entropy;
    match r with
    | [] => mret O
    | x :: r' => modify (set_entropy r');; mret (x mod n)%nat
    end.

(** Lines 1489-1572: the answer of the selected row [val] of key
    [pid]. *)
Definition answer_entry (pid : string) (val : entry) (header : header_t)
    (cmd : string) (length frame : option Z) (do_write : bool)
    : M hr_result :=
  match Descr val with
  | Some _ => mret tt
  | None => logging ERROR "Internal error - Missing description for %s, PID %s"
  end;;
  a ← gets answer;
  match a !! pid with
  | Some x => mret (header, cmd, Some x)
  | None =>
      r ← match Task val with
          | None => mret (inr cmd)
          | Some name =>
              pl ← gets plugins;
              if bool_decide (name ∈ pl) then
                modify (set_tasks (delete header));;
                ok ← try_except
                       (t ← plugin_init name
                              (Tasks.init (Tasks.Plugin name) header cmd
                                 (Some val) do_write);
                        modify (set_tasks <[header := t]>);;
                        mret true)
                       (logging CRITICAL
                          ("Cannot start task " ++ dq ++ "%s" ++ dq
                           ++ ", header=" ++ dq ++ "%s" ++ dq ++ ": %s");;
                        mret false);
                if ok : bool then
                  r ← task_action header do_write Tasks.start cmd length frame;
                  match r with
                  | (r_cmd, _, None) => mret (inl (header, cmd, r_cmd))
                  | (_, _, Some r_cont) => mret (inr r_cont)
                  end
                else mret (inl (header, cmd, None))
              else
                logging ERROR
                  ("Unexisting plugin " ++ dq ++ "%s" ++ dq ++ " for pid "
                   ++ dq ++ "%s" ++ dq);;
                mret (inl (header, cmd, None))
          end;
      match r : hr_result + string with
      | inl x => mret x
      | inr cmd =>
          match Exec val with
          | Some code =>
              try_except (py_exec code header cmd pid)
                (logging ERROR "Cannot execute '%s' for PID %s (%s)")
          | None => mret tt
          end;;
          let log_string :=
            match Log val, Warning val, Info val with
            | Some x, _, _ => "logging.debug(" ++ x ++ ")"
            | None, Some x, _ => "logging.warning(" ++ x ++ ")"
            | None, None, Some x => "logging.info(" ++ x ++ ")"
            | None, None, None => ""
            end in
          (if negb (String.eqb log_string "") then
             try_except (py_exec log_string header cmd pid)
               (match Log val with
                | Some _ =>
                    logging ERROR "Error while logging '%s' for PID %s (%s)"
                | None => raise KeyError
                end)
           else mret tt);;
          match Response val with
          | Some r_response =>
              r_header ← match ResponseHeader val with
                         | Some f => call f cmd pid val
                         | None => mret ""
                         end;
              r_footer ← match ResponseFooter val with
                         | Some f => call f cmd pid val
                         | None => mret ""
                         end;
              match r_response with
              | RNone => mret (header, cmd, None)
              | RStr x => mret (header, cmd, Some (r_header ++ x ++ r_footer))
              | RList l =>
                  i ← randint_below (List.length l);
                  mret (header, cmd,
                        Some (r_header ++ nth i l "" ++ r_footer))
              end
          | None =>
              logging ERROR "Internal error - Missing response for %s, PID %s";;
              mret (header, cmd, Some ELM_R_OK)
          end
      end
  end.

(** The patterns [r"^NO DATA *\r"] and [r"^\? *\r"]. *)
Definition NO_DATA_RE : Re.regex :=
  Re.Seq Re.Bol
    (Re.Seq (Re.lit "NO DATA") (Re.Seq (Re.Star (Re.Chr space)) (Re.Chr cr))).
Definition QUESTION_RE : Re.regex :=
  Re.Seq Re.Bol
    (Re.Seq (Re.Chr "?") (Re.Seq (Re.Star (Re.Chr space)) (Re.Chr cr))).

(** [repr(fw_data)] *)
Definition repr_fw (d : fw_data_t) : string :=
  match d with
  | FwFalse => "False"
  | FwNone => "None"
  | FwData x => repr x
  end.

(** Lines 1573-1602: the command is unknown. *)
Definition unknown (header : header_t) (cmd : string) : M hr_result :=
  let key := "unknown_" ++ repr cmd in
  count key;;
  if String.eqb cmd "" then
    logging INFO "No ELM command";;
    mret (header, cmd, Some "")
  else
    fw_data ← send_receive_forward (cmd ++ String cr "");
    match fw_data with
    | FwFalse => mret tt
    | _ => modify (set_counters <[key ++ "_R" := VStr (repr_fw fw_data)]>)
    end;;
    match fw_data with
    | FwFalse => mret tt
    | _ =>
        let text := match fw_data with FwData x => x | _ => "" end in
        if negb (Re.re_match NO_DATA_RE text)
           && negb (Re.re_match QUESTION_RE text) then
          n ← counters_at key;
          if Py.eqb n (VInt 1) then
            logging WARNING "Missing data in dictionary: %s. Answer:\n%s"
          else mret tt
        else mret tt
    end;;
    let header_truthy := match header with
                         | Some v => truthy v
                         | None => false
                         end in
    if truthy (len_hex cmd) then
      (if header_truthy then
         _ ← counters_at "cmd_set_header";
         logging INFO "Unknown request: %s, header=%s"
       else logging INFO "Unknown request: %s");;
      mret (header, cmd, Some (ST "NO DATA"))
    else
      (if header_truthy then
         _ ← counters_at "cmd_set_header";
         logging INFO "Unknown ELM command: %s, header=%s"
       else logging INFO "Unknown ELM command: %s");;
      mret (header, cmd, Some ELM_R_UNKNOWN).

(** Lines 1471-1488: the scan of the sorted catalog, up to the selection
    of a row. *)
Fixpoint resolve (l : list (string * entry)) (header : header_t)
    (cmd : string) (length frame : option Z) (do_write : bool)
    : M hr_result :=
  match l with
  | [] => unknown header cmd
  | (key, val) :: l' =>
      if match Request val with
         | Some r => Re.re_match r cmd
         | None => false
         end
      then
        other ← match Header val, header with
                | Some hv, Some h =>
                    if truthy h then
                      c ← counters_at "cmd_set_header";
                      mret (negb (Py.eqb hv c))
                    else mret false
                | _, _ => mret false
                end;
        if other : bool then resolve l' header cmd length frame do_write
        else
          let pid := if String.eqb key "" then "UNKNOWN" else key in
          count pid;;
          if bool_decide (Action val = Some "skip") then
            logging INFO "Received %s. PID %s. Action=%s";;
            resolve l' header cmd length frame do_write
          else answer_entry pid val header cmd length frame do_write
      else resolve l' header cmd length frame do_write
  end.

Definition handle_request (cmd : string) (do_write : bool) : M hr_result :=
  let cmd := upper (remove_spaces cmd) in
  count "commands";;
  c ← gets counters;
  let header := c !! "cmd_set_header" in
  o ← gets ObdMessage;
  sc ← gets scenario;
  if negb (bool_decide (is_Some (dict_get sc o))) then
    logging ERROR "Unknown scenario %s";;
    mret (header, cmd, Some "")
  else
    '(header, cmd) ← hr_fcsm header cmd;
    r ← hr_pci header cmd;
    match r with
    | inl x => mret x
    | inr (cmd, length, frame) =>
        r ← hr_tasks header cmd length frame do_write;
        match r with
        | inl x => mret x
        | inr (cmd, length, frame) =>
            l ← gets sortedOBDMsg;
            resolve l header cmd length frame do_write
        end
    end.

(** *** One turn of the main loop (lines 625-649), for the line [cmd]
    that [normalized_read_line] returned *)

Definition BLANK : Re.regex :=
  Re.Seq Re.Bol (Re.Seq (Re.Star (Re.Chr space)) Re.Eol).

(** Lines 625-631: the 'fast' option (command repetition). *)
Definition last_cmd (cmd : string) : M string :=
  c ← gets counters;
  if Re.re_match BLANK cmd then
    match c !! "cmd_last_cmd" with
    | Some (VStr x) => mret x
    | Some _ => raise TypeError
    | None =>
        modify (set_counters <["cmd_last_cmd" := VStr cmd]>);;
        mret cmd
    end
  else
    modify (set_counters <["cmd_last_cmd" := VStr cmd]>);;
    mret cmd.

(** Lines 635-647: the request is handled and its response rendered. *)
Definition process (cmd : string) : M unit :=
  r ← try_except
        (x ← handle_request cmd true; mret (Some x))
        (logging CRITICAL "Error while processing %s:\n%s\n%s";;
         mret None);
  match r with
  | Some (request_header, request_data, Some resp) =>
      _ ← handle_response resp true request_header (Some request_data);
      mret tt
  | _ => mret tt
  end.

Definition run_step (cmd : string) : M unit :=
  cmd ← last_cmd cmd;
  if validate cmd then process cmd
  else logging WARNING "Invalid request: %s".

End Emulator.

(** * Reference definitions and sample data

    The constants of [obd_message.py], sample collaborators and sample
    emulators, used where a statement is evaluated on concrete data; and
    the functions that follow the wording of the specification. *)

(** Modelled from the spec: [ST], [ELM_R_OK], [ELM_R_UNKNOWN] and
    [ECU_ADDR_E] of [obd_message.py], which is not among the sources; the
    specification names the [<string>] tag, the markers [NO DATA] and [?],
    and three-digit request headers. *)
Definition ST_spec (x : string) : string := "<string>" ++ x ++ "</string>".
Definition ELM_R_OK_spec : string := ST_spec "OK".
Definition ELM_R_UNKNOWN_spec : string := ST_spec "?".
Definition ECU_ADDR_E_spec : value := VStr "7E0".

(** A renderer that writes nothing and returns no text, and collaborators
    that do nothing. *)
Definition quiet_response
    (resp : string) (do_write : bool) (h : header_t) (d : option string)
    : M (option string) := mret None.
Definition no_exec (code : string) (h : header_t) (cmd pid : string)
    : M unit := mret tt.
Definition no_call (f cmd pid : string) (val : entry) : M string := mret "".
Definition no_plugin_init (name : string) (t : Tasks.t) : M Tasks.t :=
  raise PluginError.
Definition no_plugin_method (name : string) (m : Tasks.method) (h : header_t)
    (cmd : string) (length frame : option Z) : M Tasks.ret_t :=
  raise PluginError.

(** An emulator with nothing in it. *)
Definition Elm0 : Elm :=
  mkElm ∅ ∅ ∅ [] [] "default" ∅ ∅ Forward.none None [] [].

(** The bytes a rendered answer stands for; [None] when the call raised or
    the text is not hexadecimal. *)
Definition answer_bytes (r : res string) : option (list Z) :=
  match r with
  | Ok x => fromhex x
  | Raise _ => None
  end.

(** The 29-bit reply in the words of the specification: the swapped
    target/source pair, a one-byte length field under 16 bytes and the
    ["80"] sentinel with a length byte otherwise, then the checksum. *)
Definition spec_uds29_body (tgt src : Z) (payload : list Z) : list Z :=
  let n := Z.of_nat (List.length payload) in
  if n <? 16 then [128 + n; tgt; src] ++ payload
  else [128; tgt; src; n] ++ payload.

Definition spec_uds29 (tgt src : Z) (payload : list Z) : list Z :=
  let b := spec_uds29_body tgt src payload in
  b ++ [Py.sum b mod 256].

(** The 29-bit reply of [uds_answer]: as the specification has it, with the
    one-byte form kept to payloads under 10 bytes. *)
Definition uds29_body (tgt src : Z) (payload : list Z) : list Z :=
  let n := Z.of_nat (List.length payload) in
  if n <? 10 then [128 + n; tgt; src] ++ payload
  else [128; tgt; src; n] ++ payload.

(** [hex_text s bs]: [s] is the text of the bytes [bs], two hexadecimal
    digits each, with nothing between them. *)
Inductive hex_text : string -> list Z -> Prop :=
| hex_nil : hex_text "" []
| hex_cons c d hi lo s bs :
    hexval c = Some hi -> hexval d = Some lo -> hex_text s bs ->
    hex_text (String c (String d s)) ((16 * hi + lo) :: bs).

(** The two digits ["%02X"] writes for a byte. *)
Definition fmt_ok (b : Z) : bool :=
  match fmt_02X b with
  | String c (String d EmptyString) =>
      bool_decide (hexval c = Some (b / 16))
      && bool_decide (hexval d = Some (b mod 16))
      && bool_decide (upper_char c = c) && bool_decide (upper_char d = d)
      && (bool_decide (b < 16) || bool_decide (hex_upper b = fmt_02X b))
  | _ => false
  end.

(** Every character of [s] satisfies [p]. *)
Fixpoint all_chars (p : ascii -> bool) (s : string) : bool :=
  match s with
  | EmptyString => true
  | String c s' => p c && all_chars p s'
  end.

(** The characters [is_hex_sp] accepts. *)
Definition hex_sp_char (c : ascii) : bool :=
  Re.in_class [("0", "9"); ("a", "f"); ("A", "F"); (space, space);
               (tab, tab); (cr, cr); (Re.newline, Re.newline)]%char c.

(** An emulator whose only counter is [cmd_caf = False] (a PCI byte is
    expected in the requests), and one whose only counter is
    [cmd_fcsm = True]. *)
Definition Elm_caf : Elm := set_counters <["cmd_caf" := VBool false]> Elm0.
Definition Elm_fcsm : Elm := set_counters <["cmd_fcsm" := VBool true]> Elm0.


(** The emulator's methods with the sample collaborators. *)
Definition handle_request0 : string -> bool -> M hr_result :=
  handle_request ELM_R_OK_spec ELM_R_UNKNOWN_spec ST_spec quiet_response
    no_exec no_call no_plugin_init no_plugin_method.

(** An emulator with an empty catalog for the scenario ["default"]. *)
Definition with_catalog (o : dict (dict entry)) (e : Elm) : Elm :=
  mkElm (counters e) (tasks e) (presets e) o (sortedOBDMsg e)
        (scenario e) (answer e) (plugins e) (forward e) (threadState e) (entropy e) (log e).

Definition empty_catalog : dict (dict entry) := [("default", [])].

(** The state [hr_fcsm] leaves for the header [h]. *)
Definition after_fcsm (h : string) (e : Elm) : Elm :=
  set_counters <["cmd_use_header" := VBool true]>
    (set_counters <["cmd_caf" := VBool false]>
       (set_counters <["cmd_set_header" := VStr h]> e)).

(** The operator-visible warning of an unknown command, and the number of
    times a log holds it. *)
Definition escalation : log_record :=
  (WARNING, "Missing data in dictionary: %s. Answer:\n%s").

#[global] Instance level_eq_dec : EqDecision level.
Proof. solve_decision. Defined.

Definition escalations (l : list log_record) : nat :=
  List.length (List.filter (fun r => bool_decide (r = escalation)) l).

(** An answer of the forwarding collaborator that calls for the warning:
    there is one, and it is neither [NO DATA] nor [?]. *)
Definition escalates (d : fw_data_t) : bool :=
  match d with
  | FwFalse => false
  | FwNone => true
  | FwData x => negb (Re.re_match NO_DATA_RE x) && negb (Re.re_match QUESTION_RE x)
  end.

(** No forwarder is set up, as by default: [send_receive_forward] returns
    [False] at once (lines 729 and 744). *)
Definition no_forwarder (e : Elm) : bool :=
  negb (truthy_setting (Forward.forward_serial_port (forward e)))
  && (negb (truthy_setting (Forward.forward_net_host (forward e)))
      || negb (truthy_setting (Forward.forward_net_port (forward e)))).

(** The forwarder is a host of the network, and the socket is connected. *)
Definition connected (e : Elm) : bool :=
  negb (truthy_setting (Forward.forward_serial_port (forward e)))
  && truthy_setting (Forward.forward_net_host (forward e))
  && truthy_setting (Forward.forward_net_port (forward e))
  && Forward.fw_sock_inet (forward e).

(** What [send_receive_forward] survives on a connected socket: a send
    that returns or finds the pipe broken, and a read that returns or times
    out. *)
Definition sends (o : Forward.outcome) : bool :=
  match o with
  | Forward.Fails BrokenPipeError => true
  | Forward.Fails _ => false
  | _ => true
  end.

Definition receives (o : Forward.outcome) : bool :=
  match o with
  | Forward.Fails SocketTimeout => true
  | Forward.Fails _ => false
  | _ => true
  end.

(** The link answers the next [k] requests. *)
Fixpoint answering (k : nat) (l : list Forward.outcome) : bool :=
  match k with
  | O => true
  | S k' =>
      match l with
      | o1 :: o2 :: l' => sends o1 && receives o2 && answering k' l'
      | _ => false
      end
  end.

(** The next [k] calls of [send_receive_forward] return: there is no
    forwarder, or a connected one that answers. *)
Definition forwards (k : nat) (e : Elm) : bool :=
  no_forwarder e || (connected e && answering k (Forward.os (forward e))).

(** The records of a send and of a read on the socket. *)
Definition send_record (o : Forward.outcome) : log_record :=
  match o with
  | Forward.Fails _ =>
      (ERROR, "The network link of the OBDII interface dropped.")
  | _ => (INFO, "Write forward data: %s")
  end.

Definition read_record (o : Forward.outcome) : log_record :=
  match o with
  | Forward.Fails _ => (INFO, "No forward data received.")
  | _ => (INFO, "Read forward data: %s")
  end.

(** What the next call of [send_receive_forward] returns, and the state
    it leaves, when the call returns: nothing with no forwarder, and on a
    connected socket the answer read, the two calls used up and their
    records. *)
Definition next_forward (e : Elm) : fw_data_t :=
  if no_forwarder e then FwFalse
  else
    match Forward.os (forward e) with
    | _ :: Forward.Fails _ :: _ => FwNone
    | _ :: o :: _ => FwData (Forward.data o)
    | _ => FwFalse
    end.

Definition forwarded (e : Elm) : Elm :=
  if no_forwarder e then e
  else
    match Forward.os (forward e) with
    | o1 :: o2 :: l =>
        add_log (read_record o2)
          (add_log (send_record o1) (set_forward (Forward.set_os l) e))
    | _ => e
    end.

(** The key of the counter of the unknown command [cmd]. *)
Definition unknown_key (cmd : string) : string := "unknown_" ++ repr cmd.

(** The number the counter [k] stands for; an absent counter counts 0. *)
Definition hits (e : Elm) (k : string) (n : Z) : Prop :=
  match counters e !! k with
  | None => n = 0
  | Some v => num v = Some n
  end.

(** No row of [l] has a [Request] pattern that matches [cmd]. *)
Definition no_match (l : list (string * entry)) (cmd : string) : Prop :=
  Forall (fun kv => match Request (snd kv) with
                    | Some r => Re.re_match r cmd
                    | None => false
                    end = false) l.

(** The same request made [n] times. *)
Fixpoint repeat_request (n : nat) (m : M hr_result) : M unit :=
  match n with
  | O => mret tt
  | S n' => _ ← m; repeat_request n' m
  end.

(** An emulator with the empty catalog. *)
Definition Elm1 : Elm := with_catalog empty_catalog Elm0.

(** A forwarder on the network: connected, with a link that answers the
    first request and times out on the next three; not connected, with a
    host name that has no address; and not connected, with one address,
    in an emulator that listens on no socket. *)
Definition net_forwarder (up : bool) (os : list Forward.outcome) : Forward.t :=
  Forward.mk None (Some (VStr "car")) (Some (VInt 35000)) false up false os.

Definition Elm_fw : Elm :=
  set_forward
    (fun _ =>
       net_forwarder true
         [Forward.Returns ""; Forward.Returns "41 00 BE";
          Forward.Returns ""; Forward.Fails SocketTimeout;
          Forward.Returns ""; Forward.Fails SocketTimeout;
          Forward.Returns ""; Forward.Fails SocketTimeout]) Elm1.



Definition resolve0 :
    list (string * entry) -> header_t -> string -> option Z -> option Z ->
    bool -> M hr_result :=
  resolve ELM_R_OK_spec ELM_R_UNKNOWN_spec ST_spec quiet_response
    no_exec no_call no_plugin_init no_plugin_method.

(** The state after the [Multiline] task on header [h] refused a frame:
    the error is logged, the completion counter of the task (its key is
    the empty text, the module name of [Multiline] cut at 12 characters)
    goes from [n] to [n + 1], and the task is removed. *)
Definition after_violation (h : header_t) (n : Z) (e : Elm) : Elm :=
  set_tasks (delete h)
    (set_counters <["" := VInt (n + 1)]>
       (add_log (ERROR, "Invalid consecutive frame %s %s") e)).

(** The parts of the emulator that no task touches. *)
Definition static (e : Elm) :=
  (presets e, ObdMessage e, sortedOBDMsg e, scenario e, answer e, plugins e,
   forward e, threadState e, entropy e).

(** The settings under which the renderer can build a Flow Control frame
    for the header [h]: the filter [cmd_cra], if set, is a text;
    [cmd_linefeeds], if set, is a number; the header is a text, and one
    that reads as a hexadecimal number when it has three characters and the
    headers are shown. *)
Definition flow_session (e : Elm) (h : header_t) : Prop :=
  match counters e !! "cmd_cra" with
  | Some v => truthy v = true -> exists s, v = VStr s
  | None => True
  end /\
  match counters e !! "cmd_linefeeds" with
  | Some v => is_Some (num v)
  | None => True
  end /\
  exists hs,
    h = Some (VStr hs) /\
    (String.length (upper (remove_whitespace hs)) = 3%nat ->
     match counters e !! "cmd_use_header" with
     | Some v => truthy v
     | None => false
     end = true ->
     is_Some (int16 (upper (remove_whitespace hs)))).

(** A task as [handle_request] makes it for the header [h] (lines
    1445-1447, 1512-1513 with [Tasks.__init__]): it holds the header, and
    its Flow Control template is the one of a new task. *)
Definition flow_task (h : header_t) (t : Tasks.t) : Prop :=
  Tasks.header t = h /\ Tasks.flow_control_end t = 32.

Definition flowing (e : Elm) (h : header_t) : Prop :=
  forall t, tasks e !! h = Some t -> flow_task h t.

(** The engine is the same in [e'] as in [e]: only the log may differ. *)
Definition same_engine (e' e : Elm) : Prop :=
  static e' = static e /\ counters e' = counters e /\ tasks e' = tasks e.

(** A renderer that, given the Flow Control template of a task of the
    engine in a session where the frame can be built, returns normally and
    leaves the engine as it is (it writes to the transport and may add log
    records). *)
Definition renders_flow
    (handle_response :
       string -> bool -> header_t -> option string -> M (option string))
    : Prop :=
  forall (t : Tasks.t) (d : option string) (e : Elm),
    flow_session e (Tasks.header t) -> Tasks.flow_control_end t = 32 ->
    exists r e',
      handle_response (flow_template t) (Tasks.do_write t) (Tasks.header t) d e
      = (Ok r, e') /\
      same_engine e' e.

(** The [Multiline] task on header [h] is collecting: it holds the text
    [r], expects the frame [i] and the declared length is [L]. *)
Definition collecting (e : Elm) (h : header_t) (L : Z) (r : string) (i : Z)
    : Prop :=
  exists t, tasks e !! h = Some t /\ Tasks.cls t = Tasks.Multiline /\
            Tasks.frame t = Some i /\ Tasks.length t = Some L /\
            Tasks.req t = Some r.

(** What a frame accepted by [Multiline.run] leaves: the value returned,
    and the task on header [h] holding the text [r], with the frame counter
    reset once the text is complete and set to [i] until then, still a task
    of the engine; the counters, the other tasks and the catalog are as
    before. *)
Definition accepted (h : header_t) (L : Z) (r : string) (i : Z)
    (e : Elm) (out : res Tasks.ret_t * Elm) : Prop :=
  let done := L * 2 <=? len r in
  fst out = Ok (if done then Tasks.PASSTHROUGH (slice_to_Z (L * 2) r)
                else Tasks.INCOMPLETE) /\
  static (snd out) = static e /\ counters (snd out) = counters e /\
  (forall h', h' <> h -> tasks (snd out) !! h' = tasks e !! h') /\
  exists t, tasks (snd out) !! h = Some t /\
            Tasks.cls t = Tasks.Multiline /\
            Tasks.frame t = (if done then None else Some i) /\
            Tasks.length t = Some L /\ Tasks.req t = Some r /\
            flow_task h t.

(** The emulator [e'] after a frame of an exchange on header [h] was
    handled from [e]: the catalog, the other counters and the other tasks
    are as before; once the text is complete ([done]) the task is gone and
    its completion counter goes from [n] to [n + 1], and until then the task
    is collecting [r] and expects the frame [i], still a task of the
    engine. *)
Definition frame_handled (h : header_t) (L : Z) (r : string) (i n : Z)
    (done : bool) (e e' : Elm) : Prop :=
  static e' = static e /\
  (forall k, k <> "" -> counters e' !! k = counters e !! k) /\
  (forall h', h' <> h -> tasks e' !! h' = tasks e !! h') /\
  if done then tasks e' !! h = None /\ hits e' "" (n + 1)
  else collecting e' h L r i /\ hits e' "" n /\ flowing e' h.

(** The requests [lines] handled one after the other by [hr]: the results
    in order, and the emulator at the end. *)
Fixpoint handle_all (hr : string -> M hr_result) (lines : list string)
    (e : Elm) : list (res hr_result) * Elm :=
  match lines with
  | [] => ([], e)
  | x :: xs =>
      let (r, e1) := hr x e in
      let (rs, e2) := handle_all hr xs e1 in
      (r :: rs, e2)
  end.

(** The request lines of a multi-frame exchange: a First Frame is the PCI
    byte [10], the length byte and the payload; the Consecutive Frame of
    index [i] is the PCI byte [0x20 + i] and the payload. *)
Definition first_frame (L : Z) (p : string) : string := "10" ++ fmt_02X L ++ p.

Definition consecutive_frame (i : Z) (p : string) : string :=
  fmt_02X (32 + i) ++ p.

Fixpoint consecutive_frames (i : Z) (ps : list string) : list string :=
  match ps with
  | [] => []
  | p :: ps' => consecutive_frame i p :: consecutive_frames (i + 1) ps'
  end.

(** The payloads put one after the other. *)
Definition concat_all (ps : list string) : string :=
  fold_right append "" ps.

(** A payload as [handle_request] sees it: upper case, no space, and one or
    more hexadecimal bytes. *)
Definition payload_ok (p : string) : Prop :=
  upper (remove_spaces p) = p /\ truthy (len_hex p) = true.

(** The session settings under which a multi-frame exchange runs: a PCI
    byte is expected ([cmd_caf] present and false), the first-come header
    mode is off, and the scenario is in the catalog. *)
Definition pci_session (e : Elm) : Prop :=
  (exists caf, counters e !! "cmd_caf" = Some caf /\ truthy caf = false) /\
  match counters e !! "cmd_fcsm" with Some v => truthy v | None => false end
  = false /\
  is_Some (dict_get (scenario e) (ObdMessage e)).

(** A session on header [h] in which [k] requests were counted. *)
Definition session (e : Elm) (h : header_t) (k : Z) : Prop :=
  pci_session e /\ counters e !! "cmd_set_header" = h /\ hits e "commands" k.

(** [handle_request] from the task block on (lines 1444-1602), for the
    local variables the lines before it left. *)
Definition hr_from_tasks
    (ELM_R_OK ELM_R_UNKNOWN : string) (ST : string -> string)
    (handle_response :
       string -> bool -> header_t -> option string -> M (option string))
    (py_exec : string -> header_t -> string -> string -> M unit)
    (call : string -> string -> string -> entry -> M string)
    (plugin_init : string -> Tasks.t -> M Tasks.t)
    (plugin_method :
       string -> Tasks.method -> header_t -> string -> option Z -> option Z ->
       M Tasks.ret_t)
    (header : header_t) (cmd : string) (length frame : option Z) (w : bool)
    : M hr_result :=
  r ← hr_tasks handle_response plugin_method header cmd length frame w;
  match r with
  | inl x => mret x
  | inr (cmd, length, frame) =>
      l ← gets sortedOBDMsg;
      resolve ELM_R_OK ELM_R_UNKNOWN ST handle_response py_exec call
        plugin_init plugin_method l header cmd length frame w
  end.

(** A session on the header ["7E0"] in which a PCI byte is expected, with
    the empty catalog; and the same with a [Multiline] task that has taken
    a First Frame of 9 bytes with the payload ["AA"]. *)
Definition Elm_pci : Elm :=
  set_counters <["cmd_set_header" := VStr "7E0"]> (with_catalog empty_catalog Elm_caf).

Definition Elm_collecting : Elm :=
  set_tasks
    <[Some (VStr "7E0") :=
        Tasks.mk Tasks.Multiline (Some (VStr "7E0")) "AA" None true
          (Some 1) (Some 9) 31 32 (Some "AA")]> Elm_pci.

(** An exchange of 9 bytes, one byte a frame, with the indices of the
    Consecutive Frames wrapping modulo 8 (the eighth one has the PCI byte
    [20]), and the same with the indices 1 to 8. *)
Definition wrapped_lines : list string :=
  ["1009AA"; "21BB"; "22CC"; "23DD"; "24EE"; "25FF"; "2611"; "2722"; "2033"].
Definition plain_lines : list string :=
  ["1009AA"; "21BB"; "22CC"; "23DD"; "24EE"; "25FF"; "2611"; "2722"; "2833"].

(** The keys of a dict, in order, and the test [k in d]. *)
Definition keys {V : Type} (d : dict V) : list string := map fst d.

Definition has_key {V : Type} (k : string) (d : dict V) : bool :=
  existsb (String.eqb k) (keys d).

(** The three layers merged as [setSortedOBDMsg] does:
    [{**default, **AT, **scenario}]. *)
Definition merged (d a s : dict entry) : dict entry :=
  dict_merge (dict_merge (dict_merge [] d) a) s.

(** The row of a key looked up layer by layer: the scenario first, then
    ["AT"], then ["default"]. *)
Definition layered (d a s : dict entry) (k : string) : option entry :=
  match dict_get k s with
  | Some v => Some v
  | None =>
      match dict_get k a with
      | Some v => Some v
      | None => dict_get k d
      end
  end.

(** The row [x] has a [Request] pattern that matches [cmd]. *)
Definition matches (cmd : string) (x : string * entry) : bool :=
  match Request (snd x) with
  | Some r => Re.re_match r cmd
  | None => false
  end.

(** The key under which a row is counted. *)
Definition pid_of (key : string) : string :=
  if String.eqb key "" then "UNKNOWN" else key.

(** A list of keys without a repetition, as the keys of a [dict] are. *)
Fixpoint unique (l : list string) : bool :=
  match l with
  | [] => true
  | k :: l' => negb (existsb (String.eqb k) l') && unique l'
  end.

(** The row [val] passes the header test of the scan: it has no [Header],
    or no header is set, or its [Header] is the header that is set. *)
Definition header_admits (e : Elm) (header : header_t) (val : entry) : Prop :=
  match Header val, header with
  | Some hv, Some h =>
      truthy h = true ->
      exists c, counters e !! "cmd_set_header" = Some c /\ Py.eqb hv c = true
  | _, _ => True
  end.

(** The order of the sorted catalog. *)
Definition by_priority (x y : string * entry) : Prop :=
  priority x <= priority y.

(** The rows of [l] of priority [p], in the order of [l]. *)
Definition of_priority (p : Z) (l : list (string * entry))
    : list (string * entry) :=
  List.filter (fun x => priority x =? p) l.

(** A row that answers [resp] to the command [cmd] alone. *)
Definition exactly (cmd : string) : Re.regex :=
  Re.Seq Re.Bol (Re.Seq (Re.lit cmd) Re.Eol).

Definition row (cmd : string) (p : option Z) (resp : string) : entry :=
  mkEntry (Some (exactly cmd)) None p (Some (RStr resp)) None (Some "row")
          None None None None None None None.

(** Two catalogs with the scenario ["car"]. In the first one the scenario
    defines the key [PID] of the layer ["default"] anew; in the second one
    it answers the command of the row [PID] under a key of its own. *)
Definition same_key_catalog : dict (dict entry) :=
  [("default", [("PID", row "0100" None "default"); ("VIN", row "0902" (Some 5) "vin")]);
   ("AT", [("ATZ", row "ATZ" (Some 1) "ELM327 v1.5")]);
   ("car", [("PID", row "0100" None "car")])].

Definition other_key_catalog : dict (dict entry) :=
  [("default", [("PID", row "0100" None "default")]);
   ("AT", []);
   ("car", [("CAR_PID", row "0100" None "car")])].

(** A session on the header ["7E0"] in which a PCI byte is expected and
    no task runs, with a row for the command ["0100"]. *)
Definition Elm_idle : Elm :=
  set_sortedOBDMsg [("PID", row "0100" None "4100")]
    (set_counters <["cmd_set_header" := VStr "7E0"]>
       (with_catalog [("default", [("PID", row "0100" None "4100")])] Elm_caf)).

Definition Elm_same_key : Elm := with_catalog same_key_catalog Elm0.
Definition Elm_other_key : Elm := with_catalog other_key_catalog Elm0.

(** The state after the unknown branch, when the forwarder returns: the
    counter, what the call of the forwarder leaves, its answer kept under
    the key with [_R], the warning, and the closing INFO record [r]. *)
Definition after_unknown (cmd : string) (n : Z) (r : log_record) (e : Elm)
    : Elm :=
  let key := unknown_key cmd in
  let e1 := set_counters <[key := VInt (n + 1)]> e in
  let fw := next_forward e1 in
  let e2 := forwarded e1 in
  let e3 := match fw with
            | FwFalse => e2
            | _ => set_counters <[key ++ "_R" := VStr (repr_fw fw)]> e2
            end in
  let e4 := if escalates fw && (n =? 0) then add_log escalation e3 else e3 in
  add_log r e4.

(** The state a row leaves when it is selected for the answer: it is
    counted, and a row without [Descr] is reported. *)
Definition selected (key : string) (val : entry) (n : Z) (e : Elm) : Elm :=
  let e1 := set_counters <[pid_of key := VInt (n + 1)]> e in
  match Descr val with
  | Some _ => e1
  | None =>
      add_log (ERROR, "Internal error - Missing description for %s, PID %s") e1
  end.

(** A row that runs no task and no Python text of its own. *)
Definition plain (val : entry) : Prop :=
  Task val = None /\ Exec val = None /\ Info val = None /\
  Warning val = None /\ Log val = None /\
  ResponseHeader val = None /\ ResponseFooter val = None.

(** The plugin [task_write_vin] (src/elm/plugins/task_write_vin.py). Its
    class [Task] takes [__init__], [start] and [stop] from [Tasks], so every
    method ends in [Task.run], whose first statement reads
    [self.multiline_request], an attribute that neither [Task] nor [Tasks]
    has. *)
Definition task_write_vin_init (t : Tasks.t) : M Tasks.t := mret t.

Definition task_write_vin_run (h : header_t) (cmd : string)
    (length frame : option Z) : M Tasks.ret_t :=
  raise AttributeError.

(** The plugin modules of the repository, by name. *)
Definition repo_plugin_init (name : string) (t : Tasks.t) : M Tasks.t :=
  if String.eqb name "task_write_vin" then task_write_vin_init t
  else raise PluginError.

Definition repo_plugin_method (name : string) (m : Tasks.method)
    (h : header_t) (cmd : string) (length frame : option Z)
    : M Tasks.ret_t :=
  if String.eqb name "task_write_vin" then task_write_vin_run h cmd length frame
  else raise PluginError.

(** A row that starts the task [task_write_vin], an emulator that has the
    plugin and the row in its catalog, and one where the task runs on the
    header ["7E0"]. *)
Definition write_vin_row : entry :=
  mkEntry (Some (exactly "2EF190")) None None (Some (RStr "")) None
          (Some "write VIN") (Some "task_write_vin") None None None None
          None None.

Definition Elm_plugin : Elm :=
  mkElm ∅ ∅ ∅ [("default", [("WRITE_VIN", write_vin_row)])]
        [("WRITE_VIN", write_vin_row)] "default" ∅ {["task_write_vin"]}
        Forward.none None [] [].

Definition Elm_write_vin : Elm :=
  set_tasks
    <[Some (VStr "7E0") :=
        Tasks.init (Tasks.Plugin "task_write_vin") (Some (VStr "7E0"))
          "2EF190" (Some write_vin_row) true]>
    (set_counters <["cmd_set_header" := VStr "7E0"]> Elm_plugin).

(** ** [Elm.Sequence] (lines 280-287)

    The response helper for a value that sweeps up and down with the
    counter of a PID. It reads the counters and changes nothing, so it is a
    function of the emulator. The arguments [base], [max], [factor] and
    [n_bytes] are integers. *)

(** ["%.X" % p] *)
Definition fmt_X (p : Z) : string :=
  let d := upper (slice_from 2 (HexString.of_Z (Z.abs p))) in
  if p <? 0 then "-" ++ d else d.

Fixpoint zeros (n : nat) : string :=
  match n with
  | O => ""
  | S n' => String "0" (zeros n')
  end.

(** [s.zfill(width)] *)
Definition zfill (width : Z) (s : string) : string :=
  let pad := zeros (Z.to_nat (width - len s)) in
  match s with
  | String c s' =>
      if Ascii.eqb c "+" || Ascii.eqb c "-" then String c (pad ++ s')
      else pad ++ s
  | EmptyString => pad
  end.

(** [[s[i:i + 2] for i in range(0, len(s), 2)]] *)
Fixpoint chunks2 (s : string) : list string :=
  match s with
  | EmptyString => []
  | String a EmptyString => [String a ""]
  | String a (String b s') => String a (String b "") :: chunks2 s'
  end.

(** What [Sequence] gives: a text, or one of the exceptions its
    arithmetic raises. *)
Inductive seq_res : Type :=
| SeqOk (s : string)
| SeqKeyError
| SeqTypeError
| SeqZeroDivisionError.

(** The value [int(factor * abs(max - (c + max) % (max * 2))) + base]. *)
Definition Sequence_value (c base max factor : Z) : Z :=
  factor * Z.abs (max - (c + max) mod (max * 2)) + base.

Definition Sequence_text (p n_bytes : Z) : string :=
  join " " (chunks2 (zfill (n_bytes * 2) (fmt_X p))).

Definition Sequence (pid : string) (base max factor n_bytes : Z) (e : Elm)
    : seq_res :=
  match counters e !! pid with
  | None => SeqKeyError
  | Some v =>
      match num v with
      | None => SeqTypeError
      | Some c =>
          if max * 2 =? 0 then SeqZeroDivisionError
          else SeqOk (Sequence_text (Sequence_value c base max factor) n_bytes)
      end
  end.

(** The number a list of bytes stands for, the first byte being the most
    significant one. *)
Definition big_endian (bs : list Z) : Z :=
  fold_left (fun acc b => 256 * acc + b) bs 0.

(** The number a text of hexadecimal digits stands for, read from the
    left with [acc] as the digits read so far ([None]: not only digits);
    and the number of hexadecimal digits of a positive number. *)
Fixpoint hex_value (acc : Z) (s : string) : option Z :=
  match s with
  | EmptyString => Some acc
  | String c s' =>
      match hexval c with
      | Some d => hex_value (16 * acc + d) s'
      | None => None
      end
  end.

Fixpoint hex_width (p : positive) : nat :=
  match p with
  | (p'~0~0~0~0 | p'~0~0~0~1 | p'~0~0~1~0 | p'~0~0~1~1
     | p'~0~1~0~0 | p'~0~1~0~1 | p'~0~1~1~0 | p'~0~1~1~1
     | p'~1~0~0~0 | p'~1~0~0~1 | p'~1~0~1~0 | p'~1~0~1~1
     | p'~1~1~0~0 | p'~1~1~0~1 | p'~1~1~1~0 | p'~1~1~1~1)%positive =>
      S (hex_width p')
  | _ => 1%nat
  end.

(** ** [Elm.__init__] (lines 331-372)

    The constructor, for the catalog [o] that [obd_message.py] gives. The
    settings of the transport (ports, sockets, file descriptors) are kept
    out of the model; the constructor fills the other attributes in this
    order: the presets, the catalog, the defaults, the sorted catalog, the
    reset, the plugins. *)
Definition set_presets (p : gmap string value) (e : Elm) : Elm :=
  mkElm (counters e) (tasks e) p (ObdMessage e) (sortedOBDMsg e)
        (scenario e) (answer e) (plugins e) (forward e) (threadState e) (entropy e) (log e).
Definition set_plugins (p : gset string) (e : Elm) : Elm :=
  mkElm (counters e) (tasks e) (presets e) (ObdMessage e) (sortedOBDMsg e)
        (scenario e) (answer e) p (forward e) (threadState e) (entropy e) (log e).

Definition __init__ (ECU_ADDR_E : value) (o : dict (dict entry)) : M unit :=
  modify (set_presets ∅);;
  modify (with_catalog o);;
  set_defaults;;
  setSortedOBDMsg None;;
  reset ECU_ADDR_E;;
  modify (set_plugins ∅).

(** The counters of a new emulator. *)
Definition fresh_counters (ECU_ADDR_E : value) : gmap string value :=
  <["ELM_PIDS_A" := VInt 0]>
    (<["ELM_MIDS_A" := VInt 0]> {["cmd_set_header" := ECU_ADDR_E]}).

(** ** [Elm.handle_response] (lines 1056-1277)

    The response renderer. [ET.fromstring] hands over the parsed response:
    the text of the root before its first child, and the children of the
    root in order, each with its tag, its text and its tail. The renderer is
    a function of that tree; the XML parser, the regular expression of
    [cmd_cra], the Python text of the [<eval>] and [<exec>] nodes and the
    transport are collaborators. *)
Module ET.

Record element : Type := mkElement {
  tag : string;
  text : option string;
  tail : option string
}.

Record xml : Type := mkXml {
  root_text : option string;
  children : list element
}.

End ET.

Module Render.

(** Exceptions of the renderer: those of the engine, [IndexError], and
    [re.error]. *)
Inductive rexn : Type :=
| Py (x : exn)
| IndexError
| ReError.

Inductive rres (A : Type) : Type :=
| ROk (a : A)
| RRaise (x : rexn).
Arguments ROk {A} a.
Arguments RRaise {A} x.

Definition R (A : Type) : Type := Elm -> rres A * Elm.

#[global] Instance R_ret : MRet R := fun A a e => (ROk a, e).
#[global] Instance R_bind : MBind R := fun A B k m e =>
  match m e with
  | (ROk a, e') => k a e'
  | (RRaise x, e') => (RRaise x, e')
  end.

Definition rraise {A : Type} (x : rexn) : R A := fun e => (RRaise x, e).

(** A method of the engine run by the renderer. *)
Definition lift {A : Type} (m : M A) : R A := fun e =>
  match m e with
  | (Ok a, e') => (ROk a, e')
  | (Raise x, e') => (RRaise (Py x), e')
  end.

(** [try: m  except Exception: h] *)
Definition rtry {A : Type} (m : R A) (h : R A) : R A := fun e =>
  match m e with
  | (ROk a, e') => (ROk a, e')
  | (RRaise _, e') => h e'
  end.

Definition rlog (l : level) (fmt : string) : R unit := lift (logging l fmt).

(** *** Python primitives of the renderer *)

(** The characters [str.strip()] removes. *)
Definition is_strip_space (c : ascii) : bool :=
  let n := N_of_ascii c in
  (is_space c || ((28 <=? n) && (n <=? 31)) || (n =? 133) || (n =? 160))%N.

Fixpoint lstrip_ws (s : string) : string :=
  match s with
  | String c s' => if is_strip_space c then lstrip_ws s' else s
  | EmptyString => EmptyString
  end.

Fixpoint rstrip_ws (s : string) : string :=
  match s with
  | EmptyString => EmptyString
  | String c s' =>
      let r := rstrip_ws s' in
      if String.eqb r "" && is_strip_space c then "" else String c r
  end.

(** [s.strip()] *)
Definition strip (s : string) : string := rstrip_ws (lstrip_ws s).

Definition lower_char (c : ascii) : ascii :=
  let n := N_of_ascii c in
  if ((65 <=? n) && (n <=? 90))%N then ascii_of_N (n + 32) else c.

(** [s.lower()], on the letters A to Z: the tags are compared with names
    made of these letters. *)
Fixpoint lower (s : string) : string :=
  match s with
  | EmptyString => EmptyString
  | String c s' => String (lower_char c) (lower s')
  end.

(** [x or ""] *)
Definition or_empty (x : option string) : string := default "" x.

(** [bool(x)] for a text that may be [None]. *)
Definition some_text (x : option string) : bool :=
  match x with
  | Some s => negb (String.eqb s "")
  | None => false
  end.

(** [cra.replace('X', '.').replace('x', '?')] *)
Fixpoint cra_chars (s : string) : string :=
  match s with
  | EmptyString => EmptyString
  | String c s' =>
      String (if Ascii.eqb c "X" then "."%char
              else if Ascii.eqb c "x" then "?"%char else c) (cra_chars s')
  end.

(** Decimal digits with single underscores between them, then trailing
    whitespace, as [int_digits] has them for base 16. *)
Definition decval (c : ascii) : option Z :=
  let n := N_of_ascii c in
  if ((48 <=? n) && (n <=? 57))%N then Some (Z.of_N (n - 48)) else None.

Fixpoint dec_digits (acc : Z) (seen us : bool) (s : string) : option Z :=
  match s with
  | EmptyString => if seen && negb us then Some acc else None
  | String c s' =>
      match decval c with
      | Some d => dec_digits (10 * acc + d) true false s'
      | None =>
          if Ascii.eqb c "_" then
            if seen && negb us then dec_digits acc seen true s' else None
          else if seen && negb us && all_space s then Some acc else None
      end
  end.

(** [int(s)] of a text; [None] stands for [ValueError]. *)
Definition int10 (s : string) : option Z :=
  match lstrip s with
  | String "+" s' => dec_digits 0 false false s'
  | String "-" s' => option_map Z.opp (dec_digits 0 false false s')
  | s' => dec_digits 0 false false s'
  end.

(** [int(v)] of a counter. *)
Definition int_of (v : value) : option Z :=
  match v with
  | VStr s => int10 s
  | _ => num v
  end.

(** The dictionary [nl_type]. *)
Definition nl_type (n : Z) : option string :=
  if (n =? 0) || (n =? 3) then Some (String cr "")
  else if (n =? 1) || (n =? 4) then Some (String cr (String Re.newline ""))
  else if (n =? 2) || (n =? 5) then Some (String Re.newline "")
  else None.

(** *** The state of the rendering loop *)

Record rstate : Type := mkR {
  answ : string;
  request_header : header_t;
  request_data : option string;
  answers : bool;
  last : option ET.element
}.

Definition set_answ (a : string) (st : rstate) : rstate :=
  mkR a (request_header st) (request_data st) (answers st) (last st).
Definition add_answ (a : string) (st : rstate) : rstate :=
  set_answ (answ st ++ a) st.
Definition set_request_header (h : header_t) (st : rstate) : rstate :=
  mkR (answ st) h (request_data st) (answers st) (last st).
Definition set_request_data (d : option string) (st : rstate) : rstate :=
  mkR (answ st) (request_header st) d (answers st) (last st).
Definition set_answers (b : bool) (st : rstate) : rstate :=
  mkR (answ st) (request_header st) (request_data st) b (last st).
Definition set_last (i : option ET.element) (st : rstate) : rstate :=
  mkR (answ st) (request_header st) (request_data st) (answers st) i.

(** [answ += i.tail.strip() if i is not None and i.tail else ""] *)
Definition add_tail (st : rstate) : rstate :=
  match last st with
  | Some i =>
      if some_text (ET.tail i) then add_answ (strip (or_empty (ET.tail i))) st
      else st
  | None => st
  end.

(** How the loop ends: it runs out of children or breaks, with the flag
    [incomplete_resp]; or the method returns from inside it. *)
Inductive outcome : Type :=
| Finished (st : rstate) (incomplete : bool)
| Returned (r : string).

(** What a tag does to the loop: go on after adding the tail, go on at
    once ([continue]), or leave the loop. *)
Inductive step : Type :=
| Next (st : rstate)
| Skip (st : rstate)
| Stop (out : outcome).

(** The settings read from the counters before the response is parsed:
    the pattern of [cmd_cra] ([None] for the pattern [.*]), [use_headers],
    [sp] and [nl]. *)
Record settings : Type := mkSettings {
  cra_pattern : option string;
  use_headers : bool;
  sp : string;
  nl : string
}.

Section Renderer.

(** [ET.fromstring(text)]; [None] stands for [ET.ParseError]. *)
Variable fromstring : string -> option ET.xml.

(** [re.compile(pattern)], as the test [match(text) is not None]; [None]
    stands for [re.error]. *)
Variable re_compile : string -> option (string -> bool).

(** [str(eval(msg))], or [None] when the value is [None]: the text is
    evaluated with the local variables of the method in scope, which are
    the settings and the state of the loop. And [exec(msg, globals())],
    which sees no local variable. *)
Variable py_eval : settings -> rstate -> string -> R (option string).
Variable py_exec_globals : string -> R unit.

(** [self.write_to_device(text.encode())] *)
Variable write_to_device : string -> R unit.

Definition read_settings : R settings :=
  c ← lift (gets counters);
  cra ← match c !! "cmd_cra" with
        | Some v =>
            if truthy v then
              match v with
              | VStr s => mret (Some ("^" ++ cra_chars s ++ "$"))
              | _ => rraise (Py AttributeError)
              end
            else mret None
        | None => mret None
        end;
  let uh := match c !! "cmd_use_header" with
            | Some v => truthy v
            | None => false
            end in
  let sp := if match c !! "cmd_spaces" with
               | Some v => Py.eqb v (VInt 0)
               | None => false
               end then "" else " " in
  nl ← match c !! "cmd_linefeeds" with
       | None => mret (String cr "")
       | Some v =>
           match match int_of v with Some n => nl_type n | None => None end with
           | Some x => mret x
           | None =>
               rlog ERROR ("Invalid " ++ dq ++ "cmd_linefeeds" ++ dq
                           ++ " value: %s.");;
               mret (String cr "")
           end
       end;
  mret (mkSettings cra uh sp nl).

Variable cfg : settings.
Variable resp : string.
Variable do_write : bool.

(** [re.match(cra_pattern, text)] *)
Definition match_cra (text : option string) : R bool :=
  match cra_pattern cfg with
  | None =>
      match text with
      | Some _ => mret true
      | None => rraise (Py TypeError)
      end
  | Some pat =>
      match re_compile pat with
      | None => rraise ReError
      | Some f =>
          match text with
          | Some t => mret (f t)
          | None => rraise (Py TypeError)
          end
      end
  end.

(** [self.uds_answer(data, request_header, use_headers, sp, flow_control)
    + sp + nl], added to the answer. *)
Definition add_uds (data : string) (fc : option string) (st : rstate)
    : R rstate :=
  a ← lift (uds_answer data (request_header st) (use_headers cfg) (sp cfg) fc);
  mret (add_answ (a ++ sp cfg ++ nl cfg) st).

(** Lines 1148-1158 and 1167-1177: the request of a [<pos_answer>] or
    [<neg_answer>] tag, written again in upper case digits. *)
Definition normal_request (tagname : string) (st : rstate)
    : R (step + string * rstate) :=
  if negb (some_text (request_data st)) then
    rlog ERROR ("Missing request with <" ++ tagname ++ "> tag: %s.");;
    mret (inl (Stop (Finished st false)))
  else
    match fromhex (or_empty (request_data st)) with
    | None =>
        rlog ERROR ("Invalid request %s related to response %s including <"
                    ++ tagname ++ "> tag.");;
        mret (inl (Stop (Returned "")))
    | Some bs =>
        let rd := upper (join "" (map fmt_02X bs)) in
        mret (inr (rd, set_request_data (Some rd) st))
    end.

(** Lines 1108-1185 and 1231-1233: a tag other than [<header>]. *)
Definition render_tag (i : ET.element) (t : string) (st : rstate) : R step :=
  let text := or_empty (ET.text i) in
  if String.eqb t "rh" then
    mret (Next (set_request_header (Some (VStr text)) st))
  else if String.eqb t "rd" then
    mret (Next (set_request_data (Some text) st))
  else if String.eqb t "string" then mret (Next (add_answ text st))
  else if String.eqb t "writeln" then
    mret (Next (add_answ (text ++ nl cfg) st))
  else if String.eqb t "space" then
    mret (Next (add_answ (text ++ sp cfg) st))
  else if String.eqb t "eval" || String.eqb t "exec" then
    st ← (if String.eqb t "exec" && do_write then
            write_to_device (answ st);; mret (set_answ "" st)
          else mret st);
    match ET.text i with
    | None => mret (Skip st)
    | Some tx =>
        let msg := strip tx in
        if negb (String.eqb msg "") then
          a ← rtry (v ← py_eval cfg st msg; mret (or_empty v))
                 (rtry (py_exec_globals msg;; mret "")
                    (rlog ERROR "Cannot execute '%s': %s";; mret ""));
          mret (Next (add_answ a st))
        else mret (Next st)
    end
  else if String.eqb t "flow" then
    st ← add_uds text (Some "30") st; mret (Next st)
  else if String.eqb t "answer" then
    st ← add_uds text None st; mret (Next st)
  else if String.eqb t "pos_answer" then
    r ← normal_request "pos_answer" st;
    match r with
    | inl s => mret s
    | inr (rd, st) =>
        match fromhex (slice_to 2 rd) with
        | None => rraise (Py ValueError)
        | Some [] => rraise IndexError
        | Some (b :: _) =>
            st ← add_uds (fmt_02X (b + 64) ++ slice 2 4 rd ++ text) None st;
            mret (Next st)
        end
    end
  else if String.eqb t "neg_answer" then
    r ← normal_request "neg_answer" st;
    match r with
    | inl s => mret s
    | inr (rd, st) =>
        st ← add_uds ("7F " ++ slice_to 2 rd ++ text) None st;
        mret (Next st)
    end
  else
    rlog ERROR ("Unknown tag " ++ dq ++ "%s" ++ dq ++ " in response "
                ++ dq ++ "%s" ++ dq);;
    mret (Next st).

(** Lines 1196-1230: the [<size>] and [<data>] or [<subd>] tags that
    follow a [<header>] tag; [None] when the loop is left. *)
Definition render_frame (i size data : ET.element) (st : rstate)
    : R (option rstate) :=
  let dt := lower (ET.tag data) in
  if negb (String.eqb (lower (ET.tag size)) "size")
     || (negb (String.eqb dt "data") && negb (String.eqb dt "subd")) then
    rlog ERROR
      "In %s, <size> and <data>/<subd> tags must follow the <header> tag.";;
    mret None
  else
    match ET.text size with
    | None => rraise (Py TypeError)
    | Some size_text =>
        match int16 size_text with
        | None =>
            rlog ERROR "Improper size %s for response %s: %s.";; mret None
        | Some int_size =>
            if negb (some_text (ET.text data)) then
              rlog ERROR "Missing data for response %s.";; mret None
            else
              let data_text := or_empty (ET.text data) in
              let unspaced_data := remove_whitespace data_text in
              if (int_size <? 16)
                 && negb (len unspaced_data =? int_size * 2) then
                rlog ERROR
                  "In response %s, mismatch between number of data digits %s and related length field %s.";;
                mret None
              else
                m ← match_cra (ET.text i);
                if m : bool then
                  mret (Some
                    (add_answ
                       ((if use_headers cfg then
                           or_empty (ET.text i) ++ sp cfg ++ size_text
                           ++ sp cfg
                         else "")
                        ++ (if negb (String.eqb (sp cfg) "") then data_text
                            else unspaced_data)
                        ++ sp cfg
                        ++ (if String.eqb dt "data" then nl cfg else "")) st))
                else mret (Some st)
        end
    end.

(** Lines 1101-1234: the loop over the children of the root. *)
Fixpoint render_loop (cs : list ET.element) (st : rstate) : R outcome :=
  match cs with
  | [] => mret (Finished (add_tail st) false)
  | i :: cs' =>
      let st := set_last (Some i) st in
      let t := lower (ET.tag i) in
      if String.eqb t "header" then
        let st := set_answers true st in
        match cs' with
        | size :: data :: cs'' =>
            r ← render_frame i size data st;
            match r with
            | Some st' => render_loop cs'' (add_tail st')
            | None => mret (Finished st true)
            end
        | _ =>
            rlog ERROR
              "Missing <size> or <data>/<subd> tags after <header> tag in %s.";;
            mret (Finished st true)
        end
      else
        r ← render_tag i t st;
        match r with
        | Next st' => render_loop cs' (add_tail st')
        | Skip st' => render_loop cs' st'
        | Stop out => mret out
        end
  end.

(** Lines 1235-1277: the end of the method. An incomplete response, or a
    frame response with nothing in it, is ["NO DATA"]; an empty answer
    gives [None]; otherwise the prompt is added and the answer written. *)
Definition render_end (out : outcome) : R (option string) :=
  match out with
  | Returned r => mret (Some r)
  | Finished st incomplete =>
      let a := if incomplete || (answers st && String.eqb (answ st) "")
               then "NO DATA" ++ nl cfg else answ st in
      if String.eqb a "" then mret None
      else
        c ← lift (gets counters);
        gt ← match c !! "cmd_linefeeds" with
             | None => mret false
             | Some v =>
                 match num v with
                 | Some n => mret (2 <? n)
                 | None => rraise (Py TypeError)
                 end
             end;
        let a := if gt : bool then a ++ ">" else a ++ nl cfg ++ ">" in
        (if do_write then write_to_device a else mret tt);;
        mret (Some a)
  end.

End Renderer.

(** [handle_response(resp, do_write, request_header, request_data)] *)
Definition handle_response
    (fromstring : string -> option ET.xml)
    (re_compile : string -> option (string -> bool))
    (py_eval : settings -> rstate -> string -> R (option string))
    (py_exec_globals : string -> R unit)
    (write_to_device : string -> R unit)
    (resp : string) (do_write : bool) (request_header : header_t)
    (request_data : option string) : R (option string) :=
  cfg ← read_settings;
  out ← match fromstring ("<xml>" ++ resp ++ "</xml>") with
        | None =>
            rlog ERROR ("Wrong response format for " ++ dq ++ "%s" ++ dq
                        ++ "; %s");;
            mret (Finished (mkR "" request_header request_data false None)
                    true)
        | Some root =>
            let a := if some_text (ET.root_text root)
                     then strip (or_empty (ET.root_text root)) else "" in
            render_loop re_compile py_eval py_exec_globals write_to_device
              cfg do_write (ET.children root)
              (mkR a request_header request_data false None)
        end;
  render_end write_to_device cfg do_write out.

End Render.

(** The end of an answer: the prompt, after a line end unless
    [cmd_linefeeds] is above 2; [None] when [cmd_linefeeds] holds a text,
    which cannot be compared with 2. *)
Definition prompt (cfg : Render.settings) (e : Elm) : option string :=
  match counters e !! "cmd_linefeeds" with
  | None => Some (Render.nl cfg ++ ">")
  | Some v =>
      match num v with
      | Some n => Some (if 2 <? n then ">" else Render.nl cfg ++ ">")
      | None => None
      end
  end.

(** What the tail of a child adds to the answer, and what a [<string>]
    child adds with its tail. *)
Definition tail_text (i : ET.element) : string :=
  if Render.some_text (ET.tail i) then Render.strip (Render.or_empty (ET.tail i))
  else "".

Definition string_text (i : ET.element) : string :=
  Render.or_empty (ET.text i) ++ tail_text i.

(** The answer of a response made of [<string>] children only: the text
    of the root, what the children add, and the tail of the last child
    once more. *)
Definition strings_answer (root : ET.xml) : string :=
  (if Render.some_text (ET.root_text root)
   then Render.strip (Render.or_empty (ET.root_text root)) else "")
  ++ concat_all (map string_text (ET.children root))
  ++ match List.last (map Some (ET.children root)) None with
     | Some i => tail_text i
     | None => ""
     end.

(** The text is written to the transport when [do_write] is set, and
    returned. *)
Definition deliver (write_to_device : string -> Render.R unit)
    (do_write : bool) (a : string) : Render.R (option string) :=
  (if do_write then write_to_device a else mret tt);;
  mret (Some a).

(** Sample collaborators of the renderer: a parser that knows five
    responses, no regular expression, Python text that cannot be run, and a
    transport that takes everything. *)
Definition sample_fromstring (s : string) : option ET.xml :=
  if String.eqb s "<xml><string>OK</string></xml>" then
    Some (ET.mkXml None [ET.mkElement "string" (Some "OK") None])
  else if String.eqb s "<xml><string>?</string></xml>" then
    Some (ET.mkXml None [ET.mkElement "string" (Some "?") None])
  else if String.eqb s "<xml><string>NO DATA</string></xml>" then
    Some (ET.mkXml None [ET.mkElement "string" (Some "NO DATA") None])
  else if String.eqb s "<xml><flow>20 00</flow></xml>" then
    Some (ET.mkXml None [ET.mkElement "flow" (Some "20 00") None])
  else if String.eqb s
            "<xml><header>7E8</header><size>03</size><data>41 0C 1A</data></xml>"
  then
    Some (ET.mkXml None [ET.mkElement "header" (Some "7E8") None;
                         ET.mkElement "size" (Some "03") None;
                         ET.mkElement "data" (Some "41 0C 1A") None])
  else None.

Definition no_regex (pattern : string) : option (string -> bool) := None.
Definition no_python {A : Type} (msg : string) : Render.R A :=
  Render.rraise (Render.Py PluginError).
Definition no_eval (cfg : Render.settings) (st : Render.rstate) (msg : string)
    : Render.R (option string) := no_python msg.
Definition sink (s : string) : Render.R unit := mret tt.

Definition handle_response0 :
    string -> bool -> header_t -> option string -> Render.R (option string) :=
  Render.handle_response sample_fromstring no_regex no_eval no_python sink.

(** The renderer as the engine calls it (lines 248, 643, 1322): an
    exception of the renderer is an exception of the caller. *)
Definition exn_of (x : Render.rexn) : exn :=
  match x with
  | Render.Py x => x
  | Render.IndexError => IndexError
  | Render.ReError => ReError
  end.

Definition unlift {A : Type} (m : Render.R A) : M A := fun e =>
  match m e with
  | (Render.ROk a, e') => (Ok a, e')
  | (Render.RRaise x, e') => (Raise (exn_of x), e')
  end.

Definition respond
    (fromstring : string -> option ET.xml)
    (re_compile : string -> option (string -> bool))
    (py_eval : Render.settings -> Render.rstate -> string
               -> Render.R (option string))
    (py_exec_globals : string -> Render.R unit)
    (write_to_device : string -> Render.R unit)
    (resp : string) (do_write : bool) (request_header : header_t)
    (request_data : option string) : M (option string) :=
  unlift (Render.handle_response fromstring re_compile py_eval py_exec_globals
            write_to_device resp do_write request_header request_data).

(** The emulator's methods with the renderer and its sample
    collaborators. *)
Definition respond0 :
    string -> bool -> header_t -> option string -> M (option string) :=
  respond sample_fromstring no_regex no_eval no_python sink.

Definition handle_request1 : string -> bool -> M hr_result :=
  handle_request ELM_R_OK_spec ELM_R_UNKNOWN_spec ST_spec respond0
    no_exec no_call no_plugin_init no_plugin_method.

Definition resolve1 :
    list (string * entry) -> header_t -> string -> option Z -> option Z ->
    bool -> M hr_result :=
  resolve ELM_R_OK_spec ELM_R_UNKNOWN_spec ST_spec respond0
    no_exec no_call no_plugin_init no_plugin_method.

(** The emulator after one turn of the main loop on the line ["0100"],
    which it does not know. *)
Definition Elm_turned : Elm :=
  snd (run_step ELM_R_OK_spec ELM_R_UNKNOWN_spec ST_spec respond0 no_exec
         no_call no_plugin_init no_plugin_method "0100" Elm1).

(** A session where a PCI byte is expected and no request header is set;
    a transport whose write raises, as [sendall] does on a connection that
    was reset (line 972 catches [BrokenPipeError] only); and the record of
    a task that raised (lines 1309-1318). *)
Definition Elm_no_header : Elm := with_catalog empty_catalog Elm_caf.

Definition broken_transport (s : string) : Render.R unit :=
  Render.rraise (Render.Py OSError).

Definition handle_request_broken : string -> bool -> M hr_result :=
  handle_request ELM_R_OK_spec ELM_R_UNKNOWN_spec ST_spec
    (respond sample_fromstring no_regex no_eval no_python broken_transport)
    no_exec no_call no_plugin_init no_plugin_method.

Definition task_failure : log_record :=
  (CRITICAL, "Error in task " ++ dq ++ "%s" ++ dq ++ ", header=" ++ dq ++ "%s"
             ++ dq ++ ", method=%s(): %s").

(** The XML parser reads the Flow Control template of a new task: one
    [<flow>] child holding the text [20 00]. *)
Definition parses_flow (fromstring : string -> option ET.xml) : Prop :=
  fromstring "<xml><flow>20 00</flow></xml>"
  = Some (ET.mkXml None [ET.mkElement "flow" (Some "20 00") None]).

(** The transport takes what is written to it: [write_to_device] returns
    and leaves the engine as it is, as it does on a serial port (lines
    978-986), where an error of the write is logged and nothing else. *)
Definition takes (write_to_device : string -> Render.R unit) : Prop :=
  forall (s : string) (e : Elm),
    exists e', write_to_device s e = (Render.ROk tt, e') /\ same_engine e' e.

(** What a [<string>] child does to the state of the loop. *)
Definition take_string (st : Render.rstate) (i : ET.element) : Render.rstate :=
  Render.add_tail
    (Render.add_answ (Render.or_empty (ET.text i))
       (Render.set_last (Some i) st)).

(** The text of a frame response: the header and the size when headers
    are shown, the data (without its whitespace when spaces are off), and
    the line end. *)
Definition frame_text (cfg : Render.settings) (header size data : string)
    : string :=
  (if Render.use_headers cfg
   then header ++ Render.sp cfg ++ size ++ Render.sp cfg else "")
  ++ (if negb (String.eqb (Render.sp cfg) "") then data
      else remove_whitespace data)
  ++ Render.sp cfg ++ Render.nl cfg.

(** The settings of an emulator with no counters: no filter, no headers,
    spaces, and a carriage return as the line end. *)
Definition settings0 : Render.settings :=
  Render.mkSettings None false " " (String cr "").

(** An emulator that shows the headers, and its settings. *)
Definition Elm_headers : Elm :=
  set_counters <["cmd_use_header" := VBool true]> Elm0.
Definition settings_headers : Render.settings :=
  Render.mkSettings None true " " (String cr "").

(** The row [val] is bound to another header than the one that is set. *)
Definition header_rejects (e : Elm) (header : header_t) (val : entry) : Prop :=
  exists hv h c,
    Header val = Some hv /\ header = Some h /\ truthy h = true /\
    counters e !! "cmd_set_header" = Some c /\ Py.eqb hv c = false.

(** The text of a Flow Control frame: the response header when headers
    are shown, the byte [30], the data and the line end. *)
Definition flow_text (cfg : Render.settings) (x : Z) (payload : list Z)
    : string :=
  ((if Render.use_headers cfg then hex_upper (x + 8) ++ Render.sp cfg else "")
   ++ "30" ++ Render.sp cfg
   ++ upper (join (Render.sp cfg) (map fmt_02X payload)))
  ++ Render.sp cfg ++ Render.nl cfg.

(** [handle_request] up to the scan of the catalog (lines 1369-1468): the
    triple it returns before the scan, or the header and the local
    variables the scan starts with. *)
Definition hr_front
    (handle_response :
       string -> bool -> header_t -> option string -> M (option string))
    (plugin_method :
       string -> Tasks.method -> header_t -> string -> option Z -> option Z ->
       M Tasks.ret_t)
    (cmd : string) (do_write : bool)
    : M (hr_result + header_t * hr_locals) :=
  let cmd := upper (remove_spaces cmd) in
  count "commands";;
  c ← gets counters;
  let header := c !! "cmd_set_header" in
  o ← gets ObdMessage;
  sc ← gets scenario;
  if negb (bool_decide (is_Some (dict_get sc o))) then
    logging ERROR "Unknown scenario %s";;
    mret (inl (header, cmd, Some ""))
  else
    '(header, cmd) ← hr_fcsm header cmd;
    r ← hr_pci header cmd;
    match r with
    | inl x => mret (inl x)
    | inr (cmd, length, frame) =>
        r ← hr_tasks handle_response plugin_method header cmd length frame
              do_write;
        match r with
        | inl x => mret (inl x)
        | inr l => mret (inr (header, l))
        end
    end.

(** The default configuration, as a request finds it: the counter
    [commands] stands for [c], the scenario is in the catalog, the
    first-come header mode is off, no PCI byte is expected, and no task
    runs on the header that is set. *)
Definition plain_session (e : Elm) (c : Z) : Prop :=
  hits e "commands" c /\
  is_Some (dict_get (scenario e) (ObdMessage e)) /\
  match counters e !! "cmd_fcsm" with Some v => truthy v | None => false end
  = false /\
  match counters e !! "cmd_caf" with Some v => negb (truthy v) | None => false end
  = false /\
  tasks e !! (counters e !! "cmd_set_header") = None.

(** The marker of an unknown command: [ST('NO DATA')] when the command
    reads as one or more hexadecimal bytes, [ELM_R_UNKNOWN] otherwise. *)
Definition unknown_marker_of (ELM_R_UNKNOWN : string) (ST : string -> string)
    (cmd : string) : string :=
  if truthy (len_hex cmd) then ST "NO DATA" else ELM_R_UNKNOWN.

(** A key that does not start with the letter of the [unknown_] counters. *)
Definition not_unknown (k : string) : Prop :=
  match k with
  | String "u" _ => False
  | _ => True
  end.

(** * Properties *)

Ltac munfold :=
  unfold mbind, mret, M_bind, M_ret, gets, modify, logging, raise,
    try_except in *.

Section Properties.

Variable ECU_ADDR_E : value.
Variables ELM_R_OK ELM_R_UNKNOWN : string.
Variable ST : string -> string.
Variable handle_response :
  string -> bool -> header_t -> option string -> M (option string).
Variable py_exec : string -> header_t -> string -> string -> M unit.
Variable call : string -> string -> string -> entry -> M string.
Variable plugin_init : string -> Tasks.t -> M Tasks.t.
Variable plugin_method :
  string -> Tasks.method -> header_t -> string -> option Z -> option Z ->
  M Tasks.ret_t.

Abbreviation handle_request' :=
  (handle_request ELM_R_OK ELM_R_UNKNOWN ST handle_response py_exec call
     plugin_init plugin_method).
Abbreviation run_step' :=
  (run_step ELM_R_OK ELM_R_UNKNOWN ST handle_response py_exec call
     plugin_init plugin_method).
Abbreviation process' :=
  (process ELM_R_OK ELM_R_UNKNOWN ST handle_response py_exec call
     plugin_init plugin_method).

(** ** The request validation *)

Lemma star_always (r : Re.regex) (s : string) :
  Re.re_match (Re.Star r) s = true.
Proof.
  unfold Re.re_match. cbn [Re.rmatch Re.star_loop].
  apply orb_true_r.
Qed.

(** C10: [validate] returns [True] for every input, so a turn of the
    main loop never takes its invalid-request branch: whatever line was
    read, the command the fast option makes of it is given to
    [handle_request] with [do_write] set, and the turn is what
    [handle_request] makes of it: its exception logged as critical, no
    rendering when it has no response, and its response rendered
    otherwise. The warning of the invalid-request branch is never what the
    turn ends with. A line that is not blank is the command as it was read,
    whatever its characters. *)
Theorem validate_always_true :
  (forall cmd : string, validate cmd = true) /\
  (forall (line : string) (e : Elm),
     match last_cmd line e with
     | (Raise x, e1) => run_step' line e = (Raise x, e1)
     | (Ok cmd, e1) =>
         match handle_request' cmd true e1 with
         | (Raise _, e2) =>
             run_step' line e
             = (Ok tt,
                add_log (CRITICAL, "Error while processing %s:\n%s\n%s") e2)
         | (Ok (_, _, None), e2) => run_step' line e = (Ok tt, e2)
         | (Ok (header, data, Some resp), e2) =>
             run_step' line e
             = (_ ← handle_response resp true header (Some data); mret tt) e2
         end
     end) /\
  (forall (line : string) (e : Elm),
     Re.re_match BLANK line = false ->
     last_cmd line e
     = (Ok line, set_counters <["cmd_last_cmd" := VStr line]> e)).
Proof.
  assert (H : forall cmd, validate cmd = true).
  { intros cmd. unfold validate, ELM_VALID_CHARS.
    now rewrite star_always. }
  split; [exact H|]. split.
  - intros line e. unfold run_step, mbind, M_bind.
    destruct (last_cmd line e) as [[cmd|x] e1]; [|reflexivity].
    rewrite H. unfold process, try_except, mbind, M_bind.
    destruct (handle_request' cmd true e1) as [[[[h d] [resp|]]|x] e2];
      reflexivity.
  - intros line e Hb. unfold last_cmd, mbind, M_bind, gets.
    now rewrite Hb.
Qed.

(** ** The adapter reset *)

Lemma reset_counters (e : Elm) (k : string) :
  counters (snd (reset ECU_ADDR_E e)) !! k =
  match presets e !! k with
  | Some v => Some v
  | None =>
      if bool_decide (k = "cmd_set_header") then Some ECU_ADDR_E
      else if bool_decide (k = "ELM_MIDS_A") then Some (VInt 0)
      else if bool_decide (k = "ELM_PIDS_A") then Some (VInt 0)
      else if String.prefix "cmd_" k then None
      else counters e !! k
  end.
Proof.
  unfold reset. munfold. cbn.
  rewrite lookup_union.
  destruct (presets e !! k) as [v|] eqn:Hp.
  { match goal with |- Some v ∪ ?x = _ => destruct x; reflexivity end. }
  rewrite (left_id None _).
  repeat (case_bool_decide; [subst; now simplify_map_eq|]).
  rewrite !lookup_insert_ne by congruence.
  destruct (String.prefix "cmd_" k) eqn:Hk.
  - apply map_lookup_filter_None. right. intros v _. cbn. now rewrite Hk.
  - destruct (counters e !! k) as [v|] eqn:Hc.
    + apply map_lookup_filter_Some. split; [exact Hc|]. cbn. now rewrite Hk.
    + apply map_lookup_filter_None. now left.
Qed.

(** C4: the reset returns normally; it removes every counter whose key
    starts with [cmd_] (such a key survives only as a restored default),
    sets the fixed defaults ([ELM_PIDS_A], [ELM_MIDS_A], the request
    header), restores every preset, keeps the other counters, and leaves
    the task table empty. *)
Theorem reset_law (e : Elm) :
  let e' := snd (reset ECU_ADDR_E e) in
  fst (reset ECU_ADDR_E e) = Ok tt /\
  tasks e' = ∅ /\
  (forall k v, presets e !! k = Some v -> counters e' !! k = Some v) /\
  (forall k, String.prefix "cmd_" k = true -> presets e !! k = None ->
             k <> "cmd_set_header" -> counters e' !! k = None) /\
  (presets e !! "cmd_set_header" = None ->
   counters e' !! "cmd_set_header" = Some ECU_ADDR_E) /\
  (forall k, k = "ELM_PIDS_A" \/ k = "ELM_MIDS_A" -> presets e !! k = None ->
             counters e' !! k = Some (VInt 0)) /\
  (forall k, String.prefix "cmd_" k = false -> presets e !! k = None ->
             k <> "ELM_PIDS_A" -> k <> "ELM_MIDS_A" ->
             counters e' !! k = counters e !! k) /\
  presets e' = presets e.
Proof.
  cbv zeta. split; [reflexivity|]. split; [reflexivity|].
  repeat split.
  - intros k v Hp. now rewrite reset_counters, Hp.
  - intros k Hk Hp Hne. rewrite reset_counters, Hp.
    repeat (case_bool_decide; [subst; try congruence; discriminate Hk|]).
    now rewrite Hk.
  - intros Hp. rewrite reset_counters, Hp. now rewrite bool_decide_eq_true_2.
  - intros k [-> | ->] Hp; rewrite reset_counters, Hp; reflexivity.
  - intros k Hk Hp H1 H2. rewrite reset_counters, Hp.
    repeat (case_bool_decide; [subst; try congruence; discriminate Hk|]).
    now rewrite Hk.
Qed.

(** ** Hexadecimal text *)

Lemma append_cons (x : ascii) (a b : string) :
  String x a ++ b = String x (a ++ b).
Proof. reflexivity. Qed.

Lemma append_nil_l (a : string) : "" ++ a = a.
Proof. reflexivity. Qed.

Lemma append_assoc (a b c : string) : (a ++ b) ++ c = a ++ (b ++ c).
Proof.
  induction a as [|x a IH]; [reflexivity|].
  now rewrite !append_cons, IH.
Qed.

Lemma append_nil_r (a : string) : a ++ "" = a.
Proof.
  induction a as [|x a IH]; [reflexivity|]. now rewrite append_cons, IH.
Qed.

Lemma hexval_facts (c : ascii) (v : Z) :
  hexval c = Some v ->
  is_space c = false /\ hexval (upper_char c) = Some v /\
  is_space (upper_char c) = false /\ upper_char (upper_char c) = upper_char c /\
  0 <= v < 16.
Proof.
  destruct c as [[] [] [] [] [] [] [] []]; vm_compute; intros H;
    try discriminate H; injection H as <-; repeat split; discriminate.
Qed.

Lemma fromhex_hex_text_aux (n : nat) :
  forall s bs, (String.length s <= n)%nat -> fromhex s = Some bs ->
               hex_text (remove_whitespace s) bs.
Proof.
  induction n as [|n IH]; intros s bs Hn H.
  - destruct s; [|cbn in Hn; lia]. injection H as <-. constructor.
  - destruct s as [|c s]; [injection H as <-; constructor|].
    cbn in H |- *. destruct (is_space c) eqn:Hc.
    + apply IH; [cbn in Hn; lia | exact H].
    + destruct (hexval c) as [hi|] eqn:Hhi; [|discriminate].
      destruct s as [|d s]; [discriminate|].
      destruct (hexval d) as [lo|] eqn:Hlo; [|discriminate].
      destruct (fromhex s) as [bs'|] eqn:Hs; [|discriminate].
      injection H as <-. cbn.
      destruct (hexval_facts d lo Hlo) as [-> _].
      constructor; [exact Hhi | exact Hlo |].
      apply IH; [cbn in Hn; lia | exact Hs].
Qed.

Lemma fromhex_hex_text (s : string) (bs : list Z) :
  fromhex s = Some bs -> hex_text (remove_whitespace s) bs.
Proof. apply (fromhex_hex_text_aux (String.length s)). lia. Qed.

Lemma hex_text_upper (s : string) (bs : list Z) :
  hex_text s bs -> hex_text (upper s) bs.
Proof.
  induction 1 as [|c d hi lo s bs Hc Hd _ IH]; cbn; [constructor|].
  constructor; [| |exact IH].
  - now destruct (hexval_facts c hi Hc) as (_ & ? & _).
  - now destruct (hexval_facts d lo Hd) as (_ & ? & _).
Qed.

Lemma hex_text_length (s : string) (bs : list Z) :
  hex_text s bs -> String.length s = (2 * List.length bs)%nat.
Proof. induction 1; cbn in *; lia. Qed.

Lemma hex_text_bytes (s : string) (bs : list Z) :
  hex_text s bs -> Forall (fun b => 0 <= b < 256) bs.
Proof.
  induction 1 as [|c d hi lo s bs Hc Hd _ IH]; constructor; [|exact IH].
  destruct (hexval_facts c hi Hc) as (_ & _ & _ & _ & ?).
  destruct (hexval_facts d lo Hd) as (_ & _ & _ & _ & ?). lia.
Qed.

(** Reading back a text of bytes that is followed by [rest]. *)
Lemma fromhex_hex_text_app (s rest : string) (bs : list Z) :
  hex_text s bs ->
  fromhex (s ++ rest) = option_map (app bs) (fromhex rest).
Proof.
  induction 1 as [|c d hi lo s bs Hc Hd _ IH].
  - rewrite append_nil_l. now destruct (fromhex rest).
  - rewrite !append_cons. cbn [fromhex].
    destruct (hexval_facts c hi Hc) as [-> _].
    rewrite Hc, Hd, IH. now destruct (fromhex rest).
Qed.

Lemma fromhex_space (rest : string) : fromhex (" " ++ rest) = fromhex rest.
Proof. reflexivity. Qed.

Lemma fmt_ok_all : forallb fmt_ok (map Z.of_nat (seq 0 256)) = true.
Proof. vm_compute. reflexivity. Qed.

Lemma fmt_02X_byte (b : Z) :
  0 <= b < 256 ->
  exists c d, fmt_02X b = String c (String d "") /\
              hexval c = Some (b / 16) /\ hexval d = Some (b mod 16) /\
              upper_char c = c /\ upper_char d = d /\
              (16 <= b -> hex_upper b = fmt_02X b).
Proof.
  intros Hb.
  assert (Hin : In b (map Z.of_nat (seq 0 256))).
  { apply in_map_iff. exists (Z.to_nat b). split; [lia|].
    apply in_seq. lia. }
  pose proof (proj1 (forallb_forall _ _) fmt_ok_all b Hin) as H.
  unfold fmt_ok in H.
  destruct (fmt_02X b) as [|c [|d [|]]]; try discriminate H.
  exists c, d.
  repeat (apply andb_prop in H; destruct H as [H ?]).
  repeat match goal with
         | X : bool_decide _ = true |- _ => apply bool_decide_eq_true_1 in X
         end.
  repeat split; try assumption.
  intros Hge. match goal with X : _ || _ = true |- _ => apply orb_prop in X;
    destruct X as [X|X]; apply bool_decide_eq_true_1 in X end; [lia|assumption].
Qed.

Lemma fmt_02X_hex_text (b : Z) : 0 <= b < 256 -> hex_text (fmt_02X b) [b].
Proof.
  intros Hb. destruct (fmt_02X_byte b Hb) as (c & d & -> & Hc & Hd & _).
  assert (E : [b] = [16 * (b / 16) + b mod 16])
    by (f_equal; apply Z.div_mod; lia).
  rewrite E. constructor; [exact Hc | exact Hd | constructor].
Qed.

Lemma upper_app (a b : string) : upper (a ++ b) = upper a ++ upper b.
Proof.
  induction a as [|x a IH]; [reflexivity|].
  rewrite append_cons. cbn [upper]. now rewrite IH, append_cons.
Qed.

(** The data part of an answer, read back. *)
Lemma fromhex_data (sp : string) (bs : list Z) :
  sp = "" \/ sp = " " ->
  Forall (fun b => 0 <= b < 256) bs ->
  forall rest,
    fromhex (upper (join sp (map fmt_02X bs)) ++ rest)
    = option_map (app bs) (fromhex rest).
Proof.
  intros Hsp Hbs. induction Hbs as [|b bs Hb Hbs IH]; intros rest.
  - cbn [map join upper]. rewrite append_nil_l. now destruct (fromhex rest).
  - pose proof (hex_text_upper _ _ (fmt_02X_hex_text b Hb)) as Hx.
    destruct bs as [|b' bs].
    + cbn [map join]. now rewrite (fromhex_hex_text_app _ _ _ Hx).
    + change (join sp (map fmt_02X (b :: b' :: bs)))
        with (fmt_02X b ++ sp ++ join sp (map fmt_02X (b' :: bs))).
      rewrite !upper_app, !append_assoc.
      rewrite (fromhex_hex_text_app _ _ _ Hx).
      assert (Hs : forall r, fromhex (upper sp ++ r) = fromhex r).
      { intros r. destruct Hsp as [-> | ->]; reflexivity. }
      rewrite Hs, IH. now destruct (fromhex rest).
Qed.

Lemma hex_text_80 : hex_text "80" [128].
Proof. apply (hex_cons "8" "0" 8 0); [reflexivity | reflexivity | constructor]. Qed.

(** The 29-bit answer before its checksum, read back. *)
Lemma fromhex_answer29 (sp H data : string) (b0 b1 b2 : Z) (payload : list Z) :
  sp = "" \/ sp = " " ->
  hex_text H [b0; b1; b2] ->
  Forall (fun b => 0 <= b < 256) payload ->
  let n := Z.of_nat (List.length payload) in
  n < 10 \/ 16 <= n < 256 ->
  forall rest,
    fromhex
      ((if n <? 10 then
          hex_upper (128 + n) ++ sp ++ slice 4 6 H ++ sp ++ slice 2 4 H ++ sp
          ++ upper (join sp (map fmt_02X payload))
        else
          "80 " ++ slice 4 6 H ++ sp ++ slice 2 4 H ++ sp ++ hex_upper n ++ sp
          ++ upper (join sp (map fmt_02X payload))) ++ rest)
    = option_map (app (uds29_body b2 b1 payload)) (fromhex rest).
Proof.
  intros Hsp HH Hp n Hn rest.
  assert (Hs : forall r, fromhex (sp ++ r) = fromhex r).
  { intros r. destruct Hsp as [-> | ->]; reflexivity. }
  inversion HH as [|c0 d0 h0 l0 s0 bs0 Hc0 Hd0 H0]; subst.
  inversion H0 as [|c1 d1 h1 l1 s1 bs1 Hc1 Hd1 H1]; subst.
  inversion H1 as [|c2 d2 h2 l2 s2 bs2 Hc2 Hd2 H2]; subst.
  inversion H2; subst.
  change (slice 4 6 _) with (String c2 (String d2 "")).
  change (slice 2 4 _) with (String c1 (String d1 "")).
  assert (T : hex_text (String c2 (String d2 "")) [16 * h2 + l2])
    by (constructor; [assumption | assumption | constructor]).
  assert (S : hex_text (String c1 (String d1 "")) [16 * h1 + l1])
    by (constructor; [assumption | assumption | constructor]).
  unfold uds29_body. fold n.
  destruct (n <? 10) eqn:Hlt.
  - apply Z.ltb_lt in Hlt.
    destruct (fmt_02X_byte (128 + n) ltac:(lia)) as (c & d & E & Hc & Hd & _ & _ & Hu).
    rewrite (Hu ltac:(lia)).
    pose proof (fmt_02X_hex_text (128 + n) ltac:(lia)) as X.
    rewrite !append_assoc.
    rewrite (fromhex_hex_text_app _ _ _ X), Hs.
    rewrite (fromhex_hex_text_app _ _ _ T), Hs.
    rewrite (fromhex_hex_text_app _ _ _ S), Hs.
    rewrite (fromhex_data sp payload Hsp Hp).
    now destruct (fromhex rest).
  - apply Z.ltb_ge in Hlt.
    destruct (fmt_02X_byte n ltac:(lia)) as (c & d & E & Hc & Hd & _ & _ & Hu).
    rewrite (Hu ltac:(lia)).
    pose proof (fmt_02X_hex_text n ltac:(lia)) as X.
    change ("80 " ++ ?r) with ("80" ++ " " ++ r).
    rewrite !append_assoc.
    rewrite (fromhex_hex_text_app _ _ _ hex_text_80), fromhex_space.
    rewrite (fromhex_hex_text_app _ _ _ T), Hs.
    rewrite (fromhex_hex_text_app _ _ _ S), Hs.
    rewrite (fromhex_hex_text_app _ _ _ X), Hs.
    rewrite (fromhex_data sp payload Hsp Hp).
    now destruct (fromhex rest).
Qed.

(** ** The UDS encoder, 29-bit form *)

(** X26: The 29-bit reply where [uds_answer] builds it: for a request
    header of six hexadecimal digits (the bytes [b0 b1 b2]) and a
    hexadecimal payload, with no flow-control byte: without header echo the call logs
    an error and gives the empty answer; with header echo the answer is, as
    bytes, the length field ([0x80 + n] for a payload under 10 bytes;
    [0x80] and, after the header pair, the byte [n] for a payload of 16 to
    255 bytes), the header pair swapped ([b2] then [b1]), the payload, and
    a last byte equal to the sum of all the bytes before it modulo 256.
    With a flow-control byte the answer is empty. *)
Theorem uds_answer_29bit (e : Elm) (h data sp : string) (b0 b1 b2 : Z)
    (payload : list Z) :
  fromhex h = Some [b0; b1; b2] ->
  fromhex data = Some payload ->
  sp = "" \/ sp = " " ->
  let n := Z.of_nat (List.length payload) in
  uds_answer data (Some (VStr h)) false sp None e
  = (Ok "", add_log (ERROR, "Unimplemented case.") e) /\
  (forall fc, fc <> "" ->
     fst (uds_answer data (Some (VStr h)) true sp (Some fc) e) = Ok "") /\
  (n < 10 \/ 16 <= n < 256 ->
   answer_bytes (fst (uds_answer data (Some (VStr h)) true sp None e))
   = Some (uds29_body b2 b1 payload
           ++ [Py.sum (uds29_body b2 b1 payload) mod 256])%list).
Proof.
  intros Hh Hd Hsp n.
  pose proof (hex_text_upper _ _ (fromhex_hex_text _ _ Hh)) as HH.
  pose proof (hex_text_bytes _ _ (fromhex_hex_text _ _ Hd)) as Hp.
  pose proof (hex_text_length _ _ HH) as HL. cbn [List.length Nat.mul Nat.add] in HL.
  unfold uds_answer. munfold. cbn [fst snd].
  set (H := upper (remove_whitespace h)) in *.
  assert (Hne : String.eqb H "" = false) by (destruct H; [discriminate HL | reflexivity]).
  rewrite Hne, Hd, HL. cbn [Nat.eqb andb negb].
  split; [reflexivity|]. split.
  - intros fc Hfc. apply String.eqb_neq in Hfc. rewrite Hfc. reflexivity.
  - intros Hn. fold n.
    pose proof (fromhex_answer29 sp H data b0 b1 b2 payload Hsp HH Hp Hn) as R.
    cbv zeta in R. fold n in R.
    set (answer := if n <? 10 then _ else _) in *.
    pose proof (R "") as R0. rewrite append_nil_r in R0. cbn [fromhex option_map] in R0.
    rewrite app_nil_r in R0. rewrite R0. cbn [fst answer_bytes].
    rewrite R. rewrite fromhex_space.
    assert (Hck : 0 <= Py.sum (uds29_body b2 b1 payload) mod 256 < 256)
      by (apply Z.mod_pos_bound; lia).
    pose proof (fromhex_hex_text_app _ "" _ (fmt_02X_hex_text _ Hck)) as C.
    rewrite append_nil_r in C. rewrite C. reflexivity.
Qed.

Lemma uds_answer_29bit_witness :
  uds_answer "62F190" (Some (VStr "DAF110")) false " " None Elm0
  = (Ok "", add_log (ERROR, "Unimplemented case.") Elm0) /\
  (forall fc, fc <> "" ->
     fst (uds_answer "62F190" (Some (VStr "DAF110")) true " " (Some fc) Elm0)
     = Ok "") /\
  (3 < 10 \/ 16 <= 3 < 256 ->
   answer_bytes (fst (uds_answer "62F190" (Some (VStr "DAF110")) true " " None
                        Elm0))
   = Some (uds29_body 16 241 [98; 241; 144]
           ++ [Py.sum (uds29_body 16 241 [98; 241; 144]) mod 256])%list).
Proof.
  apply (uds_answer_29bit Elm0 "DAF110" "62F190" " " 218 241 16 [98; 241; 144]).
  - reflexivity.
  - reflexivity.
  - right. reflexivity.
Defined.

(** C2: the extended length form is taken from 10 bytes on, not from 16,
    and writes the length with [hex(length)], one digit for 10 to 15
    bytes: the answer is then not a text of whole bytes, and the checksum
    line raises [ValueError]. The payloads of 9 and of 16 bytes on either
    side are answered, and so is the same payload of 12 bytes on a
    three-digit header, whose length is written with two digits. *)
Lemma uds_answer_29bit_slip :
  uds_answer "000102030405060708090A0B" (Some (VStr "DAF110")) true " " None
    Elm0
  = (Raise ValueError, Elm0) /\
  spec_uds29 16 241 [0; 1; 2; 3; 4; 5; 6; 7; 8; 9; 10; 11]
  = [140; 16; 241; 0; 1; 2; 3; 4; 5; 6; 7; 8; 9; 10; 11; 207] /\
  forallb
    (fun data =>
       match fst (uds_answer data (Some (VStr "DAF110")) true " " None Elm0) with
       | Raise ValueError => true
       | _ => false
       end)
    ["00010203040506070809"; "000102030405060708090A";
     "000102030405060708090A0B"; "000102030405060708090A0B0C";
     "000102030405060708090A0B0C0D"; "000102030405060708090A0B0C0D0E"]
  = true /\
  answer_bytes
    (fst (uds_answer "000102030405060708" (Some (VStr "DAF110")) true " " None
            Elm0))
  = Some (spec_uds29 16 241 [0; 1; 2; 3; 4; 5; 6; 7; 8]) /\
  answer_bytes
    (fst (uds_answer "000102030405060708090A0B0C0D0E0F" (Some (VStr "DAF110"))
            true " " None Elm0))
  = Some (spec_uds29 16 241 [0; 1; 2; 3; 4; 5; 6; 7; 8; 9; 10; 11; 12; 13; 14; 15]) /\
  fst (uds_answer "000102030405060708090A0B" (Some (VStr "7E0")) true " " None
         Elm0)
  = Ok "7E8 0C 00 01 02 03 04 05 06 07 08 09 0A 0B".
Proof. repeat split. Qed.

(** ** The size prefix of a request *)

Lemma star_loop_S (m : Re.matcher) (fuel : nat) (k : bool -> string -> bool)
    (b : bool) (s : string) :
  Re.star_loop m (S fuel) k b s
  = m (fun b' s' =>
         (String.length s' <? String.length s)%nat && Re.star_loop m fuel k b' s')
      b s
    || k b s.
Proof. reflexivity. Qed.

Lemma rmatch_Cls (ranges : list (ascii * ascii)) (k : bool -> string -> bool)
    (b : bool) (c : ascii) (s : string) :
  Re.rmatch (Re.Cls ranges) k b (String c s) = Re.in_class ranges c && k false s.
Proof. reflexivity. Qed.

Lemma star_class_all (ranges : list (ascii * ascii))
    (k : bool -> string -> bool) (s : string) :
  (forall b, k b "" = true) ->
  all_chars (Re.in_class ranges) s = true ->
  forall fuel b, (String.length s < fuel)%nat ->
    Re.star_loop (Re.rmatch (Re.Cls ranges)) fuel k b s = true.
Proof.
  intros Hk. induction s as [|c s IH]; intros Hall fuel b Hf.
  - destruct fuel; [cbn in Hf; lia|].
    rewrite star_loop_S, Hk. apply orb_true_r.
  - destruct fuel as [|fuel]; [cbn in Hf; lia|].
    cbn [all_chars] in Hall. apply andb_prop in Hall as [Hc Hs].
    rewrite star_loop_S, rmatch_Cls, Hc.
    rewrite (IH Hs fuel false) by (cbn in Hf; lia).
    replace (String.length s <? String.length (String c s))%nat with true
      by (symmetry; apply Nat.ltb_lt; cbn; lia).
    reflexivity.
Qed.

Lemma is_hex_sp_all (s : string) :
  all_chars hex_sp_char s = true -> is_hex_sp s = true.
Proof.
  intros H. unfold is_hex_sp, HEX_SP, Re.re_match.
  cbn [Re.rmatch andb]. apply star_class_all; [reflexivity | exact H | lia].
Qed.

Lemma hexval_facts2 (c : ascii) (v : Z) :
  hexval c = Some v ->
  hex_sp_char c = true /\ is_int_space c = false /\
  Ascii.eqb c "x" = false /\ Ascii.eqb c "X" = false /\
  Ascii.eqb c "_" = false /\ c <> "+"%char /\ c <> "-"%char /\
  c <> "T"%char.
Proof.
  destruct c as [[] [] [] [] [] [] [] []]; vm_compute; intros H;
    try discriminate H; repeat split; discriminate.
Qed.

Lemma int16_unsigned (c : ascii) (s : string) :
  is_int_space c = false -> c <> "+"%char -> c <> "-"%char ->
  int16 (String c s) = int_unsigned (String c s).
Proof.
  intros Hs Hp Hm. unfold int16. cbn [lstrip]. rewrite Hs.
  destruct c as [[] [] [] [] [] [] [] []]; try reflexivity; congruence.
Qed.

Lemma int_prefix_none (c d : ascii) (s : string) :
  Ascii.eqb d "x" = false -> Ascii.eqb d "X" = false ->
  int_prefix (String c (String d s)) = String c (String d s).
Proof.
  intros Hx HX.
  destruct c as [[] [] [] [] [] [] [] []]; try reflexivity.
  cbn [int_prefix]. now rewrite Hx, HX.
Qed.

(** [int] of two hexadecimal digits. *)
Lemma int16_hex2 (c d : ascii) (hi lo : Z) :
  hexval c = Some hi -> hexval d = Some lo ->
  int16 (String c (String d "")) = Some (16 * hi + lo).
Proof.
  intros Hc Hd.
  destruct (hexval_facts2 c hi Hc) as (_ & Hs & _ & _ & _ & Hp & Hm & _).
  destruct (hexval_facts2 d lo Hd) as (_ & _ & Hx & HX & _).
  rewrite int16_unsigned by assumption. unfold int_unsigned.
  rewrite int_prefix_none by assumption.
  cbn [int_digits]. rewrite Hc. cbn [int_digits]. rewrite Hd.
  cbn [int_digits andb negb]. f_equal; lia.
Qed.

(** What the block of lines 1402-1442 does with a request that starts with
    two hexadecimal digits and has something after them, when the
    [cmd_caf] counter is present and false. *)
Lemma hr_pci_cases (e : Elm) (header : header_t) (caf : value)
    (c1 c2 : ascii) (v1 v2 : Z) (payload : string) :
  counters e !! "cmd_caf" = Some caf -> truthy caf = false ->
  hexval c1 = Some v1 -> hexval c2 = Some v2 ->
  payload <> "" ->
  let cmd := String c1 (String c2 payload) in
  let size := 16 * v1 + v2 in
  hr_pci header cmd e =
  if size <? 16 then
    if len payload <? size * 2 then
      (Ok (inl (header, cmd, Some "")),
       add_log (ERROR, "In request %s, data %s has an improper length of %s bytes") e)
    else (Ok (inr (slice_to_Z (size * 2) payload, Some size, None)), e)
  else if size =? 16 then
    match int16 (slice_to 2 payload) with
    | None =>
        (Ok (inl (header, cmd, Some "")),
         add_log (ERROR, "Improper size %s for request %s: %s") e)
    | Some l => (Ok (inr (slice_from 2 payload, Some l, Some 0)), e)
    end
  else
    (Ok (inr (payload, None, if 32 <? size then Some (size - 32) else None)), e).
Proof.
  intros Hcaf Hf Hc1 Hc2 Hp cmd size.
  destruct (hexval_facts2 c1 v1 Hc1) as (Hh1 & _).
  destruct (hexval_facts2 c2 v2 Hc2) as (Hh2 & _ & _ & _ & _ & _ & _ & HT).
  unfold hr_pci. munfold. cbn [fst snd]. rewrite Hcaf, Hf.
  change (slice_to 2 cmd) with (String c1 (String c2 "")).
  change (slice_from 2 cmd) with payload.
  change (slice 2 4 cmd) with (slice_to 2 payload).
  change (slice_from 4 cmd) with (slice_from 2 payload).
  assert (HAT : String.eqb (String c1 (String c2 "")) "AT" = false).
  { apply String.eqb_neq. intros [= _ E]. now apply HT. }
  rewrite HAT, is_hex_sp_all by (cbn [all_chars]; now rewrite Hh1, Hh2).
  cbn [negb andb]. rewrite (int16_hex2 c1 c2 v1 v2 Hc1 Hc2). fold size.
  apply String.eqb_neq in Hp. rewrite Hp.
  destruct (size <? 16) eqn:H16.
  - destruct (len payload <? size * 2); [reflexivity|].
    assert (H32 : (32 <? size) = false) by (apply Z.ltb_ge; apply Z.ltb_lt in H16; lia).
    now rewrite H32.
  - destruct (size =? 16) eqn:E16.
    + destruct (int16 (slice_to 2 payload)); [|reflexivity].
      assert (H32 : (32 <? size) = false) by (apply Z.ltb_ge; apply Z.eqb_eq in E16; lia).
      now rewrite H32.
    + reflexivity.
Qed.




(** ** The first-come header mode *)

(** C8 (amended): with the [cmd_fcsm] counter set, a request whose first
    three characters are hexadecimal digits has them taken as the request
    header and removed from the command; the header is stored in
    [cmd_set_header], [cmd_use_header] is set to [True] and [cmd_caf] to
    [False]. With [cmd_caf] false the PCI-byte convention is on: the rest
    of the command is parsed for a size prefix, as any request is. *)
Theorem fcsm_header (e : Elm) (header : header_t) (fcsm : value)
    (c1 c2 c3 : ascii) (v1 v2 v3 : Z) (rest : string) :
  counters e !! "cmd_fcsm" = Some fcsm -> truthy fcsm = true ->
  hexval c1 = Some v1 -> hexval c2 = Some v2 -> hexval c3 = Some v3 ->
  let cmd := String c1 (String c2 (String c3 rest)) in
  let h := String c1 (String c2 (String c3 "")) in
  let e' := after_fcsm h e in
  hr_fcsm header cmd e = (Ok (Some (VStr h), rest), e') /\
  counters e' !! "cmd_set_header" = Some (VStr h) /\
  counters e' !! "cmd_use_header" = Some (VBool true) /\
  counters e' !! "cmd_caf" = Some (VBool false) /\
  (forall d1 d2 w1 w2 payload,
     rest = String d1 (String d2 payload) ->
     hexval d1 = Some w1 -> hexval d2 = Some w2 -> payload <> "" ->
     (16 * w1 + w2 < 16 -> (16 * w1 + w2) * 2 <= len payload ->
      hr_pci (Some (VStr h)) rest e'
      = (Ok (inr (slice_to (Z.to_nat ((16 * w1 + w2) * 2)) payload,
                  Some (16 * w1 + w2), None)), e')) /\
     (32 < 16 * w1 + w2 ->
      hr_pci (Some (VStr h)) rest e'
      = (Ok (inr (payload, None, Some (16 * w1 + w2 - 32))), e'))).
Proof.
  intros Hfc Ht Hc1 Hc2 Hc3 cmd h e'.
  destruct (hexval_facts2 c1 v1 Hc1) as (Hh1 & _).
  destruct (hexval_facts2 c2 v2 Hc2) as (Hh2 & _ & _ & _ & _ & _ & _ & HT).
  destruct (hexval_facts2 c3 v3 Hc3) as (Hh3 & _).
  assert (Hcaf : counters e' !! "cmd_caf" = Some (VBool false)).
  { unfold e'. cbn. now simplify_map_eq. }
  split; [|split; [|split; [|split; [exact Hcaf|]]]].
  - unfold hr_fcsm. munfold. cbn [fst snd]. rewrite Hfc, Ht.
    change (slice_to 2 cmd) with (String c1 (String c2 "")).
    change (slice_to 3 cmd) with h.
    change (slice_from 3 cmd) with rest.
    assert (HAT : String.eqb (String c1 (String c2 "")) "AT" = false).
    { apply String.eqb_neq. intros [= _ E]. now apply HT. }
    rewrite HAT, is_hex_sp_all
      by (unfold h; cbn [all_chars]; now rewrite Hh1, Hh2, Hh3).
    reflexivity.
  - unfold e'. cbn. now simplify_map_eq.
  - unfold e'. cbn. now simplify_map_eq.
  - intros d1 d2 w1 w2 payload -> Hd1 Hd2 Hp.
    pose proof (hr_pci_cases e' (Some (VStr h)) (VBool false) d1 d2 w1 w2
                  payload Hcaf eq_refl Hd1 Hd2 Hp) as H.
    cbv zeta in H. split.
    + intros H16 Hlen. rewrite H.
      replace (16 * w1 + w2 <? 16) with true by (symmetry; apply Z.ltb_lt; lia).
      replace (len payload <? (16 * w1 + w2) * 2) with false
        by (symmetry; apply Z.ltb_ge; lia).
      unfold slice_to_Z.
      destruct (hexval_facts d1 w1 Hd1) as (_ & _ & _ & _ & R1).
      destruct (hexval_facts d2 w2 Hd2) as (_ & _ & _ & _ & R2).
      replace ((16 * w1 + w2) * 2 <? 0) with false
        by (symmetry; apply Z.ltb_ge; lia).
      reflexivity.
    + intros H32. rewrite H.
      replace (16 * w1 + w2 <? 16) with false by (symmetry; apply Z.ltb_ge; lia).
      replace (16 * w1 + w2 =? 16) with false by (symmetry; apply Z.eqb_neq; lia).
      replace (32 <? 16 * w1 + w2) with true by (symmetry; apply Z.ltb_lt; lia).
      reflexivity.
Qed.

Lemma fcsm_header_witness :
  hr_fcsm None "7E0020100" Elm_fcsm
  = (Ok (Some (VStr "7E0"), "020100"), after_fcsm "7E0" Elm_fcsm) /\
  counters (after_fcsm "7E0" Elm_fcsm) !! "cmd_set_header" = Some (VStr "7E0") /\
  counters (after_fcsm "7E0" Elm_fcsm) !! "cmd_use_header" = Some (VBool true) /\
  counters (after_fcsm "7E0" Elm_fcsm) !! "cmd_caf" = Some (VBool false) /\
  (forall d1 d2 w1 w2 payload,
     "020100" = String d1 (String d2 payload) ->
     hexval d1 = Some w1 -> hexval d2 = Some w2 -> payload <> "" ->
     (16 * w1 + w2 < 16 -> (16 * w1 + w2) * 2 <= len payload ->
      hr_pci (Some (VStr "7E0")) "020100" (after_fcsm "7E0" Elm_fcsm)
      = (Ok (inr (slice_to (Z.to_nat ((16 * w1 + w2) * 2)) payload,
                  Some (16 * w1 + w2), None)), after_fcsm "7E0" Elm_fcsm)) /\
     (32 < 16 * w1 + w2 ->
      hr_pci (Some (VStr "7E0")) "020100" (after_fcsm "7E0" Elm_fcsm)
      = (Ok (inr (payload, None, Some (16 * w1 + w2 - 32))),
         after_fcsm "7E0" Elm_fcsm))).
Proof.
  apply (fcsm_header Elm_fcsm None (VBool true) "7" "E" "0" 7 14 0 "020100").
  - reflexivity.
  - reflexivity.
  - reflexivity.
  - reflexivity.
  - reflexivity.
Defined.

(** C8 as stated fails: after the header ["7E0"] is taken from the request
    ["7E0 02 01 00"], the rest ["020100"] is parsed for a size prefix (size
    2, command ["0100"]), where the claim has it left as it is. *)
Lemma fcsm_header_counterexample :
  hr_pci (Some (VStr "7E0")) "020100" (after_fcsm "7E0" Elm_fcsm)
  = (Ok (inr ("0100", Some 2, None)), after_fcsm "7E0" Elm_fcsm) /\
  fst (handle_request0 "7E0 02 01 00" true (with_catalog empty_catalog Elm_fcsm))
  = Ok (Some (VStr "7E0"), "0100", Some (ST_spec "NO DATA")) /\
  ("0100", Some 2, @None Z) <> ("020100", None, None).
Proof. repeat split. discriminate. Qed.

End Properties.

(** ** Unknown commands *)

Section Unknown.

Variables ELM_R_OK ELM_R_UNKNOWN : string.
Variable ST : string -> string.
Variable handle_response :
  string -> bool -> header_t -> option string -> M (option string).
Variable py_exec : string -> header_t -> string -> string -> M unit.
Variable call : string -> string -> string -> entry -> M string.
Variable plugin_init : string -> Tasks.t -> M Tasks.t.
Variable plugin_method :
  string -> Tasks.method -> header_t -> string -> option Z -> option Z ->
  M Tasks.ret_t.

Abbreviation resolve' :=
  (resolve ELM_R_OK ELM_R_UNKNOWN ST handle_response py_exec call
     plugin_init plugin_method).
Abbreviation unknown' := (unknown ELM_R_UNKNOWN ST).

(** With no matching row the scan of the catalog ends in the unknown
    branch, the state untouched. *)
Lemma resolve_no_match (l : list (string * entry)) (header : header_t)
    (cmd : string) (length frame : option Z) (w : bool) (e : Elm) :
  no_match l cmd ->
  resolve' l header cmd length frame w e = unknown' header cmd e.
Proof.
  induction 1 as [|[key val] l Hkv _ IH]; [reflexivity|].
  cbn [resolve]. cbn [snd] in Hkv. now rewrite Hkv.
Qed.

Lemma unknown_key_ne (x : string) : "unknown_" ++ x <> "cmd_set_header".
Proof. rewrite append_cons. discriminate. Qed.

Lemma append_R_ne (x : string) : x <> x ++ "_R".
Proof.
  intros E. apply (f_equal String.length) in E.
  assert (L : forall a b, String.length (a ++ b) = (String.length a + String.length b)%nat).
  { intros a b. induction a as [|c a IH]; [reflexivity|].
    rewrite append_cons. cbn [String.length]. now rewrite IH. }
  rewrite L in E. cbn in E. lia.
Qed.

Lemma count_hits (e : Elm) (k : string) (n : Z) :
  hits e k n ->
  count k e = (Ok tt, set_counters <[k := VInt (n + 1)]> e).
Proof.
  unfold hits, count. munfold.
  destruct (counters e !! k) as [v|]; intros H.
  - now rewrite H.
  - now subst n.
Qed.

Lemma escalations_app (l : list log_record) (r : log_record) :
  escalations (l ++ [r])
  = (escalations l + if bool_decide (r = escalation) then 1 else 0)%nat.
Proof.
  unfold escalations. rewrite List.filter_app, length_app. cbn [List.filter].
  now destruct (bool_decide (r = escalation)).
Qed.

Lemma bind_ok {A B : Type} (m : M A) (k : A -> M B) (e e' : Elm) (a : A) :
  m e = (Ok a, e') -> (m ≫= k) e = k a e'.
Proof. intros H. unfold mbind, M_bind. now rewrite H. Qed.

Lemma bind_raise {A B : Type} (m : M A) (k : A -> M B) (e e' : Elm) (x : exn) :
  m e = (Raise x, e') -> (m ≫= k) e = (Raise x, e').
Proof. intros H. unfold mbind, M_bind. now rewrite H. Qed.

Lemma bind_inv {A B : Type} (m : M A) (k : A -> M B) (e e' : Elm) (b : B) :
  (m ≫= k) e = (Ok b, e') ->
  exists a e1, m e = (Ok a, e1) /\ k a e1 = (Ok b, e').
Proof.
  unfold mbind, M_bind. destruct (m e) as [[a|x] e1]; intros H.
  - now exists a, e1.
  - discriminate H.
Qed.

Lemma gets_bind {A B : Type} (f : Elm -> A) (k : A -> M B) (e : Elm) :
  (gets f ≫= k) e = k (f e) e.
Proof. reflexivity. Qed.

Lemma os_call_next (e : Elm) (o : Forward.outcome) (l : list Forward.outcome) :
  Forward.os (forward e) = o :: l ->
  os_call e = (Ok o, set_forward (Forward.set_os l) e).
Proof. intros H. unfold os_call. rewrite gets_bind, H. reflexivity. Qed.

(** With no forwarder [send_receive_forward] returns [False] at once and
    touches nothing. *)
Lemma forward_none (i : string) (e : Elm) :
  no_forwarder e = true -> send_receive_forward i e = (Ok FwFalse, e).
Proof.
  unfold no_forwarder, send_receive_forward. rewrite gets_bind.
  intros H. apply andb_prop in H as [H1 H2].
  apply negb_true_iff in H1. rewrite H1, H2. reflexivity.
Qed.

(** On a connected socket, a send and a read that [send_receive_forward]
    survives. *)
Lemma forward_connected (i : string) (e : Elm) (o1 o2 : Forward.outcome)
    (l : list Forward.outcome) :
  i <> "" -> connected e = true ->
  Forward.os (forward e) = o1 :: o2 :: l ->
  sends o1 = true -> receives o2 = true ->
  send_receive_forward i e
  = (Ok (match o2 with
         | Forward.Fails _ => FwNone
         | _ => FwData (Forward.data o2)
         end),
     add_log (read_record o2)
       (add_log (send_record o1) (set_forward (Forward.set_os l) e))).
Proof.
  intros Hi C O S1 S2. unfold connected in C.
  apply andb_prop in C as [C C4]. apply andb_prop in C as [C C3].
  apply andb_prop in C as [C1 C2]. apply negb_true_iff in C1.
  apply String.eqb_neq in Hi.
  unfold send_receive_forward. rewrite gets_bind, C1, C2, C3, C4.
  cbn [negb orb]. rewrite (bind_ok _ _ e e tt) by reflexivity.
  rewrite gets_bind, C4, Hi. cbn [negb].
  set (e1 := set_forward (Forward.set_os (o2 :: l)) e).
  set (e2 := add_log (send_record o1) e1).
  assert (W : (o ← os_call;
               match o with
               | Forward.Fails BrokenPipeError =>
                   logging ERROR
                     "The network link of the OBDII interface dropped."
               | Forward.Fails x => raise x
               | _ => logging INFO "Write forward data: %s"
               end) e = (Ok tt, e2)).
  { rewrite (bind_ok _ _ _ _ _ (os_call_next e o1 (o2 :: l) O)).
    destruct o1 as [d|n|x]; try reflexivity.
    destruct x; try discriminate S1; reflexivity. }
  rewrite (bind_ok _ _ _ _ _ W).
  rewrite (bind_ok _ _ _ _ _ (os_call_next e2 o2 l eq_refl)).
  destruct o2 as [d|n|x]; try reflexivity.
  destruct x; try discriminate S2; reflexivity.
Qed.

(** The call of the forwarder when it returns. *)
Lemma send_receive_forward_next (i : string) (e : Elm) :
  i <> "" -> forwards 1 e = true ->
  send_receive_forward i e = (Ok (next_forward e), forwarded e).
Proof.
  intros Hi H. unfold forwards in H. unfold next_forward, forwarded.
  destruct (no_forwarder e) eqn:N; [now apply forward_none|].
  cbn [orb] in H. apply andb_prop in H as [C A].
  destruct (Forward.os (forward e)) as [|o1 [|o2 l]] eqn:O;
    try discriminate A.
  cbn [answering] in A. rewrite andb_true_r in A.
  apply andb_prop in A as [A1 A2].
  rewrite (forward_connected i e o1 o2 l Hi C O A1 A2).
  now destruct o2.
Qed.

(** A call of the forwarder that returns leaves the engine as it is and
    logs no warning. *)
Lemma forwarded_facts (e : Elm) :
  counters (forwarded e) = counters e /\ tasks (forwarded e) = tasks e /\
  sortedOBDMsg (forwarded e) = sortedOBDMsg e /\
  ObdMessage (forwarded e) = ObdMessage e /\
  scenario (forwarded e) = scenario e /\
  threadState (forwarded e) = threadState e /\
  escalations (log (forwarded e)) = escalations (log e).
Proof.
  unfold forwarded. destruct (no_forwarder e); [repeat split|].
  destruct (Forward.os (forward e)) as [|o1 [|o2 l]]; try (repeat split; fail).
  repeat split. cbn [log add_log set_forward].
  rewrite !escalations_app.
  rewrite !bool_decide_eq_false_2; [lia| |].
  - destruct o2; discriminate.
  - destruct o1; discriminate.
Qed.

Lemma forwards_S (k : nat) (e : Elm) :
  forwards (S k) e = true ->
  forwards 1 e = true /\ forwards k (forwarded e) = true.
Proof.
  unfold forwards, forwarded.
  destruct (no_forwarder e) eqn:N; cbn [orb].
  { intros _. split; [reflexivity|]. now rewrite N. }
  intros H. apply andb_prop in H as [C A].
  destruct (Forward.os (forward e)) as [|o1 [|o2 l]] eqn:O;
    try discriminate A.
  cbn [answering] in A. apply andb_prop in A as [A1 A3].
  split.
  - rewrite C. cbn [answering andb]. now rewrite A1.
  - apply orb_true_iff. right.
    change (connected (add_log (read_record o2)
                         (add_log (send_record o1)
                            (set_forward (Forward.set_os l) e))))
      with (connected e).
    rewrite C. exact A3.
Qed.

(** One pass through the unknown branch (lines 1573-1602) for a command
    that is not empty, when the forwarder returns. *)
Lemma unknown_run (header : header_t) (cmd : string) (e : Elm) (n : Z) :
  cmd <> "" ->
  hits e (unknown_key cmd) n ->
  (forall v, header = Some v -> truthy v = true ->
             is_Some (counters e !! "cmd_set_header")) ->
  forwards 1 e = true ->
  let ht := match header with Some v => truthy v | None => false end in
  unknown' header cmd e
  = if truthy (len_hex cmd) then
      (Ok (header, cmd, Some (ST "NO DATA")),
       after_unknown cmd n
         (INFO, if ht then "Unknown request: %s, header=%s"
                else "Unknown request: %s") e)
    else
      (Ok (header, cmd, Some ELM_R_UNKNOWN),
       after_unknown cmd n
         (INFO, if ht then "Unknown ELM command: %s, header=%s"
                else "Unknown ELM command: %s") e).
Proof.
  intros Hcmd Hhits Hhdr Hfw ht.
  unfold unknown, after_unknown. fold (unknown_key cmd).
  set (key := unknown_key cmd) in *.
  assert (K1 : key <> "cmd_set_header") by apply unknown_key_ne.
  assert (K2 : key ++ "_R" <> "cmd_set_header").
  { unfold key, unknown_key. rewrite append_assoc. apply unknown_key_ne. }
  assert (K3 : key <> key ++ "_R") by apply append_R_ne.
  assert (Hi : cmd ++ String cr "" <> "").
  { destruct cmd; [congruence|]. rewrite append_cons. discriminate. }
  apply String.eqb_neq in Hcmd.
  rewrite (bind_ok _ _ _ _ _ (count_hits e key n Hhits)), Hcmd.
  set (e1 := set_counters <[key := VInt (n + 1)]> e).
  assert (Hfw1 : forwards 1 e1 = true) by exact Hfw.
  rewrite (bind_ok _ _ _ _ _ (send_receive_forward_next _ e1 Hi Hfw1)).
  set (fw := next_forward e1). set (e2 := forwarded e1).
  destruct (forwarded_facts e1) as (C2 & _).
  fold e2 in C2.
  set (e3 := match fw with
             | FwFalse => e2
             | _ => set_counters <[key ++ "_R" := VStr (repr_fw fw)]> e2
             end).
  assert (S1 : match fw with
               | FwFalse => mret tt
               | _ => modify (set_counters <[key ++ "_R" := VStr (repr_fw fw)]>)
               end e2 = (Ok tt, e3)) by (unfold e3; now destruct fw).
  rewrite (bind_ok _ _ _ _ _ S1).
  assert (C3 : counters e3 !! key = Some (VInt (n + 1))).
  { unfold e3. destruct fw; cbn [counters set_counters];
      rewrite ?lookup_insert_ne by congruence; rewrite C2;
      apply lookup_insert_eq. }
  assert (H3 : counters e3 !! "cmd_set_header" = counters e !! "cmd_set_header").
  { unfold e3. destruct fw; cbn [counters set_counters];
      rewrite ?lookup_insert_ne by congruence; rewrite C2; unfold e1;
      cbn [counters set_counters]; now rewrite lookup_insert_ne by congruence. }
  set (e4 := if escalates fw && (n =? 0) then add_log escalation e3 else e3).
  assert (S2 : match fw with
               | FwFalse => mret tt
               | _ =>
                   let text := match fw with FwData x => x | _ => "" end in
                   if negb (Re.re_match NO_DATA_RE text)
                      && negb (Re.re_match QUESTION_RE text)
                   then
                     n0 ← counters_at key;
                     if Py.eqb n0 (VInt 1)
                     then logging WARNING "Missing data in dictionary: %s. Answer:\n%s"
                     else mret tt
                   else mret tt
               end e3 = (Ok tt, e4)).
  { unfold e4. destruct fw as [| |x]; [reflexivity| |].
    - cbn [escalates andb]. cbv zeta.
      change (negb (Re.re_match NO_DATA_RE "") && negb (Re.re_match QUESTION_RE ""))
        with true. cbv iota.
      unfold counters_at. munfold. rewrite C3. cbn [Py.eqb num].
      replace (n + 1 =? 1) with (n =? 0) by (destruct (Z.eqb_spec n 0); lia).
      now destruct (n =? 0).
    - cbn [escalates]. cbv zeta.
      destruct (negb (Re.re_match NO_DATA_RE x) && negb (Re.re_match QUESTION_RE x));
        [|reflexivity].
      unfold counters_at. munfold. rewrite C3. cbn [Py.eqb num andb].
      replace (n + 1 =? 1) with (n =? 0) by (destruct (Z.eqb_spec n 0); lia).
      now destruct (n =? 0). }
  rewrite (bind_ok _ _ _ _ _ S2).
  assert (H4 : counters e4 !! "cmd_set_header" = counters e !! "cmd_set_header").
  { unfold e4. now destruct (escalates fw && (n =? 0)). }
  assert (HH : forall a b : string,
             (if ht then _ ← counters_at "cmd_set_header"; logging INFO a
              else logging INFO b) e4
             = (Ok tt, add_log (INFO, if ht then a else b) e4)).
  { intros a b. unfold ht in *. destruct header as [v|]; [|reflexivity].
    destruct (truthy v) eqn:Tv; [|reflexivity].
    destruct (Hhdr v eq_refl Tv) as [x Hx].
    unfold counters_at. munfold. now rewrite H4, Hx. }
  fold ht.
  destruct (truthy (len_hex cmd)); now rewrite (bind_ok _ _ _ _ _ (HH _ _)).
Qed.

(** The empty command (lines 1574-1579): it is counted and answered with
    the empty response; the forwarder is not called. *)
Lemma unknown_empty (header : header_t) (e : Elm) (n : Z) :
  hits e (unknown_key "") n ->
  unknown' header "" e
  = (Ok (header, "", Some ""),
     add_log (INFO, "No ELM command")
       (set_counters <[unknown_key "" := VInt (n + 1)]> e)).
Proof.
  intros Hn. unfold unknown. fold (unknown_key "").
  now rewrite (bind_ok _ _ _ _ _ (count_hits e _ n Hn)).
Qed.


Lemma hr_fcsm_off (header : header_t) (cmd : string) (e : Elm) :
  match counters e !! "cmd_fcsm" with Some v => truthy v | None => false end
  = false ->
  hr_fcsm header cmd e = (Ok (header, cmd), e).
Proof. intros H. unfold hr_fcsm. rewrite gets_bind, H. reflexivity. Qed.

Lemma hr_pci_off (header : header_t) (cmd : string) (e : Elm) :
  match counters e !! "cmd_caf" with Some v => negb (truthy v) | None => false end
  = false ->
  hr_pci header cmd e = (Ok (inr (cmd, None, None)), e).
Proof. intros H. unfold hr_pci. rewrite gets_bind, H. reflexivity. Qed.

(** A request that is not a First Frame, on a header with no task, goes
    past the task block as it is. *)
Lemma hr_tasks_none (header : header_t) (cmd : string) (length frame : option Z)
    (w : bool) (e : Elm) :
  tasks e !! header = None ->
  length = None \/ frame = None ->
  hr_tasks handle_response plugin_method header cmd length frame w e
  = (Ok (inr (cmd, length, frame)), e).
Proof.
  intros Ht Hlf. unfold hr_tasks.
  assert (E : bool_decide (length <> None) && bool_decide (frame <> None) = false).
  { destruct Hlf as [-> | ->]; [reflexivity|]. apply andb_false_r. }
  rewrite (bind_ok _ _ e e tt)
    by (unfold hr_tasks_new; now rewrite gets_bind, <- andb_assoc, E, andb_false_r).
  unfold hr_tasks_active. rewrite gets_bind, Ht. reflexivity.
Qed.

(** A request in the default configuration (no first-come header, no PCI
    byte, no task on the header) is counted and looked up in the sorted
    catalog as it is, upper-cased and without spaces. *)
Lemma handle_request_plain (raw : string) (w : bool) (e : Elm) (k : Z) :
  hits e "commands" k ->
  is_Some (dict_get (scenario e) (ObdMessage e)) ->
  match counters e !! "cmd_fcsm" with Some v => truthy v | None => false end
  = false ->
  match counters e !! "cmd_caf" with Some v => negb (truthy v) | None => false end
  = false ->
  tasks e !! (counters e !! "cmd_set_header") = None ->
  handle_request ELM_R_OK ELM_R_UNKNOWN ST handle_response py_exec call
    plugin_init plugin_method raw w e
  = resolve' (sortedOBDMsg e) (counters e !! "cmd_set_header")
      (upper (remove_spaces raw)) None None w
      (set_counters <["commands" := VInt (k + 1)]> e).
Proof.
  intros Hk Hsc Hf Hc Ht. unfold handle_request.
  rewrite (bind_ok _ _ _ _ _ (count_hits e "commands" k Hk)).
  set (e1 := set_counters <["commands" := VInt (k + 1)]> e).
  rewrite !gets_bind. cbn [ObdMessage scenario e1 set_counters].
  rewrite (bool_decide_eq_true_2 _ Hsc). cbn [negb].
  assert (L : forall x, x <> "commands" -> counters e1 !! x = counters e !! x).
  { intros x Hx. unfold e1. cbn. now rewrite lookup_insert_ne. }
  change (counters e1) with (<["commands" := VInt (k + 1)]> (counters e)).
  rewrite lookup_insert_ne by discriminate.
  rewrite (bind_ok _ _ _ _ _ (hr_fcsm_off _ _ e1 ltac:(rewrite L by discriminate; exact Hf))).
  rewrite (bind_ok _ _ _ _ _ (hr_pci_off _ _ e1 ltac:(rewrite L by discriminate; exact Hc))).
  rewrite (bind_ok _ _ _ _ _ (hr_tasks_none _ _ None None w e1 Ht (or_introl eq_refl))).
  rewrite gets_bind. reflexivity.
Qed.

Lemma unknown_ne (x k : string) : not_unknown k -> "unknown_" ++ x <> k.
Proof. intros H E. rewrite append_cons in E. subst k. exact H. Qed.

Lemma forwards_ext (k : nat) (a b : Elm) :
  forward a = forward b -> forwards k a = forwards k b.
Proof. intros E. unfold forwards, no_forwarder, connected. now rewrite E. Qed.

Lemma forwarded_counters (f : gmap string value -> gmap string value) (e : Elm) :
  forward (forwarded (set_counters f e)) = forward (forwarded e).
Proof.
  unfold forwarded.
  change (no_forwarder (set_counters f e)) with (no_forwarder e).
  destruct (no_forwarder e); [reflexivity|].
  change (forward (set_counters f e)) with (forward e).
  now destruct (Forward.os (forward e)) as [|o1 [|o2 l]].
Qed.

Lemma after_unknown_facts (cmd : string) (n : Z) (a : string) (e : Elm) :
  let e' := after_unknown cmd n (INFO, a) e in
  counters e' !! unknown_key cmd = Some (VInt (n + 1)) /\
  (forall k, not_unknown k -> counters e' !! k = counters e !! k) /\
  tasks e' = tasks e /\ sortedOBDMsg e' = sortedOBDMsg e /\
  ObdMessage e' = ObdMessage e /\ scenario e' = scenario e /\
  threadState e' = threadState e /\
  forward e' = forward (forwarded e) /\
  escalations (log e')
  = (escalations (log e)
     + if escalates (next_forward e) && (n =? 0)%Z then 1 else 0)%nat.
Proof.
  unfold after_unknown. set (key := unknown_key cmd).
  set (e1 := set_counters <[key := VInt (n + 1)]> e).
  assert (K3 : key <> key ++ "_R") by apply append_R_ne.
  assert (KU : forall k, not_unknown k -> key <> k /\ key ++ "_R" <> k).
  { intros k Hk. split; [now apply unknown_ne|].
    unfold key, unknown_key. rewrite append_assoc. now apply unknown_ne. }
  destruct (forwarded_facts e1) as (F1 & F2 & F3 & F4 & F5 & F6 & F7).
  pose proof (forwarded_counters <[key := VInt (n + 1)]> e) as F8.
  fold e1 in F8.
  change (next_forward e1) with (next_forward e).
  cbv zeta. set (e2 := forwarded e1) in *.
  assert (E : escalations (log e2 ++ [(INFO, a)]) = escalations (log e)).
  { rewrite escalations_app, bool_decide_eq_false_2 by discriminate.
    rewrite F7. change (log e1) with (log e). lia. }
  assert (E2 : escalations ((log e2 ++ [escalation]) ++ [(INFO, a)])
               = (escalations (log e) + 1)%nat).
  { rewrite !escalations_app, bool_decide_eq_true_2 by reflexivity.
    rewrite bool_decide_eq_false_2 by discriminate. rewrite F7.
    change (log e1) with (log e). lia. }
  destruct (next_forward e) as [| |x]; cbn [escalates andb];
    try destruct (negb (Re.re_match NO_DATA_RE x) && negb (Re.re_match QUESTION_RE x));
    cbn [andb]; try destruct (n =? 0);
    cbn [add_log set_counters counters tasks sortedOBDMsg ObdMessage scenario
         threadState forward log];
    rewrite ?Nat.add_0_r; rewrite ?F1, ?F2, ?F3, ?F4, ?F5, ?F6, ?F8;
    (split; [cbn [e1 counters set_counters];
             rewrite ?lookup_insert_ne by congruence; apply lookup_insert_eq|]);
    (split; [intros k Hk; destruct (KU k Hk) as [U1 U2];
             cbn [e1 counters set_counters];
             now rewrite ?lookup_insert_ne by congruence|]);
    repeat split; assumption.
Qed.




(** In the default configuration the front hands the request to the scan
    as it is, upper-cased and without spaces, once it is counted. *)
Lemma hr_front_plain (raw : string) (w : bool) (e : Elm) (c : Z) :
  plain_session e c ->
  hr_front handle_response plugin_method raw w e
  = (Ok (inr (counters e !! "cmd_set_header",
              (upper (remove_spaces raw), None, None))),
     set_counters <["commands" := VInt (c + 1)]> e).
Proof.
  intros (Hk & Hsc & Hf & Hc & Ht). unfold hr_front.
  rewrite (bind_ok _ _ _ _ _ (count_hits e "commands" c Hk)).
  set (e1 := set_counters <["commands" := VInt (c + 1)]> e).
  rewrite !gets_bind. cbn [ObdMessage scenario e1 set_counters].
  rewrite (bool_decide_eq_true_2 _ Hsc). cbn [negb].
  assert (L : forall x, x <> "commands" -> counters e1 !! x = counters e !! x).
  { intros x Hx. unfold e1. cbn. now rewrite lookup_insert_ne. }
  change (counters e1) with (<["commands" := VInt (c + 1)]> (counters e)).
  rewrite lookup_insert_ne by discriminate.
  rewrite (bind_ok _ _ _ _ _ (hr_fcsm_off _ _ e1 ltac:(rewrite L by discriminate; exact Hf))).
  rewrite (bind_ok _ _ _ _ _ (hr_pci_off _ _ e1 ltac:(rewrite L by discriminate; exact Hc))).
  rewrite (bind_ok _ _ _ _ _ (hr_tasks_none _ _ None None w e1 Ht (or_introl eq_refl))).
  reflexivity.
Qed.

Abbreviation marker' := (unknown_marker_of ELM_R_UNKNOWN ST).
Abbreviation hr_front' := (hr_front handle_response plugin_method).
Abbreviation handle' :=
  (handle_request ELM_R_OK ELM_R_UNKNOWN ST handle_response py_exec call
     plugin_init plugin_method).


(** The unknown branch run [k] times on a counter that holds [n], while
    the forwarder returns. *)
Lemma repeat_unknown (l : list (string * entry)) (header : header_t)
    (cmd : string) (length frame : option Z) (w : bool) (k : nat) :
  no_match l cmd -> cmd <> "" ->
  forall (e : Elm) (n : Z),
    0 <= n ->
    hits e (unknown_key cmd) n ->
    (forall v, header = Some v -> truthy v = true ->
               is_Some (counters e !! "cmd_set_header")) ->
    forwards k e = true ->
    let r := repeat_request k (resolve' l header cmd length frame w) e in
    fst r = Ok tt /\
    counters (snd r) !! unknown_key cmd
    = (if (0 <? k)%nat then Some (VInt (n + Z.of_nat k))
       else counters e !! unknown_key cmd) /\
    escalations (log (snd r))
    = (escalations (log e)
       + if (0 <? k)%nat && escalates (next_forward e) && (n =? 0)%Z
         then 1 else 0)%nat.
Proof.
  intros Hl Hcmd. induction k as [|k IH]; intros e n Hn0 Hn Hh Hfw.
  - cbn [repeat_request]. cbv zeta. cbn [fst snd Nat.ltb Nat.leb andb].
    rewrite Nat.add_0_r. repeat split.
  - cbv zeta. cbn [repeat_request].
    destruct (forwards_S k e Hfw) as (Hf1 & Hfk).
    assert (R : exists a x,
               resolve' l header cmd length frame w e
               = (Ok x, after_unknown cmd n (INFO, a) e)).
    { rewrite (resolve_no_match l header cmd length frame w e Hl).
      rewrite (unknown_run header cmd e n Hcmd Hn Hh Hf1).
      destruct (truthy (len_hex cmd)); eauto. }
    destruct R as (a & x & R). rewrite (bind_ok _ _ _ _ _ R).
    destruct (after_unknown_facts cmd n a e)
      as (F1 & F2 & _ & _ & _ & _ & _ & F8 & F9).
    set (e1 := after_unknown cmd n (INFO, a) e) in *.
    specialize (IH e1 (n + 1) ltac:(lia)).
    destruct IH as (I1 & I2 & I3).
    { unfold hits. now rewrite F1. }
    { intros v Hv Tv. rewrite F2 by exact I. exact (Hh v Hv Tv). }
    { now rewrite (forwards_ext k e1 (forwarded e) F8). }
    split; [exact I1|]. split.
    + rewrite I2, F1. cbn [Nat.ltb Nat.leb].
      destruct k as [|k]; cbn [Nat.ltb Nat.leb]; do 2 f_equal; lia.
    + rewrite I3, F9.
      replace (n + 1 =? 0) with false by (symmetry; apply Z.eqb_neq; lia).
      rewrite andb_false_r. cbn [Nat.ltb Nat.leb andb]. lia.
Qed.

Lemma plain_session_after (e e' : Elm) (c : Z) :
  plain_session e c ->
  (forall k, not_unknown k -> k <> "commands" ->
             counters e' !! k = counters e !! k) ->
  counters e' !! "commands" = Some (VInt (c + 1)) ->
  tasks e' = tasks e -> ObdMessage e' = ObdMessage e ->
  scenario e' = scenario e ->
  plain_session e' (c + 1).
Proof.
  intros (Hk & Hsc & Hf & Hc & Ht) L C T O S.
  split; [unfold hits; now rewrite C|]. split; [now rewrite S, O|].
  split; [now rewrite L by (exact I || discriminate)|].
  split; [now rewrite L by (exact I || discriminate)|].
  now rewrite T, L by (exact I || discriminate).
Qed.

(** The same unknown request handled [k] times in the default
    configuration, on a counter that holds [n]. *)
Lemma repeat_handle_unknown (raw : string) (w : bool) (k : nat) :
  forall (e : Elm) (c n : Z),
    plain_session e c ->
    no_match (sortedOBDMsg e) (upper (remove_spaces raw)) ->
    0 <= n ->
    hits e (unknown_key (upper (remove_spaces raw))) n ->
    (upper (remove_spaces raw) <> "" -> forwards k e = true) ->
    let r := repeat_request k (handle' raw w) e in
    fst r = Ok tt /\
    counters (snd r) !! unknown_key (upper (remove_spaces raw))
    = (if (0 <? k)%nat then Some (VInt (n + Z.of_nat k))
       else counters e !! unknown_key (upper (remove_spaces raw))) /\
    escalations (log (snd r))
    = (escalations (log e)
       + if (0 <? k)%nat && negb (String.eqb (upper (remove_spaces raw)) "")
            && escalates (next_forward e) && (n =? 0)%Z
         then 1 else 0)%nat.
Proof.
  set (cmd := upper (remove_spaces raw)).
  induction k as [|k IH]; intros e c n Hp Hl Hn0 Hn Hfw.
  - cbn [repeat_request]. cbv zeta. cbn [fst snd Nat.ltb Nat.leb andb].
    rewrite Nat.add_0_r. repeat split.
  - cbv zeta. cbn [repeat_request].
    pose proof Hp as (Hk & Hsc & Hf & Hc & Ht).
    set (e1 := set_counters <["commands" := VInt (c + 1)]> e).
    set (header := counters e !! "cmd_set_header").
    assert (Hne : unknown_key cmd <> "commands") by (now apply unknown_ne).
    assert (Hn1 : hits e1 (unknown_key cmd) n).
    { unfold hits, e1 in *. cbn. now rewrite lookup_insert_ne by congruence. }
    assert (R : exists e2,
               handle' raw w e = (Ok (header, cmd,
                                      Some (if String.eqb cmd "" then ""
                                            else marker' cmd)), e2) /\
               counters e2 !! unknown_key cmd = Some (VInt (n + 1)) /\
               (forall x, not_unknown x -> counters e2 !! x = counters e1 !! x) /\
               tasks e2 = tasks e /\ sortedOBDMsg e2 = sortedOBDMsg e /\
               ObdMessage e2 = ObdMessage e /\ scenario e2 = scenario e /\
               (cmd <> "" -> forward e2 = forward (forwarded e)) /\
               escalations (log e2)
               = (escalations (log e)
                  + if negb (String.eqb cmd "") && escalates (next_forward e)
                       && (n =? 0)%Z then 1 else 0)%nat).
    { rewrite (handle_request_plain raw w e c Hk Hsc Hf Hc Ht). fold cmd e1 header.
      rewrite (resolve_no_match _ _ _ None None w _ Hl).
      destruct (String.eqb_spec cmd "") as [E|E].
      - rewrite E in *. rewrite (unknown_empty header e1 n Hn1).
        eexists. split; [reflexivity|]. cbn [negb andb].
        split; [cbn; apply lookup_insert_eq|].
        split.
        { intros x Hx. cbn. rewrite lookup_insert_ne; [reflexivity|].
          now apply unknown_ne. }
        repeat split; try congruence.
        cbn [log add_log set_counters e1].
        rewrite escalations_app, bool_decide_eq_false_2 by discriminate. lia.
      - assert (Hh : forall v, header = Some v -> truthy v = true ->
                               is_Some (counters e1 !! "cmd_set_header")).
        { intros v Hv _. unfold e1. cbn. rewrite lookup_insert_ne by discriminate.
          fold header. rewrite Hv. eauto. }
        destruct (forwards_S k e (Hfw E)) as (Hf1 & _).
        assert (U : exists a,
                   unknown' header cmd e1
                   = (Ok (header, cmd, Some (marker' cmd)),
                      after_unknown cmd n (INFO, a) e1)).
        { rewrite (unknown_run header cmd e1 n E Hn1 Hh Hf1).
          unfold unknown_marker_of. destruct (truthy (len_hex cmd)); eauto. }
        destruct U as (a & U). rewrite U.
        destruct (after_unknown_facts cmd n a e1)
          as (F1 & F2 & F3 & F4 & F5 & F6 & _ & F8 & F9).
        eexists. split; [reflexivity|]. cbn [negb andb].
        split; [exact F1|]. split; [exact F2|].
        split; [exact F3|]. split; [exact F4|]. split; [exact F5|].
        split; [exact F6|]. split; [|exact F9].
        intros _. rewrite F8. apply forwarded_counters. }
    destruct R as (e2 & R & G1 & G2 & G3 & G4 & G5 & G6 & G7 & G8).
    rewrite (bind_ok _ _ _ _ _ R).
    specialize (IH e2 (c + 1) (n + 1)).
    destruct IH as (I1 & I2 & I3).
    { apply (plain_session_after e e2 c Hp); try assumption.
      - intros x Hx Hxc. rewrite G2 by exact Hx. unfold e1. cbn.
        now rewrite lookup_insert_ne by congruence.
      - rewrite G2 by exact I. unfold e1. cbn. apply lookup_insert_eq. }
    { now rewrite G4. }
    { lia. }
    { unfold hits. now rewrite G1. }
    { intros E. rewrite (forwards_ext k e2 (forwarded e) (G7 E)).
      exact (proj2 (forwards_S k e (Hfw E))). }
    split; [exact I1|]. split.
    + rewrite I2, G1. cbn [Nat.ltb Nat.leb].
      destruct k as [|k]; cbn [Nat.ltb Nat.leb]; do 2 f_equal; lia.
    + rewrite I3, G8.
      replace (n + 1 =? 0) with false by (symmetry; apply Z.eqb_neq; lia).
      rewrite andb_false_r. cbn [Nat.ltb Nat.leb andb]. lia.
Qed.

Lemma forwards_le (k : nat) (e : Elm) :
  forwards (S k) e = true -> forwards k e = true.
Proof.
  unfold forwards. destruct (no_forwarder e); [reflexivity|]. cbn [orb].
  intros H. apply andb_prop in H as [C A]. rewrite C. cbn [andb].
  clear C. revert A. generalize (Forward.os (forward e)).
  induction k as [|k IH]; intros l A; [reflexivity|].
  destruct l as [|o1 [|o2 l]]; try discriminate A.
  cbn [answering] in A |- *.
  apply andb_prop in A as [A1 A2]. rewrite A1. cbn [andb].
  now apply IH.
Qed.

(** C7 (amended): the counter of an unknown command text goes up by one at
    each occurrence of the text: after [k] occurrences of a text not seen
    before it holds [k]. The warning is logged at the first occurrence
    only, and there only when the command is not empty and the forwarder
    gave an answer that is neither [NO DATA] nor [?]; the repeats log no
    warning. This holds for the requests of a session in the default
    configuration, while the forwarder, if one is set up, answers; and for
    the scan of the catalog in any configuration. *)
Theorem unknown_counter (raw : string) (w : bool) (e : Elm) (c : Z) (k : nat) :
  plain_session e c ->
  no_match (sortedOBDMsg e) (upper (remove_spaces raw)) ->
  counters e !! unknown_key (upper (remove_spaces raw)) = None ->
  (upper (remove_spaces raw) <> "" -> forwards (S k) e = true) ->
  fst (repeat_request k (handle' raw w) e) = Ok tt /\
  counters (snd (repeat_request k (handle' raw w) e))
    !! unknown_key (upper (remove_spaces raw))
  = (if (0 <? k)%nat then Some (VInt (Z.of_nat k)) else None) /\
  escalations (log (snd (repeat_request k (handle' raw w) e)))
  = (escalations (log e)
     + if (0 <? k)%nat && negb (String.eqb (upper (remove_spaces raw)) "")
          && escalates (next_forward e)
       then 1 else 0)%nat /\
  escalations (log (snd (repeat_request (S k) (handle' raw w) e)))
  = escalations (log (snd (repeat_request 1 (handle' raw w) e))) /\
  (forall l header cmd length frame e1,
     no_match l cmd -> cmd <> "" ->
     counters e1 !! unknown_key cmd = None ->
     (forall v, header = Some v -> truthy v = true ->
                is_Some (counters e1 !! "cmd_set_header")) ->
     forwards (S k) e1 = true ->
     fst (repeat_request k (resolve' l header cmd length frame w) e1) = Ok tt /\
     counters (snd (repeat_request k (resolve' l header cmd length frame w) e1))
       !! unknown_key cmd
     = (if (0 <? k)%nat then Some (VInt (Z.of_nat k)) else None) /\
     escalations
       (log (snd (repeat_request k (resolve' l header cmd length frame w) e1)))
     = (escalations (log e1)
        + if (0 <? k)%nat && escalates (next_forward e1) then 1 else 0)%nat /\
     escalations
       (log (snd (repeat_request (S k) (resolve' l header cmd length frame w) e1)))
     = escalations
         (log (snd (repeat_request 1 (resolve' l header cmd length frame w) e1)))).
Proof.
  intros Hp Hl Hc Hfw.
  assert (Hn : hits e (unknown_key (upper (remove_spaces raw))) 0)
    by (unfold hits; now rewrite Hc).
  split; [|split; [|split; [|split]]].
  - apply (repeat_handle_unknown raw w k e c 0 Hp Hl ltac:(lia) Hn).
    intros E. apply forwards_le. now apply Hfw.
  - destruct (repeat_handle_unknown raw w k e c 0 Hp Hl ltac:(lia) Hn)
      as (_ & R2 & _).
    { intros E. apply forwards_le. now apply Hfw. }
    cbv zeta in R2. rewrite R2, Hc. now destruct (0 <? k)%nat.
  - destruct (repeat_handle_unknown raw w k e c 0 Hp Hl ltac:(lia) Hn)
      as (_ & _ & R3).
    { intros E. apply forwards_le. now apply Hfw. }
    cbv zeta in R3. rewrite R3. now rewrite andb_true_r.
  - destruct (repeat_handle_unknown raw w (S k) e c 0 Hp Hl ltac:(lia) Hn Hfw)
      as (_ & _ & S3).
    destruct (repeat_handle_unknown raw w 1 e c 0 Hp Hl ltac:(lia) Hn)
      as (_ & _ & O3).
    { intros E. exact (proj1 (forwards_S k e (Hfw E))). }
    cbv zeta in S3, O3. rewrite S3, O3. reflexivity.
  - intros l header cmd length frame e1 Hl1 Hcmd Hc1 Hh Hfw1.
    assert (Hn1 : hits e1 (unknown_key cmd) 0) by (unfold hits; now rewrite Hc1).
    pose proof (proj1 (forwards_S k e1 Hfw1)) as Hone.
    pose proof (repeat_unknown l header cmd length frame w k Hl1 Hcmd e1 0
                  ltac:(lia) Hn1 Hh (forwards_le k e1 Hfw1)) as (R1 & R2 & R3).
    pose proof (repeat_unknown l header cmd length frame w (S k) Hl1 Hcmd e1 0
                  ltac:(lia) Hn1 Hh Hfw1) as (_ & _ & S3).
    pose proof (repeat_unknown l header cmd length frame w 1 Hl1 Hcmd e1 0
                  ltac:(lia) Hn1 Hh Hone) as (_ & _ & O3).
    cbv zeta in *. split; [exact R1|]. split; [|split].
    + rewrite R2, Hc1. now destruct (0 <? k)%nat.
    + rewrite R3. now rewrite andb_true_r.
    + rewrite S3, O3. reflexivity.
Qed.

End Unknown.



Lemma unknown_counter_witness :
  fst (repeat_request 3 (handle_request1 "XYZ" true) Elm_fw) = Ok tt /\
  counters (snd (repeat_request 3 (handle_request1 "XYZ" true) Elm_fw))
    !! unknown_key (upper (remove_spaces "XYZ"))
  = (if (0 <? 3)%nat then Some (VInt (Z.of_nat 3)) else None) /\
  escalations (log (snd (repeat_request 3 (handle_request1 "XYZ" true) Elm_fw)))
  = (escalations (log Elm_fw)
     + if (0 <? 3)%nat && negb (String.eqb (upper (remove_spaces "XYZ")) "")
          && escalates (next_forward Elm_fw)
       then 1 else 0)%nat /\
  escalations (log (snd (repeat_request 4 (handle_request1 "XYZ" true) Elm_fw)))
  = escalations (log (snd (repeat_request 1 (handle_request1 "XYZ" true) Elm_fw))) /\
  (forall l header cmd length frame e1,
     no_match l cmd -> cmd <> "" ->
     counters e1 !! unknown_key cmd = None ->
     (forall v, header = Some v -> truthy v = true ->
                is_Some (counters e1 !! "cmd_set_header")) ->
     forwards 4 e1 = true ->
     fst (repeat_request 3 (resolve1 l header cmd length frame true) e1) = Ok tt /\
     counters (snd (repeat_request 3 (resolve1 l header cmd length frame true) e1))
       !! unknown_key cmd
     = (if (0 <? 3)%nat then Some (VInt (Z.of_nat 3)) else None) /\
     escalations
       (log (snd (repeat_request 3 (resolve1 l header cmd length frame true) e1)))
     = (escalations (log e1)
        + if (0 <? 3)%nat && escalates (next_forward e1) then 1 else 0)%nat /\
     escalations
       (log (snd (repeat_request 4 (resolve1 l header cmd length frame true) e1)))
     = escalations
         (log (snd (repeat_request 1 (resolve1 l header cmd length frame true) e1)))).
Proof.
  apply (unknown_counter ELM_R_OK_spec ELM_R_UNKNOWN_spec ST_spec respond0
           no_exec no_call no_plugin_init no_plugin_method
           "XYZ" true Elm_fw 0 3).
  - repeat split. eexists. reflexivity.
  - constructor.
  - reflexivity.
  - intros _. reflexivity.
Defined.

(** C7 as stated fails: the unknown command ["XYZ"] sent twice leaves its
    counter at 2, where the claim has it incremented once whatever the
    number of repetitions. *)
Lemma unknown_counter_counterexample :
  counters (snd (repeat_request 2 (handle_request1 "XYZ" true) Elm1))
    !! unknown_key "XYZ" = Some (VInt 2) /\
  counters (snd (repeat_request 1 (handle_request1 "XYZ" true) Elm1))
    !! unknown_key "XYZ" = Some (VInt 1) /\
  (2 =? 1) = false.
Proof. split; [reflexivity|]. split; reflexivity. Qed.

(** ** The multi-frame task *)

Section Multiline.

Variables ELM_R_OK ELM_R_UNKNOWN : string.
Variable ST : string -> string.
Variable handle_response :
  string -> bool -> header_t -> option string -> M (option string).
Variable py_exec : string -> header_t -> string -> string -> M unit.
Variable call : string -> string -> string -> entry -> M string.
Variable plugin_init : string -> Tasks.t -> M Tasks.t.
Variable plugin_method :
  string -> Tasks.method -> header_t -> string -> option Z -> option Z ->
  M Tasks.ret_t.

Abbreviation resolve' :=
  (resolve ELM_R_OK ELM_R_UNKNOWN ST handle_response py_exec call
     plugin_init plugin_method).
Abbreviation handle_request' :=
  (handle_request ELM_R_OK ELM_R_UNKNOWN ST handle_response py_exec call
     plugin_init plugin_method).
Abbreviation task_action' := (task_action handle_response plugin_method).
Abbreviation task_method' := (task_method handle_response plugin_method).
Abbreviation Multiline_run' := (Multiline_run handle_response).
Abbreviation hr_tasks' := (hr_tasks handle_response plugin_method).

Lemma self_ok (h : header_t) (t : Tasks.t) (e : Elm) :
  tasks e !! h = Some t -> self h e = (Ok t, e).
Proof. intros H. unfold self. now rewrite gets_bind, H. Qed.

(** A request with no first-come header, whose size prefix (if any) does
    not make it a First Frame, on a header with no task: it is looked up in
    the sorted catalog, with no task involved. *)
Lemma handle_request_no_task (raw : string) (w : bool) (e : Elm) (k : Z)
    (cmd : string) (length frame : option Z) :
  hits e "commands" k ->
  is_Some (dict_get (scenario e) (ObdMessage e)) ->
  match counters e !! "cmd_fcsm" with Some v => truthy v | None => false end
  = false ->
  let e1 := set_counters <["commands" := VInt (k + 1)]> e in
  let header := counters e !! "cmd_set_header" in
  hr_pci header (upper (remove_spaces raw)) e1 = (Ok (inr (cmd, length, frame)), e1) ->
  length = None \/ frame = None ->
  tasks e !! header = None ->
  handle_request' raw w e = resolve' (sortedOBDMsg e) header cmd length frame w e1.
Proof.
  intros Hk Hsc Hf e1 header Hp Hlf Ht. unfold handle_request.
  rewrite (bind_ok _ _ _ _ _ (count_hits e "commands" k Hk)). fold e1.
  rewrite !gets_bind. cbn [ObdMessage scenario e1 set_counters].
  rewrite (bool_decide_eq_true_2 _ Hsc). cbn [negb].
  assert (L : forall x, x <> "commands" -> counters e1 !! x = counters e !! x).
  { intros x Hx. unfold e1. cbn. now rewrite lookup_insert_ne. }
  change (counters e1) with (<["commands" := VInt (k + 1)]> (counters e)).
  rewrite lookup_insert_ne by discriminate. fold header.
  rewrite (bind_ok _ _ _ _ _ (hr_fcsm_off _ _ e1 ltac:(rewrite L by discriminate; exact Hf))).
  rewrite (bind_ok _ _ _ _ _ Hp).
  rewrite (bind_ok _ _ _ _ _
             (hr_tasks_none handle_response plugin_method header cmd length frame
                w e1 Ht Hlf)).
  rewrite gets_bind. reflexivity.
Qed.

(** A Consecutive Frame that is not the expected one is refused (lines
    226-240). *)
Lemma Multiline_collect_violation (h : header_t) (t : Tasks.t) (cmd : string)
    (length : option Z) (f : Z) (e : Elm) :
  tasks e !! h = Some t ->
  0 < f ->
  Tasks.frame t <> Some f \/ length <> None ->
  Multiline_collect h cmd length (Some f) e
  = (Ok (Some Tasks.ERROR),
     add_log (ERROR, "Invalid consecutive frame %s %s") e).
Proof.
  intros Ht Hf Hv. unfold Multiline_collect.
  rewrite (bind_ok _ _ _ _ _ (self_ok h t e Ht)).
  destruct f as [|p|p]; try lia.
  rewrite (bind_ok _ _ e e false) by reflexivity.
  assert (E : match length with
              | Some _ => false
              | None => (0 <? Z.pos p) && bool_decide (Tasks.frame t = Some (Z.pos p))
              end = false).
  { destruct length as [l|]; [reflexivity|].
    destruct Hv as [Hv|Hv]; [|congruence].
    now rewrite (bool_decide_eq_false_2 _ Hv), andb_false_r. }
  cbv iota. rewrite E.
  replace (bool_decide (Some (Z.pos p) = None)) with false
    by (symmetry; now apply bool_decide_eq_false_2).
  rewrite andb_false_r. cbn [andb]. reflexivity.
Qed.

Lemma try_ok {A : Type} (m h : M A) (e e' : Elm) (a : A) :
  m e = (Ok a, e') -> try_except m h e = (Ok a, e').
Proof. intros H. unfold try_except. now rewrite H. Qed.

(** [task_action] when the method ends the task without a response: the
    task is accounted for and removed from the table. *)
Lemma task_action_terminate (h : header_t) (w : bool) (m : Tasks.method)
    (cmd : string) (length frame : option Z) (e e1 : Elm) (t t1 : Tasks.t)
    (r_cont : option string) (n : Z) :
  tasks e !! h = Some t ->
  task_method' m h cmd length frame e = (Ok (None, Tasks.TERMINATE, r_cont), e1) ->
  tasks e1 !! h = Some t1 ->
  hits e1 (slice_from 12 (Tasks.module_name t1)) n ->
  task_action' h w m cmd length frame e
  = (Ok (None, Tasks.TERMINATE, r_cont),
     set_tasks (delete h)
       (set_counters <[slice_from 12 (Tasks.module_name t1) := VInt (n + 1)]> e1)).
Proof.
  intros Ht Hm Ht1 Hn. unfold task_action.
  rewrite (bind_ok _ _ _ _ _ (self_ok h t e Ht)).
  assert (T : try_except
                (x ← task_method' m h cmd length frame; mret (Some x))
                (_ ← self h;
                 logging CRITICAL
                   ("Error in task " ++ dq ++ "%s" ++ dq ++ ", header=" ++ dq
                    ++ "%s" ++ dq ++ ", method=%s(): %s");;
                 modify (set_tasks (delete h));; mret None) e
              = (Ok (Some (None, Tasks.TERMINATE, r_cont)), e1)).
  { apply try_ok. now rewrite (bind_ok _ _ _ _ _ Hm). }
  rewrite (bind_ok _ _ _ _ _ T). cbv iota beta.
  cbn [negb Tasks.TERMINATE].
  assert (S2 : (_ ← self h; account_task h;; modify (set_tasks (delete h))) e1
               = (Ok tt,
                  set_tasks (delete h)
                    (set_counters
                       <[slice_from 12 (Tasks.module_name t1) := VInt (n + 1)]> e1))).
  { rewrite (bind_ok _ _ _ _ _ (self_ok h t1 e1 Ht1)).
    assert (A : account_task h e1
                = (Ok tt,
                   set_counters
                     <[slice_from 12 (Tasks.module_name t1) := VInt (n + 1)]> e1)).
    { unfold account_task. rewrite gets_bind, Ht1. now apply count_hits. }
    now rewrite (bind_ok _ _ _ _ _ A). }
  destruct r_cont; rewrite (bind_ok _ _ e1 e1 tt) by reflexivity;
    now rewrite (bind_ok _ _ _ _ _ S2).
Qed.

(** [task_action] when the method keeps the task and has no response. *)
Lemma task_action_continue (h : header_t) (w : bool) (m : Tasks.method)
    (cmd : string) (length frame : option Z) (e e1 : Elm) (t : Tasks.t) :
  tasks e !! h = Some t ->
  task_method' m h cmd length frame e = (Ok Tasks.INCOMPLETE, e1) ->
  task_action' h w m cmd length frame e = (Ok Tasks.INCOMPLETE, e1).
Proof.
  intros Ht Hm. unfold task_action.
  rewrite (bind_ok _ _ _ _ _ (self_ok h t e Ht)).
  assert (T : try_except
                (x ← task_method' m h cmd length frame; mret (Some x))
                (_ ← self h;
                 logging CRITICAL
                   ("Error in task " ++ dq ++ "%s" ++ dq ++ ", header=" ++ dq
                    ++ "%s" ++ dq ++ ", method=%s(): %s");;
                 modify (set_tasks (delete h));; mret None) e
              = (Ok (Some Tasks.INCOMPLETE), e1)).
  { apply try_ok. now rewrite (bind_ok _ _ _ _ _ Hm). }
  rewrite (bind_ok _ _ _ _ _ T). reflexivity.
Qed.

Lemma task_method_Multiline (m : Tasks.method) (h : header_t) (cmd : string)
    (length frame : option Z) (e : Elm) (t : Tasks.t) :
  tasks e !! h = Some t -> Tasks.cls t = Tasks.Multiline ->
  task_method' m h cmd length frame e = Multiline_run' h cmd length frame e.
Proof.
  intros Ht Hc. unfold task_method.
  now rewrite (bind_ok _ _ _ _ _ (self_ok h t e Ht)), Hc.
Qed.

(** C9 (amended): a Consecutive Frame (frame index above 0) given to the
    [Multiline] task on the header, when the task does not expect it (the
    index is not the expected one, or the frame has a length), makes the
    task return the error value; [task_action] then removes the task from
    the table. A following request on the same header that carries no frame
    index (a Single Frame) is looked up in the catalog with its own
    command: no task runs and nothing collected before is used. A
    Consecutive Frame on a header with no task is no error: no task is
    started, nothing is logged, and its payload is looked up in the catalog
    with its frame index. *)
Theorem consecutive_frame_violation (e : Elm) (h : header_t) (t : Tasks.t)
    (cmd : string) (length : option Z) (f : Z) (w : bool) (m : Tasks.method)
    (n : Z) :
  tasks e !! h = Some t ->
  Tasks.cls t = Tasks.Multiline ->
  0 < f ->
  Tasks.frame t <> Some f \/ length <> None ->
  hits e "" n ->
  let e' := after_violation h n e in
  Multiline_run' h cmd length (Some f) e
  = (Ok Tasks.ERROR, add_log (ERROR, "Invalid consecutive frame %s %s") e) /\
  task_action' h w m cmd length (Some f) e = (Ok Tasks.ERROR, e') /\
  tasks e' = delete h (tasks e) /\
  tasks e' !! h = None /\
  (forall raw w' k cmd' length',
     counters e' !! "cmd_set_header" = h ->
     hits e' "commands" k ->
     is_Some (dict_get (scenario e') (ObdMessage e')) ->
     match counters e' !! "cmd_fcsm" with Some v => truthy v | None => false end
     = false ->
     let e1 := set_counters <["commands" := VInt (k + 1)]> e' in
     hr_pci h (upper (remove_spaces raw)) e1 = (Ok (inr (cmd', length', None)), e1) ->
     handle_request' raw w' e'
     = resolve' (sortedOBDMsg e') h cmd' length' None w' e1) /\
  (forall e0 raw w' k cmd' f',
     tasks e0 !! (counters e0 !! "cmd_set_header") = None ->
     hits e0 "commands" k ->
     is_Some (dict_get (scenario e0) (ObdMessage e0)) ->
     match counters e0 !! "cmd_fcsm" with Some v => truthy v | None => false end
     = false ->
     let e1 := set_counters <["commands" := VInt (k + 1)]> e0 in
     hr_pci (counters e0 !! "cmd_set_header") (upper (remove_spaces raw)) e1
     = (Ok (inr (cmd', None, Some f')), e1) ->
     handle_request' raw w' e0
     = resolve' (sortedOBDMsg e0) (counters e0 !! "cmd_set_header") cmd' None
         (Some f') w' e1).
Proof.
  intros Ht Hc Hf Hv Hn e'.
  assert (R : Multiline_run' h cmd length (Some f) e
              = (Ok Tasks.ERROR,
                 add_log (ERROR, "Invalid consecutive frame %s %s") e)).
  { unfold Multiline_run.
    now rewrite (bind_ok _ _ _ _ _ (Multiline_collect_violation h t cmd length f e Ht Hf Hv)). }
  split; [exact R|]. split; [|split; [reflexivity|split; [|split]]].
  - rewrite <- (task_method_Multiline m h cmd length (Some f) e t Ht Hc) in R.
    rewrite (task_action_terminate h w m cmd length (Some f) e _ t t None n Ht R).
    + unfold Tasks.module_name. rewrite Hc. reflexivity.
    + exact Ht.
    + unfold Tasks.module_name. rewrite Hc. exact Hn.
  - unfold e', after_violation. cbn. apply lookup_delete_eq.
  - intros raw w' k cmd' length' Hh Hk Hsc Hfc e1 Hp.
    pose proof (handle_request_no_task raw w' e' k cmd' length' None Hk Hsc Hfc)
      as H.
    cbv zeta in H. rewrite Hh in H. apply H; [exact Hp|now right|].
    unfold e', after_violation. cbn. apply lookup_delete_eq.
  - intros e0 raw w' k cmd' f' Ht0 Hk Hsc Hfc e1 Hp.
    exact (handle_request_no_task raw w' e0 k cmd' None (Some f') Hk Hsc Hfc Hp
             (or_introl eq_refl) Ht0).
Qed.

(** *** A complete exchange *)

Hypothesis flow_ok : renders_flow handle_response.

Lemma self_update_ok (h : header_t) (f : Tasks.t -> Tasks.t) (e : Elm) :
  self_update h f e = (Ok tt, set_tasks (alter f h) e).
Proof. reflexivity. Qed.

(** The Flow Control cadence (lines 242-256) changes the cadence counter of
    the task and nothing else of the task table and the counters. *)
Lemma Multiline_flow_ok (h : header_t) (cmd : string) (e : Elm) (t : Tasks.t) :
  tasks e !! h = Some t ->
  flow_session e (Tasks.header t) -> Tasks.flow_control_end t = 32 ->
  exists x e',
    Multiline_flow handle_response h cmd e = (Ok tt, e') /\
    static e' = static e /\ counters e' = counters e /\
    tasks e' = <[h := Tasks.set_flow_control x t]> (tasks e).
Proof.
  intros Ht Hfs H32. unfold Multiline_flow.
  rewrite (bind_ok _ _ _ _ _ (self_ok h t e Ht)).
  destruct (negb (Tasks.flow_control t =? 0)).
  - exists (Tasks.flow_control t - 1). eexists. split; [apply self_update_ok|].
    cbn. repeat split. apply map_eq. intros h'.
    destruct (decide (h = h')) as [<-|Hne].
    + now rewrite lookup_alter_eq, lookup_insert_eq, Ht.
    + now rewrite lookup_alter_ne, lookup_insert_ne.
  - rewrite gets_bind.
    assert (S1 : exists e1,
               (if match counters e !! "cmd_cfc" with
                   | Some v => Py.eqb v (VInt 1)
                   | None => true
                   end
                then
                  _ ← handle_response (flow_template t) (Tasks.do_write t)
                        (Tasks.header t) (Some cmd);
                  if negb (Tasks.do_write t)
                  then logging WARNING "Output data: %s"
                  else mret tt
                else mret tt) e = (Ok tt, e1) /\
               static e1 = static e /\ counters e1 = counters e /\
               tasks e1 = tasks e).
    { destruct (match counters e !! "cmd_cfc" with
                | Some v => Py.eqb v (VInt 1)
                | None => true
                end); [|now exists e].
      destruct (flow_ok t (Some cmd) e Hfs H32) as (r & e1 & R & F1 & F2 & F3).
      rewrite (bind_ok _ _ _ _ _ R).
      destruct (negb (Tasks.do_write t)); eexists; (split; [reflexivity|]);
        repeat split; assumption. }
    destruct S1 as (e1 & S1 & F1 & F2 & F3).
    rewrite (bind_ok _ _ _ _ _ S1).
    assert (Ht1 : tasks e1 !! h = Some t) by now rewrite F3.
    rewrite (bind_ok _ _ _ _ _ (self_ok h t e1 Ht1)).
    exists (Tasks.flow_control_end t - 1). eexists.
    split; [apply self_update_ok|]. cbn [static counters tasks set_tasks] in *.
    cbn. split; [exact F1|]. split; [exact F2|].
    rewrite F3. apply map_eq. intros h'.
    destruct (decide (h = h')) as [<-|Hne].
    + now rewrite lookup_alter_eq, lookup_insert_eq, Ht.
    + now rewrite lookup_alter_ne, lookup_insert_ne.
Qed.

Lemma Multiline_complete_ok (h : header_t) (e : Elm) (t : Tasks.t) (L : Z)
    (r : string) :
  tasks e !! h = Some t -> Tasks.length t = Some L -> Tasks.req t = Some r ->
  Multiline_complete h e
  = if L * 2 <=? len r then
      (Ok (Tasks.PASSTHROUGH (slice_to_Z (L * 2) r)),
       set_tasks (alter (Tasks.set_frame None) h) e)
    else (Ok Tasks.INCOMPLETE, e).
Proof.
  intros Ht HL Hr. unfold Multiline_complete.
  rewrite (bind_ok _ _ _ _ _ (self_ok h t e Ht)), HL, Hr.
  now destruct (L * 2 <=? len r).
Qed.

(** Lines 242-261, run on a task that has just taken a frame. *)
Lemma Multiline_finish (h : header_t) (cmd : string) (e0 e : Elm) (t : Tasks.t)
    (L : Z) (r : string) (i : Z) :
  tasks e !! h = Some t ->
  Tasks.cls t = Tasks.Multiline -> Tasks.frame t = Some i ->
  Tasks.length t = Some L -> Tasks.req t = Some r ->
  flow_task h t -> flow_session e h ->
  static e = static e0 -> counters e = counters e0 ->
  (forall h', h' <> h -> tasks e !! h' = tasks e0 !! h') ->
  accepted h L r i e0
    ((Multiline_flow handle_response h cmd;; Multiline_complete h) e).
Proof.
  intros Ht Hc Hf HL Hr Hft Hfs S0 C0 T0.
  pose proof Hft as (Hth & H32).
  destruct (Multiline_flow_ok h cmd e t Ht ltac:(now rewrite Hth) H32)
    as (x & e1 & F & F1 & F2 & F3).
  rewrite (bind_ok _ _ _ _ _ F).
  assert (Ht1 : tasks e1 !! h = Some (Tasks.set_flow_control x t))
    by (rewrite F3; apply lookup_insert_eq).
  rewrite (Multiline_complete_ok h e1 _ L r Ht1 HL Hr).
  unfold accepted. cbv zeta.
  destruct (L * 2 <=? len r); cbn [fst snd].
  - split; [reflexivity|]. split; [now rewrite <- S0, <- F1|].
    split; [cbn; congruence|]. split.
    + intros h' Hne. cbn. rewrite lookup_alter_ne by congruence.
      rewrite F3, lookup_insert_ne by congruence. now apply T0.
    + eexists. split; [cbn; rewrite lookup_alter_eq, Ht1; reflexivity|].
      cbn. repeat split; assumption.
  - split; [reflexivity|]. split; [congruence|]. split; [congruence|]. split.
    + intros h' Hne. rewrite F3, lookup_insert_ne by congruence. now apply T0.
    + eexists. split; [exact Ht1|]. cbn. repeat split; assumption.
Qed.

(** An expected Consecutive Frame is taken (lines 226-229). *)
Lemma Multiline_run_consecutive (h : header_t) (p : string) (e : Elm) (L : Z)
    (r : string) (i : Z) :
  collecting e h L r i -> 0 < i ->
  flowing e h -> flow_session e h ->
  accepted h L (r ++ p) (i + 1) e (Multiline_run' h p None (Some i) e).
Proof.
  intros (t & Ht & Hc & Hf & HL & Hr) Hi Hfl Hfs. unfold Multiline_run.
  pose proof (Hfl t Ht) as Hft.
  assert (C : Multiline_collect h p None (Some i) e
              = (Ok None,
                 set_tasks (alter (Tasks.set_frame (Some (i + 1))) h)
                   (set_tasks (alter (Tasks.set_req (Some (r ++ p))) h) e))).
  { unfold Multiline_collect.
    rewrite (bind_ok _ _ _ _ _ (self_ok h t e Ht)).
    destruct i as [|q|q]; try lia.
    rewrite (bind_ok _ _ e e false) by reflexivity. cbv iota.
    rewrite Hf, (bool_decide_eq_true_2 _ eq_refl), Hr.
    replace (0 <? Z.pos q) with true by (symmetry; now apply Z.ltb_lt).
    cbn [andb]. reflexivity. }
  rewrite (bind_ok _ _ _ _ _ C). cbv iota.
  eapply Multiline_finish.
  - cbn. rewrite !lookup_alter_eq, Ht. reflexivity.
  - exact Hc.
  - reflexivity.
  - exact HL.
  - reflexivity.
  - exact Hft.
  - exact Hfs.
  - reflexivity.
  - reflexivity.
  - intros h' Hne. cbn. now rewrite !lookup_alter_ne by congruence.
Qed.

(** A First Frame is taken by a task that has collected nothing (lines
    219-225). *)
Lemma Multiline_run_first (h : header_t) (p : string) (e : Elm) (L : Z)
    (t : Tasks.t) :
  tasks e !! h = Some t -> Tasks.cls t = Tasks.Multiline ->
  truthy_opt (Tasks.frame t) = false -> truthy_opt (Tasks.length t) = false ->
  0 < L ->
  flow_task h t -> flow_session e h ->
  accepted h L p 1 e (Multiline_run' h p (Some L) (Some 0) e).
Proof.
  intros Ht Hc Hf HL Hpos Hft Hfs. unfold Multiline_run.
  assert (C : Multiline_collect h p (Some L) (Some 0) e
              = (Ok None,
                 set_tasks (alter (Tasks.set_length (Some L)) h)
                   (set_tasks (alter (Tasks.set_frame (Some 1)) h)
                      (set_tasks (alter (Tasks.set_req (Some p)) h) e)))).
  { unfold Multiline_collect.
    rewrite (bind_ok _ _ _ _ _ (self_ok h t e Ht)).
    rewrite (bind_ok _ _ e e true)
      by (cbn; now replace (0 <? L) with true by (symmetry; now apply Z.ltb_lt)).
    now rewrite Hf, HL. }
  rewrite (bind_ok _ _ _ _ _ C). cbv iota.
  eapply Multiline_finish.
  - cbn. rewrite !lookup_alter_eq, Ht. reflexivity.
  - exact Hc.
  - reflexivity.
  - reflexivity.
  - reflexivity.
  - exact Hft.
  - exact Hfs.
  - reflexivity.
  - reflexivity.
  - intros h' Hne. cbn. now rewrite !lookup_alter_ne by congruence.
Qed.

Abbreviation hr_tasks_active' := (hr_tasks_active handle_response plugin_method).

(** Lines 1448-1457 for a frame that the [Multiline] task takes: while the
    text is incomplete [handle_request] returns with no response; once it
    is complete the task ends and the text, cut to the declared length,
    becomes the command, with no length and no frame index. *)
Lemma hr_tasks_active_accepted (h : header_t) (p : string)
    (length frame : option Z) (w : bool) (e : Elm) (t : Tasks.t) (L : Z)
    (r : string) (i n : Z) :
  tasks e !! h = Some t -> Tasks.cls t = Tasks.Multiline ->
  truthy (len_hex p) = true ->
  hits e "" n ->
  accepted h L r i e (Multiline_run' h p length frame e) ->
  exists e',
    hr_tasks_active' h p length frame w e
    = (Ok (if L * 2 <=? len r
           then inr (slice_to_Z (L * 2) r, None, None)
           else inl (h, p, None)), e') /\
    frame_handled h L r i n (L * 2 <=? len r) e e'.
Proof.
  intros Ht Hc Hp Hn (A1 & A2 & A3 & A4 & t1 & B1 & B2 & B3 & B4 & B5 & B6).
  unfold hr_tasks_active. rewrite gets_bind, Ht.
  rewrite (bool_decide_eq_true_2 _ (mk_is_Some _ _ eq_refl)), Hp.
  rewrite <- (task_method_Multiline Tasks.run h p length frame e t Ht Hc) in A1, A2, A3, A4, B1.
  destruct (task_method' Tasks.run h p length frame e) as [out e1] eqn:R.
  cbn [fst snd] in *. subst out.
  destruct (L * 2 <=? len r) eqn:D.
  - assert (Hn1 : hits e1 (slice_from 12 (Tasks.module_name t1)) n).
    { unfold Tasks.module_name. rewrite B2. unfold hits in *.
      cbn [slice_from]. now rewrite A3. }
    rewrite (bind_ok _ _ _ _ _
               (task_action_terminate h w Tasks.run p length frame e e1 t t1 _ n
                  Ht R B1 Hn1)).
    eexists. split; [reflexivity|].
    unfold Tasks.module_name. rewrite B2. cbn [slice_from].
    split; [exact A2|]. split; [|split; [|split]].
    + intros k Hk. cbn. rewrite lookup_insert_ne by congruence. now rewrite A3.
    + intros h' Hne. cbn. rewrite lookup_delete_ne by congruence. now apply A4.
    + cbn. apply lookup_delete_eq.
    + unfold hits. cbn. now rewrite lookup_insert_eq.
  - rewrite (bind_ok _ _ _ _ _
               (task_action_continue h w Tasks.run p length frame e e1 t Ht R)).
    eexists. split; [reflexivity|].
    split; [exact A2|]. split; [|split; [exact A4|split; [|split]]].
    + intros k _. now rewrite A3.
    + exists t1. repeat split; assumption.
    + unfold hits in *. now rewrite A3.
    + intros t' Ht'. rewrite B1 in Ht'. now injection Ht' as <-.
Qed.

Lemma frame_handled_from (h : header_t) (L : Z) (r : string) (i n : Z)
    (done : bool) (e0 e e' : Elm) :
  static e = static e0 -> counters e = counters e0 ->
  (forall h', h' <> h -> tasks e !! h' = tasks e0 !! h') ->
  frame_handled h L r i n done e e' -> frame_handled h L r i n done e0 e'.
Proof.
  intros S C T (F1 & F2 & F3 & F4). split; [congruence|].
  split; [intros k Hk; rewrite F2 by exact Hk; now rewrite C|].
  split; [intros h' Hne; rewrite F3 by exact Hne; now apply T|exact F4].
Qed.

(** The First Frame of an exchange, on a header with no task (lines
    1444-1457). *)
Lemma hr_tasks_first (h : header_t) (p : string) (w : bool) (e : Elm)
    (L n : Z) :
  tasks e !! h = None -> 0 < L -> truthy (len_hex p) = true ->
  hits e "" n -> flow_session e h ->
  exists e',
    hr_tasks' h p (Some L) (Some 0) w e
    = (Ok (if L * 2 <=? len p
           then inr (slice_to_Z (L * 2) p, None, None)
           else inl (h, p, None)), e') /\
    frame_handled h L p 1 n (L * 2 <=? len p) e e'.
Proof.
  intros Ht HL Hp Hn Hfs. unfold hr_tasks.
  set (t0 := Tasks.init Tasks.Multiline h p None w).
  set (e0 := set_tasks <[h := t0]> e).
  assert (N : hr_tasks_new h p (Some L) (Some 0) w e = (Ok tt, e0)).
  { unfold hr_tasks_new. rewrite gets_bind, Ht.
    now rewrite !bool_decide_eq_true_2 by congruence. }
  rewrite (bind_ok _ _ _ _ _ N).
  assert (Ht0 : tasks e0 !! h = Some t0) by apply lookup_insert_eq.
  destruct (hr_tasks_active_accepted h p (Some L) (Some 0) w e0 t0 L p 1 n
              Ht0 eq_refl Hp Hn
              (Multiline_run_first h p e0 L t0 Ht0 eq_refl eq_refl eq_refl HL
                 (conj eq_refl eq_refl) Hfs))
    as (e' & R & F).
  exists e'. split; [exact R|].
  apply (frame_handled_from h L p 1 n _ e e0 e'); try reflexivity; [|exact F].
  intros h' Hne. cbn. now rewrite lookup_insert_ne by congruence.
Qed.

(** An expected Consecutive Frame (lines 1448-1457). *)
Lemma hr_tasks_consecutive (h : header_t) (p : string) (w : bool) (e : Elm)
    (L : Z) (r : string) (i n : Z) :
  collecting e h L r i -> 0 < i -> truthy (len_hex p) = true ->
  hits e "" n -> flowing e h -> flow_session e h ->
  exists e',
    hr_tasks' h p None (Some i) w e
    = (Ok (if L * 2 <=? len (r ++ p)
           then inr (slice_to_Z (L * 2) (r ++ p), None, None)
           else inl (h, p, None)), e') /\
    frame_handled h L (r ++ p) (i + 1) n (L * 2 <=? len (r ++ p)) e e'.
Proof.
  intros Hcol Hi Hp Hn Hfl Hfs. pose proof Hcol as (t & Ht & Hc & _).
  unfold hr_tasks.
  assert (N : hr_tasks_new h p None (Some i) w e = (Ok tt, e)).
  { unfold hr_tasks_new. rewrite gets_bind, Ht. reflexivity. }
  rewrite (bind_ok _ _ _ _ _ N).
  exact (hr_tasks_active_accepted h p None (Some i) w e t L (r ++ p) (i + 1) n
           Ht Hc Hp Hn
           (Multiline_run_consecutive h p e L r i Hcol Hi Hfl Hfs)).
Qed.

Abbreviation hr_from_tasks' :=
  (hr_from_tasks ELM_R_OK ELM_R_UNKNOWN ST handle_response py_exec call
     plugin_init plugin_method).

(** [handle_request] up to the task block, when the first-come header mode
    is off and the size prefix is accepted. *)
Lemma handle_request_front (raw : string) (w : bool) (e : Elm) (k : Z)
    (cmd : string) (length frame : option Z) :
  hits e "commands" k ->
  is_Some (dict_get (scenario e) (ObdMessage e)) ->
  match counters e !! "cmd_fcsm" with Some v => truthy v | None => false end
  = false ->
  let e1 := set_counters <["commands" := VInt (k + 1)]> e in
  let header := counters e !! "cmd_set_header" in
  hr_pci header (upper (remove_spaces raw)) e1
  = (Ok (inr (cmd, length, frame)), e1) ->
  handle_request' raw w e = hr_from_tasks' header cmd length frame w e1.
Proof.
  intros Hk Hsc Hf e1 header Hp. unfold handle_request.
  rewrite (bind_ok _ _ _ _ _ (count_hits e "commands" k Hk)). fold e1.
  rewrite !gets_bind. cbn [ObdMessage scenario e1 set_counters].
  rewrite (bool_decide_eq_true_2 _ Hsc). cbn [negb].
  assert (L : forall x, x <> "commands" -> counters e1 !! x = counters e !! x).
  { intros x Hx. unfold e1. cbn. now rewrite lookup_insert_ne. }
  change (counters e1) with (<["commands" := VInt (k + 1)]> (counters e)).
  rewrite lookup_insert_ne by discriminate. fold header.
  rewrite (bind_ok _ _ _ _ _ (hr_fcsm_off _ _ e1 ltac:(rewrite L by discriminate; exact Hf))).
  rewrite (bind_ok _ _ _ _ _ Hp). reflexivity.
Qed.

Lemma remove_spaces_app (a b : string) :
  remove_spaces (a ++ b) = remove_spaces a ++ remove_spaces b.
Proof.
  induction a as [|c a IH]; [reflexivity|].
  rewrite append_cons. cbn [remove_spaces]. rewrite IH.
  now destruct (Ascii.eqb c " ").
Qed.

Lemma hexval_not_blank (c : ascii) (v : Z) :
  hexval c = Some v -> Ascii.eqb c " " = false.
Proof.
  destruct c as [[] [] [] [] [] [] [] []]; vm_compute; intros H;
    try discriminate H; reflexivity.
Qed.

(** The two digits of a byte are left as they are by the sanitizing of
    [handle_request]. *)
Lemma fmt_02X_normal (b : Z) (p : string) :
  0 <= b < 256 -> upper (remove_spaces p) = p ->
  exists c d,
    fmt_02X b = String c (String d "") /\
    hexval c = Some (b / 16) /\ hexval d = Some (b mod 16) /\
    upper (remove_spaces (fmt_02X b ++ p)) = String c (String d p).
Proof.
  intros Hb Hp.
  destruct (fmt_02X_byte b Hb) as (c & d & E & Hc & Hd & Uc & Ud & _).
  exists c, d. repeat split; try assumption.
  rewrite E, remove_spaces_app, upper_app, Hp. cbn [remove_spaces].
  rewrite (hexval_not_blank c _ Hc), (hexval_not_blank d _ Hd).
  cbn [upper]. now rewrite Uc, Ud.
Qed.

Lemma session_after (e e' : Elm) (h : header_t) (k : Z) (L : Z) (r : string)
    (i n : Z) (done : bool) :
  session e h k ->
  frame_handled h L r i n done (set_counters <["commands" := VInt (k + 1)]> e) e' ->
  session e' h (k + 1) /\ sortedOBDMsg e' = sortedOBDMsg e.
Proof.
  intros (((caf & Hcaf & Tcaf) & Hf & Hsc) & Hh & Hk) (F1 & F2 & _).
  assert (L1 : forall x, x <> "" -> x <> "commands" ->
                         counters e' !! x = counters e !! x).
  { intros x H1 H2. rewrite F2 by exact H1. cbn. now rewrite lookup_insert_ne. }
  unfold static in F1. cbn in F1. injection F1 as P O SO SC _.
  split; [|exact SO].
  split; [split; [|split]|split].
  - exists caf. split; [|exact Tcaf]. now rewrite L1 by discriminate.
  - now rewrite L1 by discriminate.
  - now rewrite SC, O.
  - now rewrite L1 by discriminate.
  - unfold hits. rewrite F2 by discriminate. cbn. now rewrite lookup_insert_eq.
Qed.

(** The settings the renderer reads are not touched by a frame. *)
Lemma flow_session_after (e e' : Elm) (h : header_t) (k : Z) (L : Z)
    (r : string) (i n : Z) (done : bool) :
  flow_session e h ->
  frame_handled h L r i n done (set_counters <["commands" := VInt (k + 1)]> e) e' ->
  flow_session e' h.
Proof.
  intros Hfs (_ & F2 & _).
  assert (L1 : forall x, x <> "" -> x <> "commands" ->
                         counters e' !! x = counters e !! x).
  { intros x H1 H2. rewrite F2 by exact H1. cbn. now rewrite lookup_insert_ne. }
  unfold flow_session in *.
  now rewrite !L1 by discriminate.
Qed.

Lemma payload_not_empty (p : string) : truthy (len_hex p) = true -> p <> "".
Proof. intros H ->. discriminate H. Qed.

(** The result of a request of an exchange on header [h] handled from [e]:
    while the text is incomplete the request returns with no response;
    once it is complete the text, cut to the declared length, is looked up
    in the catalog with no length and no frame index. *)
Lemma handle_consecutive (w : bool) (e : Elm) (h : header_t) (k n L : Z)
    (r p : string) (i : Z) :
  session e h k -> hits e "" n -> collecting e h L r i ->
  flowing e h -> flow_session e h ->
  0 < i <= 223 -> payload_ok p ->
  exists e',
    handle_request' (consecutive_frame i p) w e
    = (if L * 2 <=? len (r ++ p)
       then resolve' (sortedOBDMsg e) h (slice_to_Z (L * 2) (r ++ p)) None None
              w e'
       else (Ok (h, p, None), e')) /\
    session e' h (k + 1) /\ sortedOBDMsg e' = sortedOBDMsg e /\
    flow_session e' h /\
    if L * 2 <=? len (r ++ p) then tasks e' !! h = None
    else collecting e' h L (r ++ p) (i + 1) /\ hits e' "" n /\ flowing e' h.
Proof.
  intros Hs Hn Hcol Hfl Hfs Hi (Hnorm & Hhex).
  pose proof Hs as (((caf & Hcaf & Tcaf) & Hf & Hsc) & Hh & Hk).
  set (e1 := set_counters <["commands" := VInt (k + 1)]> e).
  destruct (fmt_02X_normal (32 + i) p ltac:(lia) Hnorm) as (c & d & E & Hc & Hd & N).
  assert (Hcaf1 : counters e1 !! "cmd_caf" = Some caf)
    by (unfold e1; cbn; now rewrite lookup_insert_ne by discriminate).
  pose proof (hr_pci_cases e1 h caf c d _ _ p Hcaf1 Tcaf Hc Hd
                (payload_not_empty p Hhex)) as P.
  cbv zeta in P.
  replace (16 * ((32 + i) / 16) + (32 + i) mod 16) with (32 + i) in P
    by (apply Z.div_mod; lia).
  replace (32 + i <? 16) with false in P by (symmetry; apply Z.ltb_ge; lia).
  replace (32 + i =? 16) with false in P by (symmetry; apply Z.eqb_neq; lia).
  replace (32 <? 32 + i) with true in P by (symmetry; apply Z.ltb_lt; lia).
  replace (32 + i - 32) with i in P by lia.
  unfold consecutive_frame.
  rewrite (handle_request_front _ w e k p None (Some i) Hk Hsc Hf)
    by (rewrite Hh, N; exact P).
  rewrite Hh. fold e1. unfold hr_from_tasks.
  assert (Hcol1 : collecting e1 h L r i) by exact Hcol.
  assert (Hn1 : hits e1 "" n)
    by (unfold hits, e1 in *; cbn; now rewrite lookup_insert_ne by discriminate).
  assert (Hfl1 : flowing e1 h) by exact Hfl.
  assert (Hfs1 : flow_session e1 h).
  { unfold flow_session, e1 in *. cbn.
    now rewrite !lookup_insert_ne by discriminate. }
  destruct (hr_tasks_consecutive h p w e1 L r i n Hcol1 ltac:(lia) Hhex Hn1
              Hfl1 Hfs1)
    as (e' & R & F).
  rewrite (bind_ok _ _ _ _ _ R).
  destruct (session_after e e' h k L (r ++ p) (i + 1) n _ Hs F) as (S' & SO).
  pose proof (flow_session_after e e' h k L (r ++ p) (i + 1) n _ Hfs F) as Hfs'.
  exists e'. split; [|split; [exact S'|split; [exact SO|split; [exact Hfs'|]]]].
  - destruct (L * 2 <=? len (r ++ p)); [|reflexivity].
    now rewrite gets_bind, SO.
  - destruct F as (_ & _ & _ & F4).
    destruct (L * 2 <=? len (r ++ p)); [apply F4|exact F4].
Qed.

Lemma handle_first (w : bool) (e : Elm) (h : header_t) (k n L : Z) (p : string) :
  session e h k -> hits e "" n -> tasks e !! h = None ->
  flow_session e h ->
  0 < L < 256 -> payload_ok p ->
  exists e',
    handle_request' (first_frame L p) w e
    = (if L * 2 <=? len p
       then resolve' (sortedOBDMsg e) h (slice_to_Z (L * 2) p) None None w e'
       else (Ok (h, p, None), e')) /\
    session e' h (k + 1) /\ sortedOBDMsg e' = sortedOBDMsg e /\
    flow_session e' h /\
    if L * 2 <=? len p then tasks e' !! h = None
    else collecting e' h L p 1 /\ hits e' "" n /\ flowing e' h.
Proof.
  intros Hs Hn Ht Hfs HL (Hnorm & Hhex).
  pose proof Hs as (((caf & Hcaf & Tcaf) & Hf & Hsc) & Hh & Hk).
  set (e1 := set_counters <["commands" := VInt (k + 1)]> e).
  destruct (fmt_02X_normal L p ltac:(lia) Hnorm) as (c & d & E & Hc & Hd & N).
  assert (Hcaf1 : counters e1 !! "cmd_caf" = Some caf)
    by (unfold e1; cbn; now rewrite lookup_insert_ne by discriminate).
  pose proof (hr_pci_cases e1 h caf "1" "0" 1 0 (String c (String d p))
                Hcaf1 Tcaf eq_refl eq_refl ltac:(discriminate)) as P.
  cbv zeta in P. cbn [slice_to slice_from] in P.
  rewrite (int16_hex2 c d _ _ Hc Hd) in P.
  replace (16 * (L / 16) + L mod 16) with L in P by (apply Z.div_mod; lia).
  change (16 * 1 + 0 <? 16) with false in P.
  change (16 * 1 + 0 =? 16) with true in P. cbv iota in P.
  assert (N' : upper (remove_spaces (first_frame L p))
               = String "1" (String "0" (String c (String d p)))).
  { unfold first_frame. rewrite remove_spaces_app, upper_app, N. reflexivity. }
  rewrite (handle_request_front _ w e k p (Some L) (Some 0) Hk Hsc Hf)
    by (rewrite Hh, N'; exact P).
  rewrite Hh. fold e1. unfold hr_from_tasks.
  assert (Hn1 : hits e1 "" n)
    by (unfold hits, e1 in *; cbn; now rewrite lookup_insert_ne by discriminate).
  assert (Hfs1 : flow_session e1 h).
  { unfold flow_session, e1 in *. cbn.
    now rewrite !lookup_insert_ne by discriminate. }
  destruct (hr_tasks_first h p w e1 L n Ht ltac:(lia) Hhex Hn1 Hfs1)
    as (e' & R & F).
  rewrite (bind_ok _ _ _ _ _ R).
  destruct (session_after e e' h k L p 1 n _ Hs F) as (S' & SO).
  pose proof (flow_session_after e e' h k L p 1 n _ Hfs F) as Hfs'.
  exists e'. split; [|split; [exact S'|split; [exact SO|split; [exact Hfs'|]]]].
  - destruct (L * 2 <=? len p); [|reflexivity].
    now rewrite gets_bind, SO.
  - destruct F as (_ & _ & _ & F4).
    destruct (L * 2 <=? len p); [apply F4|exact F4].
Qed.

Lemma slice_to_length (n : nat) (x : string) :
  (n <= String.length x)%nat -> String.length (slice_to n x) = n.
Proof.
  revert x. induction n as [|n IH]; intros x Hn; [reflexivity|].
  destruct x as [|c x]; [cbn in Hn; lia|].
  cbn [slice_to String.length]. rewrite IH; [reflexivity|cbn in Hn; lia].
Qed.

Lemma slice_to_Z_nonneg (z : Z) (x : string) :
  0 <= z -> slice_to_Z z x = slice_to (Z.to_nat z) x.
Proof.
  intros Hz. unfold slice_to_Z.
  now replace (z <? 0) with false by (symmetry; apply Z.ltb_ge; lia).
Qed.

(** The Consecutive Frames of an exchange, up to the one that completes
    the text. *)
Lemma handle_consecutive_frames (w : bool) (h : header_t) (L n : Z)
    (l0 : list (string * entry)) (ps : list string) :
  ps <> [] -> Forall payload_ok ps ->
  forall (e : Elm) (r : string) (i k : Z),
    session e h k -> hits e "" n -> collecting e h L r i ->
    flowing e h -> flow_session e h ->
    sortedOBDMsg e = l0 ->
    0 < i -> i + Z.of_nat (List.length ps) <= 224 ->
    (forall j, (j < List.length ps)%nat ->
               len (r ++ concat_all (firstn j ps)) < L * 2) ->
    L * 2 <= len (r ++ concat_all ps) ->
    exists e2,
      handle_all (fun x => handle_request' x w) (consecutive_frames i ps) e
      = ((map (fun p => Ok (h, p, None)) (removelast ps)
          ++ [fst (resolve' l0 h (slice_to_Z (L * 2) (r ++ concat_all ps))
                     None None w e2)])%list,
         snd (resolve' l0 h (slice_to_Z (L * 2) (r ++ concat_all ps))
                None None w e2)) /\
      tasks e2 !! h = None.
Proof.
  intros Hne Hok. induction Hok as [|p ps Hp Hps IH]; [congruence|].
  intros e r i k Hs Hn Hcol Hfl Hfs Hl0 Hi Hlen Hinc Hdone.
  destruct (handle_consecutive w e h k n L r p i Hs Hn Hcol Hfl Hfs
              ltac:(cbn [List.length] in Hlen; lia) Hp)
    as (e' & R & S' & SO & Hfs' & F).
  destruct ps as [|q ps].
  - (* the last frame *)
    cbn [concat_all fold_right] in Hdone |- *. rewrite append_nil_r in *.
    replace (L * 2 <=? len (r ++ p)) with true in R, F
      by (symmetry; apply Z.leb_le; lia).
    exists e'. split; [|exact F].
    cbn [consecutive_frames handle_all removelast map app].
    rewrite R, Hl0.
    now destruct (resolve' l0 h (slice_to_Z (L * 2) (r ++ p)) None None w e').
  - pose proof (Hinc 1%nat ltac:(cbn; lia)) as H1.
    cbn [firstn concat_all fold_right] in H1. rewrite append_nil_r in H1.
    replace (L * 2 <=? len (r ++ p)) with false in R, F
      by (symmetry; apply Z.leb_gt; lia).
    destruct F as (Hcol' & Hn' & Hfl').
    destruct (IH ltac:(discriminate) e' (r ++ p) (i + 1) (k + 1) S' Hn' Hcol'
                Hfl' Hfs' ltac:(congruence) ltac:(lia)
                ltac:(cbn [List.length] in *; lia)) as (e2 & R2 & T2).
    + intros j Hj. specialize (Hinc (S j) ltac:(cbn [List.length] in *; lia)).
      cbn [firstn concat_all fold_right] in Hinc.
      now rewrite append_assoc.
    + cbn [concat_all fold_right] in Hdone |- *.
      now rewrite append_assoc.
    + exists e2. split; [|exact T2].
      change (consecutive_frames i (p :: q :: ps))
        with (consecutive_frame i p :: consecutive_frames (i + 1) (q :: ps)).
      cbn [handle_all]. rewrite R, R2.
      change (concat_all (p :: q :: ps)) with (p ++ concat_all (q :: ps)).
      rewrite <- append_assoc. reflexivity.
Qed.

(** A multi-frame exchange on a header with no task, with a renderer that
    handles the Flow Control template: [Multiline.run], given the frame
    that completes a text, returns the passthrough value holding the text
    cut to [2 * L] digits and resets its frame counter; [handle_request]
    returns no response for every request but the last, and for the last
    one looks the text up in the sorted catalog, the task being removed. *)
Lemma exchange_handled (e : Elm) (w : bool) (h : header_t) (k n L : Z)
    (p0 : string) (ps : list string) :
  session e h k -> hits e "" n -> tasks e !! h = None ->
  flow_session e h ->
  0 < L < 256 -> (List.length ps <= 223)%nat ->
  Forall payload_ok (p0 :: ps) ->
  (forall j, (j <= List.length ps)%nat ->
             len (concat_all (firstn j (p0 :: ps))) < L * 2) ->
  L * 2 <= len (concat_all (p0 :: ps)) ->
  let text := slice_to (Z.to_nat (L * 2)) (concat_all (p0 :: ps)) in
  (forall e' r i p,
     collecting e' h L r i -> flowing e' h -> flow_session e' h ->
     0 < i -> L * 2 <= len (r ++ p) ->
     exists t,
       fst (Multiline_run' h p None (Some i) e')
       = Ok (Tasks.PASSTHROUGH (slice_to (Z.to_nat (L * 2)) (r ++ p))) /\
       tasks (snd (Multiline_run' h p None (Some i) e')) !! h = Some t /\
       Tasks.frame t = None) /\
  String.length text = Z.to_nat (L * 2) /\
  exists e2,
    handle_all (fun x => handle_request' x w)
      (first_frame L p0 :: consecutive_frames 1 ps) e
    = ((map (fun p => Ok (h, p, None)) (removelast (p0 :: ps))
        ++ [fst (resolve' (sortedOBDMsg e) h text None None w e2)])%list,
       snd (resolve' (sortedOBDMsg e) h text None None w e2)) /\
    tasks e2 !! h = None.
Proof.
  intros Hs Hn Ht Hfs HL Hlen Hok Hinc Hdone text.
  split; [|split].
  - intros e' r i p Hcol Hfl' Hfs' Hi Hd.
    destruct (Multiline_run_consecutive h p e' L r i Hcol Hi Hfl' Hfs')
      as (A1 & _ & _ & _ & t & B1 & _ & B3 & _).
    replace (L * 2 <=? len (r ++ p)) with true in A1, B3
      by (symmetry; apply Z.leb_le; lia).
    exists t. rewrite A1, slice_to_Z_nonneg by lia. repeat split; assumption.
  - apply slice_to_length. unfold len in Hdone. lia.
  - inversion Hok as [|? ? Hp0 Hps]; subst.
    destruct (handle_first w e h k n L p0 Hs Hn Ht Hfs HL Hp0)
      as (e' & R & S' & SO & Hfs' & F).
    unfold text. rewrite <- slice_to_Z_nonneg by lia.
    destruct ps as [|q ps].
    + cbn [concat_all fold_right] in Hdone |- *. rewrite append_nil_r in *.
      replace (L * 2 <=? len p0) with true in R, F
        by (symmetry; apply Z.leb_le; lia).
      exists e'. split; [|exact F].
      cbn [consecutive_frames handle_all removelast map app]. rewrite R.
      now destruct (resolve' (sortedOBDMsg e) h (slice_to_Z (L * 2) p0) None
                      None w e').
    + pose proof (Hinc 1%nat ltac:(cbn; lia)) as H1.
      cbn [firstn concat_all fold_right] in H1. rewrite append_nil_r in H1.
      replace (L * 2 <=? len p0) with false in R, F
        by (symmetry; apply Z.leb_gt; lia).
      destruct F as (Hcol' & Hn' & Hfl').
      destruct (handle_consecutive_frames w h L n (sortedOBDMsg e) (q :: ps)
                  ltac:(discriminate) Hps e' p0 1 (k + 1) S' Hn' Hcol' Hfl' Hfs'
                  SO ltac:(lia) ltac:(cbn [List.length] in *; lia))
        as (e2 & R2 & T2).
      * intros j Hj. specialize (Hinc (S j) ltac:(cbn [List.length] in *; lia)).
        exact Hinc.
      * exact Hdone.
      * exists e2. split; [|exact T2].
        cbn [handle_all]. rewrite R, R2. reflexivity.
Qed.

End Multiline.

Lemma consecutive_frame_violation_witness :
  Multiline_run respond0 (Some (VStr "7E0")) "CC" None (Some 3)
    Elm_collecting
  = (Ok Tasks.ERROR,
     add_log (ERROR, "Invalid consecutive frame %s %s") Elm_collecting) /\
  task_action respond0 no_plugin_method (Some (VStr "7E0")) true
    Tasks.run "CC" None (Some 3) Elm_collecting
  = (Ok Tasks.ERROR, after_violation (Some (VStr "7E0")) 0 Elm_collecting) /\
  tasks (after_violation (Some (VStr "7E0")) 0 Elm_collecting)
  = delete (Some (VStr "7E0")) (tasks Elm_collecting) /\
  tasks (after_violation (Some (VStr "7E0")) 0 Elm_collecting)
    !! Some (VStr "7E0") = None /\
  (forall raw w' k cmd' length',
     counters (after_violation (Some (VStr "7E0")) 0 Elm_collecting)
       !! "cmd_set_header" = Some (VStr "7E0") ->
     hits (after_violation (Some (VStr "7E0")) 0 Elm_collecting) "commands" k ->
     is_Some (dict_get
                (scenario (after_violation (Some (VStr "7E0")) 0 Elm_collecting))
                (ObdMessage (after_violation (Some (VStr "7E0")) 0 Elm_collecting))) ->
     match counters (after_violation (Some (VStr "7E0")) 0 Elm_collecting)
             !! "cmd_fcsm" with
     | Some v => truthy v
     | None => false
     end = false ->
     let e1 := set_counters <["commands" := VInt (k + 1)]>
                 (after_violation (Some (VStr "7E0")) 0 Elm_collecting) in
     hr_pci (Some (VStr "7E0")) (upper (remove_spaces raw)) e1
     = (Ok (inr (cmd', length', None)), e1) ->
     handle_request1 raw w'
       (after_violation (Some (VStr "7E0")) 0 Elm_collecting)
     = resolve1
         (sortedOBDMsg (after_violation (Some (VStr "7E0")) 0 Elm_collecting))
         (Some (VStr "7E0")) cmd' length' None w' e1) /\
  (forall e0 raw w' k cmd' f',
     tasks e0 !! (counters e0 !! "cmd_set_header") = None ->
     hits e0 "commands" k ->
     is_Some (dict_get (scenario e0) (ObdMessage e0)) ->
     match counters e0 !! "cmd_fcsm" with Some v => truthy v | None => false end
     = false ->
     let e1 := set_counters <["commands" := VInt (k + 1)]> e0 in
     hr_pci (counters e0 !! "cmd_set_header") (upper (remove_spaces raw)) e1
     = (Ok (inr (cmd', None, Some f')), e1) ->
     handle_request1 raw w' e0
     = resolve1 (sortedOBDMsg e0) (counters e0 !! "cmd_set_header") cmd' None
         (Some f') w' e1).
Proof.
  apply (consecutive_frame_violation ELM_R_OK_spec ELM_R_UNKNOWN_spec ST_spec
           respond0 no_exec no_call no_plugin_init no_plugin_method
           Elm_collecting (Some (VStr "7E0"))
           (Tasks.mk Tasks.Multiline (Some (VStr "7E0")) "AA" None true
              (Some 1) (Some 9) 31 32 (Some "AA"))
           "CC" None 3 true Tasks.run 0).
  - reflexivity.
  - reflexivity.
  - lia.
  - left. discriminate.
  - reflexivity.
Defined.

(** C9 as stated fails for a Consecutive Frame that arrives while nothing
    is collected: with no task on the header ["7E0"], the frame ["210100"]
    (index 1, payload ["0100"]) is answered by the row of the catalog for
    ["0100"]. No error is signalled and nothing is logged, no task is made
    or removed, and the completion counter of the task is not touched. *)
Lemma consecutive_frame_violation_counterexample :
  tasks Elm_idle = ∅ /\
  handle_request1 "210100" true Elm_idle
  = (Ok (Some (VStr "7E0"), "0100", Some "4100"),
     set_counters <["PID" := VInt 1]>
       (set_counters <["commands" := VInt 1]> Elm_idle)) /\
  log (snd (handle_request1 "210100" true Elm_idle)) = [] /\
  tasks (snd (handle_request1 "210100" true Elm_idle)) = ∅ /\
  counters (snd (handle_request1 "210100" true Elm_idle)) !! "" = None.
Proof. repeat split. Qed.

(** ** The layers of the catalog and their order *)

Lemma dict_get_set {V : Type} (k k' : string) (v : V) (d : dict V) :
  dict_get k (dict_set k' v d) = if String.eqb k k' then Some v else dict_get k d.
Proof.
  induction d as [|[k1 v1] d IH]; cbn [dict_set dict_get].
  - reflexivity.
  - destruct (String.eqb_spec k' k1) as [->|Hne]; cbn [dict_get].
    + now destruct (String.eqb k k1).
    + rewrite IH. destruct (String.eqb_spec k k1) as [->|Hne2]; [|reflexivity].
      destruct (String.eqb_spec k1 k'); congruence.
Qed.

Lemma has_key_get {V : Type} (k : string) (d : dict V) :
  has_key k d = bool_decide (is_Some (dict_get k d)).
Proof.
  induction d as [|[k1 v1] d IH]; [reflexivity|].
  unfold has_key in *. cbn [keys map existsb fst dict_get].
  destruct (String.eqb k k1); cbn [orb].
  - symmetry. apply bool_decide_eq_true_2. eauto.
  - exact IH.
Qed.

Lemma keys_set {V : Type} (k : string) (v : V) (d : dict V) :
  keys (dict_set k v d) = if has_key k d then keys d else (keys d ++ [k])%list.
Proof.
  induction d as [|[k1 v1] d IH]; [reflexivity|].
  unfold has_key in *. cbn [dict_set keys map existsb fst].
  destruct (String.eqb k k1); cbn [orb map fst]; [reflexivity|].
  unfold keys in IH. rewrite IH.
  now destruct (existsb (String.eqb k) (map fst d)).
Qed.

Lemma has_key_In {V : Type} (k : string) (d : dict V) :
  has_key k d = true <-> In k (keys d).
Proof.
  unfold has_key. rewrite existsb_exists. split.
  - intros (x & Hx & E). apply String.eqb_eq in E. now subst.
  - intros H. exists k. split; [exact H | apply String.eqb_refl].
Qed.

Lemma dict_get_None {V : Type} (k : string) (d : dict V) :
  dict_get k d = None <-> ~ In k (keys d).
Proof.
  rewrite <- has_key_In, has_key_get. split.
  - intros H. rewrite H. intros E. apply bool_decide_eq_true_1 in E.
    destruct E as [x E]. discriminate E.
  - intros H. destruct (dict_get k d); [|reflexivity].
    exfalso. apply H. apply bool_decide_eq_true_2. eauto.
Qed.

(** [{**a, **b}]: a key of [b] takes the value [b] gives it, the other keys
    keep the value of [a]. *)
Lemma dict_get_merge {V : Type} (k : string) (b : dict V) :
  List.NoDup (keys b) ->
  forall a : dict V,
    dict_get k (dict_merge a b)
    = match dict_get k b with
      | Some v => Some v
      | None => dict_get k a
      end.
Proof.
  unfold dict_merge.
  induction b as [|[k1 v1] b IH]; intros Hnd a; [reflexivity|].
  cbn [keys map fst] in Hnd. apply List.NoDup_cons_iff in Hnd as [Hk1 Hnd].
  cbn [fold_left fst snd dict_get]. rewrite (IH Hnd), dict_get_set.
  destruct (String.eqb_spec k k1) as [->|Hne]; [|reflexivity].
  now rewrite (proj2 (dict_get_None k1 b) Hk1).
Qed.

(** [{**a, **b}] keeps the keys of [a] in their places and puts the new
    keys of [b] after them, in the order of [b]. *)
Lemma keys_merge {V : Type} (b : dict V) :
  List.NoDup (keys b) ->
  forall a : dict V,
    keys (dict_merge a b)
    = (keys a ++ List.filter (fun k => negb (has_key k a)) (keys b))%list.
Proof.
  unfold dict_merge.
  induction b as [|[k1 v1] b IH]; intros Hnd a.
  - cbn. now rewrite app_nil_r.
  - cbn [keys map fst] in Hnd. apply List.NoDup_cons_iff in Hnd as [Hk1 Hnd].
    cbn [fold_left fst snd]. rewrite (IH Hnd), keys_set.
    change (keys ((k1, v1) :: b)) with (k1 :: keys b). cbn [List.filter].
    destruct (has_key k1 a) eqn:Ha; cbn [negb].
    + f_equal. apply List.filter_ext_in. intros k _.
      unfold has_key. now rewrite keys_set, Ha.
    + rewrite <- app_assoc. cbn [app]. do 2 f_equal.
      apply List.filter_ext_in. intros k Hk.
      unfold has_key at 1. rewrite keys_set, Ha, existsb_app. cbn [existsb].
      destruct (String.eqb_spec k k1) as [->|_]; [contradiction|].
      now rewrite !orb_false_r.
Qed.

Lemma NoDup_keys_set {V : Type} (k : string) (v : V) (d : dict V) :
  List.NoDup (keys d) -> List.NoDup (keys (dict_set k v d)).
Proof.
  intros H. rewrite keys_set. destruct (has_key k d) eqn:E; [exact H|].
  apply List.NoDup_app.
  - exact H.
  - constructor; [intros []|constructor].
  - intros x Hx [->|[]]. apply has_key_In in Hx. congruence.
Qed.

Lemma NoDup_keys_merge {V : Type} (b a : dict V) :
  List.NoDup (keys a) -> List.NoDup (keys (dict_merge a b)).
Proof.
  unfold dict_merge. revert a.
  induction b as [|[k1 v1] b IH]; intros a Ha; [exact Ha|].
  cbn [fold_left fst snd]. apply IH. now apply NoDup_keys_set.
Qed.

Lemma unique_NoDup (l : list string) : unique l = true -> List.NoDup l.
Proof.
  induction l as [|k l IH]; cbn [unique]; [constructor|].
  intros H. apply andb_true_iff in H as [Hk Hl]. constructor; [|now apply IH].
  intros Hin. apply negb_true_iff in Hk.
  assert (E : existsb (String.eqb k) l = true).
  { apply existsb_exists. exists k. split; [exact Hin | apply String.eqb_refl]. }
  congruence.
Qed.

Lemma dict_get_In {V : Type} (k : string) (v : V) (d : dict V) :
  List.NoDup (keys d) -> (dict_get k d = Some v <-> In (k, v) d).
Proof.
  induction d as [|[k1 v1] d IH]; intros Hnd.
  - cbn. split; [discriminate | intros []].
  - change (keys ((k1, v1) :: d)) with (k1 :: keys d) in Hnd.
    apply List.NoDup_cons_iff in Hnd as [Hk1 Hnd].
    cbn [dict_get In]. destruct (String.eqb_spec k k1) as [->|Hne].
    + split.
      * intros [= ->]. now left.
      * intros [[= ->]|Hin]; [reflexivity|].
        exfalso. apply Hk1. apply (in_map fst) in Hin. exact Hin.
    + rewrite (IH Hnd). split; [now right|].
      intros [[= -> ->]|Hin]; [congruence | exact Hin].
Qed.

(** The order of a dict does not change what a key is bound to. *)
Lemma dict_get_perm {V : Type} (k : string) (d d' : dict V) :
  List.NoDup (keys d) -> Permutation d d' -> dict_get k d' = dict_get k d.
Proof.
  intros Hnd Hp.
  assert (Hnd' : List.NoDup (keys d')).
  { apply (Permutation_NoDup (l := keys d)); [|exact Hnd].
    unfold keys. now apply Permutation_map. }
  destruct (dict_get k d) as [v|] eqn:E.
  - apply (dict_get_In _ _ _ Hnd) in E. apply (dict_get_In _ _ _ Hnd').
    now apply (Permutation_in _ Hp).
  - destruct (dict_get k d') as [v|] eqn:E'; [|reflexivity].
    apply (dict_get_In _ _ _ Hnd') in E'.
    apply (Permutation_in _ (Permutation_sym Hp)) in E'.
    apply (dict_get_In _ _ _ Hnd) in E'. congruence.
Qed.

(** ** [sorted]: a stable sort *)

Lemma insert_by_perm {A : Type} (key : A -> Z) (x : A) (l : list A) :
  Permutation (x :: l) (insert_by key x l).
Proof.
  induction l as [|y l IH]; cbn [insert_by]; [reflexivity|].
  destruct (key x <=? key y); [reflexivity|].
  rewrite perm_swap. now constructor.
Qed.

Lemma sorted_perm {A : Type} (key : A -> Z) (l : list A) :
  Permutation l (sorted key l).
Proof.
  induction l as [|x l IH]; [reflexivity|].
  cbn [sorted fold_right]. fold (sorted key l).
  rewrite <- insert_by_perm. now constructor.
Qed.

Lemma insert_by_sorted {A : Type} (key : A -> Z) (x : A) (l : list A) :
  StronglySorted (fun a b => key a <= key b) l ->
  StronglySorted (fun a b => key a <= key b) (insert_by key x l).
Proof.
  induction 1 as [|y l Hs IH Hy]; cbn [insert_by].
  - constructor; constructor.
  - destruct (Z.leb_spec (key x) (key y)) as [Hle|Hlt].
    + constructor; [now constructor|].
      constructor; [exact Hle|].
      eapply List.Forall_impl; [|exact Hy]. cbn. intros; lia.
    + constructor; [exact IH|].
      apply List.Forall_forall. intros z Hz.
      apply (Permutation_in _ (Permutation_sym (insert_by_perm key x l))) in Hz.
      destruct Hz as [<-|Hz]; [lia|].
      rewrite List.Forall_forall in Hy. now apply Hy.
Qed.

Lemma sorted_sorted {A : Type} (key : A -> Z) (l : list A) :
  StronglySorted (fun a b => key a <= key b) (sorted key l).
Proof.
  induction l as [|x l IH]; [constructor|].
  cbn [sorted fold_right]. now apply insert_by_sorted.
Qed.

Lemma filter_insert_by {A : Type} (key : A -> Z) (p : Z) (x : A) (l : list A) :
  List.filter (fun a => key a =? p) (insert_by key x l)
  = if key x =? p then x :: List.filter (fun a => key a =? p) l
    else List.filter (fun a => key a =? p) l.
Proof.
  induction l as [|y l IH]; cbn [insert_by]; [reflexivity|].
  destruct (Z.leb_spec (key x) (key y)) as [Hle|Hlt]; [reflexivity|].
  cbn [List.filter]. rewrite IH.
  destruct (Z.eqb_spec (key x) p) as [Hx|Hx]; [|reflexivity].
  destruct (Z.eqb_spec (key y) p) as [Hy|Hy]; [lia | reflexivity].
Qed.

(** The rows of one key value keep the order they had before the sort. *)
Lemma sorted_stable {A : Type} (key : A -> Z) (p : Z) (l : list A) :
  List.filter (fun a => key a =? p) (sorted key l)
  = List.filter (fun a => key a =? p) l.
Proof.
  induction l as [|x l IH]; [reflexivity|].
  cbn [sorted fold_right]. fold (sorted key l).
  rewrite filter_insert_by, IH. reflexivity.
Qed.

Lemma sorted_after {A : Type} (R : A -> A -> Prop) (l1 l2 : list A) (x : A) :
  StronglySorted R (l1 ++ x :: l2) -> Forall (R x) l2.
Proof.
  induction l1 as [|y l1 IH]; cbn [app]; intros H.
  - now apply StronglySorted_inv in H as [_ H].
  - apply StronglySorted_inv in H as [H _]. now apply IH.
Qed.

(** ** The merged catalog *)

Lemma dict_get_merged (d a s : dict entry) (k : string) :
  List.NoDup (keys d) -> List.NoDup (keys a) -> List.NoDup (keys s) ->
  dict_get k (merged d a s) = layered d a s k.
Proof.
  intros Hd Ha Hs. unfold merged, layered.
  rewrite (dict_get_merge k s Hs), (dict_get_merge k a Ha),
    (dict_get_merge k d Hd).
  cbn [dict_get]. now destruct (dict_get k d).
Qed.

Lemma NoDup_keys_merged (d a s : dict entry) :
  List.NoDup (keys (merged d a s)).
Proof.
  unfold merged. do 3 apply NoDup_keys_merge. constructor.
Qed.

(** The order of the merged catalog: the keys of ["default"], then the new
    keys of ["AT"], then the new keys of the scenario. *)
Lemma keys_merged (d a s : dict entry) :
  List.NoDup (keys d) -> List.NoDup (keys a) -> List.NoDup (keys s) ->
  keys (merged d a s)
  = (keys d
     ++ List.filter (fun k => negb (has_key k d)) (keys a)
     ++ List.filter (fun k => negb (has_key k d || has_key k a)) (keys s))%list.
Proof.
  intros Hd Ha Hs. unfold merged.
  assert (E0 : forall k, has_key k (dict_merge [] d) = has_key k d).
  { intros k. rewrite !has_key_get, (dict_get_merge k d Hd). cbn [dict_get].
    now destruct (dict_get k d). }
  assert (E1 : forall k, has_key k (dict_merge (dict_merge [] d) a)
                         = has_key k d || has_key k a).
  { intros k. rewrite !has_key_get, (dict_get_merge k a Ha),
      (dict_get_merge k d Hd). cbn [dict_get].
    destruct (dict_get k a), (dict_get k d); reflexivity. }
  rewrite (keys_merge s Hs), (keys_merge a Ha), (keys_merge d Hd).
  cbn [keys map app]. rewrite <- app_assoc. f_equal.
  - clear. induction (keys d) as [|k l IH]; [reflexivity|].
    cbn [List.filter]. unfold has_key at 1. cbn [keys map existsb negb].
    now rewrite IH.
  - f_equal.
    + apply List.filter_ext. intros k. now rewrite E0.
    + apply List.filter_ext. intros k. now rewrite E1.
Qed.

Lemma setSortedOBDMsg_layers (e : Elm) (sc : string) (d a s : dict entry) :
  dict_get "default" (ObdMessage e) = Some d ->
  dict_get "AT" (ObdMessage e) = Some a ->
  dict_get sc (ObdMessage e) = Some s ->
  setSortedOBDMsg (Some sc) e
  = (Ok tt, set_sortedOBDMsg (sorted priority (merged d a s))
              (set_scenario sc e)).
Proof.
  intros Hd Ha Hs. unfold setSortedOBDMsg.
  set (e1 := set_scenario sc e).
  assert (L : forall n x, dict_get n (ObdMessage e) = Some x ->
                          layer n e1 = (Ok x, e1)).
  { intros n x Hn. unfold layer. rewrite gets_bind.
    change (ObdMessage e1) with (ObdMessage e). now rewrite Hn. }
  rewrite (bind_ok _ _ e e1 tt) by reflexivity.
  rewrite !gets_bind. change (ObdMessage e1) with (ObdMessage e).
  change (scenario e1) with sc. rewrite Hd, Ha.
  rewrite !bool_decide_eq_true_2 by eauto. cbn [andb].
  erewrite bind_ok; [reflexivity|].
  rewrite (bind_ok _ _ _ _ _ (L _ _ Hd)), (bind_ok _ _ _ _ _ (L _ _ Ha)),
    (bind_ok _ _ _ _ _ (L _ _ Hs)).
  reflexivity.
Qed.

(** ** The selection of a row *)

Section Priority.

Variables ELM_R_OK ELM_R_UNKNOWN : string.
Variable ST : string -> string.
Variable handle_response :
  string -> bool -> header_t -> option string -> M (option string).
Variable py_exec : string -> header_t -> string -> string -> M unit.
Variable call : string -> string -> string -> entry -> M string.
Variable plugin_init : string -> Tasks.t -> M Tasks.t.
Variable plugin_method :
  string -> Tasks.method -> header_t -> string -> option Z -> option Z ->
  M Tasks.ret_t.

Abbreviation scan :=
  (resolve ELM_R_OK ELM_R_UNKNOWN ST handle_response py_exec call
     plugin_init plugin_method).
Abbreviation answer_of :=
  (answer_entry ELM_R_OK handle_response py_exec call plugin_init
     plugin_method).

Lemma resolve_skip_front (l1 l2 : list (string * entry)) (header : header_t)
    (cmd : string) (length frame : option Z) (w : bool) (e : Elm) :
  no_match l1 cmd ->
  scan (l1 ++ l2)%list header cmd length frame w e
  = scan l2 header cmd length frame w e.
Proof.
  induction 1 as [|[key val] l Hkv _ IH]; [reflexivity|].
  cbn [app resolve]. cbn [snd] in Hkv. now rewrite Hkv.
Qed.

(** The scan answers with the first row that matches the command, when the
    row passes the header test and is not to be skipped; the row is
    counted. *)
Lemma resolve_first (l1 l2 : list (string * entry)) (key : string)
    (val : entry) (header : header_t) (cmd : string)
    (length frame : option Z) (w : bool) (n : Z) (e : Elm) :
  no_match l1 cmd ->
  matches cmd (key, val) = true ->
  header_admits e header val ->
  Action val <> Some "skip" ->
  hits e (pid_of key) n ->
  scan (l1 ++ (key, val) :: l2)%list header cmd length frame w e
  = answer_of (pid_of key) val header cmd length frame w
      (set_counters <[pid_of key := VInt (n + 1)]> e).
Proof.
  intros Hno Hm Hh Ha Hn. rewrite (resolve_skip_front _ _ _ _ _ _ _ _ Hno).
  cbn [resolve]. unfold matches in Hm. cbn [snd] in Hm. rewrite Hm.
  fold (pid_of key).
  assert (E : (match Header val, header with
               | Some hv, Some h =>
                   if truthy h then
                     c ← counters_at "cmd_set_header";
                     mret (negb (Py.eqb hv c))
                   else mret false
               | _, _ => mret false
               end) e = (Ok false, e)).
  { unfold header_admits in Hh.
    destruct (Header val) as [hv|]; [|reflexivity].
    destruct header as [h|]; [|reflexivity].
    destruct (truthy h); [|reflexivity].
    destruct (Hh eq_refl) as (c & Hc & Hv).
    assert (C : counters_at "cmd_set_header" e = (Ok c, e)).
    { unfold counters_at. now rewrite gets_bind, Hc. }
    rewrite (bind_ok _ _ _ _ _ C). now rewrite Hv. }
  rewrite (bind_ok _ _ _ _ _ E).
  rewrite (bind_ok _ _ _ _ _ (count_hits e (pid_of key) n Hn)).
  now rewrite bool_decide_eq_false_2.
Qed.

(** C5 (amended). With the layers ["default"], ["AT"] and the scenario in
    the catalog, [setSortedOBDMsg] succeeds and leaves a sorted catalog [l]
    in which
    - a key is bound to the row the scenario gives it, else to the row of
      ["AT"], else to the row of ["default"];
    - the rows are in ascending [Priority], a row without one counting
      as 10, whatever their layers;
    - rows of equal priority are in the order of the merged catalog, whose
      keys are those of ["default"], then the new ones of ["AT"], then the
      new ones of the scenario;
    and the scan answers with the first row of [l] that matches the
    command (when it passes the header test and is not skipped), so that no
    matching row has a smaller priority. *)
Theorem catalog_priority (e : Elm) (sc : string) (d a s : dict entry) :
  dict_get "default" (ObdMessage e) = Some d ->
  dict_get "AT" (ObdMessage e) = Some a ->
  dict_get sc (ObdMessage e) = Some s ->
  unique (keys d) = true ->
  unique (keys a) = true ->
  unique (keys s) = true ->
  exists l : list (string * entry),
    setSortedOBDMsg (Some sc) e
    = (Ok tt, set_sortedOBDMsg l (set_scenario sc e)) /\
    (forall k, dict_get k l = layered d a s k) /\
    StronglySorted by_priority l /\
    (forall p, of_priority p l = of_priority p (merged d a s)) /\
    keys (merged d a s)
    = (keys d
       ++ List.filter (fun k => negb (has_key k d)) (keys a)
       ++ List.filter (fun k => negb (has_key k d || has_key k a)) (keys s))%list /\
    (forall l1 key val l2 header cmd length frame w n e1,
       l = (l1 ++ (key, val) :: l2)%list ->
       no_match l1 cmd ->
       matches cmd (key, val) = true ->
       header_admits e1 header val ->
       Action val <> Some "skip" ->
       hits e1 (pid_of key) n ->
       scan l header cmd length frame w e1
       = answer_of (pid_of key) val header cmd length frame w
           (set_counters <[pid_of key := VInt (n + 1)]> e1) /\
       (forall y, In y l -> matches cmd y = true -> by_priority (key, val) y)).
Proof.
  intros Hd Ha Hs Ud Ua Us.
  apply unique_NoDup in Ud, Ua, Us.
  exists (sorted priority (merged d a s)).
  split; [now apply setSortedOBDMsg_layers|].
  split.
  { intros k. rewrite <- (dict_get_merged d a s k Ud Ua Us).
    apply dict_get_perm; [apply NoDup_keys_merged | apply sorted_perm]. }
  split; [apply sorted_sorted|].
  split; [intros p; apply sorted_stable|].
  split; [now apply keys_merged|].
  intros l1 key val l2 header cmd length frame w n e1 El Hno Hm Hh Hsk Hn.
  rewrite El. split; [now apply resolve_first|].
  intros y Hy Hmy. apply in_app_or in Hy as [Hy|[<-|Hy]].
  - exfalso. unfold no_match in Hno. rewrite List.Forall_forall in Hno.
    specialize (Hno y Hy). unfold matches in Hmy. congruence.
  - unfold by_priority. lia.
  - pose proof (sorted_sorted priority (merged d a s)) as S.
    rewrite El in S. apply sorted_after in S.
    rewrite List.Forall_forall in S. now apply S.
Qed.

End Priority.

Lemma catalog_priority_witness :
  exists l : list (string * entry),
    setSortedOBDMsg (Some "car") Elm_same_key
    = (Ok tt, set_sortedOBDMsg l (set_scenario "car" Elm_same_key)) /\
    (forall k,
       dict_get k l
       = layered [("PID", row "0100" None "default");
                  ("VIN", row "0902" (Some 5) "vin")]
           [("ATZ", row "ATZ" (Some 1) "ELM327 v1.5")]
           [("PID", row "0100" None "car")] k) /\
    StronglySorted by_priority l.
Proof.
  destruct (catalog_priority ELM_R_OK_spec ELM_R_UNKNOWN_spec ST_spec
              quiet_response no_exec no_call no_plugin_init no_plugin_method
              Elm_same_key "car"
              [("PID", row "0100" None "default");
               ("VIN", row "0902" (Some 5) "vin")]
              [("ATZ", row "ATZ" (Some 1) "ELM327 v1.5")]
              [("PID", row "0100" None "car")]
              eq_refl eq_refl eq_refl eq_refl eq_refl eq_refl)
    as (l & H1 & H2 & H3 & _).
  exists l. split; [exact H1|]. split; [exact H2 | exact H3].
Defined.

(** C5 as stated fails when the scenario answers a command under a key of
    its own: the row of ["default"] comes first in the merged catalog, the
    two rows have the same priority, and the row of ["default"] answers. *)
Lemma catalog_priority_counterexample :
  dict_get "default" other_key_catalog
  = Some [("PID", row "0100" None "default")] /\
  dict_get "AT" other_key_catalog = Some [] /\
  dict_get "car" other_key_catalog
  = Some [("CAR_PID", row "0100" None "car")] /\
  matches "0100" ("PID", row "0100" None "default") = true /\
  matches "0100" ("CAR_PID", row "0100" None "car") = true /\
  fst (setSortedOBDMsg (Some "car") Elm_other_key) = Ok tt /\
  fst (handle_request0 "0100" true
         (snd (setSortedOBDMsg (Some "car") Elm_other_key)))
  = Ok (None, "0100", Some "default").
Proof. repeat split; vm_compute; reflexivity. Qed.

(** * Further properties of the resolver *)

Section Rows.

Variables ELM_R_OK ELM_R_UNKNOWN : string.
Variable ST : string -> string.
Variable handle_response :
  string -> bool -> header_t -> option string -> M (option string).
Variable py_exec : string -> header_t -> string -> string -> M unit.
Variable call : string -> string -> string -> entry -> M string.
Variable plugin_init : string -> Tasks.t -> M Tasks.t.
Variable plugin_method :
  string -> Tasks.method -> header_t -> string -> option Z -> option Z ->
  M Tasks.ret_t.

Abbreviation scan' :=
  (resolve ELM_R_OK ELM_R_UNKNOWN ST handle_response py_exec call
     plugin_init plugin_method).
Abbreviation answer_of' :=
  (answer_entry ELM_R_OK handle_response py_exec call plugin_init
     plugin_method).
Abbreviation handle' :=
  (handle_request ELM_R_OK ELM_R_UNKNOWN ST handle_response py_exec call
     plugin_init plugin_method).

Lemma try_raise {A : Type} (m h : M A) (e e' : Elm) (x : exn) :
  m e = (Raise x, e') -> try_except m h e = h e'.
Proof. intros H. unfold try_except. now rewrite H. Qed.

(** The first lines of [answer_entry]: the report of a missing [Descr]. *)
Lemma answer_entry_descr (key : string) (val : entry) (n : Z) (e : Elm)
    (k : M hr_result) :
  (match Descr val with
   | Some _ => mret tt
   | None =>
       logging ERROR "Internal error - Missing description for %s, PID %s"
   end;; k) (set_counters <[pid_of key := VInt (n + 1)]> e)
  = k (selected key val n e).
Proof. unfold selected. now destruct (Descr val). Qed.

Lemma answer_selected (key : string) (val : entry) (n : Z) (e : Elm) :
  answer (selected key val n e) = answer e.
Proof. unfold selected. now destruct (Descr val). Qed.

(** X1: An answer put in [self.answer] under the key of a row takes the place
    of the row's own response: when the row is the first one matching the
    command, the scan returns that answer; the task, the Python text and
    the [Response] of the row are not used. *)
Theorem answer_override (l1 l2 : list (string * entry)) (key : string)
    (val : entry) (header : header_t) (cmd : string)
    (length frame : option Z) (w : bool) (n : Z) (e : Elm) (x : string) :
  no_match l1 cmd ->
  matches cmd (key, val) = true ->
  header_admits e header val ->
  Action val <> Some "skip" ->
  hits e (pid_of key) n ->
  answer e !! pid_of key = Some x ->
  scan' (l1 ++ (key, val) :: l2)%list header cmd length frame w e
  = (Ok (header, cmd, Some x), selected key val n e).
Proof.
  intros Hno Hm Hh Hsk Hn Hx.
  rewrite (resolve_first ELM_R_OK ELM_R_UNKNOWN ST handle_response py_exec
             call plugin_init plugin_method l1 l2 key val header cmd length
             frame w n e Hno Hm Hh Hsk Hn).
  unfold answer_entry. rewrite answer_entry_descr, gets_bind.
  now rewrite answer_selected, Hx.
Qed.

(** [randint(0, n - 1)] draws a number below [n]. *)
Lemma randint_below_ok (n : nat) (e : Elm) :
  (0 < n)%nat ->
  exists i e',
    randint_below n e = (Ok i, e') /\ (i < n)%nat /\
    counters e' = counters e /\ tasks e' = tasks e.
Proof.
  intros Hn. unfold randint_below.
  replace (n =? 0)%nat with false by (symmetry; apply Nat.eqb_neq; lia).
  rewrite gets_bind. destruct (entropy e) as [|r rs].
  - exists O, e. repeat split; [exact Hn].
  - exists (r mod n)%nat, (set_entropy rs e). repeat split.
    apply Nat.mod_upper_bound. lia.
Qed.

(** X2: The answer of a plain row that is not overridden, by its [Response]:
    a text is returned as it is, [None] gives no response, a list gives one
    of its elements (and raises [ValueError] when it is empty), and a row
    without [Response] is reported and answered with [ELM_R_OK]. Nothing
    but the log and the random source is touched. *)
Theorem plain_row_answer (pid : string) (val : entry) (header : header_t)
    (cmd : string) (length frame : option Z) (w : bool) (e : Elm) :
  plain val ->
  answer e !! pid = None ->
  exists e',
    counters e' = counters e /\ tasks e' = tasks e /\
    match Response val with
    | None =>
        answer_of' pid val header cmd length frame w e
        = (Ok (header, cmd, Some ELM_R_OK), e') /\
        In (ERROR, "Internal error - Missing response for %s, PID %s") (log e')
    | Some RNone =>
        answer_of' pid val header cmd length frame w e
        = (Ok (header, cmd, None), e')
    | Some (RStr x) =>
        answer_of' pid val header cmd length frame w e
        = (Ok (header, cmd, Some x), e')
    | Some (RList []) =>
        answer_of' pid val header cmd length frame w e = (Raise ValueError, e')
    | Some (RList l) =>
        exists x, In x l /\
          answer_of' pid val header cmd length frame w e
          = (Ok (header, cmd, Some x), e')
    end.
Proof.
  intros (HT & HE & HI & HW & HL & HH & HF) Ha.
  unfold answer_entry. rewrite HT, HE, HI, HW, HL, HH, HF.
  set (e0 := match Descr val with
             | Some _ => e
             | None =>
                 add_log
                   (ERROR, "Internal error - Missing description for %s, PID %s") e
             end).
  assert (C0 : counters e0 = counters e) by (unfold e0; now destruct (Descr val)).
  assert (T0 : tasks e0 = tasks e) by (unfold e0; now destruct (Descr val)).
  assert (A0 : answer e0 = answer e) by (unfold e0; now destruct (Descr val)).
  assert (D : forall k : M hr_result,
             (match Descr val with
              | Some _ => mret tt
              | None =>
                  logging ERROR
                    "Internal error - Missing description for %s, PID %s"
              end;; k) e = k e0).
  { intros k. unfold e0. now destruct (Descr val). }
  rewrite D, gets_bind, A0, Ha.
  rewrite (bind_ok _ _ e0 e0 (inr cmd)) by reflexivity. cbv iota beta.
  rewrite (bind_ok _ _ e0 e0 tt) by reflexivity.
  cbn [String.eqb negb].
  rewrite (bind_ok _ _ e0 e0 tt) by reflexivity.
  destruct (Response val) as [[|x|l]|].
  - exists e0. repeat split; assumption.
  - exists e0. split; [exact C0|]. split; [exact T0|].
    rewrite (bind_ok _ _ e0 e0 "") by reflexivity.
    rewrite (bind_ok _ _ e0 e0 "") by reflexivity.
    now rewrite append_nil_l, append_nil_r.
  - rewrite (bind_ok _ _ e0 e0 "") by reflexivity.
    rewrite (bind_ok _ _ e0 e0 "") by reflexivity.
    destruct l as [|y l].
    + exists e0. repeat split; assumption.
    + set (ys := y :: l).
      destruct (randint_below_ok (List.length ys) e0) as (i & e' & R & Hi & C & T);
        [cbn; lia|].
      exists e'. split; [congruence|]. split; [congruence|].
      exists (nth i ys ""). split; [now apply nth_In|].
      rewrite (bind_ok _ _ _ _ _ R).
      now rewrite append_nil_l, append_nil_r.
  - exists (add_log (ERROR, "Internal error - Missing response for %s, PID %s") e0).
    split; [exact C0|]. split; [exact T0|]. split; [reflexivity|].
    cbn. apply in_or_app. right. now left.
Qed.

(** X3: A row that names a task which cannot be started gives no response.
    When no plugin has the name, the error is logged and nothing else
    changes. When the constructor of the plugin raises, the failure is
    logged as critical; the task that was active on the header has been
    removed before, and is not put back. In both cases the [Exec] text and
    the [Response] of the row are not used. *)
Theorem task_start_failure (pid name : string) (val : entry)
    (header : header_t) (cmd : string) (length frame : option Z) (w : bool)
    (e : Elm) :
  answer e !! pid = None ->
  Task val = Some name ->
  is_Some (Descr val) ->
  (name ∉ plugins e ->
   answer_of' pid val header cmd length frame w e
   = (Ok (header, cmd, None),
      add_log (ERROR, "Unexisting plugin " ++ dq ++ "%s" ++ dq ++ " for pid "
                      ++ dq ++ "%s" ++ dq) e)) /\
  (forall x e2,
     name ∈ plugins e ->
     plugin_init name
       (Tasks.init (Tasks.Plugin name) header cmd (Some val) w)
       (set_tasks (delete header) e) = (Raise x, e2) ->
     answer_of' pid val header cmd length frame w e
     = (Ok (header, cmd, None),
        add_log (CRITICAL, "Cannot start task " ++ dq ++ "%s" ++ dq
                           ++ ", header=" ++ dq ++ "%s" ++ dq ++ ": %s") e2)).
Proof.
  intros Ha HT [d Hd]. unfold answer_entry. rewrite Hd, HT.
  rewrite (bind_ok _ _ e e tt) by reflexivity. rewrite gets_bind, Ha.
  split.
  - intros Hin.
    rewrite (bind_ok _ _ e
               (add_log (ERROR, "Unexisting plugin " ++ dq ++ "%s" ++ dq
                                ++ " for pid " ++ dq ++ "%s" ++ dq) e)
               (inl (header, cmd, None) : hr_result + string)); [reflexivity|].
    rewrite gets_bind, (bool_decide_eq_false_2 _ Hin). reflexivity.
  - intros x e2 Hin Hp.
    rewrite (bind_ok _ _ e
               (add_log (CRITICAL, "Cannot start task " ++ dq ++ "%s" ++ dq
                                   ++ ", header=" ++ dq ++ "%s" ++ dq ++ ": %s")
                  e2)
               (inl (header, cmd, None) : hr_result + string)); [reflexivity|].
    rewrite gets_bind, (bool_decide_eq_true_2 _ Hin).
    rewrite (bind_ok _ _ e (set_tasks (delete header) e) tt) by reflexivity.
    rewrite (bind_ok _ _ (set_tasks (delete header) e)
               (add_log (CRITICAL, "Cannot start task " ++ dq ++ "%s" ++ dq
                                   ++ ", header=" ++ dq ++ "%s" ++ dq ++ ": %s")
                  e2) false); [reflexivity|].
    erewrite try_raise; [reflexivity|]. apply bind_raise. exact Hp.
Qed.

(** X4: A task whose method raises does not stop the request: [task_action]
    logs the failure as critical, removes the task from the table and
    returns the error value, and a request handed to the task gets no
    response. The changes the method made before it raised are kept. *)
Theorem task_failure_contained (h : header_t) (w : bool) (cmd : string)
    (length frame : option Z) (e e1 : Elm) (t t1 : Tasks.t) (x : exn) :
  tasks e !! h = Some t ->
  tasks e1 !! h = Some t1 ->
  truthy (len_hex cmd) = true ->
  task_method handle_response plugin_method Tasks.run h cmd length frame e
  = (Raise x, e1) ->
  let e' :=
    set_tasks (delete h)
      (add_log (CRITICAL, "Error in task " ++ dq ++ "%s" ++ dq ++ ", header="
                          ++ dq ++ "%s" ++ dq ++ ", method=%s(): %s") e1) in
  task_action handle_response plugin_method h w Tasks.run cmd length frame e
  = (Ok Tasks.ERROR, e') /\
  hr_tasks_active handle_response plugin_method h cmd length frame w e
  = (Ok (inl (h, cmd, None)), e') /\
  tasks e' !! h = None.
Proof.
  intros Ht Ht1 Hx Hm e'.
  assert (S0 : forall e0 t0, tasks e0 !! h = Some t0 -> self h e0 = (Ok t0, e0)).
  { intros e0 t0 H0. unfold self. now rewrite gets_bind, H0. }
  assert (A : task_action handle_response plugin_method h w Tasks.run cmd
                length frame e = (Ok Tasks.ERROR, e')).
  { unfold task_action. rewrite (bind_ok _ _ _ _ _ (S0 e t Ht)).
    rewrite (bind_ok _ _ e e' None); [reflexivity|].
    erewrite try_raise; [|apply bind_raise; exact Hm].
    rewrite (bind_ok _ _ _ _ _ (S0 e1 t1 Ht1)). reflexivity. }
  split; [exact A|]. split.
  - unfold hr_tasks_active. rewrite gets_bind.
    rewrite bool_decide_eq_true_2 by (rewrite Ht; eauto).
    rewrite Hx. now rewrite (bind_ok _ _ _ _ _ A).
  - unfold e'. cbn. apply lookup_delete_eq.
Qed.

(** X5: Selecting a scenario that the catalog does not have raises [KeyError],
    but the name of the scenario is already stored and the sorted catalog
    is the one of before. From then on every request is counted, reported
    as an error and answered with the empty text, whatever the command. *)
Theorem unknown_scenario (raw : string) (w : bool) (e : Elm) (sc : string)
    (k : Z) :
  dict_get sc (ObdMessage e) = None ->
  hits e "commands" k ->
  setSortedOBDMsg (Some sc) e = (Raise KeyError, set_scenario sc e) /\
  handle' raw w (set_scenario sc e)
  = (Ok (counters e !! "cmd_set_header", upper (remove_spaces raw), Some ""),
     add_log (ERROR, "Unknown scenario %s")
       (set_counters <["commands" := VInt (k + 1)]> (set_scenario sc e))).
Proof.
  intros Hsc Hk. set (e1 := set_scenario sc e). split.
  - unfold setSortedOBDMsg.
    rewrite (bind_ok _ _ e e1 tt) by reflexivity.
    rewrite !gets_bind. change (ObdMessage e1) with (ObdMessage e).
    change (scenario e1) with sc.
    assert (L : forall A (k : dict entry -> M A),
               (layer sc ≫= k) e1 = (Raise KeyError, e1)).
    { intros A k0. apply bind_raise. unfold layer. rewrite gets_bind.
      change (ObdMessage e1) with (ObdMessage e). now rewrite Hsc. }
    apply bind_raise.
    destruct (bool_decide (is_Some (dict_get "default" (ObdMessage e)))
              && bool_decide (is_Some (dict_get "AT" (ObdMessage e)))) eqn:E.
    + apply andb_true_iff in E as [Ed Ea].
      apply bool_decide_eq_true_1 in Ed as [d Hd].
      apply bool_decide_eq_true_1 in Ea as [a Ha].
      assert (Ld : forall n x, dict_get n (ObdMessage e) = Some x ->
                               layer n e1 = (Ok x, e1)).
      { intros n x Hn. unfold layer. rewrite gets_bind.
        change (ObdMessage e1) with (ObdMessage e). now rewrite Hn. }
      rewrite (bind_ok _ _ _ _ _ (Ld _ _ Hd)), (bind_ok _ _ _ _ _ (Ld _ _ Ha)).
      apply L.
    + apply L.
  - unfold handle_request.
    assert (Hk1 : hits e1 "commands" k) by exact Hk.
    rewrite (bind_ok _ _ _ _ _ (count_hits e1 "commands" k Hk1)).
    rewrite !gets_bind. cbn [ObdMessage scenario e1 set_counters set_scenario].
    rewrite Hsc.
    rewrite bool_decide_eq_false_2 by (intros [? ?]; discriminate).
    cbn [negb].
    change (counters (set_counters <["commands" := VInt (k + 1)]> e1))
      with (<["commands" := VInt (k + 1)]> (counters e)).
    rewrite lookup_insert_ne by discriminate. reflexivity.
Qed.

(** X18: The header filter of the scan: a row bound to another header than the
    one that is set is passed over like a row that does not match the
    command. It does not answer, it is not counted and nothing is logged:
    the scan goes on from the rows after it with the emulator as it was. *)
Theorem header_filter (l1 l2 : list (string * entry)) (header : header_t)
    (cmd : string) (length frame : option Z) (w : bool) (e : Elm) :
  Forall (fun kv => matches cmd kv = false \/ header_rejects e header (snd kv))
    l1 ->
  scan' (l1 ++ l2)%list header cmd length frame w e
  = scan' l2 header cmd length frame w e.
Proof.
  induction 1 as [|[key val] l Hkv _ IH]; [reflexivity|].
  cbn [app resolve]. cbn [snd] in Hkv.
  destruct Hkv as [Hm | (hv & h & c & Hh & -> & Ht & Hc & Hv)].
  - unfold matches in Hm. cbn [snd] in Hm. now rewrite Hm.
  - destruct (match Request val with
              | Some r => Re.re_match r cmd
              | None => false
              end); [|exact IH].
    rewrite Hh, Ht.
    assert (C : counters_at "cmd_set_header" e = (Ok c, e)).
    { unfold counters_at. now rewrite gets_bind, Hc. }
    rewrite (bind_ok _ _ e e true)
      by (rewrite (bind_ok _ _ _ _ _ C); now rewrite Hv).
    exact IH.
Qed.

End Rows.

Lemma answer_override_witness :
  resolve0 [("PID", row "0100" None "default")] None "0100" None None true
    (set_answer {["PID" := "<string>41 00 FF</string>"]} Elm1)
  = (Ok (None, "0100", Some "<string>41 00 FF</string>"),
     selected "PID" (row "0100" None "default") 0
       (set_answer {["PID" := "<string>41 00 FF</string>"]} Elm1)).
Proof.
  apply (answer_override ELM_R_OK_spec ELM_R_UNKNOWN_spec ST_spec
           quiet_response no_exec no_call no_plugin_init no_plugin_method
           [] [] "PID" (row "0100" None "default") None "0100" None None true
           0 (set_answer {["PID" := "<string>41 00 FF</string>"]} Elm1)
           "<string>41 00 FF</string>").
  - constructor.
  - vm_compute. reflexivity.
  - exact I.
  - discriminate.
  - reflexivity.
  - reflexivity.
Defined.

Lemma plain_row_answer_witness :
  exists e',
    counters e' = counters Elm1 /\ tasks e' = tasks Elm1 /\
    answer_entry ELM_R_OK_spec quiet_response no_exec no_call no_plugin_init
      no_plugin_method "PID" (row "0100" None "41 00 FF") None "0100" None
      None true Elm1
    = (Ok (None, "0100", Some "41 00 FF"), e').
Proof.
  apply (plain_row_answer ELM_R_OK_spec quiet_response no_exec no_call
           no_plugin_init no_plugin_method "PID" (row "0100" None "41 00 FF")
           None "0100" None None true Elm1).
  - repeat split.
  - reflexivity.
Defined.

Lemma task_start_failure_witness :
  ("task_write_vin" ∉ plugins Elm1 ->
   answer_entry ELM_R_OK_spec quiet_response no_exec no_call
     repo_plugin_init repo_plugin_method "WRITE_VIN" write_vin_row None
     "2EF190" None None true Elm1
   = (Ok (None, "2EF190", None),
      add_log (ERROR, "Unexisting plugin " ++ dq ++ "%s" ++ dq ++ " for pid "
                      ++ dq ++ "%s" ++ dq) Elm1)) /\
  (forall x e2,
     "task_write_vin" ∈ plugins Elm1 ->
     repo_plugin_init "task_write_vin"
       (Tasks.init (Tasks.Plugin "task_write_vin") None "2EF190"
          (Some write_vin_row) true)
       (set_tasks (delete None) Elm1) = (Raise x, e2) ->
     answer_entry ELM_R_OK_spec quiet_response no_exec no_call
       repo_plugin_init repo_plugin_method "WRITE_VIN" write_vin_row None
       "2EF190" None None true Elm1
     = (Ok (None, "2EF190", None),
        add_log (CRITICAL, "Cannot start task " ++ dq ++ "%s" ++ dq
                           ++ ", header=" ++ dq ++ "%s" ++ dq ++ ": %s") e2)).
Proof.
  apply (task_start_failure ELM_R_OK_spec quiet_response no_exec no_call
           repo_plugin_init repo_plugin_method "WRITE_VIN" "task_write_vin"
           write_vin_row None "2EF190" None None true Elm1).
  - reflexivity.
  - reflexivity.
  - eexists. reflexivity.
Defined.

Lemma task_failure_contained_witness :
  task_action quiet_response repo_plugin_method (Some (VStr "7E0")) true
    Tasks.run "2EF190AA" None None Elm_write_vin
  = (Ok Tasks.ERROR,
     set_tasks (delete (Some (VStr "7E0")))
       (add_log (CRITICAL, "Error in task " ++ dq ++ "%s" ++ dq ++ ", header="
                           ++ dq ++ "%s" ++ dq ++ ", method=%s(): %s")
          Elm_write_vin)) /\
  hr_tasks_active quiet_response repo_plugin_method (Some (VStr "7E0"))
    "2EF190AA" None None true Elm_write_vin
  = (Ok (inl (Some (VStr "7E0"), "2EF190AA", None)),
     set_tasks (delete (Some (VStr "7E0")))
       (add_log (CRITICAL, "Error in task " ++ dq ++ "%s" ++ dq ++ ", header="
                           ++ dq ++ "%s" ++ dq ++ ", method=%s(): %s")
          Elm_write_vin)) /\
  tasks
    (set_tasks (delete (Some (VStr "7E0")))
       (add_log (CRITICAL, "Error in task " ++ dq ++ "%s" ++ dq ++ ", header="
                           ++ dq ++ "%s" ++ dq ++ ", method=%s(): %s")
          Elm_write_vin)) !! Some (VStr "7E0") = None.
Proof.
  apply (task_failure_contained quiet_response repo_plugin_method
           (Some (VStr "7E0")) true "2EF190AA" None None Elm_write_vin
           Elm_write_vin
           (Tasks.init (Tasks.Plugin "task_write_vin") (Some (VStr "7E0"))
              "2EF190" (Some write_vin_row) true)
           (Tasks.init (Tasks.Plugin "task_write_vin") (Some (VStr "7E0"))
              "2EF190" (Some write_vin_row) true)
           AttributeError).
  - reflexivity.
  - reflexivity.
  - reflexivity.
  - reflexivity.
Defined.

Lemma unknown_scenario_witness :
  setSortedOBDMsg (Some "truck") Elm1
  = (Raise KeyError, set_scenario "truck" Elm1) /\
  handle_request0 "01 00" true (set_scenario "truck" Elm1)
  = (Ok (counters Elm1 !! "cmd_set_header", upper (remove_spaces "01 00"),
         Some ""),
     add_log (ERROR, "Unknown scenario %s")
       (set_counters <["commands" := VInt (0 + 1)]>
          (set_scenario "truck" Elm1))).
Proof.
  apply (unknown_scenario ELM_R_OK_spec ELM_R_UNKNOWN_spec ST_spec
           quiet_response no_exec no_call no_plugin_init no_plugin_method
           "01 00" true Elm1 "truck" 0).
  - reflexivity.
  - reflexivity.
Defined.

(** * Further properties of the main loop and of the reset *)

Section Loop.

Variable ECU_ADDR_E : value.
Variables ELM_R_OK ELM_R_UNKNOWN : string.
Variable ST : string -> string.
Variable handle_response :
  string -> bool -> header_t -> option string -> M (option string).
Variable py_exec : string -> header_t -> string -> string -> M unit.
Variable call : string -> string -> string -> entry -> M string.
Variable plugin_init : string -> Tasks.t -> M Tasks.t.
Variable plugin_method :
  string -> Tasks.method -> header_t -> string -> option Z -> option Z ->
  M Tasks.ret_t.

Abbreviation handle_line :=
  (handle_request ELM_R_OK ELM_R_UNKNOWN ST handle_response py_exec call
     plugin_init plugin_method).
Abbreviation process_line :=
  (process ELM_R_OK ELM_R_UNKNOWN ST handle_response py_exec call
     plugin_init plugin_method).
Abbreviation turn :=
  (run_step ELM_R_OK ELM_R_UNKNOWN ST handle_response py_exec call
     plugin_init plugin_method).

Lemma Elm_eq (a b : Elm) :
  counters a = counters b -> tasks a = tasks b -> presets a = presets b ->
  ObdMessage a = ObdMessage b -> sortedOBDMsg a = sortedOBDMsg b ->
  scenario a = scenario b -> answer a = answer b -> plugins a = plugins b ->
  forward a = forward b -> threadState a = threadState b ->
  entropy a = entropy b -> log a = log b ->
  a = b.
Proof. destruct a, b; cbn; intros; subst; reflexivity. Qed.

Lemma validate_true (cmd : string) : validate cmd = true.
Proof. unfold validate, ELM_VALID_CHARS. now rewrite star_always. Qed.

(** X6: A second reset changes nothing: the reset is idempotent. *)
Theorem reset_idempotent (e : Elm) :
  reset ECU_ADDR_E (snd (reset ECU_ADDR_E e)) = reset ECU_ADDR_E e.
Proof.
  assert (R : forall e0, reset ECU_ADDR_E e0 = (Ok tt, snd (reset ECU_ADDR_E e0)))
    by reflexivity.
  assert (Hs : snd (reset ECU_ADDR_E (snd (reset ECU_ADDR_E e)))
               = snd (reset ECU_ADDR_E e)).
  { apply Elm_eq; try reflexivity.
    apply map_eq. intros k. rewrite !reset_counters.
    change (presets (snd (reset ECU_ADDR_E e))) with (presets e).
    destruct (presets e !! k); [reflexivity|].
    repeat (case_bool_decide; [reflexivity|]).
    destruct (String.prefix "cmd_" k); reflexivity. }
  rewrite (R (snd (reset ECU_ADDR_E e))), Hs. symmetry. apply R.
Qed.

(** A failure of the request handler does not end the turn: the exception
    is logged as critical, nothing is rendered, and the changes made before
    the exception are kept. *)
Lemma process_failure (cmd : string) (e e1 : Elm) (x : exn) :
  handle_line cmd true e = (Raise x, e1) ->
  process_line cmd e
  = (Ok tt, add_log (CRITICAL, "Error while processing %s:\n%s\n%s") e1).
Proof.
  intros H. unfold process.
  rewrite (bind_ok _ _ e
             (add_log (CRITICAL, "Error while processing %s:\n%s\n%s") e1)
             None); [reflexivity|].
  erewrite try_raise; [reflexivity|]. apply bind_raise. exact H.
Qed.

(** X7: One turn of the main loop returns normally exactly when the line
    to handle is found and the rendering of the response to that line, if
    [handle_request] returned one, returns normally: no line is refused as
    invalid, and an exception of the request handler is caught. The line to
    handle is always found, except for a blank line when the counter
    [cmd_last_cmd] holds something that is not a text. *)
Theorem turn_returns (cmd : string) (e : Elm) :
  ((exists e', turn cmd e = (Ok tt, e')) <->
   exists c e1,
     last_cmd cmd e = (Ok c, e1) /\
     forall h d resp e2,
       handle_line c true e1 = (Ok (h, d, Some resp), e2) ->
       exists r e3, handle_response resp true h (Some d) e2 = (Ok r, e3)) /\
  ((exists c e1, last_cmd cmd e = (Ok c, e1)) <->
   (Re.re_match BLANK cmd = true ->
    forall v, counters e !! "cmd_last_cmd" = Some v -> exists s, v = VStr s)).
Proof.
  split; split.
  - intros (e' & T). unfold run_step in T.
    destruct (last_cmd cmd e) as [[c|x] e1] eqn:L.
    2:{ rewrite (bind_raise _ _ _ _ _ L) in T. discriminate T. }
    exists c, e1. split; [reflexivity|]. intros h d resp e2 H.
    rewrite (bind_ok _ _ _ _ _ L), validate_true in T. unfold process in T.
    erewrite bind_ok in T;
      [|apply try_ok; rewrite (bind_ok _ _ _ _ _ H); reflexivity].
    cbv iota beta in T.
    apply bind_inv in T as (r & e3 & R & _). now exists r, e3.
  - intros (c & e1 & L & Hr). unfold run_step.
    rewrite (bind_ok _ _ _ _ _ L), validate_true. unfold process.
    destruct (handle_line c true e1) as [[[[h d] r]|x] e2] eqn:H.
    + erewrite bind_ok;
        [|apply try_ok; rewrite (bind_ok _ _ _ _ _ H); reflexivity].
      destruct r as [resp|]; [|eexists; reflexivity].
      destruct (Hr h d resp e2 eq_refl) as (r & e3 & R).
      rewrite (bind_ok _ _ _ _ _ R). eexists; reflexivity.
    + erewrite bind_ok.
      2:{ erewrite try_raise; [reflexivity|]. apply bind_raise. exact H. }
      eexists; reflexivity.
  - intros (c & e1 & L) Hb v Hv. unfold last_cmd in L.
    rewrite gets_bind, Hb, Hv in L.
    destruct v; try discriminate L. eauto.
  - intros Hl. unfold last_cmd. rewrite gets_bind.
    destruct (Re.re_match BLANK cmd); [|eexists _, _; reflexivity].
    destruct (counters e !! "cmd_last_cmd") as [v|] eqn:E;
      [|eexists _, _; reflexivity].
    destruct (Hl eq_refl v eq_refl) as [s ->]. eexists _, _; reflexivity.
Qed.

(** X8: The fast option: a blank line repeats the last line. A line that is
    not blank is stored in [cmd_last_cmd] before it is processed. A blank
    line that follows is processed, from the state the first turn left, as
    the text [cmd_last_cmd] holds there: the first line again when the turn
    left the counter alone. When the turn removed the counter, as a reset
    does unless the counter is a preset, the blank line is stored and
    processed as itself; and a counter that is not a text raises
    [TypeError]. *)
Theorem blank_line_repeats (c blank : string) (e : Elm) :
  Re.re_match BLANK c = false ->
  Re.re_match BLANK blank = true ->
  let e1 := set_counters <["cmd_last_cmd" := VStr c]> e in
  let e2 := snd (turn c e) in
  turn c e = process_line c e1 /\
  turn blank e2
  = match counters e2 !! "cmd_last_cmd" with
    | Some (VStr s) => process_line s e2
    | Some _ => (Raise TypeError, e2)
    | None =>
        process_line blank (set_counters <["cmd_last_cmd" := VStr blank]> e2)
    end /\
  (counters e2 !! "cmd_last_cmd" = Some (VStr c) ->
   turn blank e2 = process_line c e2) /\
  (forall e0,
     counters (snd (reset ECU_ADDR_E e0)) !! "cmd_last_cmd"
     = presets e0 !! "cmd_last_cmd").
Proof.
  intros Hc Hb e1 e2.
  assert (L1 : last_cmd c e = (Ok c, e1)).
  { unfold last_cmd. rewrite gets_bind, Hc. reflexivity. }
  assert (T2 : turn blank e2
               = match counters e2 !! "cmd_last_cmd" with
                 | Some (VStr s) => process_line s e2
                 | Some _ => (Raise TypeError, e2)
                 | None =>
                     process_line blank
                       (set_counters <["cmd_last_cmd" := VStr blank]> e2)
                 end).
  { assert (L2 : last_cmd blank e2
                 = match counters e2 !! "cmd_last_cmd" with
                   | Some (VStr x) => (Ok x, e2)
                   | Some _ => (Raise TypeError, e2)
                   | None =>
                       (Ok blank,
                        set_counters <["cmd_last_cmd" := VStr blank]> e2)
                   end).
    { unfold last_cmd. rewrite gets_bind, Hb.
      destruct (counters e2 !! "cmd_last_cmd") as [v|]; [|reflexivity].
      destruct v; reflexivity. }
    unfold run_step.
    destruct (counters e2 !! "cmd_last_cmd") as [v|].
    - destruct v;
        first [ rewrite (bind_ok _ _ _ _ _ L2); now rewrite validate_true
              | now rewrite (bind_raise _ _ _ _ _ L2) ].
    - rewrite (bind_ok _ _ _ _ _ L2). now rewrite validate_true. }
  split; [|split; [exact T2|split]].
  - unfold run_step. rewrite (bind_ok _ _ _ _ _ L1). now rewrite validate_true.
  - intros H. rewrite T2, H. reflexivity.
  - intros e0. rewrite (reset_counters ECU_ADDR_E).
    destruct (presets e0 !! "cmd_last_cmd"); reflexivity.
Qed.

End Loop.

Lemma turn_returns_witness :
  exists e',
    run_step ELM_R_OK_spec ELM_R_UNKNOWN_spec ST_spec respond0 no_exec
      no_call no_plugin_init no_plugin_method "ATZ" Elm1 = (Ok tt, e').
Proof.
  apply (proj2 (proj1 (turn_returns ELM_R_OK_spec ELM_R_UNKNOWN_spec ST_spec
                         respond0 no_exec no_call no_plugin_init
                         no_plugin_method "ATZ" Elm1))).
  eexists. eexists. split; [reflexivity|].
  intros h d resp e2 H. vm_compute in H. injection H as <- <- <- <-.
  eexists. eexists. vm_compute. reflexivity.
Defined.

Lemma blank_line_repeats_witness :
  run_step ELM_R_OK_spec ELM_R_UNKNOWN_spec ST_spec respond0 no_exec
    no_call no_plugin_init no_plugin_method "0100" Elm1
  = process ELM_R_OK_spec ELM_R_UNKNOWN_spec ST_spec respond0 no_exec
      no_call no_plugin_init no_plugin_method "0100"
      (set_counters <["cmd_last_cmd" := VStr "0100"]> Elm1) /\
  run_step ELM_R_OK_spec ELM_R_UNKNOWN_spec ST_spec respond0 no_exec
    no_call no_plugin_init no_plugin_method "  " Elm_turned
  = process ELM_R_OK_spec ELM_R_UNKNOWN_spec ST_spec respond0 no_exec
      no_call no_plugin_init no_plugin_method "0100" Elm_turned /\
  counters Elm_turned !! "cmd_last_cmd" = Some (VStr "0100") /\
  counters Elm_turned !! unknown_key "0100" = Some (VInt 1) /\
  counters (snd (reset ECU_ADDR_E_spec Elm_turned)) !! "cmd_last_cmd" = None.
Proof.
  pose proof (blank_line_repeats ECU_ADDR_E_spec ELM_R_OK_spec
                ELM_R_UNKNOWN_spec ST_spec respond0 no_exec no_call
                no_plugin_init no_plugin_method "0100" "  " Elm1
                eq_refl eq_refl) as (H1 & _ & H3 & H4).
  split; [exact H1|]. split; [exact (H3 eq_refl)|].
  split; [reflexivity|]. split; [reflexivity|].
  exact (H4 Elm_turned).
Defined.

(** * Further properties of the multi-frame exchange *)

Section Exchange.

Variables ELM_R_OK ELM_R_UNKNOWN : string.
Variable ST : string -> string.
Variable handle_response :
  string -> bool -> header_t -> option string -> M (option string).
Variable py_exec : string -> header_t -> string -> string -> M unit.
Variable call : string -> string -> string -> entry -> M string.
Variable plugin_init : string -> Tasks.t -> M Tasks.t.
Variable plugin_method :
  string -> Tasks.method -> header_t -> string -> option Z -> option Z ->
  M Tasks.ret_t.

Abbreviation handle_frame :=
  (handle_request ELM_R_OK ELM_R_UNKNOWN ST handle_response py_exec call
     plugin_init plugin_method).
Abbreviation act := (task_action handle_response plugin_method).
Abbreviation collect_run := (Multiline_run handle_response).

(** The size prefix of a First Frame (lines 1402-1442). *)
Lemma hr_pci_first_frame (e : Elm) (h : header_t) (caf : value) (L : Z)
    (p : string) :
  counters e !! "cmd_caf" = Some caf -> truthy caf = false ->
  0 <= L < 256 -> payload_ok p ->
  hr_pci h (upper (remove_spaces (first_frame L p))) e
  = (Ok (inr (p, Some L, Some 0)), e).
Proof.
  intros Hcaf Tcaf HL (Hnorm & Hhex).
  destruct (fmt_02X_normal L p ltac:(lia) Hnorm) as (c & d & E & Hc & Hd & N).
  pose proof (hr_pci_cases e h caf "1" "0" 1 0 (String c (String d p))
                Hcaf Tcaf eq_refl eq_refl ltac:(discriminate)) as P.
  cbv zeta in P. cbn [slice_to slice_from] in P.
  rewrite (int16_hex2 c d _ _ Hc Hd) in P.
  replace (16 * (L / 16) + L mod 16) with L in P by (apply Z.div_mod; lia).
  change (16 * 1 + 0 <? 16) with false in P.
  change (16 * 1 + 0 =? 16) with true in P. cbv iota in P.
  assert (N' : upper (remove_spaces (first_frame L p))
               = String "1" (String "0" (String c (String d p)))).
  { unfold first_frame. rewrite remove_spaces_app, upper_app, N. reflexivity. }
  rewrite N'. exact P.
Qed.

(** A First Frame given to a task that is collecting is refused (lines
    219-222). *)
Lemma Multiline_collect_restart (h : header_t) (t : Tasks.t) (cmd : string)
    (L : Z) (e : Elm) :
  tasks e !! h = Some t -> 0 < L ->
  truthy_opt (Tasks.frame t) || truthy_opt (Tasks.length t) = true ->
  Multiline_collect h cmd (Some L) (Some 0) e
  = (Ok (Some Tasks.ERROR), add_log (ERROR, "Invalid initial frame %s %s") e).
Proof.
  intros Ht HL Hv. unfold Multiline_collect.
  rewrite (bind_ok _ _ _ _ _ (self_ok h t e Ht)).
  rewrite (bind_ok _ _ e e true)
    by (cbn; now replace (0 <? L) with true by (symmetry; now apply Z.ltb_lt)).
  cbv iota. now rewrite Hv.
Qed.

(** A request with no frame index given to a task that is collecting is
    refused as well (lines 231-240). *)
Lemma Multiline_collect_interrupt (h : header_t) (t : Tasks.t) (cmd : string)
    (i : Z) (e : Elm) :
  tasks e !! h = Some t -> Tasks.frame t = Some i ->
  Multiline_collect h cmd None None e
  = (Ok (Some Tasks.ERROR),
     add_log (ERROR, "Invalid consecutive frame %s %s") e).
Proof.
  intros Ht Hf. unfold Multiline_collect.
  rewrite (bind_ok _ _ _ _ _ (self_ok h t e Ht)).
  rewrite (bind_ok _ _ e e false) by reflexivity.
  cbv iota. rewrite Hf.
  now rewrite (bool_decide_eq_false_2 (Some i = None)) by discriminate.
Qed.

(** The task on [h] is run, returns the error value and is removed. *)
Lemma act_error (h : header_t) (w : bool) (m : Tasks.method) (cmd : string)
    (length frame : option Z) (e : Elm) (t : Tasks.t) (a : log_record) (n : Z) :
  tasks e !! h = Some t -> Tasks.cls t = Tasks.Multiline ->
  hits e "" n ->
  Multiline_collect h cmd length frame e = (Ok (Some Tasks.ERROR), add_log a e) ->
  act h w m cmd length frame e
  = (Ok Tasks.ERROR,
     set_tasks (delete h) (set_counters <["" := VInt (n + 1)]> (add_log a e))).
Proof.
  intros Ht Hc Hn Hcol.
  assert (R : collect_run h cmd length frame e = (Ok Tasks.ERROR, add_log a e)).
  { unfold Multiline_run. now rewrite (bind_ok _ _ _ _ _ Hcol). }
  rewrite <- (task_method_Multiline handle_response plugin_method m h cmd
                length frame e t Ht Hc) in R.
  rewrite (task_action_terminate handle_response plugin_method h w m cmd
             length frame e _ t t None n Ht R).
  - unfold Tasks.module_name. rewrite Hc. reflexivity.
  - exact Ht.
  - unfold Tasks.module_name. rewrite Hc. exact Hn.
Qed.

(** X9: A First Frame that arrives while an exchange is collected on the
    header does not start a new exchange: the task refuses it and is
    removed, what was collected is lost, and the frame itself gets no
    response and is not kept. *)
Theorem first_frame_restart (w : bool) (e : Elm) (h : header_t)
    (k n L L0 : Z) (r p : string) (i : Z) :
  session e h k -> hits e "" n -> collecting e h L0 r i ->
  i <> 0 \/ L0 <> 0 ->
  0 < L < 256 -> payload_ok p ->
  let e' :=
    set_tasks (delete h)
      (set_counters <["" := VInt (n + 1)]>
         (add_log (ERROR, "Invalid initial frame %s %s")
            (set_counters <["commands" := VInt (k + 1)]> e))) in
  handle_frame (first_frame L p) w e = (Ok (h, p, None), e') /\
  tasks e' !! h = None.
Proof.
  intros Hs Hn (t & Ht & Hc & Hfr & Hlen & Hreq) Hnz HL Hp e'.
  pose proof Hs as (((caf & Hcaf & Tcaf) & Hf & Hsc) & Hh & Hk).
  set (e1 := set_counters <["commands" := VInt (k + 1)]> e).
  assert (Hcaf1 : counters e1 !! "cmd_caf" = Some caf)
    by (unfold e1; cbn; now rewrite lookup_insert_ne by discriminate).
  assert (Hn1 : hits e1 "" n)
    by (unfold hits, e1 in *; cbn; now rewrite lookup_insert_ne by discriminate).
  assert (Ht1 : tasks e1 !! h = Some t) by exact Ht.
  split; [|unfold e'; cbn; apply lookup_delete_eq].
  rewrite (handle_request_front ELM_R_OK ELM_R_UNKNOWN ST handle_response
             py_exec call plugin_init plugin_method _ w e k p (Some L)
             (Some 0) Hk Hsc Hf)
    by (rewrite Hh; apply (hr_pci_first_frame e1 h caf L p); [assumption | assumption | lia | assumption]).
  rewrite Hh. fold e1. unfold hr_from_tasks.
  assert (N : hr_tasks_new h p (Some L) (Some 0) w e1 = (Ok tt, e1)).
  { unfold hr_tasks_new. rewrite gets_bind, Ht1. reflexivity. }
  assert (V : truthy_opt (Tasks.frame t) || truthy_opt (Tasks.length t) = true).
  { rewrite Hfr, Hlen. cbn. destruct Hnz as [Hi|Hl].
    - replace (i =? 0) with false by (symmetry; now apply Z.eqb_neq). reflexivity.
    - replace (L0 =? 0) with false by (symmetry; now apply Z.eqb_neq).
      apply orb_true_r. }
  pose proof (act_error h w Tasks.run p (Some L) (Some 0) e1 t _ n Ht1 Hc Hn1
                (Multiline_collect_restart h t p L e1 Ht1 ltac:(lia) V)) as A.
  assert (H : hr_tasks handle_response plugin_method h p (Some L)
                (Some 0) w e1 = (Ok (inl (h, p, None)), e')).
  { unfold hr_tasks. rewrite (bind_ok _ _ _ _ _ N).
    unfold hr_tasks_active. rewrite gets_bind.
    rewrite bool_decide_eq_true_2 by (rewrite Ht1; eauto).
    destruct Hp as [_ Hhex]. rewrite Hhex.
    now rewrite (bind_ok _ _ _ _ _ A). }
  now rewrite (bind_ok _ _ _ _ _ H).
Qed.

(** X11: An AT command that arrives while an exchange is collected on the
    header interrupts the task: the task is stopped and removed, what was
    collected is lost, and the AT command itself gets no response: it is
    not looked up in the catalog. *)
Theorem exchange_interrupted (raw : string) (w : bool) (e : Elm)
    (h : header_t) (k n L : Z) (r : string) (i : Z) :
  session e h k -> hits e "" n -> collecting e h L r i ->
  slice_to 2 (upper (remove_spaces raw)) = "AT" ->
  exists e',
    handle_frame raw w e = (Ok (h, upper (remove_spaces raw), None), e') /\
    tasks e' = delete h (tasks e) /\
    hits e' "" (n + 1) /\
    sortedOBDMsg e' = sortedOBDMsg e /\
    log e'
    = (log e
       ++ [(WARNING, ("Interrupted task " ++ dq ++ "%s" ++ dq
                      ++ " with header " ++ dq ++ "%s" ++ dq)%string);
           (ERROR, "Invalid consecutive frame %s %s")])%list.
Proof.
  intros Hs Hn (t & Ht & Hc & Hfr & Hlen & Hreq) Hat.
  pose proof Hs as (((caf & Hcaf & Tcaf) & Hf & Hsc) & Hh & Hk).
  set (cmd := upper (remove_spaces raw)) in *.
  set (e1 := set_counters <["commands" := VInt (k + 1)]> e).
  assert (Hn1 : hits e1 "" n)
    by (unfold hits, e1 in *; cbn; now rewrite lookup_insert_ne by discriminate).
  assert (Ht1 : tasks e1 !! h = Some t) by exact Ht.
  assert (P : hr_pci h cmd e1 = (Ok (inr (cmd, None, None)), e1)).
  { unfold hr_pci. rewrite gets_bind, Hat. cbn [String.eqb Ascii.eqb].
    now rewrite andb_false_r. }
  assert (X : len_hex cmd = VBool false).
  { destruct cmd as [|a [|b cmd']]; try discriminate Hat.
    cbn [slice_to] in Hat. injection Hat as -> ->. reflexivity. }
  rewrite (handle_request_front ELM_R_OK ELM_R_UNKNOWN ST handle_response
             py_exec call plugin_init plugin_method _ w e k cmd None None
             Hk Hsc Hf)
    by (rewrite Hh; exact P).
  rewrite Hh. fold e1. unfold hr_from_tasks.
  assert (N : hr_tasks_new h cmd None None w e1 = (Ok tt, e1)).
  { unfold hr_tasks_new. rewrite gets_bind, Ht1. reflexivity. }
  set (e2 := add_log (WARNING, "Interrupted task " ++ dq ++ "%s" ++ dq
                               ++ " with header " ++ dq ++ "%s" ++ dq) e1).
  assert (Ht2 : tasks e2 !! h = Some t) by exact Ht.
  assert (Hn2 : hits e2 "" n) by exact Hn1.
  pose proof (act_error h w Tasks.stop cmd None None e2 t _ n Ht2 Hc Hn2
                (Multiline_collect_interrupt h t cmd i e2 Ht2 Hfr)) as A.
  set (e3 := set_tasks (delete h)
               (set_tasks (delete h)
                  (set_counters <["" := VInt (n + 1)]>
                     (add_log (ERROR, "Invalid consecutive frame %s %s") e2)))).
  assert (H : hr_tasks handle_response plugin_method h cmd None None w e1
              = (Ok (inl (h, cmd, None)), e3)).
  { unfold hr_tasks. rewrite (bind_ok _ _ _ _ _ N).
    unfold hr_tasks_active. rewrite gets_bind.
    rewrite bool_decide_eq_true_2 by (rewrite Ht1; eauto).
    rewrite X. cbn [truthy].
    rewrite (bind_ok _ _ _ _ _ (self_ok h t e1 Ht1)).
    rewrite (bind_ok _ _ e1 e2 tt) by reflexivity.
    rewrite (bind_ok _ _ _ _ _ A).
    rewrite (bind_ok _ _ _ e3 tt) by reflexivity. reflexivity. }
  exists e3. split; [now rewrite (bind_ok _ _ _ _ _ H)|].
  split; [unfold e3; cbn; apply delete_delete_eq|].
  split; [unfold hits, e3; cbn; now rewrite lookup_insert_eq|].
  split; [reflexivity|].
  unfold e3, e2, e1. cbn. now rewrite <- !app_assoc.
Qed.

(** X10: A First Frame that declares a length of 0 is refused (lines 231-240).
    The task made for it is removed at once, the error is logged, and the
    frame gets no response. *)
Theorem first_frame_zero_length (w : bool) (e : Elm) (h : header_t)
    (k n : Z) (p : string) :
  session e h k -> hits e "" n -> tasks e !! h = None -> payload_ok p ->
  exists e',
    handle_frame (first_frame 0 p) w e = (Ok (h, p, None), e') /\
    tasks e' = tasks e /\
    hits e' "" (n + 1) /\
    log e' = (log e ++ [(ERROR, "Invalid consecutive frame %s %s")])%list.
Proof.
  intros Hs Hn Ht Hp.
  pose proof Hs as (((caf & Hcaf & Tcaf) & Hf & Hsc) & Hh & Hk).
  set (e1 := set_counters <["commands" := VInt (k + 1)]> e).
  assert (Hcaf1 : counters e1 !! "cmd_caf" = Some caf)
    by (unfold e1; cbn; now rewrite lookup_insert_ne by discriminate).
  rewrite (handle_request_front ELM_R_OK ELM_R_UNKNOWN ST handle_response
             py_exec call plugin_init plugin_method _ w e k p (Some 0)
             (Some 0) Hk Hsc Hf)
    by (rewrite Hh; apply (hr_pci_first_frame e1 h caf 0 p);
        [assumption | assumption | lia | assumption]).
  rewrite Hh. fold e1. unfold hr_from_tasks.
  set (t0 := Tasks.init Tasks.Multiline h p None w).
  set (e2 := set_tasks <[h := t0]> e1).
  assert (N : hr_tasks_new h p (Some 0) (Some 0) w e1 = (Ok tt, e2)).
  { unfold hr_tasks_new. rewrite gets_bind.
    change (tasks e1) with (tasks e). rewrite Ht.
    now rewrite !bool_decide_eq_true_2 by congruence. }
  assert (Ht2 : tasks e2 !! h = Some t0) by apply lookup_insert_eq.
  assert (Hn2 : hits e2 "" n)
    by (unfold hits, e2, e1 in *; cbn; now rewrite lookup_insert_ne by discriminate).
  assert (C : Multiline_collect h p (Some 0) (Some 0) e2
              = (Ok (Some Tasks.ERROR),
                 add_log (ERROR, "Invalid consecutive frame %s %s") e2)).
  { unfold Multiline_collect.
    rewrite (bind_ok _ _ _ _ _ (self_ok h t0 e2 Ht2)).
    rewrite (bind_ok _ _ e2 e2 false) by reflexivity. reflexivity. }
  pose proof (act_error h w Tasks.run p (Some 0) (Some 0) e2 t0 _ n Ht2
                eq_refl Hn2 C) as A.
  set (e3 := set_tasks (delete h)
               (set_counters <["" := VInt (n + 1)]>
                  (add_log (ERROR, "Invalid consecutive frame %s %s") e2))) in *.
  assert (H : hr_tasks handle_response plugin_method h p (Some 0) (Some 0) w e1
              = (Ok (inl (h, p, None)), e3)).
  { unfold hr_tasks. rewrite (bind_ok _ _ _ _ _ N).
    unfold hr_tasks_active. rewrite gets_bind.
    rewrite bool_decide_eq_true_2 by (rewrite Ht2; eauto).
    destruct Hp as [_ Hhex]. rewrite Hhex.
    now rewrite (bind_ok _ _ _ _ _ A). }
  exists e3. split; [now rewrite (bind_ok _ _ _ _ _ H)|].
  split.
  { unfold e3, e2, e1. cbn. rewrite delete_insert_eq. now apply delete_id. }
  split; [unfold hits, e3; cbn; now rewrite lookup_insert_eq|].
  reflexivity.
Qed.

(** X12: A task that ends is counted under the name of its module cut at 12
    characters: the name of the plugin for a plugin task, and the empty
    name for [Multiline]. When the method returns the terminate flag, with
    no response or with no command to go on with, [task_action] adds one
    to that counter, removes the task and returns what the method
    returned; the renderer is not called. *)
Theorem task_accounting (h : header_t) (w : bool) (m : Tasks.method)
    (cmd : string) (length frame : option Z) (e e1 : Elm) (t t1 : Tasks.t)
    (r_cmd r_cont : option string) (n : Z) :
  tasks e !! h = Some t ->
  task_method handle_response plugin_method m h cmd length frame e
  = (Ok (r_cmd, Tasks.TERMINATE, r_cont), e1) ->
  r_cmd = None \/ r_cont = None ->
  tasks e1 !! h = Some t1 ->
  let name := match Tasks.cls t1 with
              | Tasks.Multiline => ""
              | Tasks.Plugin name => name
              end in
  hits e1 name n ->
  act h w m cmd length frame e
  = (Ok (r_cmd, Tasks.TERMINATE, r_cont),
     set_tasks (delete h) (set_counters <[name := VInt (n + 1)]> e1)).
Proof.
  intros Ht Hm Hr Ht1 name Hn.
  assert (E : slice_from 12 (Tasks.module_name t1) = name).
  { unfold name, Tasks.module_name. now destruct (Tasks.cls t1). }
  unfold task_action. rewrite (bind_ok _ _ _ _ _ (self_ok h t e Ht)).
  rewrite (bind_ok _ _ e e1 (Some (r_cmd, Tasks.TERMINATE, r_cont)))
    by (apply try_ok; now rewrite (bind_ok _ _ _ _ _ Hm)).
  cbv iota beta.
  assert (S1 : (match r_cont, r_cmd with
                | Some _, Some rc =>
                    t ← self h;
                    _ ← handle_response rc w h (Some (Tasks.request t));
                    if negb w
                    then logging WARNING "Task with header %s returned %s"
                    else mret tt
                | _, _ => mret tt
                end) e1 = (Ok tt, e1)).
  { destruct Hr as [-> | ->]; [now destruct r_cont | reflexivity]. }
  rewrite (bind_ok _ _ _ _ _ S1). cbn [negb Tasks.TERMINATE].
  assert (S2 : (_ ← self h; account_task h;; modify (set_tasks (delete h))) e1
               = (Ok tt,
                  set_tasks (delete h)
                    (set_counters <[name := VInt (n + 1)]> e1))).
  { rewrite (bind_ok _ _ _ _ _ (self_ok h t1 e1 Ht1)).
    assert (A : account_task h e1
                = (Ok tt, set_counters <[name := VInt (n + 1)]> e1)).
    { unfold account_task. rewrite gets_bind, Ht1, E. now apply count_hits. }
    now rewrite (bind_ok _ _ _ _ _ A). }
  now rewrite (bind_ok _ _ _ _ _ S2).
Qed.

End Exchange.

Lemma first_frame_restart_witness :
  handle_request0 (first_frame 2 "BB") true Elm_collecting
  = (Ok (Some (VStr "7E0"), "BB", None),
     set_tasks (delete (Some (VStr "7E0")))
       (set_counters <["" := VInt (0 + 1)]>
          (add_log (ERROR, "Invalid initial frame %s %s")
             (set_counters <["commands" := VInt (0 + 1)]> Elm_collecting)))) /\
  tasks
    (set_tasks (delete (Some (VStr "7E0")))
       (set_counters <["" := VInt (0 + 1)]>
          (add_log (ERROR, "Invalid initial frame %s %s")
             (set_counters <["commands" := VInt (0 + 1)]> Elm_collecting))))
    !! Some (VStr "7E0") = None.
Proof.
  apply (first_frame_restart ELM_R_OK_spec ELM_R_UNKNOWN_spec ST_spec
           quiet_response no_exec no_call no_plugin_init no_plugin_method
           true Elm_collecting (Some (VStr "7E0")) 0 0 2 9 "AA" "BB" 1).
  - split; [split; [|split]|split].
    + exists (VBool false). split; reflexivity.
    + reflexivity.
    + eexists. reflexivity.
    + reflexivity.
    + reflexivity.
  - reflexivity.
  - eexists. repeat split; reflexivity.
  - left. lia.
  - lia.
  - split; reflexivity.
Defined.

Lemma exchange_interrupted_witness :
  exists e',
    handle_request0 "at z" true Elm_collecting
    = (Ok (Some (VStr "7E0"), upper (remove_spaces "at z"), None), e') /\
    tasks e' = delete (Some (VStr "7E0")) (tasks Elm_collecting) /\
    hits e' "" (0 + 1) /\
    sortedOBDMsg e' = sortedOBDMsg Elm_collecting /\
    log e'
    = (log Elm_collecting
       ++ [(WARNING, ("Interrupted task " ++ dq ++ "%s" ++ dq
                      ++ " with header " ++ dq ++ "%s" ++ dq)%string);
           (ERROR, "Invalid consecutive frame %s %s")])%list.
Proof.
  apply (exchange_interrupted ELM_R_OK_spec ELM_R_UNKNOWN_spec ST_spec
           quiet_response no_exec no_call no_plugin_init no_plugin_method
           "at z" true Elm_collecting (Some (VStr "7E0")) 0 0 9 "AA" 1).
  - split; [split; [|split]|split].
    + exists (VBool false). split; reflexivity.
    + reflexivity.
    + eexists. reflexivity.
    + reflexivity.
    + reflexivity.
  - reflexivity.
  - eexists. repeat split; reflexivity.
  - reflexivity.
Defined.

(** * Further properties of the UDS encoder *)

Section Encoder.

(** The data part of an answer is the payload written again: two upper
    case digits a byte, separated by [sp]. *)
Lemma answer_data_round_trip (sp data : string) (payload : list Z) :
  sp = "" \/ sp = " " ->
  fromhex data = Some payload ->
  fromhex (upper (join sp (map fmt_02X payload))) = Some payload.
Proof.
  intros Hsp Hd.
  pose proof (hex_text_bytes _ _ (fromhex_hex_text _ _ Hd)) as Hp.
  pose proof (fromhex_data sp payload Hsp Hp "") as R.
  rewrite append_nil_r in R. rewrite R. cbn. now rewrite app_nil_r.
Qed.

(** X13: The answer to a request with a header of three characters (an 11-bit
    identifier) and a hexadecimal payload of [n] bytes, with no flow-control
    byte. Without header echo it is the payload written again, and reads
    back as the payload. With header echo it starts with the request header
    plus 8 and the byte count [n] in two digits; what follows the header
    reads back as [n] and the payload. A header that is not a hexadecimal
    number makes the call raise [ValueError], but only with header echo.
    With a flow-control byte and no header echo the answer is that byte and
    the payload. The emulator is left as it is. *)
Theorem uds_answer_11bit (e : Elm) (h data sp : string) (payload : list Z) :
  String.length (upper (remove_whitespace h)) = 3%nat ->
  fromhex data = Some payload ->
  sp = "" \/ sp = " " ->
  let H := upper (remove_whitespace h) in
  let D := upper (join sp (map fmt_02X payload)) in
  let n := Z.of_nat (List.length payload) in
  uds_answer data (Some (VStr h)) false sp None e = (Ok D, e) /\
  fromhex D = Some payload /\
  (forall x, int16 H = Some x ->
     uds_answer data (Some (VStr h)) true sp None e
     = (Ok (hex_upper (x + 8) ++ sp ++ fmt_02X n ++ sp ++ D), e) /\
     (n < 256 -> fromhex (fmt_02X n ++ sp ++ D) = Some (n :: payload))) /\
  (int16 H = None ->
   uds_answer data (Some (VStr h)) true sp None e = (Raise ValueError, e)) /\
  (forall fc, fc <> "" ->
     uds_answer data (Some (VStr h)) false sp (Some fc) e
     = (Ok (fc ++ sp ++ D), e)).
Proof.
  intros HL Hd Hsp H D n.
  assert (Hne : String.eqb H "" = false)
    by (unfold H; destruct (upper (remove_whitespace h)); [discriminate HL | reflexivity]).
  assert (HL' : String.length H = 3%nat) by exact HL.
  assert (U : forall uh fc,
             uds_answer data (Some (VStr h)) uh sp fc e
             = (if match fc with
                   | Some f => negb (String.eqb f "")
                   | None => false
                   end
                then
                  (answer ← (if uh then
                               match int16 H with
                               | Some n => mret (hex_upper (n + 8) ++ sp)
                               | None => raise ValueError
                               end
                             else mret "");
                   mret (answer ++ default "" fc ++ sp ++ D))
                else if uh then
                  match int16 H with
                  | None => raise ValueError
                  | Some x => mret (hex_upper (x + 8) ++ sp ++ fmt_02X n ++ sp ++ D)
                  end
                else mret D) e).
  { intros uh fc. unfold uds_answer. rewrite gets_bind. fold H.
    rewrite Hne, Hd. fold D n. rewrite HL'.
    cbn [Nat.eqb andb].
    destruct (match fc with Some f => negb (String.eqb f "") | None => false end);
      reflexivity. }
  split; [now rewrite U|].
  split; [now apply (answer_data_round_trip sp data)|].
  split; [|split].
  - intros x Hx. split; [rewrite U; cbn; now rewrite Hx|].
    intros Hn.
    pose proof (hex_text_bytes _ _ (fromhex_hex_text _ _ Hd)) as Hp.
    rewrite (fromhex_hex_text_app _ _ _ (fmt_02X_hex_text n ltac:(lia))).
    assert (Hs : forall r, fromhex (sp ++ r) = fromhex r).
    { intros r. destruct Hsp as [-> | ->]; reflexivity. }
    rewrite Hs. unfold D.
    now rewrite (answer_data_round_trip sp data payload Hsp Hd).
  - intros Hx. rewrite U. cbn. now rewrite Hx.
  - intros fc Hfc. rewrite U. cbn [negb default].
    apply String.eqb_neq in Hfc. rewrite Hfc. reflexivity.
Qed.

(** X14: What [uds_answer] refuses: a header that is blank, a payload that is
    not hexadecimal text, and a header that has neither three nor six
    characters. Each time the answer is the empty text, one error is
    logged and nothing is raised. *)
Theorem uds_answer_refusals (e : Elm) (h data sp : string) (uh : bool)
    (fc : option string) :
  let H := upper (remove_whitespace h) in
  (H = "" ->
   uds_answer data (Some (VStr h)) uh sp fc e
   = (Ok "", add_log (ERROR, "Invalid request header; request %s") e)) /\
  (H <> "" -> fromhex data = None ->
   uds_answer data (Some (VStr h)) uh sp fc e
   = (Ok "", add_log (ERROR, "Invalid data in answer: %s") e)) /\
  (H <> "" -> fromhex data <> None ->
   String.length H <> 3%nat -> String.length H <> 6%nat ->
   uds_answer data (Some (VStr h)) uh sp fc e
   = (Ok "", add_log (ERROR, "Invalid request header: %s") e)).
Proof.
  intros H. unfold uds_answer. rewrite !gets_bind. fold H.
  split; [|split].
  - intros ->. reflexivity.
  - intros Hne Hd. apply String.eqb_neq in Hne. now rewrite Hne, Hd.
  - intros Hne Hd H3 H6. apply String.eqb_neq in Hne. rewrite Hne.
    destruct (fromhex data) as [bs|]; [|congruence].
    apply Nat.eqb_neq in H3, H6. rewrite H3, H6. reflexivity.
Qed.

End Encoder.

Lemma uds_answer_11bit_witness :
  uds_answer "41 0c 1a f8" (Some (VStr "7e0")) false " " None Elm0
  = (Ok (upper (join " " (map fmt_02X [65; 12; 26; 248]))), Elm0) /\
  fromhex (upper (join " " (map fmt_02X [65; 12; 26; 248])))
  = Some [65; 12; 26; 248] /\
  (forall x, int16 (upper (remove_whitespace "7e0")) = Some x ->
     uds_answer "41 0c 1a f8" (Some (VStr "7e0")) true " " None Elm0
     = (Ok (hex_upper (x + 8) ++ " "
            ++ fmt_02X (Z.of_nat (List.length [65; 12; 26; 248])) ++ " "
            ++ upper (join " " (map fmt_02X [65; 12; 26; 248]))), Elm0) /\
     (Z.of_nat (List.length [65; 12; 26; 248]) < 256 ->
      fromhex (fmt_02X (Z.of_nat (List.length [65; 12; 26; 248])) ++ " "
               ++ upper (join " " (map fmt_02X [65; 12; 26; 248])))
      = Some (Z.of_nat (List.length [65; 12; 26; 248]) :: [65; 12; 26; 248]))) /\
  (int16 (upper (remove_whitespace "7e0")) = None ->
   uds_answer "41 0c 1a f8" (Some (VStr "7e0")) true " " None Elm0
   = (Raise ValueError, Elm0)) /\
  (forall fc, fc <> "" ->
     uds_answer "41 0c 1a f8" (Some (VStr "7e0")) false " " (Some fc) Elm0
     = (Ok (fc ++ " " ++ upper (join " " (map fmt_02X [65; 12; 26; 248]))),
        Elm0)).
Proof.
  apply (uds_answer_11bit Elm0 "7e0" "41 0c 1a f8" " " [65; 12; 26; 248]).
  - reflexivity.
  - reflexivity.
  - right. reflexivity.
Defined.

(** * The response helper [Sequence] *)

Section SequenceProperties.

(** X15: The value [Sequence] renders sweeps between [base] and
    [base + factor * max]: it rises by [factor] a count while the counter
    goes from 0 to [max], falls back while it goes on to [2 * max], and
    starts again: the sweep has the period [2 * max]. A counter that is
    missing makes the call raise [KeyError], a text as the counter
    [TypeError], and [max = 0] [ZeroDivisionError]. *)
Theorem Sequence_sweep (pid : string) (base max factor n_bytes : Z)
    (e : Elm) (v : value) (c : Z) :
  counters e !! pid = Some v ->
  num v = Some c ->
  0 < max -> 0 <= factor ->
  exists p,
    Sequence pid base max factor n_bytes e = SeqOk (Sequence_text p n_bytes) /\
    base <= p <= base + factor * max /\
    (0 <= c <= max -> p = base + factor * c) /\
    (max <= c <= 2 * max -> p = base + factor * (2 * max - c)) /\
    Sequence pid base max factor n_bytes
      (set_counters <[pid := VInt (c + 2 * max)]> e)
    = SeqOk (Sequence_text p n_bytes) /\
    Sequence pid base 0 factor n_bytes e = SeqZeroDivisionError /\
    Sequence pid base max factor n_bytes (set_counters (delete pid) e)
    = SeqKeyError /\
    Sequence pid base max factor n_bytes
      (set_counters <[pid := VStr "1"]> e)
    = SeqTypeError.
Proof.
  intros Hv Hc Hm Hf. exists (Sequence_value c base max factor).
  assert (Hz : (max * 2 =? 0) = false) by (apply Z.eqb_neq; lia).
  pose proof (Z.mod_pos_bound (c + max) (max * 2) ltac:(lia)) as Hb.
  split; [unfold Sequence; now rewrite Hv, Hc, Hz|].
  split.
  { unfold Sequence_value.
    generalize dependent ((c + max) mod (max * 2)). intros m Hb.
    assert (Ha : 0 <= Z.abs (max - m) <= max) by lia.
    generalize dependent (Z.abs (max - m)). intros a Ha. nia. }
  split.
  { intros Hr. unfold Sequence_value.
    destruct (Z.eq_dec c max) as [->|Hne].
    - replace (max + max) with (1 * (max * 2)) by lia.
      rewrite Z.mod_mul by lia. rewrite Z.sub_0_r, Z.abs_eq by lia. lia.
    - rewrite (Z.mod_small (c + max) (max * 2)) by lia.
      replace (max - (c + max)) with (- c) by lia.
      rewrite Z.abs_opp, Z.abs_eq by lia. lia. }
  split.
  { intros Hr. unfold Sequence_value.
    destruct (Z.eq_dec c max) as [->|Hne].
    - replace (max + max) with (1 * (max * 2)) by lia.
      rewrite Z.mod_mul by lia. rewrite Z.sub_0_r, Z.abs_eq by lia. lia.
    - replace (c + max) with ((c - max) + 1 * (max * 2)) by lia.
      rewrite Z.mod_add by lia. rewrite Z.mod_small by lia.
      rewrite Z.abs_eq by lia. lia. }
  split.
  { unfold Sequence. cbn [counters set_counters]. rewrite lookup_insert_eq.
    cbn [num]. rewrite Hz. do 2 f_equal. unfold Sequence_value.
    replace (c + 2 * max + max) with ((c + max) + 1 * (max * 2)) by lia.
    now rewrite Z.mod_add by lia. }
  split; [unfold Sequence; now rewrite Hv, Hc|].
  split.
  - unfold Sequence. cbn [counters set_counters]. now rewrite lookup_delete_eq.
  - unfold Sequence. cbn [counters set_counters]. now rewrite lookup_insert_eq.
Qed.

Lemma hex_width_pos (p : positive) : (1 <= hex_width p)%nat.
Proof. do 4 try destruct p as [p|p|]; cbn [hex_width]; lia. Qed.

Ltac upper_head rest :=
  match goal with
  | |- context [upper (String ?c rest)] =>
      change (upper (String c rest)) with (String (upper_char c) (upper rest));
      let u := eval vm_compute in (upper_char c) in
      change (upper_char c) with u
  end;
  cbn [hex_value];
  match goal with
  | |- context [hexval ?x] =>
      let h := eval vm_compute in (hexval x) in
      change (hexval x) with h
  end;
  cbv iota.

(** The digits [hex] writes for a positive number: their count and their
    value. *)
Lemma of_pos_digits :
  forall (p : positive) (rest : string) (acc : Z),
    hex_value acc (upper (HexString.Raw.of_pos p rest))
    = hex_value (acc * 16 ^ Z.of_nat (hex_width p) + Z.pos p) (upper rest) /\
    String.length (HexString.Raw.of_pos p rest)
    = (hex_width p + String.length rest)%nat /\
    16 ^ Z.of_nat (hex_width p - 1) <= Z.pos p.
Proof.
  fix IH 1. intros p rest acc.
  do 4 try destruct p as [p|p|];
    cbn [HexString.Raw.of_pos hex_width];
    first
      [ match goal with
        | |- context [HexString.Raw.of_pos ?q (String ?c rest)] =>
            destruct (IH q (String c rest) acc) as (V & L & B);
            pose proof (hex_width_pos q) as W;
            clear IH; rewrite V, L; upper_head rest; clear V L;
            destruct (hex_width q) as [|w]; [lia|];
            replace (S w - 1)%nat with w in B by lia;
            replace (S (S w) - 1)%nat with (S w) by lia;
            rewrite !Nat2Z.inj_succ, !Z.pow_succ_r by lia;
            generalize dependent (16 ^ Z.of_nat w); intros X B;
            split; [f_equal; lia | split; [cbn [String.length]; lia | lia]]
        end
      | clear IH; upper_head rest;
        change (16 ^ Z.of_nat 1) with 16;
        change (16 ^ Z.of_nat (1 - 1)) with 1;
        split; [f_equal; lia | split; [reflexivity | lia]] ].
Qed.

Lemma hexval_not_sign (c : ascii) (v : Z) :
  hexval c = Some v -> Ascii.eqb c "+" || Ascii.eqb c "-" = false.
Proof.
  destruct c as [[] [] [] [] [] [] [] []]; vm_compute; intros H;
    try discriminate H; reflexivity.
Qed.

(** The digits ["%.X"] writes for a number that is not negative. *)
Lemma fmt_X_digits (p : Z) :
  0 <= p ->
  hex_value 0 (fmt_X p) = Some p /\
  (forall n : nat, p < 16 ^ Z.of_nat n -> (0 < n)%nat ->
                   (String.length (fmt_X p) <= n)%nat).
Proof.
  intros Hp. unfold fmt_X. replace (p <? 0) with false by (symmetry; lia).
  rewrite Z.abs_eq by lia.
  destruct p as [|q|q]; [split; [reflexivity | cbn; lia] | | lia].
  change (slice_from 2 (HexString.of_Z (Z.pos q)))
    with (HexString.Raw.of_pos q "").
  destruct (of_pos_digits q "" 0) as (V & L & B). split.
  - rewrite V. reflexivity.
  - intros n Hn _.
    assert (E : String.length (upper (HexString.Raw.of_pos q ""))
                = String.length (HexString.Raw.of_pos q "")).
    { generalize (HexString.Raw.of_pos q ""). intros s.
      induction s as [|c s IH]; [reflexivity|]. cbn. now rewrite IH. }
    rewrite E, L. cbn [String.length]. rewrite Nat.add_0_r.
    destruct (le_lt_dec (hex_width q) n) as [Hle|Hgt]; [exact Hle|].
    exfalso.
    assert (16 ^ Z.of_nat n <= 16 ^ Z.of_nat (hex_width q - 1))
      by (apply Z.pow_le_mono_r; lia).
    lia.
Qed.

Lemma hex_value_zeros (m : nat) (s : string) :
  hex_value 0 (zeros m ++ s) = hex_value 0 s.
Proof. induction m as [|m IH]; [reflexivity|]. cbn. exact IH. Qed.

Lemma length_zeros (m : nat) : String.length (zeros m) = m.
Proof. induction m as [|m IH]; [reflexivity|]. cbn. now rewrite IH. Qed.

Lemma length_append (a b : string) :
  String.length (a ++ b) = (String.length a + String.length b)%nat.
Proof.
  induction a as [|c a IH]; [reflexivity|].
  rewrite append_cons. cbn [String.length]. now rewrite IH.
Qed.

(** A text of [2 * n] hexadecimal digits, cut in pairs and joined with
    spaces, reads back as [n] bytes of the same value. *)
Lemma chunks_read_back (n : nat) :
  forall (s : string) (acc v : Z),
    String.length s = (2 * n)%nat ->
    hex_value acc s = Some v ->
    exists bs,
      fromhex (join " " (chunks2 s)) = Some bs /\
      List.length bs = n /\
      fold_left (fun a b => 256 * a + b) bs acc = v.
Proof.
  induction n as [|n IH]; intros s acc v Hl Hv.
  - destruct s; [|discriminate Hl]. exists []. cbn in *.
    repeat split. congruence.
  - destruct s as [|a [|b s]]; [cbn in Hl; lia | cbn in Hl; lia |].
    cbn [hex_value] in Hv.
    destruct (hexval a) as [da|] eqn:Ha; [|discriminate].
    destruct (hexval b) as [db|] eqn:Hb; [|discriminate].
    replace (16 * (16 * acc + da) + db) with (256 * acc + (16 * da + db)) in Hv
      by lia.
    destruct (IH s _ v ltac:(cbn in Hl; lia) Hv) as (bs & F & Lb & Vb).
    exists ((16 * da + db) :: bs).
    assert (X : hex_text (String a (String b "")) [16 * da + db])
      by (constructor; [exact Ha | exact Hb | constructor]).
    split; [|split; [cbn; now rewrite Lb | exact Vb]].
    cbn [chunks2].
    destruct (chunks2 s) as [|x xs] eqn:E.
    + cbn [join] in *. injection F as <-.
      pose proof (fromhex_hex_text_app _ "" _ X) as R.
      rewrite append_nil_r in R. rewrite R. reflexivity.
    + change (join " " (String a (String b "") :: x :: xs))
        with (String a (String b "") ++ " " ++ join " " (x :: xs)).
      rewrite (fromhex_hex_text_app _ _ _ X), fromhex_space, F. reflexivity.
Qed.

(** X16: The text [Sequence] gives reads back as the value it stands for: when
    the value is not negative and fits [n_bytes] bytes, the text is the
    hexadecimal text of exactly [n_bytes] bytes, the most significant one
    first, and these bytes make up the value. *)
Theorem Sequence_reads_back (pid : string) (base max factor n_bytes : Z)
    (e : Elm) (v : value) (c : Z) :
  counters e !! pid = Some v ->
  num v = Some c ->
  max <> 0 ->
  0 < n_bytes ->
  0 <= Sequence_value c base max factor < 256 ^ n_bytes ->
  exists text bs,
    Sequence pid base max factor n_bytes e = SeqOk text /\
    fromhex text = Some bs /\
    Z.of_nat (List.length bs) = n_bytes /\
    big_endian bs = Sequence_value c base max factor.
Proof.
  intros Hv Hc Hm Hn Hp. set (p := Sequence_value c base max factor) in *.
  exists (Sequence_text p n_bytes).
  assert (S1 : Sequence pid base max factor n_bytes e
               = SeqOk (Sequence_text p n_bytes)).
  { unfold Sequence. rewrite Hv, Hc.
    now replace (max * 2 =? 0) with false by (symmetry; apply Z.eqb_neq; lia). }
  destruct (fmt_X_digits p ltac:(lia)) as (V & Lx).
  set (n := Z.to_nat n_bytes).
  assert (Hlen : (String.length (fmt_X p) <= 2 * n)%nat).
  { apply Lx; [|lia].
    replace (Z.of_nat (2 * n)) with (2 * n_bytes) by lia.
    rewrite Z.pow_mul_r by lia. exact (proj2 Hp). }
  assert (Z1 : zfill (n_bytes * 2) (fmt_X p)
               = zeros (2 * n - String.length (fmt_X p)) ++ fmt_X p).
  { unfold zfill, len.
    replace (Z.to_nat (n_bytes * 2 - Z.of_nat (String.length (fmt_X p))))
      with (2 * n - String.length (fmt_X p))%nat by lia.
    destruct (fmt_X p) as [|x s] eqn:E; [now rewrite append_nil_r|].
    cbn [hex_value] in V.
    destruct (hexval x) as [d|] eqn:Hx; [|discriminate].
    now rewrite (hexval_not_sign x d Hx). }
  destruct (chunks_read_back n (zfill (n_bytes * 2) (fmt_X p)) 0 p)
    as (bs & F & Lb & Vb).
  - rewrite Z1, length_append, length_zeros. lia.
  - now rewrite Z1, hex_value_zeros.
  - exists bs. split; [exact S1|]. split; [exact F|].
    split; [lia | exact Vb].
Qed.

End SequenceProperties.

Lemma Sequence_sweep_witness :
  exists p,
    Sequence "RPM" 5 10 2 2 (set_counters <["RPM" := VInt 13]> Elm0)
    = SeqOk (Sequence_text p 2) /\
    5 <= p <= 5 + 2 * 10 /\
    (0 <= 13 <= 10 -> p = 5 + 2 * 13) /\
    (10 <= 13 <= 2 * 10 -> p = 5 + 2 * (2 * 10 - 13)) /\
    Sequence "RPM" 5 10 2 2
      (set_counters <["RPM" := VInt (13 + 2 * 10)]>
         (set_counters <["RPM" := VInt 13]> Elm0))
    = SeqOk (Sequence_text p 2) /\
    Sequence "RPM" 5 0 2 2 (set_counters <["RPM" := VInt 13]> Elm0)
    = SeqZeroDivisionError /\
    Sequence "RPM" 5 10 2 2
      (set_counters (delete "RPM") (set_counters <["RPM" := VInt 13]> Elm0))
    = SeqKeyError /\
    Sequence "RPM" 5 10 2 2
      (set_counters <["RPM" := VStr "1"]>
         (set_counters <["RPM" := VInt 13]> Elm0))
    = SeqTypeError.
Proof.
  apply (Sequence_sweep "RPM" 5 10 2 2
           (set_counters <["RPM" := VInt 13]> Elm0) (VInt 13) 13).
  - reflexivity.
  - reflexivity.
  - lia.
  - lia.
Defined.

Lemma Sequence_reads_back_witness :
  exists text bs,
    Sequence "RPM" 5 10 100 2 (set_counters <["RPM" := VInt 13]> Elm0)
    = SeqOk text /\
    fromhex text = Some bs /\
    Z.of_nat (List.length bs) = 2 /\
    big_endian bs = Sequence_value 13 5 10 100.
Proof.
  apply (Sequence_reads_back "RPM" 5 10 100 2
           (set_counters <["RPM" := VInt 13]> Elm0) (VInt 13) 13).
  - reflexivity.
  - reflexivity.
  - lia.
  - lia.
  - vm_compute. split; [discriminate | reflexivity].
Defined.

(** * The constructor *)

Section Constructor.

Variable ECU_ADDR_E : value.

Lemma set_defaults_ok (e : Elm) :
  set_defaults e
  = (Ok tt,
     set_counters (fun _ => presets e ∪ ∅)
       (set_answer ∅ (set_scenario "default" e))).
Proof. reflexivity. Qed.

(** X17: A new emulator, for a catalog with the layers ["default"] and ["AT"]:
    the scenario is ["default"], the counters are the two PID counters at
    0 and the request header [ECU_ADDR_E], and there is no task, no preset,
    no answer override and no plugin. The sorted catalog is the merge of
    the two layers in ascending priority, in which a key of both layers
    has the row of ["default"]: the scenario is merged last, and it is
    ["default"] itself. Without the layer ["default"] the constructor
    raises [KeyError]. *)
Theorem new_emulator (o : dict (dict entry)) (e : Elm) :
  (forall d a,
     dict_get "default" o = Some d -> dict_get "AT" o = Some a ->
     unique (keys d) = true -> unique (keys a) = true ->
     exists e',
       __init__ ECU_ADDR_E o e = (Ok tt, e') /\
       counters e' = fresh_counters ECU_ADDR_E /\
       tasks e' = ∅ /\ presets e' = ∅ /\ plugins e' = ∅ /\ answer e' = ∅ /\
       scenario e' = "default" /\ ObdMessage e' = o /\
       sortedOBDMsg e' = sorted priority (merged d a d) /\
       StronglySorted by_priority (sortedOBDMsg e') /\
       (forall k,
          dict_get k (sortedOBDMsg e')
          = match dict_get k d with
            | Some v => Some v
            | None => dict_get k a
            end)) /\
  (dict_get "default" o = None ->
   fst (__init__ ECU_ADDR_E o e) = Raise KeyError).
Proof.
  set (e1 := with_catalog o (set_presets ∅ e)).
  set (e2 := set_counters (fun _ => presets e1 ∪ ∅)
               (set_answer ∅ (set_scenario "default" e1))).
  assert (I : forall k : unit -> M unit,
             (modify (set_presets ∅);; modify (with_catalog o);;
              set_defaults ≫= k) e = k tt e2).
  { intros k. reflexivity. }
  split.
  - intros d a Hd Ha Ud Ua.
    pose proof (setSortedOBDMsg_layers e2 "default" d a d Hd Ha Hd) as S.
    assert (S' : setSortedOBDMsg None e2
                 = (Ok tt, set_sortedOBDMsg (sorted priority (merged d a d)) e2)).
    { exact S. }
    set (e3 := set_sortedOBDMsg (sorted priority (merged d a d)) e2) in *.
    exists (set_plugins ∅ (snd (reset ECU_ADDR_E e3))).
    split.
    { unfold __init__.
      change ((modify (set_presets ∅);; modify (with_catalog o);;
               set_defaults;; setSortedOBDMsg None;; reset ECU_ADDR_E;;
               modify (set_plugins ∅)) e)
        with ((setSortedOBDMsg None;; reset ECU_ADDR_E;;
               modify (set_plugins ∅)) e2).
      rewrite (bind_ok _ _ _ _ _ S'). reflexivity. }
    split.
    { apply map_eq. intros k.
      change (counters (set_plugins ∅ (snd (reset ECU_ADDR_E e3))))
        with (counters (snd (reset ECU_ADDR_E e3))).
      rewrite reset_counters. unfold fresh_counters.
      change (presets e3) with (∅ : gmap string value).
      change (counters e3) with ((∅ : gmap string value) ∪ ∅).
      rewrite lookup_empty.
      repeat (case_bool_decide; [subst; now simplify_map_eq|]).
      rewrite !lookup_insert_ne, lookup_singleton_ne by congruence.
      rewrite lookup_union, lookup_empty.
      now destruct (String.prefix "cmd_" k). }
    do 7 (split; [reflexivity|]).
    apply unique_NoDup in Ud, Ua.
    split; [apply sorted_sorted|].
    intros k.
    change (sortedOBDMsg (set_plugins ∅ (snd (reset ECU_ADDR_E e3))))
      with (sorted priority (merged d a d)).
    rewrite (dict_get_perm k (merged d a d));
      [|apply NoDup_keys_merged | apply sorted_perm].
    rewrite (dict_get_merged d a d k Ud Ua Ud). unfold layered.
    destruct (dict_get k d); [reflexivity|]. now destruct (dict_get k a).
  - intros Hd. unfold __init__.
    change ((modify (set_presets ∅);; modify (with_catalog o);;
             set_defaults;; setSortedOBDMsg None;; reset ECU_ADDR_E;;
             modify (set_plugins ∅)) e)
      with ((setSortedOBDMsg None;; reset ECU_ADDR_E;;
             modify (set_plugins ∅)) e2).
    assert (S : setSortedOBDMsg None e2 = (Raise KeyError, e2)).
    { unfold setSortedOBDMsg.
      rewrite (bind_ok _ _ e2 e2 tt) by reflexivity.
      rewrite !gets_bind.
      change (ObdMessage e2) with o. change (scenario e2) with "default".
      rewrite Hd.
      rewrite (bool_decide_eq_false_2 (is_Some None))
        by (intros [? ?]; discriminate).
      cbn [andb]. apply bind_raise. apply bind_raise.
      unfold layer. rewrite gets_bind. change (ObdMessage e2) with o.
      now rewrite Hd. }
    now rewrite (bind_raise _ _ _ _ _ S).
Qed.

End Constructor.

Lemma first_frame_zero_length_witness :
  exists e',
    handle_request0 (first_frame 0 "AABB") true Elm_pci
    = (Ok (Some (VStr "7E0"), "AABB", None), e') /\
    tasks e' = tasks Elm_pci /\
    hits e' "" (0 + 1) /\
    log e' = (log Elm_pci ++ [(ERROR, "Invalid consecutive frame %s %s")])%list.
Proof.
  apply (first_frame_zero_length ELM_R_OK_spec ELM_R_UNKNOWN_spec ST_spec
           quiet_response no_exec no_call no_plugin_init no_plugin_method
           true Elm_pci (Some (VStr "7E0")) 0 0 "AABB").
  - split; [split; [|split]|split].
    + exists (VBool false). split; reflexivity.
    + reflexivity.
    + eexists. reflexivity.
    + reflexivity.
    + reflexivity.
  - reflexivity.
  - reflexivity.
  - split; reflexivity.
Defined.

Lemma task_accounting_witness :
  task_action quiet_response no_plugin_method (Some (VStr "7E0")) true
    Tasks.run "CC" None (Some 3) Elm_collecting
  = (Ok (None, Tasks.TERMINATE, None),
     set_tasks (delete (Some (VStr "7E0")))
       (set_counters <["" := VInt (0 + 1)]>
          (add_log (ERROR, "Invalid consecutive frame %s %s") Elm_collecting))).
Proof.
  apply (task_accounting quiet_response no_plugin_method (Some (VStr "7E0"))
           true Tasks.run "CC" None (Some 3) Elm_collecting
           (add_log (ERROR, "Invalid consecutive frame %s %s") Elm_collecting)
           (Tasks.mk Tasks.Multiline (Some (VStr "7E0")) "AA" None true
              (Some 1) (Some 9) 31 32 (Some "AA"))
           (Tasks.mk Tasks.Multiline (Some (VStr "7E0")) "AA" None true
              (Some 1) (Some 9) 31 32 (Some "AA"))
           None None 0).
  - reflexivity.
  - reflexivity.
  - left. reflexivity.
  - reflexivity.
  - reflexivity.
Defined.

(** * The response renderer *)

Section RenderProperties.

Import Render.

Variable fromstring : string -> option ET.xml.
Variable re_compile : string -> option (string -> bool).
Variable py_eval : settings -> rstate -> string -> R (option string).
Variable py_exec_globals : string -> R unit.
Variable write_to_device : string -> R unit.

Abbreviation render :=
  (handle_response fromstring re_compile py_eval py_exec_globals
     write_to_device).
Abbreviation loop :=
  (render_loop re_compile py_eval py_exec_globals write_to_device).
Abbreviation tag_step :=
  (render_tag py_eval py_exec_globals write_to_device).
Abbreviation finish := (render_end write_to_device).

Lemma rbind_ok {A B : Type} (m : R A) (k : A -> R B) (e e' : Elm) (a : A) :
  m e = (ROk a, e') -> (m ≫= k) e = k a e'.
Proof. intros H. unfold mbind, R_bind. now rewrite H. Qed.

Lemma rbind_raise {A B : Type} (m : R A) (k : A -> R B) (e e' : Elm)
    (x : rexn) :
  m e = (RRaise x, e') -> (m ≫= k) e = (RRaise x, e').
Proof. intros H. unfold mbind, R_bind. now rewrite H. Qed.

Lemma rbind_inv {A B : Type} (m : R A) (k : A -> R B) (e e' : Elm) (b : B) :
  (m ≫= k) e = (ROk b, e') ->
  exists a e1, m e = (ROk a, e1) /\ k a e1 = (ROk b, e').
Proof.
  unfold mbind, R_bind. destruct (m e) as [[a|x] e1]; intros H.
  - now exists a, e1.
  - discriminate H.
Qed.

Ltac rinv :=
  repeat match goal with
         | H : (_ ≫= _) _ = (ROk _, _) |- _ =>
             let a := fresh "a" in
             let e1 := fresh "e" in
             let H1 := fresh "H" in
             let H2 := fresh "H" in
             apply rbind_inv in H as (a & e1 & H1 & H2)
         | H : mret _ _ = (ROk _, _) |- _ =>
             unfold mret, R_ret in H; injection H as ? ?; subst
         | H : rraise _ _ = (ROk _, _) |- _ => discriminate H
         | H : (if ?b then _ else _) _ = (ROk _, _) |- _ => destruct b eqn:?
         | H : match ?x with _ => _ end _ = (ROk _, _) |- _ => destruct x eqn:?
         | H : match ?x with _ => _ end = (ROk _, _) |- _ => destruct x eqn:?
         end.

(** A tag leaves the loop by a [break] that keeps the response complete,
    or by returning the empty text. *)
Lemma render_tag_stop (cfg : settings) (w : bool) (i : ET.element)
    (t : string) (st : rstate) (e e' : Elm) (out : outcome) :
  tag_step cfg w i t st e = (ROk (Stop out), e') ->
  out = Returned "" \/ exists st', out = Finished st' false.
Proof.
  unfold render_tag, normal_request, add_uds. intros H. rinv;
    try discriminate; try (injection H as <-); eauto.
Qed.

(** The method returns from inside the loop with the empty text only. *)
Lemma render_loop_returned (cfg : settings) (w : bool) (n : nat) :
  forall (cs : list ET.element) (st : rstate) (e e' : Elm) (r : string),
    (List.length cs <= n)%nat ->
    loop cfg w cs st e = (ROk (Returned r), e') -> r = "".
Proof.
  induction n as [|n IH]; intros cs st e e' r Hn H.
  - destruct cs; [discriminate H | cbn in Hn; lia].
  - destruct cs as [|i cs]; [discriminate H|].
    cbn [render_loop] in H. cbn [List.length] in Hn.
    destruct (String.eqb (lower (ET.tag i)) "header").
    + destruct cs as [|size [|data cs]].
      * rinv. discriminate.
      * rinv. discriminate.
      * cbn [List.length] in Hn.
        apply rbind_inv in H as ([st'|] & e1 & _ & H).
        -- eapply IH; [|exact H]. lia.
        -- discriminate H.
    + apply rbind_inv in H as (s & e1 & Hs & H).
      destruct s as [st'|st'|out].
      * eapply IH; [|exact H]. lia.
      * eapply IH; [|exact H]. lia.
      * injection H as -> ->.
        destruct (render_tag_stop _ _ _ _ _ _ _ _ Hs) as [E|[st' E]];
          congruence.
Qed.

Lemma append_not_empty (a b : string) : a <> "" -> a ++ b <> "".
Proof. destruct a; [congruence|]. rewrite append_cons. discriminate. Qed.

(** X20: Whatever the response, the counters and the collaborators: a text the
    renderer returns is empty (the method gave up on a request that is not
    hexadecimal text) or ends with the prompt [>], with something before
    it. *)
Theorem render_prompt (resp : string) (w : bool) (h : header_t)
    (d : option string) (e e' : Elm) (a : string) :
  render resp w h d e = (ROk (Some a), e') ->
  a = "" \/ exists body, body <> "" /\ a = body ++ ">".
Proof.
  unfold handle_response. intros H.
  apply rbind_inv in H as (cfg & e1 & _ & H).
  apply rbind_inv in H as (out & e2 & Hout & H).
  destruct out as [st inc|r].
  - right. unfold render_end in H.
    set (a0 := if inc || (answers st && String.eqb (answ st) "")
               then "NO DATA" ++ nl cfg else answ st) in *.
    destruct (String.eqb a0 "") eqn:Ea; [discriminate H|].
    apply String.eqb_neq in Ea.
    apply rbind_inv in H as (c & e3 & _ & H).
    apply rbind_inv in H as (gt & e4 & _ & H).
    apply rbind_inv in H as (u & e5 & _ & H).
    injection H as <- _.
    destruct gt.
    + exists a0. split; [exact Ea | reflexivity].
    + exists (a0 ++ nl cfg). split; [now apply append_not_empty|].
      now rewrite append_assoc.
  - left. injection H as <- _.
    destruct (fromstring ("<xml>" ++ resp ++ "</xml>")) as [root|].
    + eapply render_loop_returned; [|exact Hout]. apply Nat.le_refl.
    + rinv. discriminate.
Qed.

Lemma rlog_ok (l : level) (f : string) (e : Elm) :
  rlog l f e = (ROk tt, add_log (l, f) e).
Proof. reflexivity. Qed.

(** The end of the method for an answer that is not empty. *)
Lemma render_end_deliver (cfg : settings) (w : bool) (st : rstate)
    (inc : bool) (e : Elm) (pr : string) :
  prompt cfg e = Some pr ->
  let a := if inc || (answers st && String.eqb (answ st) "")
           then "NO DATA" ++ nl cfg else answ st in
  a <> "" ->
  finish cfg w (Finished st inc) e = deliver write_to_device w (a ++ pr) e.
Proof.
  intros Hp a Ha. unfold render_end. fold a.
  apply String.eqb_neq in Ha. rewrite Ha.
  rewrite (rbind_ok _ _ e e (counters e)) by reflexivity.
  unfold prompt in Hp.
  destruct (counters e !! "cmd_linefeeds") as [v|].
  - destruct (num v) as [n|]; [|discriminate Hp]. injection Hp as <-.
    rewrite (rbind_ok _ _ e e (2 <? n)) by reflexivity.
    now destruct (2 <? n).
  - injection Hp as <-. now rewrite (rbind_ok _ _ e e false) by reflexivity.
Qed.

(** X21: A response that is not well-formed XML is answered with [NO DATA]:
    the parse error is logged, and the text [NO DATA], the line end and the
    prompt are written to the transport (when [do_write] is set) and
    returned. *)
Theorem render_unparsable (resp : string) (w : bool) (h : header_t)
    (d : option string) (e e1 : Elm) (cfg : settings) (pr : string) :
  fromstring ("<xml>" ++ resp ++ "</xml>") = None ->
  read_settings e = (ROk cfg, e1) ->
  prompt cfg e1 = Some pr ->
  render resp w h d e
  = deliver write_to_device w ("NO DATA" ++ nl cfg ++ pr)
      (add_log (ERROR, "Wrong response format for " ++ dq ++ "%s" ++ dq
                       ++ "; %s") e1).
Proof.
  intros Hx Hs Hp. unfold handle_response.
  rewrite (rbind_ok _ _ _ _ _ Hs), Hx.
  erewrite rbind_ok; [|rewrite (rbind_ok _ _ _ _ _ (rlog_ok _ _ _)); reflexivity].
  rewrite (render_end_deliver cfg w _ true _ pr) by
    (try exact Hp; cbn [orb]; now apply append_not_empty).
  cbn [orb]. now rewrite append_assoc.
Qed.

Lemma answ_add_tail (st : rstate) :
  answ (add_tail st)
  = answ st ++ match last st with Some i => tail_text i | None => "" end.
Proof.
  unfold add_tail, tail_text. destruct (last st) as [i|].
  - destruct (some_text (ET.tail i)); [reflexivity | now rewrite append_nil_r].
  - now rewrite append_nil_r.
Qed.

Lemma add_tail_fields (st : rstate) :
  last (add_tail st) = last st /\ answers (add_tail st) = answers st.
Proof.
  unfold add_tail. destruct (last st) as [i|] eqn:E; [|now rewrite E].
  destruct (some_text (ET.tail i)); cbn; now rewrite ?E.
Qed.

Lemma last_default {A : Type} (x : A) (l : list A) (d d' : A) :
  List.last (x :: l) d = List.last (x :: l) d'.
Proof.
  revert x. induction l as [|y l IH]; intros x; [reflexivity|].
  change (List.last (y :: l) d = List.last (y :: l) d'). apply IH.
Qed.

Lemma fold_take_string (cs : list ET.element) :
  forall st,
    answ (fold_left take_string cs st)
    = answ st ++ concat_all (map string_text cs) /\
    last (fold_left take_string cs st) = List.last (map Some cs) (last st) /\
    answers (fold_left take_string cs st) = answers st.
Proof.
  induction cs as [|i cs IH]; intros st.
  - cbn. now rewrite append_nil_r.
  - cbn [fold_left map concat_all fold_right].
    destruct (IH (take_string st i)) as (A & L & W).
    assert (Li : last (take_string st i) = Some i)
      by (unfold take_string; now rewrite (proj1 (add_tail_fields _))).
    assert (Ai : answ (take_string st i) = answ st ++ string_text i).
    { unfold take_string. rewrite answ_add_tail. cbn [last add_answ set_answ
        set_last answ]. unfold string_text. now rewrite append_assoc. }
    rewrite A, L, W, Li, Ai. split; [now rewrite append_assoc|].
    split.
    + destruct cs as [|c cs]; [reflexivity|].
      cbn [map].
      change (List.last (Some i :: Some c :: map Some cs) (last st))
        with (List.last (Some c :: map Some cs) (last st)).
      apply last_default.
    + unfold take_string. now rewrite (proj2 (add_tail_fields _)).
Qed.

(** The loop over [<string>] children. *)
Lemma loop_strings (cfg : settings) (w : bool) (cs : list ET.element) :
  Forall (fun i => lower (ET.tag i) = "string") cs ->
  forall st e,
    loop cfg w cs st e
    = (ROk (Finished (add_tail (fold_left take_string cs st)) false), e).
Proof.
  induction 1 as [|i cs Hi _ IH]; intros st e; [reflexivity|].
  cbn [render_loop fold_left]. rewrite Hi.
  change (String.eqb "string" "header") with false. cbv iota.
  rewrite (rbind_ok _ _ e e
             (Next (add_answ (or_empty (ET.text i)) (set_last (Some i) st))))
    by reflexivity.
  apply IH.
Qed.

(** X22: A response made of [<string>] children only. Its answer is the text of
    the root, then for each child its text and its tail, and then the tail
    of the last child a second time: the end of the loop adds it again. An
    empty answer gives [None] and nothing is written; otherwise the answer
    and the prompt are written (when [do_write] is set) and returned. *)
Theorem render_strings (resp : string) (w : bool) (h : header_t)
    (d : option string) (e e1 : Elm) (cfg : settings) (pr : string)
    (root : ET.xml) :
  fromstring ("<xml>" ++ resp ++ "</xml>") = Some root ->
  Forall (fun i => lower (ET.tag i) = "string") (ET.children root) ->
  read_settings e = (ROk cfg, e1) ->
  prompt cfg e1 = Some pr ->
  render resp w h d e
  = if String.eqb (strings_answer root) "" then (ROk None, e1)
    else deliver write_to_device w (strings_answer root ++ pr) e1.
Proof.
  intros Hx Hc Hs Hp. unfold handle_response.
  rewrite (rbind_ok _ _ _ _ _ Hs), Hx.
  rewrite (rbind_ok _ _ _ _ _ (loop_strings cfg w _ Hc _ e1)).
  set (st0 := mkR _ h d false None).
  set (st1 := add_tail (fold_left take_string (ET.children root) st0)).
  destruct (fold_take_string (ET.children root) st0) as (A & L & W).
  assert (A1 : answ st1 = strings_answer root).
  { unfold st1. rewrite answ_add_tail, A, L. unfold strings_answer.
    now rewrite append_assoc. }
  assert (W1 : answers st1 = false).
  { unfold st1. now rewrite (proj2 (add_tail_fields _)), W. }
  destruct (String.eqb (strings_answer root) "") eqn:E.
  - unfold render_end. rewrite W1, A1. cbn [orb andb]. now rewrite E.
  - rewrite (render_end_deliver cfg w st1 false e1 pr Hp);
      rewrite W1, A1; cbn [orb andb]; [reflexivity|].
    now apply String.eqb_neq.
Qed.

(** The line end read from the counters is never empty. *)
Lemma read_settings_nl (e e1 : Elm) (cfg : settings) :
  read_settings e = (ROk cfg, e1) -> nl cfg <> "".
Proof.
  unfold read_settings. intros H.
  apply rbind_inv in H as (c & e2 & _ & H).
  apply rbind_inv in H as (cra & e3 & _ & H).
  apply rbind_inv in H as (x & e4 & Hx & H).
  injection H as <- _. cbn [nl].
  destruct (c !! "cmd_linefeeds") as [v|].
  - destruct (match int_of v with Some n => nl_type n | None => None end)
      as [y|] eqn:E.
    + injection Hx as <- _.
      destruct (int_of v) as [n|]; [|discriminate E].
      unfold nl_type in E.
      repeat match type of E with
             | (if ?b then _ else _) = _ => destruct b
             end; try discriminate E; injection E as <-; discriminate.
    + apply rbind_inv in Hx as (u & e5 & _ & Hx). injection Hx as <- _.
      discriminate.
  - injection Hx as <- _. discriminate.
Qed.

(** X23: A frame response: a [<header>] tag followed by a [<size>] and a
    [<data>] tag, with no filter set by [cmd_cra]. When the size is under
    16 and the data do not have twice as many digits, the mismatch is
    logged and the answer is [NO DATA]. Otherwise the answer is the frame:
    the header and the size if headers are shown, the data (without
    whitespace if spaces are off) and the line end. In both cases the
    answer and the prompt are written (when [do_write] is set) and
    returned. *)
Theorem render_frame_triple (resp : string) (w : bool) (h : header_t)
    (d : option string) (e e1 : Elm) (cfg : settings) (pr : string)
    (rt : option string) (hd sz dt : ET.element) (ht st dx : string) (n : Z) :
  fromstring ("<xml>" ++ resp ++ "</xml>") = Some (ET.mkXml rt [hd; sz; dt]) ->
  some_text rt = false ->
  lower (ET.tag hd) = "header" -> lower (ET.tag sz) = "size" ->
  lower (ET.tag dt) = "data" ->
  ET.text hd = Some ht -> some_text (ET.tail hd) = false ->
  ET.text sz = Some st -> int16 st = Some n ->
  ET.text dt = Some dx -> dx <> "" ->
  read_settings e = (ROk cfg, e1) ->
  cra_pattern cfg = None ->
  prompt cfg e1 = Some pr ->
  render resp w h d e
  = if (n <? 16) && negb (len (remove_whitespace dx) =? n * 2) then
      deliver write_to_device w ("NO DATA" ++ nl cfg ++ pr)
        (add_log
           (ERROR,
            "In response %s, mismatch between number of data digits %s and related length field %s.")
           e1)
    else deliver write_to_device w (frame_text cfg ht st dx ++ pr) e1.
Proof.
  intros Hx Hrt Hh Hs Hd Tht Thd Tst Hn Tdx Hdx Hset Hcra Hp.
  pose proof (read_settings_nl _ _ _ Hset) as Hnl.
  unfold handle_response. rewrite (rbind_ok _ _ _ _ _ Hset), Hx.
  cbn [ET.root_text ET.children]. rewrite Hrt.
  cbn [render_loop]. rewrite Hh.
  change (String.eqb "header" "header") with true. cbv iota.
  set (st0 := set_answers true (set_last (Some hd) (mkR "" h d false None))).
  assert (Hsx : some_text (ET.text dt) = true).
  { rewrite Tdx. cbn. apply String.eqb_neq in Hdx. now rewrite Hdx. }
  destruct ((n <? 16) && negb (len (remove_whitespace dx) =? n * 2)) eqn:Hm.
  - assert (F : render_frame re_compile cfg hd sz dt st0 e1
                = (ROk None,
                   add_log
                     (ERROR,
                      "In response %s, mismatch between number of data digits %s and related length field %s.")
                     e1)).
    { unfold render_frame. rewrite Hs, Hd, Tst, Hn, Hsx, Tdx.
      cbn [String.eqb Ascii.eqb Bool.eqb negb orb andb or_empty default].
      unfold id. now rewrite Hm. }
    rewrite (rbind_ok _ _ _ _ _ (rbind_ok _ _ _ _ _ F)).
    rewrite (render_end_deliver cfg w st0 true _ pr) by
      (try exact Hp; cbn [orb]; now apply append_not_empty).
    cbn [orb]. now rewrite append_assoc.
  - set (st1 := add_answ (frame_text cfg ht st dx) st0).
    assert (F : render_frame re_compile cfg hd sz dt st0 e1
                = (ROk (Some st1), e1)).
    { unfold render_frame. rewrite Hs, Hd, Tst, Hn, Hsx, Tdx.
      cbn [String.eqb Ascii.eqb Bool.eqb negb orb andb or_empty default].
      unfold id. rewrite Hm.
      assert (C : match_cra re_compile cfg (ET.text hd) e1 = (ROk true, e1))
        by (unfold match_cra; now rewrite Hcra, Tht).
      rewrite (rbind_ok _ _ _ _ _ C), Tht. reflexivity. }
    assert (T : add_tail st1 = st1).
    { unfold add_tail. cbn [last st1 st0 add_answ set_answ set_answers set_last].
      now rewrite Thd. }
    rewrite (rbind_ok _ _ _ _ _ (rbind_ok _ _ _ _ _ F)).
    cbv iota beta. cbn [render_loop]. rewrite T, T.
    assert (A : answ st1 = frame_text cfg ht st dx) by reflexivity.
    assert (Ne : frame_text cfg ht st dx <> "").
    { unfold frame_text. intros E.
      apply (f_equal String.length) in E.
      rewrite !length_append in E.
      destruct (nl cfg); [congruence | cbn in E; lia]. }
    rewrite (render_end_deliver cfg w st1 false e1 pr Hp);
      cbn [orb]; rewrite A;
      replace (String.eqb (frame_text cfg ht st dx) "") with false
        by (symmetry; now apply String.eqb_neq);
      rewrite andb_false_r; [reflexivity | exact Ne].
Qed.

Lemma upper_fmt_02X (b : Z) : 0 <= b < 256 -> upper (fmt_02X b) = fmt_02X b.
Proof.
  intros Hb. destruct (fmt_02X_byte b Hb) as (c & x & -> & _ & _ & Uc & Ux & _).
  cbn. now rewrite Uc, Ux.
Qed.

(** The request written again starts with the digits of its first byte,
    then those of its second byte, if it has one. *)
Lemma normal_request_digits (b0 : Z) (rest : list Z) :
  Forall (fun b => 0 <= b < 256) (b0 :: rest) ->
  let rd := upper (join "" (map fmt_02X (b0 :: rest))) in
  fromhex (slice_to 2 rd) = Some [b0] /\
  slice 2 4 rd = match rest with
                 | b1 :: _ => fmt_02X b1
                 | [] => ""
                 end.
Proof.
  intros Hb rd. inversion Hb as [|? ? H0 Hr]; subst.
  assert (J : forall l, join "" (map fmt_02X (b0 :: l))
                        = fmt_02X b0 ++ join "" (map fmt_02X l)).
  { intros [|y l]; [cbn; now rewrite append_nil_r | reflexivity]. }
  unfold rd. rewrite J, upper_app, (upper_fmt_02X b0 H0).
  destruct (fmt_02X_byte b0 H0) as (c & x & E & Hc & Hx & _).
  rewrite E, !append_cons, append_nil_l. unfold slice.
  cbn [slice_to slice_from Nat.sub].
  split.
  - cbn [fromhex].
    destruct (hexval_facts c _ Hc) as (Sc & _).
    rewrite Sc, Hc, Hx. do 2 f_equal. symmetry. apply Z.div_mod. lia.
  - destruct rest as [|b1 rest]; [reflexivity|].
    inversion Hr as [|? ? H1 _]; subst.
    assert (J1 : join "" (map fmt_02X (b1 :: rest))
                 = fmt_02X b1 ++ join "" (map fmt_02X rest)).
    { destruct rest; [cbn; now rewrite append_nil_r | reflexivity]. }
    rewrite J1, upper_app, (upper_fmt_02X b1 H1).
    destruct (fmt_02X_byte b1 H1) as (c1 & x1 & -> & _).
    now rewrite !append_cons.
Qed.

(** X25: The [<pos_answer>] tag builds its answer from the request: the first
    byte of the request plus 0x40, the second byte of the request if there
    is one, and the text of the tag; the request is kept in upper case
    digits for the tags that follow. Without a request the loop is left
    with an error logged; a request that is not hexadecimal text makes the
    method return the empty text; and a request made of whitespace only
    raises [IndexError]. *)
Theorem pos_answer_request (cfg : settings) (w : bool) (i : ET.element)
    (st : rstate) (e : Elm) :
  (some_text (request_data st) = false ->
   tag_step cfg w i "pos_answer" st e
   = (ROk (Stop (Finished st false)),
      add_log (ERROR, "Missing request with <pos_answer> tag: %s.") e)) /\
  (forall rq,
     request_data st = Some rq -> rq <> "" -> fromhex rq = None ->
     tag_step cfg w i "pos_answer" st e
     = (ROk (Stop (Returned "")),
        add_log
          (ERROR,
           "Invalid request %s related to response %s including <pos_answer> tag.")
          e)) /\
  (forall rq,
     request_data st = Some rq -> rq <> "" -> fromhex rq = Some [] ->
     tag_step cfg w i "pos_answer" st e = (RRaise IndexError, e)) /\
  (forall rq b0 rest,
     request_data st = Some rq -> fromhex rq = Some (b0 :: rest) ->
     tag_step cfg w i "pos_answer" st e
     = (st' ← add_uds cfg
               (fmt_02X (b0 + 64)
                ++ match rest with
                   | b1 :: _ => fmt_02X b1
                   | [] => ""
                   end
                ++ or_empty (ET.text i))
               None
               (set_request_data
                  (Some (upper (join "" (map fmt_02X (b0 :: rest))))) st);
        mret (Next st')) e).
Proof.
  assert (U : tag_step cfg w i "pos_answer" st e
              = (r ← normal_request "pos_answer" st;
                 match r with
                 | inl s => mret s
                 | inr (rd, st) =>
                     match fromhex (slice_to 2 rd) with
                     | None => rraise (Py ValueError)
                     | Some [] => rraise IndexError
                     | Some (b :: _) =>
                         st ← add_uds cfg
                                (fmt_02X (b + 64) ++ slice 2 4 rd
                                 ++ or_empty (ET.text i)) None st;
                         mret (Next st)
                     end
                 end) e) by reflexivity.
  rewrite U. clear U. unfold normal_request.
  split; [|split; [|split]].
  - intros H. rewrite H. reflexivity.
  - intros rq Hr Hne Hx.
    assert (S1 : some_text (request_data st) = true)
      by (rewrite Hr; cbn; apply String.eqb_neq in Hne; now rewrite Hne).
    rewrite S1, Hr. cbn [negb or_empty default]. unfold id. now rewrite Hx.
  - intros rq Hr Hne Hx.
    assert (S1 : some_text (request_data st) = true)
      by (rewrite Hr; cbn; apply String.eqb_neq in Hne; now rewrite Hne).
    rewrite S1, Hr. cbn [negb or_empty default]. unfold id. now rewrite Hx.
  - intros rq b0 rest Hr Hx.
    assert (Hne : rq <> "") by (intros ->; discriminate Hx).
    assert (S1 : some_text (request_data st) = true)
      by (rewrite Hr; cbn; apply String.eqb_neq in Hne; now rewrite Hne).
    rewrite S1, Hr. cbn [negb or_empty default]. unfold id. rewrite Hx.
    pose proof (hex_text_bytes _ _ (fromhex_hex_text _ _ Hx)) as Hb.
    destruct (normal_request_digits b0 rest Hb) as (F & S2).
    erewrite rbind_ok; [|reflexivity]. cbv iota beta.
    now rewrite F, S2.
Qed.

(** The encoder for a Flow Control frame on an 11-bit header. *)
Lemma uds_answer_flow (e : Elm) (hdr data sp : string) (uh : bool) (x : Z)
    (payload : list Z) :
  String.length (upper (remove_whitespace hdr)) = 3%nat ->
  fromhex data = Some payload ->
  (uh = true -> int16 (upper (remove_whitespace hdr)) = Some x) ->
  uds_answer data (Some (VStr hdr)) uh sp (Some "30") e
  = (Ok ((if uh then hex_upper (x + 8) ++ sp else "") ++ "30" ++ sp
         ++ upper (join sp (map fmt_02X payload))), e).
Proof.
  intros HL Hd Hx. unfold uds_answer. rewrite gets_bind.
  set (H := upper (remove_whitespace hdr)) in *.
  assert (Hne : String.eqb H "" = false)
    by (destruct H; [discriminate HL | reflexivity]).
  rewrite Hne, Hd, HL. cbn [Nat.eqb andb negb String.eqb Ascii.eqb Bool.eqb].
  destruct uh.
  - rewrite (Hx eq_refl).
    rewrite (bind_ok _ _ e e (hex_upper (x + 8) ++ sp)) by reflexivity.
    cbn [default]. unfold id. now rewrite !append_assoc.
  - rewrite (bind_ok _ _ e e "") by reflexivity. reflexivity.
Qed.

(** X24: The response [<flow>data</flow>] rendered for a request on an 11-bit
    header: the renderer has the encoder build a Flow Control frame, which
    is the response header (the request header plus 8) when headers are
    shown, the byte [30] and the data; the frame, a line end and the
    prompt are written (when [do_write] is set) and returned. *)
Theorem render_flow_control (resp : string) (w : bool) (hdr : string)
    (d : option string) (e e1 : Elm) (cfg : settings) (pr : string)
    (rt : option string) (fl : ET.element) (data : string) (x : Z)
    (payload : list Z) :
  fromstring ("<xml>" ++ resp ++ "</xml>") = Some (ET.mkXml rt [fl]) ->
  some_text rt = false ->
  lower (ET.tag fl) = "flow" ->
  ET.text fl = Some data -> some_text (ET.tail fl) = false ->
  String.length (upper (remove_whitespace hdr)) = 3%nat ->
  fromhex data = Some payload ->
  (use_headers cfg = true -> int16 (upper (remove_whitespace hdr)) = Some x) ->
  read_settings e = (ROk cfg, e1) ->
  prompt cfg e1 = Some pr ->
  render resp w (Some (VStr hdr)) d e
  = deliver write_to_device w (flow_text cfg x payload ++ pr) e1.
Proof.
  intros Hx Hrt Ht Tx Tl HL Hd Hi Hset Hp.
  pose proof (read_settings_nl _ _ _ Hset) as Hnl.
  unfold handle_response. rewrite (rbind_ok _ _ _ _ _ Hset), Hx.
  cbn [ET.root_text ET.children]. rewrite Hrt.
  cbn [render_loop]. rewrite Ht.
  change (String.eqb "flow" "header") with false. cbv iota.
  set (st0 := set_last (Some fl) (mkR "" (Some (VStr hdr)) d false None)).
  set (st1 := add_answ (flow_text cfg x payload) st0).
  assert (S1 : tag_step cfg w fl "flow" st0 e1 = (ROk (Next st1), e1)).
  { change (tag_step cfg w fl "flow" st0 e1)
      with ((st' ← add_uds cfg (or_empty (ET.text fl)) (Some "30") st0;
             mret (Next st')) e1).
    unfold add_uds. rewrite Tx. cbn [or_empty default]. unfold id.
    assert (U : lift (uds_answer data (request_header st0) (use_headers cfg)
                        (sp cfg) (Some "30")) e1
                = (ROk ((if use_headers cfg then hex_upper (x + 8) ++ sp cfg
                         else "") ++ "30" ++ sp cfg
                        ++ upper (join (sp cfg) (map fmt_02X payload))), e1)).
    { unfold lift.
      change (request_header st0) with (Some (VStr hdr)).
      now rewrite (uds_answer_flow e1 hdr data (sp cfg) (use_headers cfg) x
                     payload HL Hd Hi). }
    rewrite (rbind_ok _ _ _ _ _ (rbind_ok _ _ _ _ _ U)). reflexivity. }
  rewrite (rbind_ok _ _ _ _ _ (rbind_ok _ _ _ _ _ S1)).
  cbv iota beta. cbn [render_loop].
  assert (T : add_tail st1 = st1).
  { unfold add_tail. cbn [last st1 st0 add_answ set_answ set_last].
    now rewrite Tl. }
  rewrite T, T.
  assert (Ne : flow_text cfg x payload <> "").
  { unfold flow_text. intros E. apply (f_equal String.length) in E.
    rewrite !length_append in E.
    destruct (nl cfg); [congruence | cbn in E; lia]. }
  rewrite (render_end_deliver cfg w st1 false e1 pr Hp);
    cbn [orb answers st1 st0 add_answ set_answ set_last andb];
    [reflexivity | exact Ne].
Qed.

End RenderProperties.

Lemma render_prompt_witness :
  "OK" ++ String cr ">" = ""
  \/ exists body, body <> "" /\ "OK" ++ String cr ">" = body ++ ">".
Proof.
  apply (render_prompt sample_fromstring no_regex no_eval no_python sink
           "<string>OK</string>" true None None Elm0 Elm0).
  reflexivity.
Defined.

Lemma render_unparsable_witness :
  handle_response0 "<string>OK" true None None Elm0
  = deliver sink true
      ("NO DATA" ++ Render.nl settings0 ++ String cr ">")
      (add_log (ERROR, "Wrong response format for " ++ dq ++ "%s" ++ dq
                       ++ "; %s") Elm0).
Proof.
  apply (render_unparsable sample_fromstring no_regex no_eval no_python
           sink "<string>OK" true None None Elm0 Elm0 settings0).
  - reflexivity.
  - reflexivity.
  - reflexivity.
Defined.

Lemma render_strings_witness :
  handle_response0 "<string>OK</string>" true None None Elm0
  = if String.eqb
         (strings_answer
            (ET.mkXml None [ET.mkElement "string" (Some "OK") None])) ""
    then (Render.ROk None, Elm0)
    else deliver sink true
           (strings_answer
              (ET.mkXml None [ET.mkElement "string" (Some "OK") None])
            ++ String cr ">") Elm0.
Proof.
  apply (render_strings sample_fromstring no_regex no_eval no_python sink
           "<string>OK</string>" true None None Elm0 Elm0 settings0).
  - reflexivity.
  - repeat constructor.
  - reflexivity.
  - reflexivity.
Defined.

Lemma render_frame_triple_witness :
  handle_response0
    "<header>7E8</header><size>03</size><data>41 0C 1A</data>" true None None
    Elm0
  = if (3 <? 16) && negb (len (remove_whitespace "41 0C 1A") =? 3 * 2) then
      deliver sink true ("NO DATA" ++ Render.nl settings0 ++ String cr ">")
        (add_log
           (ERROR,
            "In response %s, mismatch between number of data digits %s and related length field %s.")
           Elm0)
    else deliver sink true
           (frame_text settings0 "7E8" "03" "41 0C 1A" ++ String cr ">") Elm0.
Proof.
  apply (render_frame_triple sample_fromstring no_regex no_eval no_python
           sink
           "<header>7E8</header><size>03</size><data>41 0C 1A</data>" true
           None None Elm0 Elm0 settings0 (String cr ">") None
           (ET.mkElement "header" (Some "7E8") None)
           (ET.mkElement "size" (Some "03") None)
           (ET.mkElement "data" (Some "41 0C 1A") None)
           "7E8" "03" "41 0C 1A" 3).
  - reflexivity.
  - reflexivity.
  - reflexivity.
  - reflexivity.
  - reflexivity.
  - reflexivity.
  - reflexivity.
  - reflexivity.
  - reflexivity.
  - reflexivity.
  - discriminate.
  - reflexivity.
  - reflexivity.
  - reflexivity.
Defined.

Lemma header_filter_witness :
  resolve0
    ([("PID_7E1",
       mkEntry (Some (exactly "0100")) (Some (VStr "7E1")) None
         (Some (RStr "other")) None (Some "row") None None None None None
         None None)]
     ++ [("PID", row "0100" None "mine")])%list
    (Some (VStr "7E0")) "0100" None None true
    (set_counters <["cmd_set_header" := VStr "7E0"]> Elm1)
  = resolve0 [("PID", row "0100" None "mine")] (Some (VStr "7E0")) "0100"
      None None true (set_counters <["cmd_set_header" := VStr "7E0"]> Elm1).
Proof.
  apply (header_filter ELM_R_OK_spec ELM_R_UNKNOWN_spec ST_spec
           quiet_response no_exec no_call no_plugin_init no_plugin_method).
  constructor; [|constructor].
  right. exists (VStr "7E1"), (VStr "7E0"), (VStr "7E0").
  repeat split; reflexivity.
Defined.

Lemma render_flow_control_witness :
  handle_response0 "<flow>20 00</flow>" true (Some (VStr "7E0")) (Some "1003")
    Elm_headers
  = deliver sink true (flow_text settings_headers 2016 [32; 0] ++ String cr ">")
      Elm_headers.
Proof.
  apply (render_flow_control sample_fromstring no_regex no_eval no_python
           sink "<flow>20 00</flow>" true "7E0" (Some "1003") Elm_headers
           Elm_headers settings_headers (String cr ">") None
           (ET.mkElement "flow" (Some "20 00") None) "20 00" 2016 [32; 0]).
  - reflexivity.
  - reflexivity.
  - reflexivity.
  - reflexivity.
  - reflexivity.
  - reflexivity.
  - reflexivity.
  - intros _. reflexivity.
  - reflexivity.
  - reflexivity.
Defined.

(** * The exchange with the renderer of the engine *)

Section Respond.

Import Render.

Variable fromstring : string -> option ET.xml.
Variable re_compile : string -> option (string -> bool).
Variable py_eval : settings -> rstate -> string -> R (option string).
Variable py_exec_globals : string -> R unit.
Variable write_to_device : string -> R unit.

Lemma same_engine_refl (e : Elm) : same_engine e e.
Proof. repeat split. Qed.

Lemma same_engine_trans (e1 e2 e3 : Elm) :
  same_engine e1 e2 -> same_engine e2 e3 -> same_engine e1 e3.
Proof.
  intros (A1 & A2 & A3) (B1 & B2 & B3). repeat split; congruence.
Qed.

Lemma same_engine_log (r : log_record) (e : Elm) : same_engine (add_log r e) e.
Proof. repeat split. Qed.

(** The settings are read without an exception when the filter, if set, is
    a text. *)
Lemma read_settings_flow (e : Elm) (h : header_t) :
  flow_session e h ->
  exists cfg e1,
    read_settings e = (ROk cfg, e1) /\ same_engine e1 e /\
    use_headers cfg
    = match counters e !! "cmd_use_header" with
      | Some v => truthy v
      | None => false
      end.
Proof.
  intros (Hcra & _ & _). unfold read_settings.
  rewrite (rbind_ok _ _ e e (counters e)) by reflexivity.
  assert (C : exists cra,
             match counters e !! "cmd_cra" with
             | Some v =>
                 if truthy v then
                   match v with
                   | VStr s => mret (Some ("^" ++ cra_chars s ++ "$"))
                   | _ => rraise (Py AttributeError)
                   end
                 else mret None
             | None => mret None
             end e = (ROk cra, e)).
  { destruct (counters e !! "cmd_cra") as [v|]; [|now exists None].
    destruct (truthy v) eqn:T; [|now exists None].
    destruct (Hcra eq_refl) as (s & ->). eexists. reflexivity. }
  destruct C as (cra & C). rewrite (rbind_ok _ _ _ _ _ C).
  destruct (counters e !! "cmd_linefeeds") as [v|].
  - destruct (match int_of v with Some n => nl_type n | None => None end)
      as [y|].
    + rewrite (rbind_ok _ _ e e y) by reflexivity.
      eexists. exists e. repeat split.
    + erewrite rbind_ok;
        [|rewrite (rbind_ok _ _ _ _ _ (rlog_ok _ _ _)); reflexivity].
      eexists. eexists. split; [reflexivity|]. repeat split.
  - rewrite (rbind_ok _ _ e e (String cr "")) by reflexivity.
    eexists. exists e. repeat split.
Qed.

(** The encoder, asked for a Flow Control frame on a header that is a
    text, returns: the frame or, with an error logged, the empty text. *)
Lemma uds_answer_flow_any (e : Elm) (hs data sp : string) (uh : bool)
    (payload : list Z) :
  fromhex data = Some payload ->
  (String.length (upper (remove_whitespace hs)) = 3%nat -> uh = true ->
   is_Some (int16 (upper (remove_whitespace hs)))) ->
  exists a e',
    uds_answer data (Some (VStr hs)) uh sp (Some "30") e = (Ok a, e') /\
    same_engine e' e.
Proof.
  intros Hd Hx. unfold uds_answer. rewrite gets_bind.
  set (H := upper (remove_whitespace hs)) in *.
  destruct (String.eqb H "").
  { eexists. eexists. split; [reflexivity|apply same_engine_log]. }
  rewrite Hd. cbn [negb String.eqb Ascii.eqb Bool.eqb andb].
  destruct (String.length H =? 3)%nat eqn:E3; cbn [andb].
  - apply Nat.eqb_eq in E3. destruct uh.
    + destruct (Hx E3 eq_refl) as (x & ->).
      eexists. exists e. split; [reflexivity|apply same_engine_refl].
    + eexists. exists e. split; [reflexivity|apply same_engine_refl].
  - rewrite andb_true_r.
    destruct (String.length H =? 6)%nat;
      eexists; eexists; (split; [reflexivity|apply same_engine_log]).
Qed.

Lemma prompt_same (cfg : settings) (e e' : Elm) :
  counters e' = counters e -> prompt cfg e' = prompt cfg e.
Proof. intros H. unfold prompt. now rewrite H. Qed.

(** The renderer of the engine renders the Flow Control template of a
    task: it returns, and only the log and the transport change. *)
Lemma respond_renders_flow :
  parses_flow fromstring -> takes write_to_device ->
  renders_flow
    (respond fromstring re_compile py_eval py_exec_globals write_to_device).
Proof.
  intros Hp Ht t d e Hfs H32.
  destruct (read_settings_flow e _ Hfs) as (cfg & e1 & Hset & S1 & Huh).
  pose proof (read_settings_nl _ _ _ Hset) as Hnl.
  destruct Hfs as (_ & Hlf & hs & Hh & Hint).
  unfold respond, unlift, handle_response, flow_template.
  rewrite H32, Hh.
  change ("<xml>" ++ ("<flow>" ++ hex_upper 32 ++ " 00</flow>") ++ "</xml>")
    with "<xml><flow>20 00</flow></xml>".
  rewrite (rbind_ok _ _ _ _ _ Hset), Hp.
  cbn [ET.root_text ET.children some_text render_loop ET.tag].
  change (lower "flow") with "flow".
  change (String.eqb "flow" "header") with false. cbv iota.
  set (fl := ET.mkElement "flow" (Some "20 00") None).
  set (st0 := set_last (Some fl) (mkR "" (Some (VStr hs)) d false None)).
  destruct (uds_answer_flow_any e1 hs "20 00" (sp cfg) (use_headers cfg) [32; 0]
              eq_refl) as (a & e2 & U & S2).
  { intros H3 Hu. apply Hint; [exact H3|]. now rewrite <- Huh. }
  set (st1 := add_answ (a ++ sp cfg ++ nl cfg) st0).
  assert (T1 : render_tag py_eval py_exec_globals write_to_device cfg
                 (Tasks.do_write t) fl "flow" st0 e1 = (ROk (Next st1), e2)).
  { change (render_tag py_eval py_exec_globals write_to_device cfg
              (Tasks.do_write t) fl "flow" st0 e1)
      with ((st' ← add_uds cfg "20 00" (Some "30") st0; mret (Next st')) e1).
    unfold add_uds.
    assert (U' : lift (uds_answer "20 00" (request_header st0) (use_headers cfg)
                         (sp cfg) (Some "30")) e1 = (ROk a, e2)).
    { unfold lift. change (request_header st0) with (Some (VStr hs)).
      now rewrite U. }
    rewrite (rbind_ok _ _ _ _ _ (rbind_ok _ _ _ _ _ U')). reflexivity. }
  rewrite (rbind_ok _ _ _ _ _ (rbind_ok _ _ _ _ _ T1)).
  cbv iota beta. cbn [render_loop].
  assert (T : add_tail st1 = st1) by reflexivity.
  rewrite T, T.
  assert (Ne : answ st1 <> "").
  { cbn [answ st1 st0 add_answ set_answ set_last]. intros E.
    apply (f_equal String.length) in E. rewrite !length_append in E.
    destruct (nl cfg); [congruence | cbn in E; lia]. }
  assert (Hpr : exists pr, prompt cfg e2 = Some pr).
  { destruct S1 as (_ & C1 & _), S2 as (_ & C2 & _).
    unfold prompt. rewrite C2, C1.
    destruct (counters e !! "cmd_linefeeds") as [v|]; [|eauto].
    destruct Hlf as (n & ->). eauto. }
  destruct Hpr as (pr & Hpr).
  rewrite (render_end_deliver write_to_device cfg (Tasks.do_write t) st1 false
             e2 pr Hpr);
    cbn [orb answers st1 st0 add_answ set_answ set_last andb]; [|exact Ne].
  unfold deliver.
  destruct (Tasks.do_write t).
  - destruct (Ht (answ st1 ++ pr) e2) as (e3 & W & S3).
    rewrite (rbind_ok _ _ _ _ _ W).
    eexists. exists e3. split; [reflexivity|].
    exact (same_engine_trans _ _ _ S3 (same_engine_trans _ _ _ S2 S1)).
  - eexists. exists e2. split; [reflexivity|].
    exact (same_engine_trans _ _ _ S2 S1).
Qed.

End Respond.

(** * A complete exchange with the renderer of the engine *)

Section Reassembly.

Variables ELM_R_OK ELM_R_UNKNOWN : string.
Variable ST : string -> string.
Variable fromstring : string -> option ET.xml.
Variable re_compile : string -> option (string -> bool).
Variable py_eval :
  Render.settings -> Render.rstate -> string -> Render.R (option string).
Variable py_exec_globals : string -> Render.R unit.
Variable write_to_device : string -> Render.R unit.
Variable py_exec : string -> header_t -> string -> string -> M unit.
Variable call : string -> string -> string -> entry -> M string.
Variable plugin_init : string -> Tasks.t -> M Tasks.t.
Variable plugin_method :
  string -> Tasks.method -> header_t -> string -> option Z -> option Z ->
  M Tasks.ret_t.

Abbreviation respond' :=
  (respond fromstring re_compile py_eval py_exec_globals write_to_device).
Abbreviation resolve_r :=
  (resolve ELM_R_OK ELM_R_UNKNOWN ST respond' py_exec call plugin_init
     plugin_method).
Abbreviation handle_request_r :=
  (handle_request ELM_R_OK ELM_R_UNKNOWN ST respond' py_exec call plugin_init
     plugin_method).

(** C1 (amended): a multi-frame exchange on a header with no task, handled
    by [handle_request] with the renderer [handle_response] of the engine,
    in a session where a PCI byte is expected and the renderer can build
    the Flow Control frame: the request header is set and is a text (one
    that reads as a hexadecimal number when it has three characters and the
    headers are shown), [cmd_cra], if set, is a text, [cmd_linefeeds], if
    set, is a number, the parser reads the Flow Control template and the
    transport takes what is written. The First Frame declares [L] bytes (1
    to 255) and carries the payload [p0]; the Consecutive Frames carry the
    payloads [ps] with the indices 1, 2, 3, ... in this order, with no
    wrap-around; the text is complete with the last frame and not before.

    Then [Multiline.run], given the frame that completes a text, returns
    the passthrough value holding the text cut to [2 * L] digits and
    resets its frame counter. And [handle_request] returns no response for
    every request but the last, and for the last one looks the text, cut to
    exactly [2 * L] digits, up in the sorted catalog, with no length and no
    frame index, the task being removed from the table: the text is handed
    on once. *)
Theorem multiframe_exchange (e : Elm) (w : bool) (h : header_t) (k n L : Z)
    (p0 : string) (ps : list string) :
  parses_flow fromstring -> takes write_to_device ->
  session e h k -> hits e "" n -> tasks e !! h = None ->
  flow_session e h ->
  0 < L < 256 -> (List.length ps <= 223)%nat ->
  Forall payload_ok (p0 :: ps) ->
  (forall j, (j <= List.length ps)%nat ->
             len (concat_all (firstn j (p0 :: ps))) < L * 2) ->
  L * 2 <= len (concat_all (p0 :: ps)) ->
  let text := slice_to (Z.to_nat (L * 2)) (concat_all (p0 :: ps)) in
  (forall e' r i p,
     collecting e' h L r i -> flowing e' h -> flow_session e' h ->
     0 < i -> L * 2 <= len (r ++ p) ->
     exists t,
       fst (Multiline_run respond' h p None (Some i) e')
       = Ok (Tasks.PASSTHROUGH (slice_to (Z.to_nat (L * 2)) (r ++ p))) /\
       tasks (snd (Multiline_run respond' h p None (Some i) e')) !! h = Some t /\
       Tasks.frame t = None) /\
  String.length text = Z.to_nat (L * 2) /\
  exists e2,
    handle_all (fun x => handle_request_r x w)
      (first_frame L p0 :: consecutive_frames 1 ps) e
    = ((map (fun p => Ok (h, p, None)) (removelast (p0 :: ps))
        ++ [fst (resolve_r (sortedOBDMsg e) h text None None w e2)])%list,
       snd (resolve_r (sortedOBDMsg e) h text None None w e2)) /\
    tasks e2 !! h = None.
Proof.
  intros Hp Ht.
  exact (exchange_handled ELM_R_OK ELM_R_UNKNOWN ST respond' py_exec call
           plugin_init plugin_method
           (respond_renders_flow fromstring re_compile py_eval py_exec_globals
              write_to_device Hp Ht)
           e w h k n L p0 ps).
Qed.

End Reassembly.

Lemma multiframe_exchange_witness :
  (forall e' r i p,
     collecting e' (Some (VStr "7E0")) 2 r i ->
     flowing e' (Some (VStr "7E0")) -> flow_session e' (Some (VStr "7E0")) ->
     0 < i -> 2 * 2 <= len (r ++ p) ->
     exists t,
       fst (Multiline_run respond0 (Some (VStr "7E0")) p None (Some i) e')
       = Ok (Tasks.PASSTHROUGH (slice_to (Z.to_nat (2 * 2)) (r ++ p))) /\
       tasks (snd (Multiline_run respond0 (Some (VStr "7E0")) p None
                     (Some i) e')) !! Some (VStr "7E0") = Some t /\
       Tasks.frame t = None) /\
  String.length (slice_to (Z.to_nat (2 * 2)) (concat_all ["AA"; "BBCC"]))
  = Z.to_nat (2 * 2) /\
  exists e2,
    handle_all (fun x => handle_request1 x true)
      (first_frame 2 "AA" :: consecutive_frames 1 ["BBCC"]) Elm_pci
    = ((map (fun p => Ok (Some (VStr "7E0"), p, None))
          (removelast ["AA"; "BBCC"])
        ++ [fst (resolve1 (sortedOBDMsg Elm_pci) (Some (VStr "7E0"))
                   (slice_to (Z.to_nat (2 * 2)) (concat_all ["AA"; "BBCC"]))
                   None None true e2)])%list,
       snd (resolve1 (sortedOBDMsg Elm_pci) (Some (VStr "7E0"))
              (slice_to (Z.to_nat (2 * 2)) (concat_all ["AA"; "BBCC"]))
              None None true e2)) /\
    tasks e2 !! Some (VStr "7E0") = None.
Proof.
  apply (multiframe_exchange ELM_R_OK_spec ELM_R_UNKNOWN_spec ST_spec
           sample_fromstring no_regex no_eval no_python sink
           no_exec no_call no_plugin_init no_plugin_method
           Elm_pci true (Some (VStr "7E0")) 0 0 2 "AA" ["BBCC"]).
  - reflexivity.
  - intros s e. exists e. split; [reflexivity|]. repeat split.
  - split; [split; [|split]|split].
    + exists (VBool false). split; reflexivity.
    + reflexivity.
    + eexists. reflexivity.
    + reflexivity.
    + reflexivity.
  - reflexivity.
  - reflexivity.
  - split; [exact I|]. split; [exact I|].
    exists "7E0". split; [reflexivity|]. intros _ H. discriminate H.
  - lia.
  - cbn. lia.
  - repeat constructor.
  - intros [|[|j]] Hj; [vm_compute; reflexivity|vm_compute; reflexivity|].
    cbn in Hj. lia.
  - vm_compute. discriminate.
Defined.

(** C1 as stated fails when the indices of the Consecutive Frames wrap
    modulo 8: in an exchange of 9 bytes, one byte a frame, the eighth
    Consecutive Frame, sent with the index 8 mod 8 = 0, is refused; every
    request returns with no response, the task is removed and the text is
    never looked up. With the index 8 the text is looked up.

    It also fails when the renderer cannot send the Flow Control frame.
    With no request header set, the encoder raises on the First Frame: the
    task is removed with a critical record, and the Consecutive Frame that
    follows is looked up by itself, where with the header ["7E0"] the
    whole text is. The same happens with the header set when the write to
    the transport raises. *)
Lemma multiframe_exchange_counterexample :
  fst (handle_all (fun x => handle_request1 x true) wrapped_lines Elm_pci)
  = map (fun p => Ok (Some (VStr "7E0"), p, None))
      ["AA"; "BB"; "CC"; "DD"; "EE"; "FF"; "11"; "22"; "33"] /\
  log (snd (handle_all (fun x => handle_request1 x true) wrapped_lines Elm_pci))
  = [(ERROR, "Invalid consecutive frame %s %s")] /\
  tasks (snd (handle_all (fun x => handle_request1 x true) wrapped_lines Elm_pci))
    !! Some (VStr "7E0") = None /\
  fst (handle_all (fun x => handle_request1 x true) plain_lines Elm_pci)
  = (map (fun p => Ok (Some (VStr "7E0"), p, None))
       ["AA"; "BB"; "CC"; "DD"; "EE"; "FF"; "11"; "22"]
     ++ [Ok (Some (VStr "7E0"), "AABBCCDDEEFF112233",
             Some (ST_spec "NO DATA"))])%list /\
  handle_request1 "1002AA" true Elm_no_header
  = (Ok (None, "AA", None),
     add_log task_failure
       (set_counters <["commands" := VInt 1]> Elm_no_header)) /\
  fst (handle_all (fun x => handle_request1 x true) ["1002AA"; "21BB"]
         Elm_no_header)
  = [Ok (None, "AA", None); Ok (None, "BB", Some (ST_spec "NO DATA"))] /\
  fst (handle_all (fun x => handle_request1 x true) ["1002AA"; "21BB"] Elm_pci)
  = [Ok (Some (VStr "7E0"), "AA", None);
     Ok (Some (VStr "7E0"), "AABB", Some (ST_spec "NO DATA"))] /\
  fst (handle_all (fun x => handle_request_broken x true) ["1002AA"; "21BB"]
         Elm_pci)
  = [Ok (Some (VStr "7E0"), "AA", None);
     Ok (Some (VStr "7E0"), "BB", Some (ST_spec "NO DATA"))] /\
  log (snd (handle_request_broken "1002AA" true Elm_pci)) = [task_failure] /\
  tasks (snd (handle_request_broken "1002AA" true Elm_pci)) = ∅.
Proof. repeat split; try reflexivity; apply Elm_eq; reflexivity. Qed.

(** * Flow Control switched off *)

Section FlowControl.

Variables render1 render2 :
  string -> bool -> header_t -> option string -> M (option string).

Lemma self_inv (h : header_t) (e e' : Elm) (t : Tasks.t) :
  self h e = (Ok t, e') -> e' = e /\ tasks e !! h = Some t.
Proof.
  unfold self. rewrite gets_bind. destruct (tasks e !! h) as [t0|];
    intros H; [|discriminate H].
  injection H as <- <-. now split.
Qed.

(** Collecting a frame (lines 219-240) leaves the counters as they are. *)
Lemma Multiline_collect_counters (h : header_t) (cmd : string)
    (length frame : option Z) (e e' : Elm) (r : option Tasks.ret_t) :
  Multiline_collect h cmd length frame e = (Ok r, e') ->
  counters e' = counters e.
Proof.
  unfold Multiline_collect. intros H.
  apply bind_inv in H as (t & e1 & Hs & H).
  apply self_inv in Hs as [-> _].
  apply bind_inv in H as (first & e2 & Hf & H).
  assert (E2 : e2 = e).
  { unfold mret, M_ret, raise in Hf.
    destruct frame as [[| |]|]; try (injection Hf as _ <-; reflexivity).
    destruct length; [injection Hf as _ <-; reflexivity | discriminate Hf]. }
  subst e2.
  unfold self_update, logging, modify, mbind, M_bind, mret, M_ret, raise in H.
  repeat match type of H with
         | (if ?b then _ else _) _ = _ => destruct b
         | (if ?b then _ else _) = _ => destruct b
         | match ?x with _ => _ end _ = _ => destruct x
         | match ?x with _ => _ end = _ => destruct x
         end;
    try discriminate H; injection H as _ <-; reflexivity.
Qed.

(** X19: With the counter [cmd_cfc] set to something else than 1, a
    [Multiline] task renders no Flow Control frame: whatever frame it is
    given, the renderer is not called, so the task does the same with any
    two renderers. *)
Theorem flow_control_off (h : header_t) (cmd : string)
    (length frame : option Z) (e : Elm) (v : value) :
  counters e !! "cmd_cfc" = Some v ->
  Py.eqb v (VInt 1) = false ->
  Multiline_run render1 h cmd length frame e
  = Multiline_run render2 h cmd length frame e.
Proof.
  intros Hc Hv. unfold Multiline_run.
  destruct (Multiline_collect h cmd length frame e) as [[r|x] e'] eqn:C;
    [|now rewrite !(bind_raise _ _ _ _ _ C)].
  rewrite !(bind_ok _ _ _ _ _ C).
  destruct r as [r|]; [reflexivity|].
  pose proof (Multiline_collect_counters _ _ _ _ _ _ _ C) as Hcnt.
  assert (F : Multiline_flow render1 h cmd e' = Multiline_flow render2 h cmd e').
  { unfold Multiline_flow.
    destruct (self h e') as [[t|x] e1] eqn:S;
      [|now rewrite !(bind_raise _ _ _ _ _ S)].
    rewrite !(bind_ok _ _ _ _ _ S).
    apply self_inv in S as [-> _].
    destruct (negb (Tasks.flow_control t =? 0)); [reflexivity|].
    rewrite !gets_bind, Hcnt, Hc, Hv. reflexivity. }
  unfold mbind, M_bind. now rewrite F.
Qed.

End FlowControl.

Lemma flow_control_off_witness :
  Multiline_run quiet_response (Some (VStr "7E0")) "BB" None (Some 1)
    (set_counters <["cmd_cfc" := VInt 0]> Elm_collecting)
  = Multiline_run (fun _ _ _ _ => raise PluginError) (Some (VStr "7E0")) "BB"
      None (Some 1) (set_counters <["cmd_cfc" := VInt 0]> Elm_collecting).
Proof.
  apply (flow_control_off quiet_response (fun _ _ _ _ => raise PluginError)
           (Some (VStr "7E0")) "BB" None (Some 1)
           (set_counters <["cmd_cfc" := VInt 0]> Elm_collecting) (VInt 0)).
  - reflexivity.
  - reflexivity.
Defined.
